(** * The PBF output format of libosmium, embedded in Rocq

    A shallow embedding of [include/osmium/io/detail/pbf_output_format.hpp]
    (DenseNodes, PrimitiveBlock, SerializeBlob, PBFOutputFormat), of
    [include/osmium/osm/item_type.hpp], of
    [include/osmium/util/verbose_output.hpp] and of
    [include/osmium/geom/factory.hpp], with the properties of the encoder
    and of the other classes stated and proved over it.

    Conventions.
    - A C++ integer is a [Z]; conversions between integer types are written
      out ([to_uint32], [to_int32], ...).
    - A [std::string] used as a byte buffer is a [list byte], a byte being a
      [Z] in [0, 256).  Text carried by OSM objects is a [string].
    - A [double] is a primitive binary64 [float].
    - A [std::vector] is a [list]; [push_back] appends at the end.
    - A C++ exception is the [Throw] case of [result]. *)

From Stdlib Require Import ZArith List String Ascii Bool Lia Floats.
From Stdlib Require DecimalString.
Import ListNotations.

Local Open Scope Z_scope.
Local Open Scope list_scope.

(** ** Machine integers and bytes *)

Definition byte := Z.
Definition bytes := list byte.

Definition to_uint32 (z : Z) : Z := z mod 2 ^ 32.
Definition to_uint64 (z : Z) : Z := z mod 2 ^ 64.
Definition to_int32 (z : Z) : Z := (z + 2 ^ 31) mod 2 ^ 32 - 2 ^ 31.

(** [std::string::size()] and [std::vector::size()]. *)
Definition size {A : Type} (l : list A) : Z := Z.of_nat (List.length l).

(** The bytes of a text, one per character. *)
Definition bytes_of_string (s : string) : bytes :=
  List.map (fun a => Z.of_N (N_of_ascii a)) (list_ascii_of_string s).

(** [const char*] arguments: a C string ends at its first NUL. *)
Fixpoint c_str (s : string) : string :=
  match s with
  | EmptyString => EmptyString
  | String a rest => if Ascii.eqb a Ascii.zero then EmptyString else String a (c_str rest)
  end.

(** ** Exceptions *)

Inductive exception : Type :=
  | invalid_argument (what : string)
  | pbf_error (what : string)
  | io_error (what : string)
  | invalid_location (what : string).

Inductive result (A : Type) : Type :=
  | Ok (a : A)
  | Throw (e : exception).
Arguments Ok {A} a.
Arguments Throw {A} e.

Definition bind {A B : Type} (r : result A) (k : A -> result B) : result B :=
  match r with
  | Ok a => k a
  | Throw e => Throw e
  end.

Notation "x <- r ;; k" := (bind r (fun x => k))
  (at level 61, r at next level, right associativity).

(** ** protozero: the protobuf writer the encoder is built on

    protozero is a third-party library; what follows is the part of
    [pbf_writer] / [pbf_builder] the output format calls, written as
    functions that return the bytes appended to the buffer. *)

Module protozero.

Inductive pbf_wire_type : Type :=
  | varint
  | fixed64
  | length_delimited
  | fixed32.

Definition wire_type_code (t : pbf_wire_type) : Z :=
  match t with
  | varint => 0
  | fixed64 => 1
  | length_delimited => 2
  | fixed32 => 5
  end.

(** [write_varint]: [while (value >= 0x80) { emit (value & 0x7f) | 0x80;
    value >>= 7; } emit value].  A 64-bit value leaves the loop after at
    most nine rounds; [fuel] counts the rounds still allowed. *)
Fixpoint write_varint_loop (fuel : nat) (value : Z) : bytes :=
  match fuel with
  | O => [value]
  | S fuel' =>
      if 128 <=? value
      then Z.lor (Z.land value 127) 128 :: write_varint_loop fuel' (Z.shiftr value 7)
      else [value]
  end.

Definition add_varint (value : Z) : bytes := write_varint_loop 9 value.

(** [encode_zigzag64]: [(uint64(v) << 1) ^ (uint64(-(v < 0)))]. *)
Definition encode_zigzag64 (v : Z) : Z :=
  to_uint64 (Z.lxor (Z.shiftl v 1) (Z.shiftr v 63)).

(** [add_field]: the key of a field, [(tag << 3) | wire_type]. *)
Definition add_field (tag : Z) (t : pbf_wire_type) : bytes :=
  add_varint (to_uint32 (Z.lor (Z.shiftl tag 3) (wire_type_code t))).

Definition add_tagged_varint (tag : Z) (value : Z) : bytes :=
  add_field tag varint ++ add_varint value.

Definition add_bool (tag : Z) (value : bool) : bytes :=
  add_field tag varint ++ [if value then 1 else 0].

(** The signed scalar writers convert to [uint64_t] (sign extension). *)
Definition add_int32 (tag : Z) (value : Z) : bytes :=
  add_tagged_varint tag (to_uint64 value).
Definition add_int64 (tag : Z) (value : Z) : bytes :=
  add_tagged_varint tag (to_uint64 value).
Definition add_uint32 (tag : Z) (value : Z) : bytes :=
  add_tagged_varint tag value.
Definition add_sint64 (tag : Z) (value : Z) : bytes :=
  add_tagged_varint tag (encode_zigzag64 value).

(** [add_bytes], [add_string], [add_message]: key, length, data. *)
Definition add_bytes (tag : Z) (data : bytes) : bytes :=
  add_field tag length_delimited ++ add_varint (to_uint32 (size data)) ++ data.
Definition add_string (tag : Z) (s : string) : bytes :=
  add_bytes tag (bytes_of_string s).
Definition add_message (tag : Z) (data : bytes) : bytes :=
  add_bytes tag data.

(** A sub-writer opened on a parent ([pbf_builder<T> sub{parent, tag}],
    [packed_field_*]) writes its body behind the key and length; when the
    body is empty at the time it is closed, the field is rolled back. *)
Definition submessage (tag : Z) (body : bytes) : bytes :=
  match body with
  | [] => []
  | _ => add_field tag length_delimited ++ add_varint (to_uint32 (size body)) ++ body
  end.

(** The elements of a packed field, as the sub-writer appends them. *)
Definition packed_varint (vs : list Z) : bytes :=
  List.concat (List.map (fun v => add_varint (to_uint64 v)) vs).
Definition packed_svarint (vs : list Z) : bytes :=
  List.concat (List.map (fun v => add_varint (encode_zigzag64 v)) vs).

(** [add_packed_*(tag, first, last)]: nothing for an empty range,
    otherwise a sub-writer holding one varint per element. *)
Definition add_packed_varint (tag : Z) (vs : list Z) : bytes :=
  match vs with
  | [] => []
  | _ => submessage tag (packed_varint vs)
  end.
Definition add_packed_svarint (tag : Z) (vs : list Z) : bytes :=
  match vs with
  | [] => []
  | _ => submessage tag (packed_svarint vs)
  end.

Definition add_packed_int32 := add_packed_varint.
Definition add_packed_sint32 := add_packed_svarint.
Definition add_packed_sint64 := add_packed_svarint.
Definition add_packed_bool (tag : Z) (vs : list bool) : bytes :=
  add_packed_varint tag (List.map (fun b : bool => if b then 1 else 0) vs).

(** [packed_field_uint32] / [packed_field_int32] / [packed_field_sint64]
    with [add_element] called once per value. *)
Definition packed_field_uint32 (tag : Z) (vs : list Z) : bytes :=
  submessage tag (packed_varint vs).
Definition packed_field_int32 (tag : Z) (vs : list Z) : bytes :=
  submessage tag (packed_varint vs).
Definition packed_field_sint64 (tag : Z) (vs : list Z) : bytes :=
  submessage tag (packed_svarint vs).

(** *** The reading side, for stating what the written bytes mean.

    A conformant decoder of the two wire types the encoder emits. *)

Fixpoint decode_varint (bs : bytes) : option (Z * bytes) :=
  match bs with
  | [] => None
  | b :: rest =>
      if b <? 128 then Some (b, rest)
      else match decode_varint rest with
           | Some (v, rest') => Some (b mod 128 + 128 * v, rest')
           | None => None
           end
  end.

Definition decode_zigzag64 (u : Z) : Z :=
  if Z.even u then u / 2 else - ((u + 1) / 2).

Inductive field_value : Type :=
  | Varint (v : Z)
  | Bytes (data : bytes).

(** One field: its number and its value. *)
Definition decode_field (bs : bytes) : option (Z * field_value * bytes) :=
  match decode_varint bs with
  | None => None
  | Some (key, rest) =>
      let tag := Z.shiftr key 3 in
      match Z.land key 7 with
      | 0 => match decode_varint rest with
             | Some (v, rest') => Some (tag, Varint v, rest')
             | None => None
             end
      | 2 => match decode_varint rest with
             | Some (len, rest') =>
                 if len <=? size rest'
                 then Some (tag, Bytes (firstn (Z.to_nat len) rest'),
                            skipn (Z.to_nat len) rest')
                 else None
             | None => None
             end
      | _ => None
      end
  end.

(** A whole message; every field consumes at least one byte, so the
    length of the input bounds the number of fields. *)
Fixpoint decode_message_loop (fuel : nat) (bs : bytes) : option (list (Z * field_value)) :=
  match bs with
  | [] => Some []
  | _ =>
      match fuel with
      | O => None
      | S fuel' =>
          match decode_field bs with
          | None => None
          | Some (tag, v, rest) =>
              match decode_message_loop fuel' rest with
              | Some fs => Some ((tag, v) :: fs)
              | None => None
              end
          end
      end
  end.

Definition decode_message (bs : bytes) : option (list (Z * field_value)) :=
  decode_message_loop (List.length bs) bs.

Fixpoint decode_packed_loop (fuel : nat) (bs : bytes) : option (list Z) :=
  match bs with
  | [] => Some []
  | _ =>
      match fuel with
      | O => None
      | S fuel' =>
          match decode_varint bs with
          | None => None
          | Some (v, rest) =>
              match decode_packed_loop fuel' rest with
              | Some vs => Some (v :: vs)
              | None => None
              end
          end
      end
  end.

Definition decode_packed (bs : bytes) : option (list Z) :=
  decode_packed_loop (List.length bs) bs.

End protozero.

(** ** osmium/osm/item_type.hpp *)

Module item_type.

Inductive t : Type :=
  | undefined
  | node
  | way
  | relation
  | area
  | changeset
  | tag_list
  | way_node_list
  | relation_member_list
  | relation_member_list_with_full_members
  | outer_ring
  | inner_ring.

(** The [uint16_t] value of each enumerator. *)
Definition value (x : t) : Z :=
  match x with
  | undefined => 0x00
  | node => 0x01
  | way => 0x02
  | relation => 0x03
  | area => 0x04
  | changeset => 0x05
  | tag_list => 0x11
  | way_node_list => 0x12
  | relation_member_list => 0x13
  | relation_member_list_with_full_members => 0x23
  | outer_ring => 0x40
  | inner_ring => 0x41
  end.

End item_type.

Definition char_to_item_type (c : ascii) : item_type.t :=
  match c with
  | "X"%char => item_type.undefined
  | "n"%char => item_type.node
  | "w"%char => item_type.way
  | "r"%char => item_type.relation
  | "a"%char => item_type.area
  | "c"%char => item_type.changeset
  | "T"%char => item_type.tag_list
  | "N"%char => item_type.way_node_list
  | "M"%char => item_type.relation_member_list
  | "F"%char => item_type.relation_member_list_with_full_members
  | "O"%char => item_type.outer_ring
  | "I"%char => item_type.inner_ring
  | _ => item_type.undefined
  end.

Definition item_type_to_char (type : item_type.t) : ascii :=
  match type with
  | item_type.undefined => "X"%char
  | item_type.node => "n"%char
  | item_type.way => "w"%char
  | item_type.relation => "r"%char
  | item_type.area => "a"%char
  | item_type.changeset => "c"%char
  | item_type.tag_list => "T"%char
  | item_type.way_node_list => "N"%char
  | item_type.relation_member_list => "M"%char
  | item_type.relation_member_list_with_full_members => "F"%char
  | item_type.outer_ring => "O"%char
  | item_type.inner_ring => "I"%char
  end.

(** The twelve characters [char_to_item_type] has a case for. *)
Definition item_type_chars : list ascii :=
  ["X"; "n"; "w"; "r"; "a"; "c"; "T"; "N"; "M"; "F"; "O"; "I"]%char.

Definition item_type_to_name (type : item_type.t) : string :=
  match type with
  | item_type.undefined => "undefined"
  | item_type.node => "node"
  | item_type.way => "way"
  | item_type.relation => "relation"
  | item_type.area => "area"
  | item_type.changeset => "changeset"
  | item_type.tag_list => "tag_list"
  | item_type.way_node_list => "way_node_list"
  | item_type.relation_member_list => "relation_member_list"
  | item_type.relation_member_list_with_full_members =>
      "relation_member_list_with_full_members"
  | item_type.outer_ring => "outer_ring"
  | item_type.inner_ring => "inner_ring"
  end.

(** ** Collaborators of the output format that live in other headers *)

(** Modelled from the spec: [osmium::metadata_options] of
    [osmium/osm/metadata_options.hpp], a header whose source is not covered
    here.  Section 4.8: a subset of version, timestamp, changeset, uid and
    user; [any()] holds when one of them is selected. *)
Record metadata_options : Type := {
  md_version : bool;
  md_timestamp : bool;
  md_changeset : bool;
  md_uid : bool;
  md_user : bool
}.

Definition md_any (m : metadata_options) : bool :=
  md_version m || md_timestamp m || md_changeset m || md_uid m || md_user m.

Definition md_all : metadata_options :=
  {| md_version := true; md_timestamp := true; md_changeset := true;
     md_uid := true; md_user := true |}.

Definition md_none : metadata_options :=
  {| md_version := false; md_timestamp := false; md_changeset := false;
     md_uid := false; md_user := false |}.

Module pbf_compression.
Inductive t : Type := none | zlib | lz4.
End pbf_compression.

(** Modelled from the spec: [osmium::Location], seen through the accessors
    the encoder calls.  Section 3: a location is lon and lat as doubles in
    degrees. *)
Record Location : Type := {
  lat_without_check : float;
  lon_without_check : float
}.

(** What the build and the headers outside this file fix: the constants of
    [pbf.hpp], whether LZ4 support is compiled in, the codecs, and the
    parsers of option values.  The encoder is stated over any such build. *)
Class Build : Type := {
  (** [pbf.hpp]: the maximum size of an uncompressed blob, in bytes. *)
  max_uncompressed_blob_size : Z;
  (** [pbf.hpp]: resolution used to convert a [double] coordinate. *)
  lonlat_resolution : Z;
  (** Whether [OSMIUM_WITH_LZ4] is defined. *)
  OSMIUM_WITH_LZ4 : bool;
  (** [zlib.hpp], [lz4.hpp]. *)
  zlib_compress : bytes -> Z -> result bytes;
  lz4_compress : bytes -> Z -> result bytes;
  zlib_default_compression_level : Z;
  lz4_default_compression_level : Z;
  zlib_check_compression_level : Z -> result unit;
  lz4_check_compression_level : Z -> result unit;
  (** The constructor [metadata_options{std::string}]. *)
  metadata_options_of_string : string -> result metadata_options;
  (** The constructor [Timestamp{const char*}], giving seconds since the
      epoch. *)
  Timestamp_of_string : string -> result Z;
  (** [Location::valid()]; the checked accessors [lon()] and [lat()] throw
      [invalid_location] when it does not hold. *)
  Location_valid : Location -> bool;
  (** [osmium::detail::str_to_int<int64_t>]. *)
  str_to_int : string -> Z;
  (** [LONG_MIN] and [LONG_MAX] of the platform, for [std::strtol]. *)
  LONG_MIN : Z;
  LONG_MAX : Z
}.

(** Modelled from the spec: the field numbers of [protobuf_tags.hpp], a
    header whose source is not covered here.  Section 6: the output is byte
    compatible with the OSM PBF format (OsmSchema-V0.6), whose schema
    (fileformat.proto, osmformat.proto) fixes these numbers. *)
Module FileFormat.
Module Blob.
Definition optional_bytes_raw : Z := 1.
Definition optional_int32_raw_size : Z := 2.
Definition optional_bytes_zlib_data : Z := 3.
Definition optional_bytes_lz4_data : Z := 6.
End Blob.
Module BlobHeader.
Definition required_string_type : Z := 1.
Definition required_int32_datasize : Z := 3.
End BlobHeader.
End FileFormat.

Module OSMFormat.
Module HeaderBlock.
Definition optional_HeaderBBox_bbox : Z := 1.
Definition repeated_string_required_features : Z := 4.
Definition repeated_string_optional_features : Z := 5.
Definition optional_string_writingprogram : Z := 16.
Definition optional_int64_osmosis_replication_timestamp : Z := 32.
Definition optional_int64_osmosis_replication_sequence_number : Z := 33.
Definition optional_string_osmosis_replication_base_url : Z := 34.
End HeaderBlock.
Module HeaderBBox.
Definition required_sint64_left : Z := 1.
Definition required_sint64_right : Z := 2.
Definition required_sint64_top : Z := 3.
Definition required_sint64_bottom : Z := 4.
End HeaderBBox.
Module StringTable.
Definition repeated_bytes_s : Z := 1.
End StringTable.
Module PrimitiveBlock.
Definition required_StringTable_stringtable : Z := 1.
Definition repeated_PrimitiveGroup_primitivegroup : Z := 2.
End PrimitiveBlock.
Module PrimitiveGroup.
Inductive t : Type :=
  | unknown
  | repeated_Node_nodes
  | optional_DenseNodes_dense
  | repeated_Way_ways
  | repeated_Relation_relations
  | repeated_ChangeSet_changesets.
Definition tag (x : t) : Z :=
  match x with
  | unknown => 0
  | repeated_Node_nodes => 1
  | optional_DenseNodes_dense => 2
  | repeated_Way_ways => 3
  | repeated_Relation_relations => 4
  | repeated_ChangeSet_changesets => 5
  end.
Definition eqb (x y : t) : bool := tag x =? tag y.
End PrimitiveGroup.
Module Info.
Definition optional_int32_version : Z := 1.
Definition optional_int64_timestamp : Z := 2.
Definition optional_int64_changeset : Z := 3.
Definition optional_int32_uid : Z := 4.
Definition optional_uint32_user_sid : Z := 5.
Definition optional_bool_visible : Z := 6.
End Info.
Module DenseInfo.
Definition packed_int32_version : Z := 1.
Definition packed_sint64_timestamp : Z := 2.
Definition packed_sint64_changeset : Z := 3.
Definition packed_sint32_uid : Z := 4.
Definition packed_sint32_user_sid : Z := 5.
Definition packed_bool_visible : Z := 6.
End DenseInfo.
Module Node.
Definition required_sint64_id : Z := 1.
Definition packed_uint32_keys : Z := 2.
Definition packed_uint32_vals : Z := 3.
Definition optional_Info_info : Z := 4.
Definition required_sint64_lat : Z := 8.
Definition required_sint64_lon : Z := 9.
End Node.
Module DenseNodes.
Definition packed_sint64_id : Z := 1.
Definition optional_DenseInfo_denseinfo : Z := 5.
Definition packed_sint64_lat : Z := 8.
Definition packed_sint64_lon : Z := 9.
Definition packed_int32_keys_vals : Z := 10.
End DenseNodes.
Module Way.
Definition required_int64_id : Z := 1.
Definition packed_uint32_keys : Z := 2.
Definition packed_uint32_vals : Z := 3.
Definition optional_Info_info : Z := 4.
Definition packed_sint64_refs : Z := 8.
Definition packed_sint64_lat : Z := 9.
Definition packed_sint64_lon : Z := 10.
End Way.
Module Relation.
Definition required_int64_id : Z := 1.
Definition packed_uint32_keys : Z := 2.
Definition packed_uint32_vals : Z := 3.
Definition optional_Info_info : Z := 4.
Definition packed_int32_roles_sid : Z := 8.
Definition packed_sint64_memids : Z := 9.
Definition packed_MemberType_types : Z := 10.
End Relation.
End OSMFormat.

(** Modelled from the spec: [osmium::DeltaEncode] of [osmium/util/delta.hpp],
    a header whose source is not covered here.  Section 4.1: a stateful scalar
    with zero initial state; [update(x)] returns [x - prev], then sets
    [prev = x]. *)
Module DeltaEncode.
Record t : Type := { m_value : Z }.
Definition init : t := {| m_value := 0 |}.
Definition update (new_value : Z) (d : t) : Z * t :=
  (new_value - m_value d, {| m_value := new_value |}).
End DeltaEncode.

(** Modelled from the spec: [StringTable] of [osmium/io/detail/string_table.hpp],
    a header whose source is not covered here.  Section 4.2 and data-model
    invariant 1: an insertion-ordered, deduplicating dictionary; index 0 is
    reserved for the empty string put there at construction and stays there
    across [clear]; [add] returns the index of a string added before, else
    appends it and returns the new index; strings added by the user get
    indices from 1 on.  Section 4.4 counts the table in bytes. *)
Module StringTable.

(** The strings added by the user, in insertion order; the reserved
    entry 0 is implicit. *)
Record t : Type := { m_strings : list string }.

Definition init : t := {| m_strings := [] |}.
Definition clear (st : t) : t := init.

(** All entries, index 0 first. *)
Definition entries (st : t) : list string := EmptyString :: m_strings st.

Fixpoint find (s : string) (l : list string) (i : Z) : option Z :=
  match l with
  | [] => None
  | x :: rest => if String.eqb x s then Some i else find s rest (i + 1)
  end.

Definition add (s : string) (st : t) : Z * t :=
  match find s (m_strings st) 1 with
  | Some i => (i, st)
  | None => (size (m_strings st) + 1, {| m_strings := m_strings st ++ [s] |})
  end.

Definition size (st : t) : Z :=
  List.fold_right (fun s acc => Z.of_nat (String.length s) + acc) 0 (entries st).

End StringTable.

(** ** The OSM objects handed to the encoder

    Modelled from the spec: the entity model of [osmium/osm/*.hpp], whose
    sources are not covered here, seen through the accessors the encoder
    calls.  Section 3: each entity carries a 64-bit id, a tag set of key and
    value strings and the metadata version, timestamp, changeset, uid, user
    string and visible flag; nodes carry a location; ways carry an ordered
    list of node references, each with a location. *)

Record Tag : Type := { key : string; value : string }.

(** [osmium::OSMObject]: what nodes, ways and relations have in common.
    [timestamp] is the [osmium::Timestamp], in seconds since the epoch
    (section 4.5); its width is left open, so that the conversion to
    [uint32_t] the encoder applies is visible. *)
Record OSMObject : Type := {
  id : Z;
  version : Z;
  timestamp : Z;
  changeset : Z;
  uid : Z;
  user : string;
  visible : bool;
  tags : list Tag
}.

Record Node : Type := {
  node_object :> OSMObject;
  location : Location
}.

Record NodeRef : Type := {
  ref : Z;
  node_ref_location : Location
}.

Record Way : Type := {
  way_object :> OSMObject;
  nodes : list NodeRef
}.

(** A member of a relation: the type of the object it refers to, the id
    of that object and the role. *)
Record RelationMember : Type := {
  member_type : item_type.t;
  member_ref : Z;
  role : string
}.

Record Relation : Type := {
  relation_object :> OSMObject;
  members : list RelationMember
}.

(** [osmium::item_type_to_nwr_index] is declared in a later revision of
    [item_type.hpp] than the one covered here; the encoder is stated over
    any such function. *)
Class NwrIndex : Type := {
  item_type_to_nwr_index : item_type.t -> Z
}.

(** The conversion [uint32_t(timestamp)]. *)
Definition Timestamp_to_uint32 (ts : Z) : Z := to_uint32 ts.

(** ** pbf_output_format.hpp *)

Record pbf_output_options : Type := {
  add_metadata : metadata_options;
  compression_level : Z;
  use_compression : pbf_compression.t;
  use_dense_nodes : bool;
  add_historical_information_flag : bool;
  add_visible_flag : bool;
  locations_on_ways : bool
}.

(** The default member initialiser [int compression_level = 0]. *)
Definition default_compression_level : Z := 0.

Definition max_entities_per_block : Z := 8000.

Definition location_granularity : Z := 100.

(** *** Doubles *)

(** An integer constant (of magnitude below 2^63) converted to [double]. *)
Definition double_of_Z (z : Z) : float :=
  if 0 <=? z then PrimFloat.of_uint63 (Uint63.of_Z z)
  else PrimFloat.opp (PrimFloat.of_uint63 (Uint63.of_Z (- z))).

(** [std::round]: to the nearest integer, halfway cases away from zero.
    [None] for an infinity or a NaN. *)
Definition std_round (x : float) : option Z :=
  match Prim2SF x with
  | S754_zero _ => Some 0
  | S754_finite s m e =>
      let mz := Z.pos m in
      let magnitude :=
        if 0 <=? e then mz * 2 ^ e
        else
          let d := 2 ^ (- e) in
          if d <=? 2 * (mz mod d) then mz / d + 1 else mz / d in
      Some (if s then - magnitude else magnitude)
  | S754_infinity _ => None
  | S754_nan => None
  end.

(** The integral part of a double (rounding toward zero), as the
    conversion to an integer type takes it. *)
Definition truncate (x : float) : option Z :=
  match Prim2SF x with
  | S754_zero _ => Some 0
  | S754_finite s m e =>
      let mz := Z.pos m in
      let magnitude := if 0 <=? e then mz * 2 ^ e else mz / 2 ^ (- e) in
      Some (if s then - magnitude else magnitude)
  | S754_infinity _ => None
  | S754_nan => None
  end.

(** [static_cast<int64_t>] of a double whose integral part is given.  The
    C++ conversion is undefined outside the range of [int64_t] and for
    infinities and NaNs; the model gives the value the x86-64 conversion
    instruction gives there.  Node coordinates come from 32-bit fixed-point
    values, which keeps the encoder away from that case. *)
Definition int64_of_integral (o : option Z) : Z :=
  match o with
  | Some z => if (- 2 ^ 63 <=? z) && (z <? 2 ^ 63) then z else - 2 ^ 63
  | None => - 2 ^ 63
  end.

(** convert a double lat or lon value to an int, respecting the
    granularity *)
Definition lonlat2int {B : Build} (lonlat : float) : Z :=
  int64_of_integral
    (std_round
       (PrimFloat.div (PrimFloat.mul lonlat (double_of_Z lonlat_resolution))
                      (double_of_Z location_granularity))).

Module pbf_blob_type.
Inductive t : Type := header | data.
End pbf_blob_type.

Definition push_back {A : Type} (v : list A) (x : A) : list A := v ++ [x].

(** Contains the code to pack any number of nodes into a DenseNode
    structure.  The string table and the options the class holds pointers
    to belong to the enclosing block; they are passed in, and the string
    table is handed back. *)
Module DenseNodes.

Record t : Type := {
  m_ids : list Z;
  m_versions : list Z;
  m_timestamps : list Z;
  m_changesets : list Z;
  m_uids : list Z;
  m_user_sids : list Z;
  m_visibles : list bool;
  m_lats : list Z;
  m_lons : list Z;
  m_tags : list Z;
  m_delta_id : DeltaEncode.t;
  m_delta_timestamp : DeltaEncode.t;
  m_delta_changeset : DeltaEncode.t;
  m_delta_uid : DeltaEncode.t;
  m_delta_user_sid : DeltaEncode.t;
  m_delta_lat : DeltaEncode.t;
  m_delta_lon : DeltaEncode.t
}.

(** The constructor: empty vectors, fresh delta encoders. *)
Definition init : t :=
  {| m_ids := []; m_versions := []; m_timestamps := []; m_changesets := [];
     m_uids := []; m_user_sids := []; m_visibles := [];
     m_lats := []; m_lons := []; m_tags := [];
     m_delta_id := DeltaEncode.init;
     m_delta_timestamp := DeltaEncode.init;
     m_delta_changeset := DeltaEncode.init;
     m_delta_uid := DeltaEncode.init;
     m_delta_user_sid := DeltaEncode.init;
     m_delta_lat := DeltaEncode.init;
     m_delta_lon := DeltaEncode.init |}.

(** [m_ids.size() * 3 * sizeof(int64_t)] *)
Definition size (dn : t) : Z := size (m_ids dn) * 3 * 8.

(** The loop over the tags of a node: key index, value index. *)
Fixpoint add_tags (tags : list Tag) (st : StringTable.t) (m_tags : list Z)
  : StringTable.t * list Z :=
  match tags with
  | [] => (st, m_tags)
  | tag :: rest =>
      let (k, st1) := StringTable.add (key tag) st in
      let m_tags1 := push_back m_tags k in
      let (v, st2) := StringTable.add (value tag) st1 in
      let m_tags2 := push_back m_tags1 v in
      add_tags rest st2 m_tags2
  end.

Definition add_node {B : Build} (options : pbf_output_options) (node : Node)
    (st : StringTable.t) (dn : t) : StringTable.t * t :=
  let (d_id, delta_id) := DeltaEncode.update (id node) (m_delta_id dn) in
  let ids := push_back (m_ids dn) d_id in
  let versions :=
    if md_version (add_metadata options)
    then push_back (m_versions dn) (to_int32 (version node))
    else m_versions dn in
  let (timestamps, delta_timestamp) :=
    if md_timestamp (add_metadata options)
    then let (d, de) := DeltaEncode.update (Timestamp_to_uint32 (timestamp node))
                                           (m_delta_timestamp dn) in
         (push_back (m_timestamps dn) d, de)
    else (m_timestamps dn, m_delta_timestamp dn) in
  let (changesets, delta_changeset) :=
    if md_changeset (add_metadata options)
    then let (d, de) := DeltaEncode.update (changeset node) (m_delta_changeset dn) in
         (push_back (m_changesets dn) d, de)
    else (m_changesets dn, m_delta_changeset dn) in
  let (uids, delta_uid) :=
    if md_uid (add_metadata options)
    then let (d, de) := DeltaEncode.update (uid node) (m_delta_uid dn) in
         (push_back (m_uids dn) d, de)
    else (m_uids dn, m_delta_uid dn) in
  let '(user_sids, delta_user_sid, st1) :=
    if md_user (add_metadata options)
    then let (sid, st') := StringTable.add (user node) st in
         let (d, de) := DeltaEncode.update sid (m_delta_user_sid dn) in
         (push_back (m_user_sids dn) d, de, st')
    else (m_user_sids dn, m_delta_user_sid dn, st) in
  let visibles :=
    if add_visible_flag options
    then push_back (m_visibles dn) (visible node)
    else m_visibles dn in
  let (d_lat, delta_lat) :=
    DeltaEncode.update (lonlat2int (lat_without_check (location node))) (m_delta_lat dn) in
  let lats := push_back (m_lats dn) d_lat in
  let (d_lon, delta_lon) :=
    DeltaEncode.update (lonlat2int (lon_without_check (location node))) (m_delta_lon dn) in
  let lons := push_back (m_lons dn) d_lon in
  let (st2, tags1) := add_tags (tags node) st1 (m_tags dn) in
  let tags2 := push_back tags1 0 in
  (st2,
   {| m_ids := ids; m_versions := versions; m_timestamps := timestamps;
      m_changesets := changesets; m_uids := uids; m_user_sids := user_sids;
      m_visibles := visibles; m_lats := lats; m_lons := lons; m_tags := tags2;
      m_delta_id := delta_id;
      m_delta_timestamp := delta_timestamp;
      m_delta_changeset := delta_changeset;
      m_delta_uid := delta_uid;
      m_delta_user_sid := delta_user_sid;
      m_delta_lat := delta_lat;
      m_delta_lon := delta_lon |}).

(** The body of the DenseInfo sub-message. *)
Definition serialize_dense_info (options : pbf_output_options) (dn : t) : bytes :=
  (if md_version (add_metadata options)
   then protozero.add_packed_int32 OSMFormat.DenseInfo.packed_int32_version (m_versions dn)
   else [])
  ++ (if md_timestamp (add_metadata options)
      then protozero.add_packed_sint64 OSMFormat.DenseInfo.packed_sint64_timestamp (m_timestamps dn)
      else [])
  ++ (if md_changeset (add_metadata options)
      then protozero.add_packed_sint64 OSMFormat.DenseInfo.packed_sint64_changeset (m_changesets dn)
      else [])
  ++ (if md_uid (add_metadata options)
      then protozero.add_packed_sint32 OSMFormat.DenseInfo.packed_sint32_uid (m_uids dn)
      else [])
  ++ (if md_user (add_metadata options)
      then protozero.add_packed_sint32 OSMFormat.DenseInfo.packed_sint32_user_sid (m_user_sids dn)
      else [])
  ++ (if add_visible_flag options
      then protozero.add_packed_bool OSMFormat.DenseInfo.packed_bool_visible (m_visibles dn)
      else []).

Definition serialize (options : pbf_output_options) (dn : t) : bytes :=
  protozero.add_packed_sint64 OSMFormat.DenseNodes.packed_sint64_id (m_ids dn)
  ++ (if md_any (add_metadata options) || add_visible_flag options
      then protozero.submessage OSMFormat.DenseNodes.optional_DenseInfo_denseinfo
             (serialize_dense_info options dn)
      else [])
  ++ protozero.add_packed_sint64 OSMFormat.DenseNodes.packed_sint64_lat (m_lats dn)
  ++ protozero.add_packed_sint64 OSMFormat.DenseNodes.packed_sint64_lon (m_lons dn)
  ++ protozero.add_packed_int32 OSMFormat.DenseNodes.packed_int32_keys_vals (m_tags dn).

End DenseNodes.

Module PrimitiveBlock.

Record t : Type := {
  m_pbf_primitive_group_data : bytes;
  m_stringtable : StringTable.t;
  m_dense_nodes : option DenseNodes.t;
  m_type : OSMFormat.PrimitiveGroup.t;
  m_count : Z
}.

(** The constructor. *)
Definition init : t :=
  {| m_pbf_primitive_group_data := [];
     m_stringtable := StringTable.init;
     m_dense_nodes := None;
     m_type := OSMFormat.PrimitiveGroup.unknown;
     m_count := 0 |}.

Definition count (b : t) : Z := m_count b.

Definition type (b : t) : OSMFormat.PrimitiveGroup.t := m_type b.

(** [group_data()] appends the serialized dense nodes to the group data
    of a DenseNodes block and returns the group data; the block is left
    with them appended.  ([assert(m_dense_nodes)]: a dense block whose
    count is not zero has dense nodes.) *)
Definition group_data (options : pbf_output_options) (b : t) : bytes * t :=
  if OSMFormat.PrimitiveGroup.eqb (type b) OSMFormat.PrimitiveGroup.optional_DenseNodes_dense
  then
    match m_dense_nodes b with
    | Some dn =>
        let data := m_pbf_primitive_group_data b
                    ++ protozero.add_message
                         (OSMFormat.PrimitiveGroup.tag OSMFormat.PrimitiveGroup.optional_DenseNodes_dense)
                         (DenseNodes.serialize options dn) in
        (data,
         {| m_pbf_primitive_group_data := data;
            m_stringtable := m_stringtable b;
            m_dense_nodes := m_dense_nodes b;
            m_type := m_type b;
            m_count := m_count b |})
    | None => (m_pbf_primitive_group_data b, b)
    end
  else (m_pbf_primitive_group_data b, b).

Definition reset (type : OSMFormat.PrimitiveGroup.t) (b : t) : t :=
  {| m_pbf_primitive_group_data := [];
     m_stringtable := StringTable.clear (m_stringtable b);
     m_dense_nodes := None;
     m_type := type;
     m_count := 0 |}.

(** The body of the StringTable message: one bytes field per entry. *)
Definition write_stringtable (b : t) : bytes :=
  List.concat
    (List.map (fun s => protozero.add_bytes OSMFormat.StringTable.repeated_bytes_s
                          (bytes_of_string s))
              (StringTable.entries (m_stringtable b))).

(** [group()] counts an entity and gives the writer of the group; the
    bytes the caller writes are appended with [append_group]. *)
Definition group (b : t) : t :=
  {| m_pbf_primitive_group_data := m_pbf_primitive_group_data b;
     m_stringtable := m_stringtable b;
     m_dense_nodes := m_dense_nodes b;
     m_type := m_type b;
     m_count := m_count b + 1 |}.

Definition append_group (data : bytes) (b : t) : t :=
  {| m_pbf_primitive_group_data := m_pbf_primitive_group_data b ++ data;
     m_stringtable := m_stringtable b;
     m_dense_nodes := m_dense_nodes b;
     m_type := m_type b;
     m_count := m_count b |}.

Definition add_dense_node {B : Build} (options : pbf_output_options) (node : Node) (b : t) : t :=
  let dn := match m_dense_nodes b with
            | None => DenseNodes.init
            | Some dn => dn
            end in
  let (st, dn') := DenseNodes.add_node options node (m_stringtable b) dn in
  {| m_pbf_primitive_group_data := m_pbf_primitive_group_data b;
     m_stringtable := st;
     m_dense_nodes := Some dn';
     m_type := m_type b;
     m_count := m_count b + 1 |}.

Definition store_in_stringtable (s : string) (b : t) : Z * t :=
  let (i, st) := StringTable.add s (m_stringtable b) in
  (i,
   {| m_pbf_primitive_group_data := m_pbf_primitive_group_data b;
      m_stringtable := st;
      m_dense_nodes := m_dense_nodes b;
      m_type := m_type b;
      m_count := m_count b |}).

Definition store_in_stringtable_unsigned (s : string) (b : t) : Z * t :=
  let (i, b') := store_in_stringtable s b in (to_uint32 i, b').

Definition size (b : t) : Z :=
  size (m_pbf_primitive_group_data b)
  + StringTable.size (m_stringtable b)
  + match m_dense_nodes b with
    | Some dn => DenseNodes.size dn
    | None => 0
    end.

(** [max_uncompressed_blob_size * 95U / 100U], in unsigned 32-bit
    arithmetic. *)
Definition max_used_blob_size {B : Build} : Z :=
  to_uint32 (to_uint32 max_uncompressed_blob_size * 95) / 100.

Definition can_add {B : Build} (type : OSMFormat.PrimitiveGroup.t) (b : t) : bool :=
  if negb (OSMFormat.PrimitiveGroup.eqb type (m_type b)) then false
  else if max_entities_per_block <=? count b then false
  else size b <? max_used_blob_size.

End PrimitiveBlock.

Module SerializeBlob.

Record t : Type := {
  m_msg : bytes;
  m_compression_level : Z;
  m_blob_type : pbf_blob_type.t;
  m_use_compression : pbf_compression.t
}.

(** The Blob message: the payload, raw or compressed. *)
Definition blob_data {B : Build} (job : t) : result bytes :=
  match m_use_compression job with
  | pbf_compression.none =>
      Ok (protozero.add_bytes FileFormat.Blob.optional_bytes_raw (m_msg job))
  | pbf_compression.zlib =>
      z <- zlib_compress (m_msg job) (m_compression_level job) ;;
      Ok (protozero.add_int32 FileFormat.Blob.optional_int32_raw_size
            (to_int32 (size (m_msg job)))
          ++ protozero.add_bytes FileFormat.Blob.optional_bytes_zlib_data z)
  | pbf_compression.lz4 =>
      if OSMIUM_WITH_LZ4
      then
        z <- lz4_compress (m_msg job) (m_compression_level job) ;;
        Ok (protozero.add_int32 FileFormat.Blob.optional_int32_raw_size
              (to_int32 (size (m_msg job)))
            ++ protozero.add_bytes FileFormat.Blob.optional_bytes_lz4_data z)
      else Throw (pbf_error "lz4 blobs not supported")
  end.

Definition blob_type_string (type : pbf_blob_type.t) : string :=
  match type with
  | pbf_blob_type.data => "OSMData"
  | pbf_blob_type.header => "OSMHeader"
  end.

(** The BlobHeader message for a Blob message. *)
Definition blob_header_data (type : pbf_blob_type.t) (blob : bytes) : bytes :=
  protozero.add_string FileFormat.BlobHeader.required_string_type (blob_type_string type)
  ++ protozero.add_int32 FileFormat.BlobHeader.required_int32_datasize
       (to_int32 (size blob)).

(** The four bytes of a [uint32_t] in network byte order. *)
Definition network_order (size : Z) : bytes :=
  [ Z.land (Z.shiftr size 24) 255;
    Z.land (Z.shiftr size 16) 255;
    Z.land (Z.shiftr size 8) 255;
    Z.land size 255 ].

(** [operator()]: serialize a protobuf message into a Blob, optionally
    apply compression and return it together with a BlobHeader ready to
    be written to a file. *)
Definition call {B : Build} (job : t) : result bytes :=
  blob <- blob_data job ;;
  let header := blob_header_data (m_blob_type job) blob in
  let size := to_uint32 (size header) in
  Ok (network_order size ++ header ++ blob).

End SerializeBlob.

(** [osmium::io::File], seen through the calls the constructor makes. *)
Record File : Type := {
  get : string -> string;
  is_true : string -> bool;
  is_not_false : string -> bool;
  has_multiple_object_versions : bool
}.

Record Box : Type := {
  bottom_left : Location;
  top_right : Location
}.

(** [osmium::io::Header], seen through the calls [write_header] makes. *)
Record Header : Type := {
  boxes : list Box;
  joined_boxes : Box;
  header_get : string -> string
}.

(** Modelled from the spec: [get_compression_type] of [pbf.hpp], a header
    whose source is not covered here.  Section 4.8: [pbf_compression] is one of
    [none], [zlib] (the default) and [lz4]; section 7: an invalid option
    value, and [pbf_compression=lz4] when lz4 is unavailable, are
    configuration errors. *)
Definition get_compression_type {B : Build} (val : string) : result pbf_compression.t :=
  if String.eqb val "" || String.eqb val "zlib" then Ok pbf_compression.zlib
  else if String.eqb val "none" then Ok pbf_compression.none
  else if String.eqb val "lz4" then
    if OSMIUM_WITH_LZ4 then Ok pbf_compression.lz4
    else Throw (invalid_argument "Support for LZ4 compression not compiled in")
  else Throw (invalid_argument "Unknown value for the pbf_compression option").

(** *** std::strtol in base 10 *)

Definition isspace (c : ascii) : bool :=
  let n := N_of_ascii c in ((9 <=? n) && (n <=? 13) || (n =? 32))%N.

Definition isdigit (c : ascii) : bool :=
  let n := N_of_ascii c in ((48 <=? n) && (n <=? 57))%N.

Definition digit_value (c : ascii) : Z := Z.of_N (N_of_ascii c) - 48.

Fixpoint skip_spaces (s : string) : string :=
  match s with
  | String c rest => if isspace c then skip_spaces rest else s
  | EmptyString => s
  end.

(** The digits at the front of [s], read on top of [acc]; the rest. *)
Fixpoint scan_digits (s : string) (acc : Z) : Z * string :=
  match s with
  | String c rest =>
      if isdigit c then scan_digits rest (10 * acc + digit_value c) else (acc, s)
  | EmptyString => (acc, s)
  end.

(** [strtol(nptr, &end, 10)]: the value and what [end] points at.  White
    space is skipped, a sign is optional; when no digit follows, nothing is
    converted and [end] is [nptr].  A value outside [long] is clamped. *)
Definition strtol {B : Build} (nptr : string) : Z * string :=
  let s := skip_spaces (c_str nptr) in
  let (negative, s1) :=
    match s with
    | String "-"%char rest => (true, rest)
    | String "+"%char rest => (false, rest)
    | _ => (false, s)
    end in
  match s1 with
  | String c _ =>
      if isdigit c
      then
        let (v, rest) := scan_digits s1 0 in
        let v := if negative then - v else v in
        (Z.max LONG_MIN (Z.min LONG_MAX v), rest)
      else (0, c_str nptr)
  | EmptyString => (0, c_str nptr)
  end.

(** An item of a buffer, as [osmium::apply] hands it to the handler: a
    node or a way.  ([PBFOutputFormat.Item] adds the relations.) *)
Inductive Entity : Type :=
  | a_node (node : Node)
  | a_way (way : Way).

Module PBFOutputFormat.

(** The output queue holds, in push order, the jobs submitted to the
    pool; running a job ([SerializeBlob.call]) gives the bytes of one
    blob of the file. *)
Record t : Type := {
  m_options : pbf_output_options;
  m_primitive_block : PrimitiveBlock.t;
  m_output_queue : list SerializeBlob.t
}.

Definition with_block (f : t) (b : PrimitiveBlock.t) : t :=
  {| m_options := m_options f;
     m_primitive_block := b;
     m_output_queue := m_output_queue f |}.

Definition store_primitive_block (f : t) : t :=
  if PrimitiveBlock.count (m_primitive_block f) =? 0 then f
  else
    let pbf_string_table :=
      protozero.submessage OSMFormat.PrimitiveBlock.required_StringTable_stringtable
        (PrimitiveBlock.write_stringtable (m_primitive_block f)) in
    let (group_data, block) :=
      PrimitiveBlock.group_data (m_options f) (m_primitive_block f) in
    let primitive_block_data :=
      pbf_string_table
      ++ protozero.add_message OSMFormat.PrimitiveBlock.repeated_PrimitiveGroup_primitivegroup
           group_data in
    {| m_options := m_options f;
       m_primitive_block := block;
       m_output_queue :=
         push_back (m_output_queue f)
           {| SerializeBlob.m_msg := primitive_block_data;
              SerializeBlob.m_compression_level := compression_level (m_options f);
              SerializeBlob.m_blob_type := pbf_blob_type.data;
              SerializeBlob.m_use_compression := use_compression (m_options f) |} |}.

(** One loop of [add_meta] over the tags: each string is stored in the
    string table and its index becomes an element of the packed field. *)
Fixpoint store_all (strings : list string) (b : PrimitiveBlock.t)
  : list Z * PrimitiveBlock.t :=
  match strings with
  | [] => ([], b)
  | s :: rest =>
      let (i, b1) := PrimitiveBlock.store_in_stringtable_unsigned s b in
      let (indices, b2) := store_all rest b1 in
      (i :: indices, b2)
  end.

(** The Info sub-message of an object. *)
Definition add_info (options : pbf_output_options) (object : OSMObject)
    (b : PrimitiveBlock.t) : bytes * PrimitiveBlock.t :=
  let version_field :=
    if md_version (add_metadata options)
    then protozero.add_int32 OSMFormat.Info.optional_int32_version (to_int32 (version object))
    else [] in
  let timestamp_field :=
    if md_timestamp (add_metadata options)
    then protozero.add_int64 OSMFormat.Info.optional_int64_timestamp
           (Timestamp_to_uint32 (timestamp object))
    else [] in
  let changeset_field :=
    if md_changeset (add_metadata options)
    then protozero.add_int64 OSMFormat.Info.optional_int64_changeset (changeset object)
    else [] in
  let uid_field :=
    if md_uid (add_metadata options)
    then protozero.add_int32 OSMFormat.Info.optional_int32_uid (to_int32 (uid object))
    else [] in
  let (user_field, b1) :=
    if md_user (add_metadata options)
    then let (sid, b') := PrimitiveBlock.store_in_stringtable_unsigned (user object) b in
         (protozero.add_uint32 OSMFormat.Info.optional_uint32_user_sid sid, b')
    else ([], b) in
  let visible_field :=
    if add_visible_flag options
    then protozero.add_bool OSMFormat.Info.optional_bool_visible (visible object)
    else [] in
  (version_field ++ timestamp_field ++ changeset_field ++ uid_field
   ++ user_field ++ visible_field, b1).

(** [add_meta<T>]: the tags [T::enum_type::packed_uint32_keys],
    [...::packed_uint32_vals] and [...::optional_Info_info] are arguments. *)
Definition add_meta (options : pbf_output_options)
    (packed_uint32_keys packed_uint32_vals optional_Info_info : Z)
    (object : OSMObject) (b : PrimitiveBlock.t) : bytes * PrimitiveBlock.t :=
  let (keys, b1) := store_all (List.map key (tags object)) b in
  let keys_field := protozero.packed_field_uint32 packed_uint32_keys keys in
  let (vals, b2) := store_all (List.map value (tags object)) b1 in
  let vals_field := protozero.packed_field_uint32 packed_uint32_vals vals in
  let (info_field, b3) :=
    if md_any (add_metadata options) || add_visible_flag options
    then let (info, b') := add_info options object b2 in
         (protozero.submessage optional_Info_info info, b')
    else ([], b2) in
  (keys_field ++ vals_field ++ info_field, b3).

Definition switch_primitive_block_type {B : Build}
    (type : OSMFormat.PrimitiveGroup.t) (f : t) : t :=
  if negb (PrimitiveBlock.can_add type (m_primitive_block f))
  then
    let f1 := store_primitive_block f in
    with_block f1 (PrimitiveBlock.reset type (m_primitive_block f1))
  else f.

(** [std::invalid_argument] messages of the constructor. *)
Definition deprecated_option_message : string :=
  "The 'pbf_add_metadata' option is deprecated. Please use 'add_metadata' instead.".
Definition not_an_integer_message : string :=
  "The 'pbf_compression_level' option must be an integer.".
Definition level_without_compression_message : string :=
  "The 'pbf_compression_level' option doesn't make sense without 'pbf_compression' set.".

(** The compression level the constructor settles on. *)
Definition constructor_compression_level {B : Build}
    (use_compression : pbf_compression.t) (pbl : string) : result Z :=
  if String.eqb pbl ""
  then
    match use_compression with
    | pbf_compression.none => Ok default_compression_level
    | pbf_compression.zlib => Ok zlib_default_compression_level
    | pbf_compression.lz4 =>
        if OSMIUM_WITH_LZ4 then Ok lz4_default_compression_level
        else Ok default_compression_level
    end
  else
    let (val, rest) := strtol pbl in
    match rest with
    | String _ _ => Throw (invalid_argument not_an_integer_message)
    | EmptyString =>
        _ <- match use_compression with
             | pbf_compression.none =>
                 Throw (invalid_argument level_without_compression_message)
             | pbf_compression.zlib => zlib_check_compression_level val
             | pbf_compression.lz4 =>
                 if OSMIUM_WITH_LZ4 then lz4_check_compression_level val else Ok tt
             end ;;
        Ok (to_int32 val)
    end.

(** The constructor. *)
Definition make {B : Build} (file : File) : result t :=
  if negb (String.eqb (get file "pbf_add_metadata") "")
  then Throw (invalid_argument deprecated_option_message)
  else
    let dense := is_not_false file "pbf_dense_nodes" in
    compression <- get_compression_type (get file "pbf_compression") ;;
    metadata <- metadata_options_of_string (get file "add_metadata") ;;
    let historical := has_multiple_object_versions file in
    let visible_flag := has_multiple_object_versions file in
    let on_ways := is_true file "locations_on_ways" in
    level <- constructor_compression_level compression (get file "pbf_compression_level") ;;
    Ok {| m_options :=
            {| add_metadata := metadata;
               compression_level := level;
               use_compression := compression;
               use_dense_nodes := dense;
               add_historical_information_flag := historical;
               add_visible_flag := visible_flag;
               locations_on_ways := on_ways |};
          m_primitive_block := PrimitiveBlock.init;
          m_output_queue := [] |}.

(** The checked accessor of a coordinate. *)
Definition checked {B : Build} (l : Location) (coordinate : float) : result float :=
  if Location_valid l then Ok coordinate
  else Throw (invalid_location "invalid location").

Definition bbox_coordinate {B : Build} (c : float) : Z :=
  int64_of_integral (truncate (PrimFloat.mul c (double_of_Z lonlat_resolution))).

(** The HeaderBBox sub-message of [write_header]. *)
Definition write_header_bbox {B : Build} (header : Header) : result bytes :=
  match boxes header with
  | [] => Ok []
  | _ =>
      let box := joined_boxes header in
      left <- checked (bottom_left box) (lon_without_check (bottom_left box)) ;;
      right <- checked (top_right box) (lon_without_check (top_right box)) ;;
      top <- checked (top_right box) (lat_without_check (top_right box)) ;;
      bottom <- checked (bottom_left box) (lat_without_check (bottom_left box)) ;;
      Ok (protozero.submessage OSMFormat.HeaderBlock.optional_HeaderBBox_bbox
            (protozero.add_sint64 OSMFormat.HeaderBBox.required_sint64_left (bbox_coordinate left)
             ++ protozero.add_sint64 OSMFormat.HeaderBBox.required_sint64_right (bbox_coordinate right)
             ++ protozero.add_sint64 OSMFormat.HeaderBBox.required_sint64_top (bbox_coordinate top)
             ++ protozero.add_sint64 OSMFormat.HeaderBBox.required_sint64_bottom (bbox_coordinate bottom)))
  end.

(** The replication timestamp field of [write_header]. *)
Definition write_header_replication_timestamp {B : Build} (header : Header) : result bytes :=
  let osmosis_replication_timestamp := header_get header "osmosis_replication_timestamp" in
  if String.eqb osmosis_replication_timestamp "" then Ok []
  else
    ts <- Timestamp_of_string osmosis_replication_timestamp ;;
    Ok (protozero.add_int64 OSMFormat.HeaderBlock.optional_int64_osmosis_replication_timestamp
          (Timestamp_to_uint32 ts)).

(** The HeaderBlock message. *)
Definition header_block {B : Build} (options : pbf_output_options) (header : Header)
  : result bytes :=
  bbox <- write_header_bbox header ;;
  let schema :=
    protozero.add_string OSMFormat.HeaderBlock.repeated_string_required_features "OsmSchema-V0.6" in
  let dense :=
    if use_dense_nodes options
    then protozero.add_string OSMFormat.HeaderBlock.repeated_string_required_features "DenseNodes"
    else [] in
  let historical :=
    if add_historical_information_flag options
    then protozero.add_string OSMFormat.HeaderBlock.repeated_string_required_features
           "HistoricalInformation"
    else [] in
  let on_ways :=
    if locations_on_ways options
    then protozero.add_string OSMFormat.HeaderBlock.repeated_string_optional_features
           "LocationsOnWays"
    else [] in
  let sorting :=
    if String.eqb (header_get header "sorting") "Type_then_ID"
    then protozero.add_string OSMFormat.HeaderBlock.repeated_string_optional_features
           "Sort.Type_then_ID"
    else [] in
  let generator :=
    protozero.add_string OSMFormat.HeaderBlock.optional_string_writingprogram
      (header_get header "generator") in
  replication_timestamp <- write_header_replication_timestamp header ;;
  let osmosis_replication_sequence_number :=
    header_get header "osmosis_replication_sequence_number" in
  let sequence_number :=
    if String.eqb osmosis_replication_sequence_number "" then []
    else protozero.add_int64
           OSMFormat.HeaderBlock.optional_int64_osmosis_replication_sequence_number
           (str_to_int osmosis_replication_sequence_number) in
  let osmosis_replication_base_url := header_get header "osmosis_replication_base_url" in
  let base_url :=
    if String.eqb osmosis_replication_base_url "" then []
    else protozero.add_string OSMFormat.HeaderBlock.optional_string_osmosis_replication_base_url
           osmosis_replication_base_url in
  Ok (bbox ++ schema ++ dense ++ historical ++ on_ways ++ sorting ++ generator
      ++ replication_timestamp ++ sequence_number ++ base_url).

Definition write_header {B : Build} (header : Header) (f : t) : result t :=
  data <- header_block (m_options f) header ;;
  Ok {| m_options := m_options f;
        m_primitive_block := m_primitive_block f;
        m_output_queue :=
          push_back (m_output_queue f)
            {| SerializeBlob.m_msg := data;
               SerializeBlob.m_compression_level := compression_level (m_options f);
               SerializeBlob.m_blob_type := pbf_blob_type.header;
               SerializeBlob.m_use_compression := use_compression (m_options f) |} |}.

Definition write_end (f : t) : t := store_primitive_block f.

(** The body of a Node message (dense nodes switched off). *)
Definition node_message {B : Build} (options : pbf_output_options) (node : Node)
    (b : PrimitiveBlock.t) : bytes * PrimitiveBlock.t :=
  let id_field := protozero.add_sint64 OSMFormat.Node.required_sint64_id (id node) in
  let (meta, b1) :=
    add_meta options OSMFormat.Node.packed_uint32_keys OSMFormat.Node.packed_uint32_vals
      OSMFormat.Node.optional_Info_info node b in
  (id_field ++ meta
   ++ protozero.add_sint64 OSMFormat.Node.required_sint64_lat
        (lonlat2int (lat_without_check (location node)))
   ++ protozero.add_sint64 OSMFormat.Node.required_sint64_lon
        (lonlat2int (lon_without_check (location node))), b1).

Definition node {B : Build} (node : Node) (f : t) : t :=
  if use_dense_nodes (m_options f)
  then
    let f1 := switch_primitive_block_type OSMFormat.PrimitiveGroup.optional_DenseNodes_dense f in
    with_block f1 (PrimitiveBlock.add_dense_node (m_options f1) node (m_primitive_block f1))
  else
    let f1 := switch_primitive_block_type OSMFormat.PrimitiveGroup.repeated_Node_nodes f in
    let b := PrimitiveBlock.group (m_primitive_block f1) in
    let (body, b1) := node_message (m_options f1) node b in
    with_block f1
      (PrimitiveBlock.append_group
         (protozero.submessage
            (OSMFormat.PrimitiveGroup.tag OSMFormat.PrimitiveGroup.repeated_Node_nodes) body)
         b1).

(** The loop of a delta-encoded packed field: the elements added, for a
    delta encoder that starts in state [d]. *)
Fixpoint delta_elements (values : list Z) (d : DeltaEncode.t) : list Z :=
  match values with
  | [] => []
  | v :: rest =>
      let (delta, d1) := DeltaEncode.update v d in
      delta :: delta_elements rest d1
  end.

(** The packed refs of a way, with its own delta encoder. *)
Definition way_refs (way : Way) : list Z :=
  delta_elements (List.map ref (nodes way)) DeltaEncode.init.

Definition way_lons {B : Build} (way : Way) : list Z :=
  delta_elements
    (List.map (fun node_ref => lonlat2int (lon_without_check (node_ref_location node_ref)))
              (nodes way))
    DeltaEncode.init.

Definition way_lats {B : Build} (way : Way) : list Z :=
  delta_elements
    (List.map (fun node_ref => lonlat2int (lat_without_check (node_ref_location node_ref)))
              (nodes way))
    DeltaEncode.init.

(** The body of a Way message. *)
Definition way_message {B : Build} (options : pbf_output_options) (way : Way)
    (b : PrimitiveBlock.t) : bytes * PrimitiveBlock.t :=
  let id_field := protozero.add_int64 OSMFormat.Way.required_int64_id (id way) in
  let (meta, b1) :=
    add_meta options OSMFormat.Way.packed_uint32_keys OSMFormat.Way.packed_uint32_vals
      OSMFormat.Way.optional_Info_info way b in
  let refs_field :=
    protozero.packed_field_sint64 OSMFormat.Way.packed_sint64_refs (way_refs way) in
  let locations :=
    if locations_on_ways options
    then protozero.packed_field_sint64 OSMFormat.Way.packed_sint64_lon (way_lons way)
         ++ protozero.packed_field_sint64 OSMFormat.Way.packed_sint64_lat (way_lats way)
    else [] in
  (id_field ++ meta ++ refs_field ++ locations, b1).

Definition way {B : Build} (way : Way) (f : t) : t :=
  let f1 := switch_primitive_block_type OSMFormat.PrimitiveGroup.repeated_Way_ways f in
  let b := PrimitiveBlock.group (m_primitive_block f1) in
  let (body, b1) := way_message (m_options f1) way b in
  with_block f1
    (PrimitiveBlock.append_group
       (protozero.submessage
          (OSMFormat.PrimitiveGroup.tag OSMFormat.PrimitiveGroup.repeated_Way_ways) body)
       b1).

(** The loop over the members of a relation that stores their roles. *)
Fixpoint store_roles (members : list RelationMember) (b : PrimitiveBlock.t)
  : list Z * PrimitiveBlock.t :=
  match members with
  | [] => ([], b)
  | member :: rest =>
      let (i, b1) := PrimitiveBlock.store_in_stringtable (role member) b in
      let (indices, b2) := store_roles rest b1 in
      (i :: indices, b2)
  end.

(** The packed member ids of a relation, with their own delta encoder. *)
Definition relation_memids (relation : Relation) : list Z :=
  delta_elements (List.map member_ref (members relation)) DeltaEncode.init.

(** The packed member types: [int32_t(item_type_to_nwr_index(type))]. *)
Definition relation_types {N : NwrIndex} (relation : Relation) : list Z :=
  List.map (fun member => to_int32 (item_type_to_nwr_index (member_type member)))
           (members relation).

(** The body of a Relation message. *)
Definition relation_message {N : NwrIndex} (options : pbf_output_options)
    (relation : Relation) (b : PrimitiveBlock.t) : bytes * PrimitiveBlock.t :=
  let id_field := protozero.add_int64 OSMFormat.Relation.required_int64_id (id relation) in
  let (meta, b1) :=
    add_meta options OSMFormat.Relation.packed_uint32_keys
      OSMFormat.Relation.packed_uint32_vals OSMFormat.Relation.optional_Info_info
      relation b in
  let (roles, b2) := store_roles (members relation) b1 in
  let roles_field :=
    protozero.packed_field_int32 OSMFormat.Relation.packed_int32_roles_sid roles in
  let memids_field :=
    protozero.packed_field_sint64 OSMFormat.Relation.packed_sint64_memids
      (relation_memids relation) in
  let types_field :=
    protozero.packed_field_int32 OSMFormat.Relation.packed_MemberType_types
      (relation_types relation) in
  (id_field ++ meta ++ roles_field ++ memids_field ++ types_field, b2).

Definition relation {B : Build} {N : NwrIndex} (relation : Relation) (f : t) : t :=
  let f1 :=
    switch_primitive_block_type OSMFormat.PrimitiveGroup.repeated_Relation_relations f in
  let b := PrimitiveBlock.group (m_primitive_block f1) in
  let (body, b1) := relation_message (m_options f1) relation b in
  with_block f1
    (PrimitiveBlock.append_group
       (protozero.submessage
          (OSMFormat.PrimitiveGroup.tag OSMFormat.PrimitiveGroup.repeated_Relation_relations)
          body)
       b1).

(** [write_buffer]: the handler is applied to the items in order. *)
Definition handle {B : Build} (f : t) (e : Entity) : t :=
  match e with
  | a_node n => node n f
  | a_way w => way w f
  end.

Definition write_buffer {B : Build} (buffer : list Entity) (f : t) : t :=
  List.fold_left handle buffer f.

(** The same over buffers that hold relations too. *)
Inductive Item : Type :=
  | an_entity (e : Entity)
  | a_relation (relation : Relation).

Definition handle_item {B : Build} {N : NwrIndex} (f : t) (i : Item) : t :=
  match i with
  | an_entity e => handle f e
  | a_relation r => relation r f
  end.

Definition write_items {B : Build} {N : NwrIndex} (buffer : list Item) (f : t) : t :=
  List.fold_left handle_item buffer f.

End PBFOutputFormat.

(** ** osmium/util/verbose_output.hpp *)

(** [std::cerr] as [VerboseOutput] uses it: the fill character and the
    text written so far.  The rest of the formatting state is taken as the
    standard library sets it up (decimal numbers, padding on the left, no
    width pending). *)
Module ostream.

Record t : Type := {
  fill : ascii;
  text : string
}.

(** [os << c] and [os << s] for a character and for a text. *)
Definition put (s : string) (os : t) : t :=
  {| fill := fill os; text := (text os ++ s)%string |}.

(** [os.fill(c)] and [os << std::setfill(c)]. *)
Definition set_fill (c : ascii) (os : t) : t :=
  {| fill := c; text := text os |}.

(** The digits of an [int] in base 10, behind a minus sign when it is
    negative. *)
Definition decimal (n : Z) : string :=
  DecimalString.NilZero.string_of_int (Z.to_int n).

Fixpoint padding (n : nat) (c : ascii) : string :=
  match n with
  | O => EmptyString
  | S n' => String c (padding n' c)
  end.

(** [os << std::setw(width) << n]: the digits, behind as many fill
    characters as it takes to reach the width. *)
Definition put_int (width : nat) (n : Z) (os : t) : t :=
  let digits := decimal n in
  put (padding (width - String.length digits) (fill os) ++ digits)%string os.

End ostream.

Module VerboseOutput.

Record t : Type := {
  (** all time output will be relative to this start time *)
  m_start : Z;
  (** is verbose mode enabled? *)
  m_verbose : bool;
  (** a newline was written, start next output with runtime *)
  m_newline : bool
}.

(** The constructor; [now] is what [time(NULL)] returns. *)
Definition make (now : Z) (verbose : bool) : t :=
  {| m_start := now; m_verbose := verbose; m_newline := true |}.

(** [runtime()]: the difference of two [time_t], returned as an [int]. *)
Definition runtime (now : Z) (v : t) : Z := to_int32 (now - m_start v).

Definition verbose (v : t) : bool := m_verbose v.

Definition set_verbose (verbose : bool) (v : t) : t :=
  {| m_start := m_start v; m_verbose := verbose; m_newline := m_newline v |}.

Definition start_line (now : Z) (v : t) (cerr : ostream.t) : t * ostream.t :=
  if m_newline v
  then
    let elapsed := runtime now v in
    let old_fill := ostream.fill cerr in
    let cerr1 := ostream.put "[" cerr in
    let cerr2 := ostream.put_int 2 (Z.quot elapsed 60) cerr1 in
    let cerr3 := ostream.put ":" cerr2 in
    let cerr4 := ostream.put_int 2 (Z.rem elapsed 60) (ostream.set_fill "0" cerr3) in
    let cerr5 := ostream.put "] " cerr4 in
    ({| m_start := m_start v; m_verbose := m_verbose v; m_newline := false |},
     ostream.set_fill old_fill cerr5)
  else (v, cerr).

(** [s[s.size() - 1]] of the text [String c s]. *)
Fixpoint back (c : ascii) (s : string) : ascii :=
  match s with
  | EmptyString => c
  | String c' rest => back c' rest
  end.

(** [!s.empty() && s[s.size() - 1] == '\n'] *)
Definition ends_in_newline (s : string) : bool :=
  match s with
  | EmptyString => false
  | String c rest => Ascii.eqb (back c rest) "010"
  end.

(** [verbose_output << value].  [str] is [output_buffer.str()], the text
    the value is formatted to; [now] is what [time(NULL)] returns while
    the line is started. *)
Definition operator_shl (now : Z) (str : string) (v : t) (cerr : ostream.t)
  : t * ostream.t :=
  if m_verbose v
  then
    let (v1, cerr1) := start_line now v cerr in
    let cerr2 := ostream.put str cerr1 in
    if ends_in_newline str
    then ({| m_start := m_start v1; m_verbose := m_verbose v1; m_newline := true |}, cerr2)
    else (v1, cerr2)
  else (v, cerr).

End VerboseOutput.

(** ** osmium/geom/factory.hpp *)

Module geom.

(** [osmium::geom::Coordinates]: a pair of doubles. *)
Record Coordinates : Type := {
  x : float;
  y : float
}.

(** Which nodes of a way to use for a linestring. *)
Inductive use_nodes : Type :=
  | unique  (* Remove consecutive nodes with same location. *)
  | all.    (* Use all nodes. *)

(** Which direction the linestring created from a way should have. *)
Inductive direction : Type :=
  | backward  (* Linestring has reverse direction. *)
  | forward.  (* Linestring has same direction as way. *)

(** [IdentityProjection]: the checked accessors [lon()] and [lat()]. *)
Definition IdentityProjection {B : Build} (location : Location) : result Coordinates :=
  lon <- PBFOutputFormat.checked location (lon_without_check location) ;;
  lat <- PBFOutputFormat.checked location (lat_without_check location) ;;
  Ok {| x := lon; y := lat |}.

(** What [location.hpp] gives the factory besides the accessors: the
    location a default constructor makes (the undefined one) and the
    comparison [==] of locations. *)
Class LocationOps : Type := {
  Location_default : Location;
  Location_eq : Location -> Location -> bool
}.

(** The template parameter [TGeomImpl]: the geometry types and the
    methods the factory calls, each taking the implementation to its next
    state. *)
Class TGeomImpl (impl : Type) : Type := {
  point_type : Type;
  linestring_type : Type;
  multipolygon_type : Type;
  make_point : impl -> Coordinates -> point_type;
  linestring_start : impl -> impl;
  linestring_add_location : Coordinates -> impl -> impl;
  linestring_finish : impl -> linestring_type * impl;
  multipolygon_start : impl -> impl;
  multipolygon_polygon_start : impl -> impl;
  multipolygon_polygon_finish : impl -> impl;
  multipolygon_outer_ring_start : impl -> impl;
  multipolygon_outer_ring_finish : impl -> impl;
  multipolygon_inner_ring_start : impl -> impl;
  multipolygon_inner_ring_finish : impl -> impl;
  multipolygon_add_location : Coordinates -> impl -> impl;
  multipolygon_finish : impl -> multipolygon_type * impl
}.

(** What a method of the factory throws: its own [geometry_error], or
    what the projection threw. *)
Inductive thrown : Type :=
  | geometry_error (what : string)
  | thrown_by_projection (e : exception).

(** How a call ends.  A method that throws leaves [m_impl] as the calls
    made until then left it. *)
Inductive outcome (A : Type) : Type :=
  | Returned (a : A)
  | Thrown (e : thrown).
Arguments Returned {A} a.
Arguments Thrown {A} e.

(** An item in an area, with its type; [ring] is the item taken as a
    ring, the list of its node references. *)
Record AreaItem : Type := {
  type : item_type.t;
  ring : list NodeRef
}.

Section GeometryFactory.

Context {L : LocationOps} {impl : Type} {I : TGeomImpl impl}.

(** The member [m_projection], applied to a location; [m_impl] is passed
    to the methods and handed back. *)
Variable m_projection : Location -> result Coordinates.

(** Add all points of an outer or inner ring to a multipolygon. *)
Fixpoint add_points_from (last_location : Location) (nodes : list NodeRef) (m_impl : impl)
  : outcome unit * impl :=
  match nodes with
  | [] => (Returned tt, m_impl)
  | node_ref :: rest =>
      if negb (Location_eq last_location (node_ref_location node_ref))
      then
        match m_projection (node_ref_location node_ref) with
        | Ok c =>
            add_points_from (node_ref_location node_ref) rest
              (multipolygon_add_location c m_impl)
        | Throw e => (Thrown (thrown_by_projection e), m_impl)
        end
      else add_points_from last_location rest m_impl
  end.

Definition add_points (nodes : list NodeRef) (m_impl : impl) : outcome unit * impl :=
  add_points_from Location_default nodes m_impl.

Definition create_point (location : Location) (m_impl : impl) : outcome point_type :=
  match m_projection location with
  | Ok c => Returned (make_point m_impl c)
  | Throw e => Thrown (thrown_by_projection e)
  end.

Definition create_point_of_node (node : Node) (m_impl : impl) : outcome point_type :=
  create_point (location node) m_impl.

Definition create_point_of_node_ref (node_ref : NodeRef) (m_impl : impl)
  : outcome point_type :=
  create_point (node_ref_location node_ref) m_impl.

(** [fill_linestring(it, end)] over the node references from [it] to
    [end]. *)
Fixpoint fill_linestring (range : list NodeRef) (m_impl : impl) : outcome unit * impl :=
  match range with
  | [] => (Returned tt, m_impl)
  | node_ref :: rest =>
      match m_projection (node_ref_location node_ref) with
      | Ok c => fill_linestring rest (linestring_add_location c m_impl)
      | Throw e => (Thrown (thrown_by_projection e), m_impl)
      end
  end.

Fixpoint fill_linestring_unique_from (last_location : Location) (range : list NodeRef)
    (m_impl : impl) : outcome unit * impl :=
  match range with
  | [] => (Returned tt, m_impl)
  | node_ref :: rest =>
      if negb (Location_eq last_location (node_ref_location node_ref))
      then
        match m_projection (node_ref_location node_ref) with
        | Ok c =>
            fill_linestring_unique_from (node_ref_location node_ref) rest
              (linestring_add_location c m_impl)
        | Throw e => (Thrown (thrown_by_projection e), m_impl)
        end
      else fill_linestring_unique_from last_location rest m_impl
  end.

Definition fill_linestring_unique (range : list NodeRef) (m_impl : impl)
  : outcome unit * impl :=
  fill_linestring_unique_from Location_default range m_impl.

(** [create_linestring(wnl, un, dir)]; the reverse iterators of the list
    run over [List.rev wnl]. *)
Definition create_linestring (wnl : list NodeRef) (un : use_nodes) (dir : direction)
    (m_impl : impl) : outcome linestring_type * impl :=
  let m1 := linestring_start m_impl in
  let (filled, m2) :=
    match un with
    | unique =>
        match dir with
        | forward => fill_linestring_unique wnl m1
        | backward => fill_linestring_unique (List.rev wnl) m1
        end
    | all =>
        match dir with
        | forward => fill_linestring wnl m1
        | backward => fill_linestring (List.rev wnl) m1
        end
    end in
  match filled with
  | Returned _ =>
      let (linestring, m3) := linestring_finish m2 in
      (Returned linestring, m3)
  | Thrown e => (Thrown e, m2)
  end.

Definition create_linestring_of_way (way : Way) (un : use_nodes) (dir : direction)
    (m_impl : impl) : outcome linestring_type * impl :=
  create_linestring (nodes way) un dir m_impl.

(** The loop of [create_multipolygon] over the items of the area, with
    the counters [num_polygons] and [num_rings].  They are [int]s: where
    C++ leaves the overflow of [++] undefined, the model wraps around, as
    the usual compilation does. *)
Fixpoint create_multipolygon_loop (items : list AreaItem) (num_polygons num_rings : Z)
    (m_impl : impl) : outcome (Z * Z) * impl :=
  match items with
  | [] => (Returned (num_polygons, num_rings), m_impl)
  | it :: rest =>
      match type it with
      | item_type.outer_ring =>
          let m1 :=
            if 0 <? num_polygons then multipolygon_polygon_finish m_impl else m_impl in
          let m2 := multipolygon_polygon_start m1 in
          let m3 := multipolygon_outer_ring_start m2 in
          match add_points (ring it) m3 with
          | (Returned _, m4) =>
              let m5 := multipolygon_outer_ring_finish m4 in
              create_multipolygon_loop rest
                (to_int32 (num_polygons + 1)) (to_int32 (num_rings + 1)) m5
          | (Thrown e, m4) => (Thrown e, m4)
          end
      | item_type.inner_ring =>
          let m1 := multipolygon_inner_ring_start m_impl in
          match add_points (ring it) m1 with
          | (Returned _, m2) =>
              let m3 := multipolygon_inner_ring_finish m2 in
              create_multipolygon_loop rest num_polygons (to_int32 (num_rings + 1)) m3
          | (Thrown e, m2) => (Thrown e, m2)
          end
      | _ => create_multipolygon_loop rest num_polygons num_rings m_impl
      end
  end.

Definition create_multipolygon (area : list AreaItem) (m_impl : impl)
  : outcome multipolygon_type * impl :=
  let m1 := multipolygon_start m_impl in
  match create_multipolygon_loop area 0 0 m1 with
  | (Returned (_, num_rings), m2) =>
      (* if there are no rings, this area is invalid *)
      if num_rings =? 0
      then (Thrown (geometry_error "invalid area"), m2)
      else
        let m3 := multipolygon_polygon_finish m2 in
        let (multipolygon, m4) := multipolygon_finish m3 in
        (Returned multipolygon, m4)
  | (Thrown e, m2) => (Thrown e, m2)
  end.

End GeometryFactory.

End geom.

(** * The vocabulary of the properties *)

(** ** Reading what was written *)

(** A length-delimited field as a decoder finds it in a message; a field
    whose body is empty is not in the message. *)
Definition column (tag : Z) (body : bytes) : list (Z * protozero.field_value) :=
  match body with
  | [] => []
  | _ => [(tag, protozero.Bytes body)]
  end.

(** Reading a message, then field [tag] of it as a message, and so on
    along [path]. *)
Fixpoint decode_at (path : list Z) (bs : bytes) : option (list (Z * protozero.field_value)) :=
  match path with
  | [] => protozero.decode_message bs
  | tag :: rest =>
      match protozero.decode_message bs with
      | Some fields =>
          match List.find (fun f : Z * protozero.field_value => fst f =? tag) fields with
          | Some (_, protozero.Bytes body) => decode_at rest body
          | _ => None
          end
      | None => None
      end
  end.

(** The value of four bytes read as an unsigned integer in big-endian
    order. *)
Definition big_endian_uint32 (bs : bytes) : option Z :=
  match bs with
  | [b3; b2; b1; b0] => Some (((b3 * 256 + b2) * 256 + b1) * 256 + b0)
  | _ => None
  end.

(** The packed sint64 field [tag] of the message found along [path]. *)
Definition packed_sint64_at (path : list Z) (tag : Z) (bs : bytes) : option (list Z) :=
  match decode_at path bs with
  | Some fields =>
      match List.find (fun f : Z * protozero.field_value => fst f =? tag) fields with
      | Some (_, protozero.Bytes body) =>
          option_map (List.map protozero.decode_zigzag64) (protozero.decode_packed body)
      | _ => None
      end
  | None => None
  end.

Definition in_int64 (v : Z) : Prop := - 2 ^ 63 <= v < 2 ^ 63.

(** Delta encoding as arithmetic: each value minus the one before it. *)
Fixpoint differences (prev : Z) (values : list Z) : list Z :=
  match values with
  | [] => []
  | v :: rest => (v - prev) :: differences v rest
  end.

(** The decoder's side of it: running sums. *)
Fixpoint prefix_sums (acc : Z) (deltas : list Z) : list Z :=
  match deltas with
  | [] => []
  | d :: rest => (acc + d) :: prefix_sums (acc + d) rest
  end.

(** ** Sequences of [add_node] calls *)

(** A sequence of [add_node] calls on a DenseNodes buffer. *)
Fixpoint add_nodes {B : Build} (options : pbf_output_options) (ns : list Node)
    (st : StringTable.t) (dn : DenseNodes.t) : StringTable.t * DenseNodes.t :=
  match ns with
  | [] => (st, dn)
  | n :: rest =>
      let (st1, dn1) := DenseNodes.add_node options n st dn in
      add_nodes options rest st1 dn1
  end.

(** The string table as [add_node] leaves it after the user name. *)
Definition after_user (options : pbf_output_options) (n : Node) (st : StringTable.t)
  : StringTable.t :=
  if md_user (add_metadata options) then snd (StringTable.add (user n) st) else st.

(** The runs of a tags array: the indices of each node, each run closed
    by the sentinel 0. *)
Definition with_sentinels (runs : list (list Z)) : list Z :=
  List.concat (List.map (fun run => run ++ [0]) runs).

(** A run belongs to a node: two indices per tag, none of them 0. *)
Definition run_of_node (run : list Z) (n : Node) : Prop :=
  size run = 2 * size (tags n) /\ Forall (fun i => 1 <= i) run.

(** The fields of a DenseInfo message, in the order section 4.3 of the
    spec lists them. *)
Definition DenseInfo_fields (options : pbf_output_options) (dn : DenseNodes.t)
  : list (Z * protozero.field_value) :=
  (if md_version (add_metadata options)
   then column 1 (protozero.packed_varint (DenseNodes.m_versions dn)) else [])
  ++ (if md_timestamp (add_metadata options)
      then column 2 (protozero.packed_svarint (DenseNodes.m_timestamps dn)) else [])
  ++ (if md_changeset (add_metadata options)
      then column 3 (protozero.packed_svarint (DenseNodes.m_changesets dn)) else [])
  ++ (if md_uid (add_metadata options)
      then column 4 (protozero.packed_svarint (DenseNodes.m_uids dn)) else [])
  ++ (if md_user (add_metadata options)
      then column 5 (protozero.packed_svarint (DenseNodes.m_user_sids dn)) else [])
  ++ (if add_visible_flag options
      then column 6 (protozero.packed_varint
                       (List.map (fun b : bool => if b then 1 else 0)
                                 (DenseNodes.m_visibles dn)))
      else []).

(** The fields of a DenseNodes message, in the order section 4.3 of the
    spec lists them. *)
Definition DenseNodes_fields (options : pbf_output_options) (dn : DenseNodes.t)
  : list (Z * protozero.field_value) :=
  column 1 (protozero.packed_svarint (DenseNodes.m_ids dn))
  ++ (if md_any (add_metadata options) || add_visible_flag options
      then column 5 (DenseNodes.serialize_dense_info options dn) else [])
  ++ column 8 (protozero.packed_svarint (DenseNodes.m_lats dn))
  ++ column 9 (protozero.packed_svarint (DenseNodes.m_lons dn))
  ++ column 10 (protozero.packed_varint (DenseNodes.m_tags dn)).

(** The formula of data-model invariant 5 of the spec,
    [round(c x 10^7 / granularity)], in double
    arithmetic. *)
Definition lonlat2int_of_invariant_5 (c : float) : Z :=
  int64_of_integral
    (std_round
       (PrimFloat.div (PrimFloat.mul c (double_of_Z (10 ^ 7)))
                      (double_of_Z location_granularity))).

(** ** Streams of nodes and the jobs they leave *)

(** The bytes a node can add to the string table: its user name, when
    user names are written, and the keys and values of its tags. *)
Definition tag_bytes (tag : Tag) : Z :=
  Z.of_nat (String.length (key tag)) + Z.of_nat (String.length (value tag)).

Definition node_string_bytes (options : pbf_output_options) (n : Node) : Z :=
  (if md_user (add_metadata options) then Z.of_nat (String.length (user n)) else 0)
  + List.fold_right (fun tag acc => tag_bytes tag + acc) 0 (tags n).

Definition string_bytes (options : pbf_output_options) (ns : list Node) : Z :=
  List.fold_right (fun n acc => node_string_bytes options n + acc) 0 ns.

(** The job [store_primitive_block] queues for a block of dense nodes. *)
Definition dense_block_message (options : pbf_output_options) (st : StringTable.t)
    (dn : DenseNodes.t) : bytes :=
  protozero.submessage OSMFormat.PrimitiveBlock.required_StringTable_stringtable
    (List.concat
       (List.map (fun s => protozero.add_bytes OSMFormat.StringTable.repeated_bytes_s
                             (bytes_of_string s))
                 (StringTable.entries st)))
  ++ protozero.add_message OSMFormat.PrimitiveBlock.repeated_PrimitiveGroup_primitivegroup
       (protozero.add_message
          (OSMFormat.PrimitiveGroup.tag OSMFormat.PrimitiveGroup.optional_DenseNodes_dense)
          (DenseNodes.serialize options dn)).

Definition data_job (options : pbf_output_options) (msg : bytes) : SerializeBlob.t :=
  {| SerializeBlob.m_msg := msg;
     SerializeBlob.m_compression_level := compression_level options;
     SerializeBlob.m_blob_type := pbf_blob_type.data;
     SerializeBlob.m_use_compression := use_compression options |}.

(** An encoder whose block holds [count] dense nodes. *)
Definition dense_state (options : pbf_output_options) (queue : list SerializeBlob.t)
    (st : StringTable.t) (dn : DenseNodes.t) (count : Z) : PBFOutputFormat.t :=
  {| PBFOutputFormat.m_options := options;
     PBFOutputFormat.m_primitive_block :=
       {| PrimitiveBlock.m_pbf_primitive_group_data := [];
          PrimitiveBlock.m_stringtable := st;
          PrimitiveBlock.m_dense_nodes := Some dn;
          PrimitiveBlock.m_type := OSMFormat.PrimitiveGroup.optional_DenseNodes_dense;
          PrimitiveBlock.m_count := count |};
     PBFOutputFormat.m_output_queue := queue |}.

(** An encoder as the constructor leaves it, or with a header queued. *)
Definition fresh_state (options : pbf_output_options) (queue : list SerializeBlob.t)
  : PBFOutputFormat.t :=
  {| PBFOutputFormat.m_options := options;
     PBFOutputFormat.m_primitive_block := PrimitiveBlock.init;
     PBFOutputFormat.m_output_queue := queue |}.

(** The ids of a stream count up from 1. *)
Definition sequential_ids (ns : list Node) : Prop :=
  forall (i : nat) (n : Node), List.nth_error ns i = Some n -> id n = Z.of_nat i + 1.

(** What [PrimitiveBlock::size] estimates for the block of dense nodes that
    holds the nodes [ns], added to a block after a reset. *)
Definition dense_block_size {B : Build} (options : pbf_output_options) (ns : list Node) : Z :=
  PrimitiveBlock.size
    (PBFOutputFormat.m_primitive_block
       (dense_state options []
          (fst (add_nodes options ns StringTable.init DenseNodes.init))
          (snd (add_nodes options ns StringTable.init DenseNodes.init))
          (size ns))).

(** The size estimate lets the first [k] nodes of a stream into one block:
    it is below [max_used_blob_size] each time [can_add] is asked for a
    node after the first, that is for the blocks that hold the first 1,
    2, ..., [k - 1] nodes. *)
Definition size_allows {B : Build} (options : pbf_output_options) (ns : list Node) (k : nat)
  : bool :=
  List.forallb
    (fun j : nat =>
       dense_block_size options (List.firstn j ns) <? PrimitiveBlock.max_used_blob_size)
    (List.seq 1 (k - 1)).

(** ** The messages of ways and of their metadata *)

(** The fields of a Way message, as a decoder finds them. *)
Definition Way_fields {B : Build} (options : pbf_output_options) (w : Way)
    (b : PrimitiveBlock.t) : list (Z * protozero.field_value) :=
  let (keys, b1) := PBFOutputFormat.store_all (List.map key (tags w)) b in
  let (vals, b2) := PBFOutputFormat.store_all (List.map value (tags w)) b1 in
  [(1, protozero.Varint (to_uint64 (id w)))]
  ++ column 2 (protozero.packed_varint keys)
  ++ column 3 (protozero.packed_varint vals)
  ++ (if md_any (add_metadata options) || add_visible_flag options
      then column 4 (fst (PBFOutputFormat.add_info options w b2)) else [])
  ++ column 8 (protozero.packed_svarint (PBFOutputFormat.way_refs w))
  ++ (if locations_on_ways options
      then column 10 (protozero.packed_svarint (PBFOutputFormat.way_lons w))
           ++ column 9 (protozero.packed_svarint (PBFOutputFormat.way_lats w))
      else []).

(** The fields of an Info message, as a decoder finds them. *)
Definition Info_fields (options : pbf_output_options) (object : OSMObject)
    (b : PrimitiveBlock.t) : list (Z * protozero.field_value) :=
  (if md_version (add_metadata options)
   then [(1, protozero.Varint (to_uint64 (to_int32 (version object))))] else [])
  ++ (if md_timestamp (add_metadata options)
      then [(2, protozero.Varint (timestamp object mod 2 ^ 32))] else [])
  ++ (if md_changeset (add_metadata options)
      then [(3, protozero.Varint (to_uint64 (changeset object)))] else [])
  ++ (if md_uid (add_metadata options)
      then [(4, protozero.Varint (to_uint64 (to_int32 (uid object))))] else [])
  ++ (if md_user (add_metadata options)
      then [(5, protozero.Varint
                  (fst (PrimitiveBlock.store_in_stringtable_unsigned (user object) b)))]
      else [])
  ++ (if add_visible_flag options
      then [(6, protozero.Varint (if visible object then 1 else 0))] else []).

(** ** The syntax of integers *)

Fixpoint all_chars (p : ascii -> bool) (s : string) : bool :=
  match s with
  | EmptyString => true
  | String c rest => p c && all_chars p rest
  end.

(** What [strtol] reads as a whole as an integer in base 10: white space,
    an optional sign, one digit or more. *)
Definition integer_syntax (s : string) : Prop :=
  exists spaces sign digits : string,
    s = (spaces ++ sign ++ digits)%string
    /\ all_chars isspace spaces = true
    /\ (sign = ""%string \/ sign = "+"%string \/ sign = "-"%string)
    /\ digits <> ""%string
    /\ all_chars isdigit digits = true.

Definition integer_char (c : ascii) : bool :=
  isspace c || Ascii.eqb c "+" || Ascii.eqb c "-" || isdigit c.

(** ** Inputs of the examples *)

(** A build to run the encoder on.  The constants are those the format documents: blobs of at most 16 MiB,
    coordinates in units of 10{^-9} degrees.  The codecs store their input
    unchanged, which keeps the blobs of the examples readable. *)
Definition example_build : Build :=
  {| max_uncompressed_blob_size := 16 * 1024 * 1024;
     lonlat_resolution := 1000 * 1000 * 1000;
     OSMIUM_WITH_LZ4 := false;
     zlib_compress := fun msg _ => Ok msg;
     lz4_compress := fun msg _ => Ok msg;
     zlib_default_compression_level := 6;
     lz4_default_compression_level := 1;
     zlib_check_compression_level :=
       fun v => if (0 <=? v) && (v <=? 9) then Ok tt
                else Throw (invalid_argument "compression level must be between 0 and 9");
     lz4_check_compression_level :=
       fun v => if (1 <=? v) && (v <=? 65537) then Ok tt
                else Throw (invalid_argument "compression level must be between 1 and 65537");
     metadata_options_of_string :=
       fun s => if String.eqb s "" || String.eqb s "all" then Ok md_all
                else if String.eqb s "none" then Ok md_none
                else Throw (invalid_argument "Invalid OSM object metadata option");
     Timestamp_of_string := fun _ => Ok 0;
     Location_valid := fun _ => true;
     str_to_int := fun _ => 0;
     LONG_MIN := - 2 ^ 63;
     LONG_MAX := 2 ^ 63 - 1 |}.

Definition options_without_metadata : pbf_output_options :=
  {| add_metadata := md_none;
     compression_level := 0;
     use_compression := pbf_compression.none;
     use_dense_nodes := true;
     add_historical_information_flag := false;
     add_visible_flag := false;
     locations_on_ways := false |}.

Definition options_with_metadata : pbf_output_options :=
  {| add_metadata := md_all;
     compression_level := 0;
     use_compression := pbf_compression.none;
     use_dense_nodes := true;
     add_historical_information_flag := true;
     add_visible_flag := true;
     locations_on_ways := false |}.

Definition only_timestamps : pbf_output_options :=
  {| add_metadata :=
       {| md_version := false; md_timestamp := true; md_changeset := false;
          md_uid := false; md_user := false |};
     compression_level := 0;
     use_compression := pbf_compression.none;
     use_dense_nodes := true;
     add_historical_information_flag := false;
     add_visible_flag := false;
     locations_on_ways := false |}.

(** A location from its 32-bit fixed-point coordinates, in units of
    10{^-7} degrees, as [osmium::Location] stores them. *)
Definition location_of_fixed (y x : Z) : Location :=
  {| lat_without_check := PrimFloat.div (double_of_Z y) (double_of_Z 10000000);
     lon_without_check := PrimFloat.div (double_of_Z x) (double_of_Z 10000000) |}.

Definition object_without_metadata (i : Z) (ts : list Tag) : OSMObject :=
  {| id := i; version := 0; timestamp := 0; changeset := 0; uid := 0;
     user := ""; visible := true; tags := ts |}.

(** The node with id 1 at lat 1.0000000, lon 2.0000000. *)
Definition node_1 : Node :=
  {| node_object := object_without_metadata 1 [];
     location := {| lat_without_check := 1%float; lon_without_check := 2%float |} |}.

(** The node with id 5 at lat 1.0000003, lon 2.0000000. *)
Definition node_5 : Node :=
  {| node_object :=
       {| id := 5; version := 3; timestamp := 1600000000; changeset := 77; uid := 42;
          user := "mapper"; visible := true;
          tags := [ {| key := "amenity"; value := "cafe" |} ] |};
     location := location_of_fixed 10000003 20000000 |}.

(** The stream of scenario 6 of the spec: nodes with the ids 1, 2, ...,
    all at the same place, without tags. *)
Definition node_at (i : Z) : Node :=
  {| node_object := object_without_metadata i [];
     location := location_of_fixed 10000000 20000000 |}.

Definition nodes_from_1 (count : nat) : list Node :=
  List.map (fun i : nat => node_at (Z.of_nat i)) (List.seq 1 count).

(** The binary digits of a number, least significant first. *)
Fixpoint bits (p : positive) : string :=
  match p with
  | xH => "1"
  | xO q => String "0" (bits q)
  | xI q => String "1" (bits q)
  end.

(** The tag of key k whose value is the number [i + 1] in binary digits:
    tags with different numbers have different values. *)
Definition numbered_tag (i : nat) : Tag :=
  {| key := "k"; value := bits (Pos.of_succ_nat i) |}.

(** A node with [count] tags, all of different values. *)
Definition node_with_tags (count : nat) : Node :=
  {| node_object := object_without_metadata 1 (List.map numbered_tag (List.seq 0 count));
     location := location_of_fixed 10000000 20000000 |}.

(** A stream of 8000 nodes: a node with 32 million tags, then the nodes
    with the ids 2 to 8000, without tags. *)
Definition stream_with_many_tags : list Node :=
  node_with_tags (Z.to_nat 32000000)
  :: List.map (fun i : nat => node_at (Z.of_nat i)) (List.seq 2 (Z.to_nat 7999)).

(** A text of [n] characters [c]. *)
Fixpoint chars (c : ascii) (n : nat) : string :=
  match n with
  | O => EmptyString
  | S m => String c (chars c m)
  end.

(** A tag of 2000 bytes. *)
Definition tag_of_2000_bytes : Tag :=
  {| key := chars "k" 1000; value := chars "v" 1000 |}.

(** A stream of [count] nodes with the ids 1, 2, ..., each with the tag of
    2000 bytes: the string table of a block holds the tag once. *)
Definition node_with_long_tag (i : Z) : Node :=
  {| node_object := object_without_metadata i [tag_of_2000_bytes];
     location := location_of_fixed 10000000 20000000 |}.

Definition nodes_sharing_a_tag (count : nat) : list Node :=
  List.map (fun i : nat => node_with_long_tag (Z.of_nat i)) (List.seq 1 count).

(** A string table that holds, besides the key k, only values of tags
    numbered below [a]. *)
Definition numbered_below (a : nat) (st : StringTable.t) : Prop :=
  forall s : string,
    In s (StringTable.m_strings st) ->
    s = "k"%string \/ exists j : nat, (j < a)%nat /\ s = bits (Pos.of_succ_nat j).

(** An object stamped after the year 2106: its timestamp has 33 bits. *)
Definition late_object : OSMObject :=
  {| id := 1; version := 1; timestamp := 2 ^ 32 + 5; changeset := 1; uid := 1;
     user := "u"; visible := true; tags := [] |}.

Definition late_node : Node :=
  {| node_object := late_object;
     location := location_of_fixed 0 0 |}.

(** The way of scenario 4 of the spec: id 10, refs 100, 101, 103, one
    tag. *)
Definition way_10 : Way :=
  {| way_object :=
       object_without_metadata 10 [ {| key := "highway"; value := "residential" |} ];
     nodes :=
       [ {| ref := 100; node_ref_location := location_of_fixed 0 0 |};
         {| ref := 101; node_ref_location := location_of_fixed 0 0 |};
         {| ref := 103; node_ref_location := location_of_fixed 0 0 |} ] |}.


(** A block of ways whose size estimate is [15938355] bytes, group data
    and empty string table together: just below 95 percent of 16 MiB, which
    is [15938355.2]. *)
Definition block_of_15938355_bytes : PrimitiveBlock.t :=
  {| PrimitiveBlock.m_pbf_primitive_group_data :=
       List.repeat 0 (Z.to_nat (15938355 - StringTable.size StringTable.init));
     PrimitiveBlock.m_stringtable := StringTable.init;
     PrimitiveBlock.m_dense_nodes := None;
     PrimitiveBlock.m_type := OSMFormat.PrimitiveGroup.repeated_Way_ways;
     PrimitiveBlock.m_count := 1 |}.

(** A data blob of five payload bytes, not compressed. *)
Definition job_of_five_bytes : SerializeBlob.t :=
  {| SerializeBlob.m_msg := [1; 2; 3; 4; 5];
     SerializeBlob.m_compression_level := 0;
     SerializeBlob.m_blob_type := pbf_blob_type.data;
     SerializeBlob.m_use_compression := pbf_compression.none |}.

(** Options given as a list of keys and values. *)
Fixpoint lookup (options : list (string * string)) (k : string) : string :=
  match options with
  | [] => ""
  | (k', v) :: rest => if String.eqb k' k then v else lookup rest k
  end.

Definition file_with (options : list (string * string)) : File :=
  {| get := lookup options;
     is_true := fun k => String.eqb (lookup options k) "true";
     is_not_false := fun k => negb (String.eqb (lookup options k) "false");
     has_multiple_object_versions := false |}.

(** ** Verbose output *)

(** A sequence of insertions into a [VerboseOutput]; each comes with the
    reading of the clock at its time. *)
Definition write_all (writes : list (Z * string)) (v : VerboseOutput.t) (cerr : ostream.t)
  : VerboseOutput.t * ostream.t :=
  List.fold_left
    (fun state w => VerboseOutput.operator_shl (fst w) (snd w) (fst state) (snd state))
    writes (v, cerr).

(** The character of a decimal digit. *)
Definition digit_char (d : Z) : ascii := ascii_of_N (Z.to_N (48 + d)).

(** The time stamp of a line started [elapsed] seconds into a run of less
    than a hundred minutes: the minutes on two places, the first filled
    with the fill character of the stream, a colon, the seconds on two
    digits, between brackets and followed by a space. *)
Definition time_stamp (fill : ascii) (elapsed : Z) : string :=
  let minutes := elapsed / 60 in
  let seconds := elapsed mod 60 in
  String "["
    (String (if minutes <? 10 then fill else digit_char (minutes / 10))
       (String (digit_char (minutes mod 10))
          (String ":"
             (String (digit_char (seconds / 10))
                (String (digit_char (seconds mod 10)) "] "))))).

(** ** What the geometry factory asks of its implementation *)

(** A call of a method of the implementation that changes it. *)
Inductive call : Type :=
  | call_linestring_start
  | call_linestring_add_location (c : geom.Coordinates)
  | call_linestring_finish
  | call_multipolygon_start
  | call_multipolygon_polygon_start
  | call_multipolygon_polygon_finish
  | call_multipolygon_outer_ring_start
  | call_multipolygon_outer_ring_finish
  | call_multipolygon_inner_ring_start
  | call_multipolygon_inner_ring_finish
  | call_multipolygon_add_location (c : geom.Coordinates)
  | call_multipolygon_finish.

(** The implementation that does nothing but record the calls made to
    it, in order. *)
#[export] Instance Recorder : geom.TGeomImpl (list call) :=
  {| geom.point_type := geom.Coordinates;
     geom.linestring_type := unit;
     geom.multipolygon_type := unit;
     geom.make_point := fun _ c => c;
     geom.linestring_start := fun calls => calls ++ [call_linestring_start];
     geom.linestring_add_location := fun c calls => calls ++ [call_linestring_add_location c];
     geom.linestring_finish := fun calls => (tt, calls ++ [call_linestring_finish]);
     geom.multipolygon_start := fun calls => calls ++ [call_multipolygon_start];
     geom.multipolygon_polygon_start :=
       fun calls => calls ++ [call_multipolygon_polygon_start];
     geom.multipolygon_polygon_finish :=
       fun calls => calls ++ [call_multipolygon_polygon_finish];
     geom.multipolygon_outer_ring_start :=
       fun calls => calls ++ [call_multipolygon_outer_ring_start];
     geom.multipolygon_outer_ring_finish :=
       fun calls => calls ++ [call_multipolygon_outer_ring_finish];
     geom.multipolygon_inner_ring_start :=
       fun calls => calls ++ [call_multipolygon_inner_ring_start];
     geom.multipolygon_inner_ring_finish :=
       fun calls => calls ++ [call_multipolygon_inner_ring_finish];
     geom.multipolygon_add_location :=
       fun c calls => calls ++ [call_multipolygon_add_location c];
     geom.multipolygon_finish := fun calls => (tt, calls ++ [call_multipolygon_finish]) |}.

(** Making a recorded call on an implementation, and a list of them. *)
Definition perform {impl : Type} {I : geom.TGeomImpl impl} (m : impl) (c : call) : impl :=
  match c with
  | call_linestring_start => geom.linestring_start m
  | call_linestring_add_location c => geom.linestring_add_location c m
  | call_linestring_finish => snd (geom.linestring_finish m)
  | call_multipolygon_start => geom.multipolygon_start m
  | call_multipolygon_polygon_start => geom.multipolygon_polygon_start m
  | call_multipolygon_polygon_finish => geom.multipolygon_polygon_finish m
  | call_multipolygon_outer_ring_start => geom.multipolygon_outer_ring_start m
  | call_multipolygon_outer_ring_finish => geom.multipolygon_outer_ring_finish m
  | call_multipolygon_inner_ring_start => geom.multipolygon_inner_ring_start m
  | call_multipolygon_inner_ring_finish => geom.multipolygon_inner_ring_finish m
  | call_multipolygon_add_location c => geom.multipolygon_add_location c m
  | call_multipolygon_finish => snd (geom.multipolygon_finish m)
  end.

Definition replay {impl : Type} {I : geom.TGeomImpl impl} (calls : list call) (m : impl)
  : impl :=
  List.fold_left perform calls m.

(** The calls [create_linestring] and [create_multipolygon] make. *)
Definition linestring_calls {L : geom.LocationOps}
    (m_projection : Location -> result geom.Coordinates) (wnl : list NodeRef)
    (un : geom.use_nodes) (dir : geom.direction) : list call :=
  snd (geom.create_linestring (I := Recorder) m_projection wnl un dir []).

Definition multipolygon_calls {L : geom.LocationOps}
    (m_projection : Location -> result geom.Coordinates) (area : list geom.AreaItem)
  : list call :=
  snd (geom.create_multipolygon (I := Recorder) m_projection area []).

(** What a call threw, if it threw. *)
Definition error_of {A : Type} (o : geom.outcome A) : option geom.thrown :=
  match o with
  | geom.Returned _ => None
  | geom.Thrown e => Some e
  end.

(** The coordinates added to a linestring, or to the rings of a
    multipolygon, by a list of calls. *)
Definition added_locations (calls : list call) : list geom.Coordinates :=
  List.flat_map
    (fun c => match c with
              | call_linestring_add_location c => [c]
              | call_multipolygon_add_location c => [c]
              | _ => []
              end)
    calls.

(** Each location differs from the one before it, the first one from
    [last]. *)
Fixpoint chain_distinct {L : geom.LocationOps} (last : Location) (locations : list Location)
  : Prop :=
  match locations with
  | [] => True
  | l :: rest => geom.Location_eq last l = false /\ chain_distinct l rest
  end.

(** What a loop that passes over repeated locations has added when it
    ends with [r], having started with [last_location] on [range] after
    the calls [calls]: the coordinates of locations of the range, each
    different from the one before it; and, unless it threw, every location
    of the range is one of them, or equal to one of them or to
    [last_location]. *)
Definition skips_repeats {L : geom.LocationOps}
    (m_projection : Location -> result geom.Coordinates) (last_location : Location)
    (range : list NodeRef) (calls : list call) (r : geom.outcome unit * list call) : Prop :=
  exists (locations : list Location) (coordinates : list geom.Coordinates),
    added_locations (snd r) = added_locations calls ++ coordinates
    /\ Forall2 (fun l c => m_projection l = Ok c) locations coordinates
    /\ chain_distinct last_location locations
    /\ incl locations (List.map node_ref_location range)
    /\ (error_of (fst r) = None ->
        forall node_ref : NodeRef,
          In node_ref range ->
          geom.Location_eq last_location (node_ref_location node_ref) = true
          \/ exists l : Location,
               In l locations
               /\ (l = node_ref_location node_ref
                   \/ geom.Location_eq l (node_ref_location node_ref) = true)).

(** The locations of a list that differ from the one kept before them,
    the first from [last]. *)
Fixpoint without_repeats {L : geom.LocationOps} (last : Location) (locations : list Location)
  : list Location :=
  match locations with
  | [] => []
  | l :: rest =>
      if geom.Location_eq last l then without_repeats last rest
      else l :: without_repeats l rest
  end.

(** The coordinates a projection gives for a location, when it gives
    some. *)
Definition projected (m_projection : Location -> result geom.Coordinates) (l : Location)
  : geom.Coordinates :=
  match m_projection l with
  | Ok c => c
  | Throw _ => {| geom.x := 0%float; geom.y := 0%float |}
  end.

(** The node references of a way in the order a direction takes them. *)
Definition traversal (dir : geom.direction) (wnl : list NodeRef) : list NodeRef :=
  match dir with
  | geom.forward => wnl
  | geom.backward => List.rev wnl
  end.

(** The locations a linestring is made of: those of the nodes of the way
    in the order of the direction; with [use_nodes::unique], without
    those that repeat the location taken before them. *)
Definition linestring_locations {L : geom.LocationOps} (wnl : list NodeRef)
    (un : geom.use_nodes) (dir : geom.direction) : list Location :=
  match un with
  | geom.all => List.map node_ref_location (traversal dir wnl)
  | geom.unique =>
      without_repeats geom.Location_default (List.map node_ref_location (traversal dir wnl))
  end.

(** An implementation after [linestring_add_location] was called on it
    with each of the coordinates, in order. *)
Definition add_locations {impl : Type} {I : geom.TGeomImpl impl}
    (coordinates : list geom.Coordinates) (m : impl) : impl :=
  List.fold_left (fun m c => geom.linestring_add_location c m) coordinates m.

Definition is_outer_ring (it : geom.AreaItem) : bool :=
  match geom.type it with
  | item_type.outer_ring => true
  | _ => false
  end.

Definition is_inner_ring (it : geom.AreaItem) : bool :=
  match geom.type it with
  | item_type.inner_ring => true
  | _ => false
  end.

(** How many of the calls satisfy [p]. *)
Definition calls_of (p : call -> bool) (calls : list call) : Z :=
  size (List.filter p calls).

(** Whether two calls are calls of the same method. *)
Definition same_method (a b : call) : bool :=
  match a, b with
  | call_linestring_start, call_linestring_start => true
  | call_linestring_add_location _, call_linestring_add_location _ => true
  | call_linestring_finish, call_linestring_finish => true
  | call_multipolygon_start, call_multipolygon_start => true
  | call_multipolygon_polygon_start, call_multipolygon_polygon_start => true
  | call_multipolygon_polygon_finish, call_multipolygon_polygon_finish => true
  | call_multipolygon_outer_ring_start, call_multipolygon_outer_ring_start => true
  | call_multipolygon_outer_ring_finish, call_multipolygon_outer_ring_finish => true
  | call_multipolygon_inner_ring_start, call_multipolygon_inner_ring_start => true
  | call_multipolygon_inner_ring_finish, call_multipolygon_inner_ring_finish => true
  | call_multipolygon_add_location _, call_multipolygon_add_location _ => true
  | call_multipolygon_finish, call_multipolygon_finish => true
  | _, _ => false
  end.

(** The rings of an area, by kind. *)
Definition outer_rings (area : list geom.AreaItem) : Z :=
  size (List.filter is_outer_ring area).

Definition inner_rings (area : list geom.AreaItem) : Z :=
  size (List.filter is_inner_ring area).

(** *** Inputs of the examples *)

(** Coordinates as [osmium::Location] stores them: in fixed point, in
    units of 10{^-7} degrees. *)
Definition double_to_fix (c : float) : Z :=
  int64_of_integral (std_round (PrimFloat.mul c (double_of_Z 10000000))).

(** Locations compared by their fixed-point coordinates; the undefined
    location has the largest 32-bit value for both. *)
Definition fixed_point_locations : geom.LocationOps :=
  {| geom.Location_default := location_of_fixed 2147483647 2147483647;
     geom.Location_eq :=
       fun a b =>
         (double_to_fix (lat_without_check a) =? double_to_fix (lat_without_check b))
         && (double_to_fix (lon_without_check a) =? double_to_fix (lon_without_check b)) |}.

(** The projection that gives the fixed-point coordinates back as
    doubles, in degrees. *)
Definition fixed_point_projection (location : Location) : result geom.Coordinates :=
  Ok {| geom.x := PrimFloat.div (double_of_Z (double_to_fix (lon_without_check location)))
                                (double_of_Z 10000000);
        geom.y := PrimFloat.div (double_of_Z (double_to_fix (lat_without_check location)))
                                (double_of_Z 10000000) |}.

(** A way that goes from a corner to a second one and back. *)
Definition way_there_and_back : list NodeRef :=
  [ {| ref := 1; node_ref_location := location_of_fixed 10000000 20000000 |};
    {| ref := 2; node_ref_location := location_of_fixed 10000003 20000000 |};
    {| ref := 1; node_ref_location := location_of_fixed 10000000 20000000 |} ].

(** The same projection for a caller that wants defined locations only:
    it throws for the undefined location. *)
Definition projection_of_defined_locations (location : Location)
  : result geom.Coordinates :=
  if geom.Location_eq (LocationOps := fixed_point_locations)
       (geom.Location_default (LocationOps := fixed_point_locations)) location
  then Throw (invalid_location "invalid location")
  else fixed_point_projection location.

(** A way whose second node has no location. *)
Definition way_through_undefined : list NodeRef :=
  [ {| ref := 1; node_ref_location := location_of_fixed 10000000 20000000 |};
    {| ref := 2; node_ref_location := location_of_fixed 2147483647 2147483647 |};
    {| ref := 3; node_ref_location := location_of_fixed 10000003 20000000 |} ].

(** A way that stays at its first corner for two nodes. *)
Definition way_with_repeat : list NodeRef :=
  [ {| ref := 1; node_ref_location := location_of_fixed 10000000 20000000 |};
    {| ref := 7; node_ref_location := location_of_fixed 10000000 20000000 |};
    {| ref := 2; node_ref_location := location_of_fixed 10000003 20000000 |} ].

(** An area of one outer ring with one inner ring, behind its tags. *)
Definition area_with_hole : list geom.AreaItem :=
  [ {| geom.type := item_type.tag_list; geom.ring := [] |};
    {| geom.type := item_type.outer_ring; geom.ring := way_there_and_back |};
    {| geom.type := item_type.inner_ring; geom.ring := way_with_repeat |} ].

(** An area that holds nothing but its tags. *)
Definition area_without_rings : list geom.AreaItem :=
  [ {| geom.type := item_type.tag_list; geom.ring := [] |} ].

(** ** Buffers of nodes, ways and relations *)

(** The kind of primitive group an item goes to. *)
Definition group_of_item (options : pbf_output_options) (i : PBFOutputFormat.Item)
  : OSMFormat.PrimitiveGroup.t :=
  match i with
  | PBFOutputFormat.an_entity (a_node _) =>
      if use_dense_nodes options
      then OSMFormat.PrimitiveGroup.optional_DenseNodes_dense
      else OSMFormat.PrimitiveGroup.repeated_Node_nodes
  | PBFOutputFormat.an_entity (a_way _) => OSMFormat.PrimitiveGroup.repeated_Way_ways
  | PBFOutputFormat.a_relation _ => OSMFormat.PrimitiveGroup.repeated_Relation_relations
  end.

(** The message [store_primitive_block] builds from a block: its string
    table, then one primitive group with the group data of the block. *)
Definition primitive_block_data (options : pbf_output_options) (b : PrimitiveBlock.t)
  : bytes :=
  protozero.submessage OSMFormat.PrimitiveBlock.required_StringTable_stringtable
    (PrimitiveBlock.write_stringtable b)
  ++ protozero.add_message OSMFormat.PrimitiveBlock.repeated_PrimitiveGroup_primitivegroup
       (fst (PrimitiveBlock.group_data options b)).

(** A block of a type that holds nothing: no group data, no string but
    the reserved one, no DenseNodes buffer, no entity. *)
Definition empty_block (type : OSMFormat.PrimitiveGroup.t) : PrimitiveBlock.t :=
  {| PrimitiveBlock.m_pbf_primitive_group_data := [];
     PrimitiveBlock.m_stringtable := StringTable.init;
     PrimitiveBlock.m_dense_nodes := None;
     PrimitiveBlock.m_type := type;
     PrimitiveBlock.m_count := 0 |}.

(** The message of an item, written with the string table of a block. *)
Definition item_message {B : Build} {N : NwrIndex} (options : pbf_output_options)
    (i : PBFOutputFormat.Item) (b : PrimitiveBlock.t) : bytes * PrimitiveBlock.t :=
  match i with
  | PBFOutputFormat.an_entity (a_node n) => PBFOutputFormat.node_message options n b
  | PBFOutputFormat.an_entity (a_way w) => PBFOutputFormat.way_message options w b
  | PBFOutputFormat.a_relation r => PBFOutputFormat.relation_message options r b
  end.

(** A block with one item more.  A dense node goes to the DenseNodes
    buffer, which is made when the block has none, and its strings to the
    string table; the group data stay.  For every other item its message
    is appended to the group data as one field of the group, and its
    strings go to the string table; the DenseNodes buffer stays. *)
Definition with_item {B : Build} {N : NwrIndex} (options : pbf_output_options)
    (i : PBFOutputFormat.Item) (b : PrimitiveBlock.t) : PrimitiveBlock.t :=
  match group_of_item options i, i with
  | OSMFormat.PrimitiveGroup.optional_DenseNodes_dense, PBFOutputFormat.an_entity (a_node n) =>
      let dn := match PrimitiveBlock.m_dense_nodes b with
                | Some dn => dn
                | None => DenseNodes.init
                end in
      {| PrimitiveBlock.m_pbf_primitive_group_data := PrimitiveBlock.m_pbf_primitive_group_data b;
         PrimitiveBlock.m_stringtable :=
           fst (add_nodes options [n] (PrimitiveBlock.m_stringtable b) dn);
         PrimitiveBlock.m_dense_nodes :=
           Some (snd (add_nodes options [n] (PrimitiveBlock.m_stringtable b) dn));
         PrimitiveBlock.m_type := PrimitiveBlock.m_type b;
         PrimitiveBlock.m_count := PrimitiveBlock.m_count b + 1 |}
  | type, _ =>
      let r := item_message options i (PrimitiveBlock.group b) in
      {| PrimitiveBlock.m_pbf_primitive_group_data :=
           PrimitiveBlock.m_pbf_primitive_group_data b
           ++ protozero.submessage (OSMFormat.PrimitiveGroup.tag type) (fst r);
         PrimitiveBlock.m_stringtable := PrimitiveBlock.m_stringtable (snd r);
         PrimitiveBlock.m_dense_nodes := PrimitiveBlock.m_dense_nodes b;
         PrimitiveBlock.m_type := PrimitiveBlock.m_type b;
         PrimitiveBlock.m_count := PrimitiveBlock.m_count b + 1 |}
  end.

(** Two blocks that differ in nothing but their string table and the
    bytes of their group. *)
Definition same_entities (b b' : PrimitiveBlock.t) : Prop :=
  PrimitiveBlock.m_count b' = PrimitiveBlock.m_count b
  /\ PrimitiveBlock.m_type b' = PrimitiveBlock.m_type b
  /\ PrimitiveBlock.m_dense_nodes b' = PrimitiveBlock.m_dense_nodes b.

(** A block holds its entities where its type says.  A block of dense
    nodes has an empty group, and its DenseNodes buffer, which it has as
    soon as it holds a node, holds as many nodes as the block counts; a
    block of another type has no DenseNodes buffer. *)
Definition block_in_order (b : PrimitiveBlock.t) : Prop :=
  0 <= PrimitiveBlock.count b
  /\ (PrimitiveBlock.type b = OSMFormat.PrimitiveGroup.optional_DenseNodes_dense ->
      PrimitiveBlock.m_pbf_primitive_group_data b = []
      /\ match PrimitiveBlock.m_dense_nodes b with
         | Some dn => size (DenseNodes.m_ids dn) = PrimitiveBlock.count b
         | None => PrimitiveBlock.count b = 0
         end)
  /\ (PrimitiveBlock.type b <> OSMFormat.PrimitiveGroup.optional_DenseNodes_dense ->
      PrimitiveBlock.m_dense_nodes b = None).

(** ** The messages of nodes and relations *)

(** The fields of a Node message, as a decoder finds them. *)
Definition Node_fields {B : Build} (options : pbf_output_options) (n : Node)
    (b : PrimitiveBlock.t) : list (Z * protozero.field_value) :=
  let (keys, b1) := PBFOutputFormat.store_all (List.map key (tags n)) b in
  let (vals, b2) := PBFOutputFormat.store_all (List.map value (tags n)) b1 in
  [(1, protozero.Varint (protozero.encode_zigzag64 (id n)))]
  ++ column 2 (protozero.packed_varint keys)
  ++ column 3 (protozero.packed_varint vals)
  ++ (if md_any (add_metadata options) || add_visible_flag options
      then column 4 (fst (PBFOutputFormat.add_info options n b2)) else [])
  ++ [(8, protozero.Varint
            (protozero.encode_zigzag64 (lonlat2int (lat_without_check (location n)))));
      (9, protozero.Varint
            (protozero.encode_zigzag64 (lonlat2int (lon_without_check (location n)))))].

(** The string table indices of the roles of a relation, as the handler
    gets them, after the tags and the user name are stored. *)
Definition relation_roles (options : pbf_output_options) (r : Relation)
    (b : PrimitiveBlock.t) : list Z :=
  fst (PBFOutputFormat.store_roles (members r)
         (snd (PBFOutputFormat.add_meta options OSMFormat.Relation.packed_uint32_keys
                 OSMFormat.Relation.packed_uint32_vals OSMFormat.Relation.optional_Info_info
                 r b))).

(** The fields of a Relation message, as a decoder finds them. *)
Definition Relation_fields {N : NwrIndex} (options : pbf_output_options) (r : Relation)
    (b : PrimitiveBlock.t) : list (Z * protozero.field_value) :=
  let (keys, b1) := PBFOutputFormat.store_all (List.map key (tags r)) b in
  let (vals, b2) := PBFOutputFormat.store_all (List.map value (tags r)) b1 in
  [(1, protozero.Varint (to_uint64 (id r)))]
  ++ column 2 (protozero.packed_varint keys)
  ++ column 3 (protozero.packed_varint vals)
  ++ (if md_any (add_metadata options) || add_visible_flag options
      then column 4 (fst (PBFOutputFormat.add_info options r b2)) else [])
  ++ column 8 (protozero.packed_varint (relation_roles options r b))
  ++ column 9 (protozero.packed_svarint (PBFOutputFormat.relation_memids r))
  ++ column 10 (protozero.packed_varint (PBFOutputFormat.relation_types r)).

(** The member types of the OSM PBF format: 0 for a node, 1 for a way, 2
    for a relation. *)
Definition nwr_index : NwrIndex :=
  {| item_type_to_nwr_index := fun type => item_type.value type - 1 |}.

(** The relation of scenario 5 of the spec: id 7, with the ways 20 and
    22 as outer and inner member. *)
Definition relation_7 : Relation :=
  {| relation_object := object_without_metadata 7 [];
     members :=
       [ {| member_type := item_type.way; member_ref := 20; role := "outer" |};
         {| member_type := item_type.way; member_ref := 22; role := "inner" |} ] |}.

(** ** The header block *)

(** The features a header announces as required, and as optional. *)
Definition required_features (options : pbf_output_options) : list string :=
  ["OsmSchema-V0.6"%string]
  ++ (if use_dense_nodes options then ["DenseNodes"%string] else [])
  ++ (if add_historical_information_flag options then ["HistoricalInformation"%string]
      else []).

Definition optional_features (options : pbf_output_options) (header : Header)
  : list string :=
  (if locations_on_ways options then ["LocationsOnWays"%string] else [])
  ++ (if String.eqb (header_get header "sorting") "Type_then_ID"
      then ["Sort.Type_then_ID"%string] else []).

(** A field that holds a string. *)
Definition string_field (tag : Z) (s : string) : Z * protozero.field_value :=
  (tag, protozero.Bytes (bytes_of_string s)).

(** The fields of the bounding box of a header. *)
Definition HeaderBBox_fields {B : Build} (header : Header)
  : list (Z * protozero.field_value) :=
  let box := joined_boxes header in
  [(1, protozero.Varint
         (protozero.encode_zigzag64
            (PBFOutputFormat.bbox_coordinate (lon_without_check (bottom_left box)))));
   (2, protozero.Varint
         (protozero.encode_zigzag64
            (PBFOutputFormat.bbox_coordinate (lon_without_check (top_right box)))));
   (3, protozero.Varint
         (protozero.encode_zigzag64
            (PBFOutputFormat.bbox_coordinate (lat_without_check (top_right box)))));
   (4, protozero.Varint
         (protozero.encode_zigzag64
            (PBFOutputFormat.bbox_coordinate (lat_without_check (bottom_left box)))))].

(** The fields of a HeaderBlock message behind the bounding box. *)
Definition HeaderBlock_fields {B : Build} (options : pbf_output_options) (header : Header)
    (replication_timestamp : list (Z * protozero.field_value))
  : list (Z * protozero.field_value) :=
  List.map (string_field 4) (required_features options)
  ++ List.map (string_field 5) (optional_features options header)
  ++ [string_field 16 (header_get header "generator")]
  ++ replication_timestamp
  ++ (if String.eqb (header_get header "osmosis_replication_sequence_number") "" then []
      else [(33, protozero.Varint
                   (to_uint64
                      (str_to_int (header_get header "osmosis_replication_sequence_number"))))])
  ++ (if String.eqb (header_get header "osmosis_replication_base_url") "" then []
      else [string_field 34 (header_get header "osmosis_replication_base_url")]).

(** The options the constructor settles on for a file that sets none, in
    the build of the examples. *)
Definition options_by_default : pbf_output_options :=
  {| add_metadata := md_all;
     compression_level := 6;
     use_compression := pbf_compression.zlib;
     use_dense_nodes := true;
     add_historical_information_flag := false;
     add_visible_flag := false;
     locations_on_ways := false |}.

(** A header without boxes, written by a program that gives its name. *)
Definition header_of_generator : Header :=
  {| boxes := [];
     joined_boxes := {| bottom_left := location_of_fixed 0 0;
                        top_right := location_of_fixed 0 0 |};
     header_get := lookup [("generator", "osmium")]%string |}.

(** * Properties *)

(** ** Arithmetic of the wire format *)

Lemma size_app {A : Type} (l1 l2 : list A) : size (l1 ++ l2) = size l1 + size l2.
Proof. unfold size. rewrite List.length_app. lia. Qed.

Lemma size_nonneg {A : Type} (l : list A) : 0 <= size l.
Proof. unfold size. lia. Qed.

Lemma size_push_back {A : Type} (l : list A) (x : A) : size (push_back l x) = size l + 1.
Proof. unfold push_back. rewrite size_app. reflexivity. Qed.

Lemma to_uint32_small (z : Z) : 0 <= z < 2 ^ 32 -> to_uint32 z = z.
Proof. intros H. unfold to_uint32. apply Z.mod_small. exact H. Qed.

Lemma to_uint64_small (z : Z) : 0 <= z < 2 ^ 64 -> to_uint64 z = z.
Proof. intros H. unfold to_uint64. apply Z.mod_small. exact H. Qed.

Lemma to_int32_small (z : Z) : - 2 ^ 31 <= z < 2 ^ 31 -> to_int32 z = z.
Proof. intros H. unfold to_int32. rewrite Z.mod_small; lia. Qed.

Lemma low7_bits (v : Z) : Z.land v 127 = v mod 128.
Proof. change 127 with (Z.ones 7). rewrite Z.land_ones by lia. reflexivity. Qed.

Lemma continuation_byte (v : Z) : Z.lor (Z.land v 127) 128 = v mod 128 + 128.
Proof.
  assert (Hdisjoint : Z.land (Z.land v 127) 128 = 0).
  { rewrite <- Z.land_assoc. change (Z.land 127 128) with 0. apply Z.land_0_r. }
  rewrite <- Z.lxor_lor by exact Hdisjoint.
  rewrite <- Z.add_nocarry_lxor by exact Hdisjoint.
  rewrite low7_bits. reflexivity.
Qed.

Module protozero_facts.
Import protozero.

(** The loop of [write_varint] writes the base-128 digits of the value,
    least significant first; reading them back gives the value. *)
Lemma decode_write_varint_loop (fuel : nat) :
  forall (v : Z) (rest : bytes),
    0 <= v < 2 ^ (7 * (Z.of_nat fuel + 1)) ->
    decode_varint (write_varint_loop fuel v ++ rest) = Some (v, rest).
Proof.
  induction fuel as [| fuel IH]; intros v rest Hv.
  - simpl. change (2 ^ (7 * (Z.of_nat 0 + 1))) with 128 in Hv.
    destruct (Z.ltb_spec v 128); [reflexivity | lia].
  - cbn [write_varint_loop].
    destruct (Z.leb_spec 128 v) as [Hbig | Hsmall].
    + cbn [List.app decode_varint].
      rewrite continuation_byte.
      assert (Hdigit : 0 <= v mod 128 < 128) by (apply Z.mod_pos_bound; lia).
      destruct (Z.ltb_spec (v mod 128 + 128) 128); [lia |].
      rewrite Z.shiftr_div_pow2 by lia. change (2 ^ 7) with 128.
      rewrite IH.
      * f_equal. f_equal.
        replace ((v mod 128 + 128) mod 128) with (v mod 128).
        -- pose proof (Z.div_mod v 128). lia.
        -- rewrite <- Z.add_mod_idemp_r by lia. change (128 mod 128) with 0.
           rewrite Z.add_0_r. rewrite Z.mod_mod by lia. reflexivity.
      * split; [apply Z.div_pos; lia |].
        apply Z.div_lt_upper_bound; [lia |].
        replace (7 * (Z.of_nat (S fuel) + 1)) with (7 + 7 * (Z.of_nat fuel + 1)) in Hv by lia.
        rewrite Z.pow_add_r in Hv by lia. change (2 ^ 7) with 128 in Hv. lia.
    + cbn [List.app decode_varint].
      destruct (Z.ltb_spec v 128); [reflexivity | lia].
Qed.

Lemma decode_add_varint (v : Z) (rest : bytes) :
  0 <= v < 2 ^ 64 ->
  decode_varint (add_varint v ++ rest) = Some (v, rest).
Proof.
  intros Hv. unfold add_varint. apply decode_write_varint_loop.
  change (2 ^ (7 * (Z.of_nat 9 + 1))) with (2 ^ 70). lia.
Qed.

(** A varint takes at least one byte. *)
Lemma write_varint_loop_nonempty (fuel : nat) (v : Z) : write_varint_loop fuel v <> [].
Proof. destruct fuel; simpl; [| destruct (128 <=? v)]; discriminate. Qed.

Lemma add_varint_nonempty (v : Z) : add_varint v <> [].
Proof. apply write_varint_loop_nonempty. Qed.

(** The key of a field: number and wire type. *)
Lemma field_key (tag w : Z) :
  0 <= tag -> 0 <= w < 8 ->
  Z.lor (Z.shiftl tag 3) w = 8 * tag + w.
Proof.
  intros Htag Hw.
  assert (Hdisjoint : Z.land (Z.shiftl tag 3) w = 0).
  { replace w with (Z.land w 7) at 1
      by (change 7 with (Z.ones 3); rewrite Z.land_ones by lia; apply Z.mod_small; exact Hw).
    rewrite Z.land_assoc.
    replace (Z.land (Z.shiftl tag 3) w) with (Z.land w (Z.shiftl tag 3)) by apply Z.land_comm.
    rewrite <- Z.land_assoc.
    replace (Z.land (Z.shiftl tag 3) 7) with 0; [apply Z.land_0_r |].
    change 7 with (Z.ones 3). rewrite Z.land_ones by lia.
    rewrite Z.shiftl_mul_pow2 by lia. symmetry. apply Z.mod_mul. lia. }
  rewrite <- Z.lxor_lor by exact Hdisjoint.
  rewrite <- Z.add_nocarry_lxor by exact Hdisjoint.
  rewrite Z.shiftl_mul_pow2 by lia. change (2 ^ 3) with 8. lia.
Qed.

Lemma wire_type_code_bound (t : pbf_wire_type) : 0 <= wire_type_code t < 8.
Proof. destruct t; simpl; lia. Qed.

Lemma decode_add_field (tag : Z) (t : pbf_wire_type) (rest : bytes) :
  0 <= tag < 2 ^ 29 ->
  decode_varint (add_field tag t ++ rest) = Some (8 * tag + wire_type_code t, rest).
Proof.
  intros Htag. unfold add_field.
  pose proof (wire_type_code_bound t) as Hw.
  rewrite field_key by lia.
  rewrite to_uint32_small by lia.
  apply decode_add_varint. lia.
Qed.

Lemma key_number (tag w : Z) : 0 <= w < 8 -> Z.shiftr (8 * tag + w) 3 = tag.
Proof.
  intros Hw. rewrite Z.shiftr_div_pow2 by lia. change (2 ^ 3) with 8.
  symmetry. apply Z.div_unique with (r := w); lia.
Qed.

Lemma key_wire_type (tag w : Z) : 0 <= w < 8 -> Z.land (8 * tag + w) 7 = w.
Proof.
  intros Hw. change 7 with (Z.ones 3). rewrite Z.land_ones by lia. change (2 ^ 3) with 8.
  symmetry. apply Z.mod_unique with (q := tag); lia.
Qed.

Lemma decode_field_varint (tag v : Z) (rest : bytes) :
  0 <= tag < 2 ^ 29 -> 0 <= v < 2 ^ 64 ->
  decode_field (add_tagged_varint tag v ++ rest) = Some (tag, Varint v, rest).
Proof.
  intros Htag Hv. unfold decode_field, add_tagged_varint.
  rewrite <- List.app_assoc, decode_add_field by exact Htag.
  rewrite key_wire_type, key_number by apply wire_type_code_bound.
  cbn [wire_type_code]. rewrite decode_add_varint by exact Hv. reflexivity.
Qed.

Lemma firstn_size_app {A : Type} (l1 l2 : list A) :
  firstn (Z.to_nat (size l1)) (l1 ++ l2) = l1.
Proof.
  unfold size. rewrite Nat2Z.id, List.firstn_app, Nat.sub_diag, List.firstn_all.
  cbn [firstn]. apply List.app_nil_r.
Qed.

Lemma skipn_size_app {A : Type} (l1 l2 : list A) :
  skipn (Z.to_nat (size l1)) (l1 ++ l2) = l2.
Proof.
  unfold size. rewrite Nat2Z.id, List.skipn_app, Nat.sub_diag, List.skipn_all.
  reflexivity.
Qed.

Lemma decode_field_bytes (tag : Z) (data rest : bytes) :
  0 <= tag < 2 ^ 29 -> size data < 2 ^ 32 ->
  decode_field (add_bytes tag data ++ rest) = Some (tag, Bytes data, rest).
Proof.
  intros Htag Hsize. unfold decode_field, add_bytes.
  rewrite <- List.app_assoc, decode_add_field by exact Htag.
  rewrite key_wire_type, key_number by apply wire_type_code_bound.
  cbn [wire_type_code].
  pose proof (size_nonneg data) as Hpos.
  rewrite to_uint32_small by lia.
  rewrite <- List.app_assoc, decode_add_varint by lia.
  rewrite size_app.
  pose proof (size_nonneg rest) as Hrest.
  destruct (Z.leb_spec (size data) (size data + size rest)); [| lia].
  rewrite firstn_size_app, skipn_size_app. reflexivity.
Qed.

Lemma submessage_add_bytes (tag : Z) (body : bytes) :
  body <> [] -> submessage tag body = add_bytes tag body.
Proof. intros H. destruct body; [contradiction | reflexivity]. Qed.

Lemma add_bytes_nonempty (tag : Z) (data : bytes) : add_bytes tag data <> [].
Proof.
  unfold add_bytes, add_field. intros H.
  apply List.app_eq_nil in H. destruct H as [H _].
  exact (add_varint_nonempty _ H).
Qed.

Lemma add_tagged_varint_nonempty (tag v : Z) : add_tagged_varint tag v <> [].
Proof.
  unfold add_tagged_varint, add_field. intros H.
  apply List.app_eq_nil in H. destruct H as [H _].
  exact (add_varint_nonempty _ H).
Qed.

(** More fuel does not change what the decoder of messages finds. *)
Lemma decode_message_loop_more (n : nat) :
  forall (m : nat) (bs : bytes) (fs : list (Z * field_value)),
    decode_message_loop n bs = Some fs -> (n <= m)%nat ->
    decode_message_loop m bs = Some fs.
Proof.
  induction n as [| n IH]; intros m bs fs H Hle.
  - destruct bs; simpl in H; [| discriminate].
    destruct m; exact H.
  - destruct m as [| m]; [lia |].
    destruct bs as [| b bs]; [exact H |].
    cbn [decode_message_loop] in *.
    destruct (decode_field (b :: bs)) as [[[tag v] rest] |]; [| discriminate].
    destruct (decode_message_loop n rest) as [fs' |] eqn:Hrest; [| discriminate].
    rewrite (IH m rest fs' Hrest) by lia. exact H.
Qed.

(** A field that decodes at the front of a message is the first field of
    the decoded message. *)
Lemma decode_message_cons (field rest : bytes) (tag : Z) (v : field_value)
    (fs : list (Z * field_value)) :
  field <> [] ->
  decode_field (field ++ rest) = Some (tag, v, rest) ->
  decode_message rest = Some fs ->
  decode_message (field ++ rest) = Some ((tag, v) :: fs).
Proof.
  intros Hne Hfield Hrest. unfold decode_message in *.
  destruct field as [| b field]; [contradiction |].
  cbn [List.app List.length decode_message_loop] in *.
  rewrite Hfield.
  rewrite (decode_message_loop_more _ (List.length (field ++ rest)) _ _ Hrest).
  - reflexivity.
  - rewrite List.length_app. lia.
Qed.

Lemma decode_message_nil : decode_message [] = Some [].
Proof. reflexivity. Qed.

End protozero_facts.

(** ** item_type.hpp *)

(** C10.  For every value [t] of the [item_type] enumeration,
    [char_to_item_type (item_type_to_char t)] is [t]; and for every
    character outside the twelve recognized codes, [char_to_item_type]
    returns [item_type::undefined]. *)
Theorem char_to_item_type_to_char :
  (forall type : item_type.t, char_to_item_type (item_type_to_char type) = type)
  /\ (forall c : ascii, ~ In c item_type_chars -> char_to_item_type c = item_type.undefined).
Proof.
  split.
  - intros type. destruct type; reflexivity.
  - intros c Hc.
    destruct c as [[] [] [] [] [] [] [] []]; try reflexivity;
      exfalso; apply Hc; unfold item_type_chars;
      repeat (first [ left; reflexivity | right ]).
Qed.

(** ** PrimitiveBlock::can_add *)

Lemma PrimitiveGroup_eqb_eq (x y : OSMFormat.PrimitiveGroup.t) :
  OSMFormat.PrimitiveGroup.eqb x y = true <-> x = y.
Proof.
  split.
  - destruct x, y; intros H; try reflexivity; discriminate H.
  - intros ->. destruct y; reflexivity.
Qed.

Lemma PrimitiveGroup_eqb_refl (x : OSMFormat.PrimitiveGroup.t) :
  OSMFormat.PrimitiveGroup.eqb x x = true.
Proof. apply PrimitiveGroup_eqb_eq. reflexivity. Qed.

Lemma size_block_of_15938355_bytes :
  PrimitiveBlock.size block_of_15938355_bytes = 15938355.
Proof.
  unfold PrimitiveBlock.size, block_of_15938355_bytes, size.
  cbn [PrimitiveBlock.m_pbf_primitive_group_data PrimitiveBlock.m_stringtable
       PrimitiveBlock.m_dense_nodes].
  rewrite List.repeat_length, Z2Nat.id by (vm_compute; discriminate). lia.
Qed.

(** C1, as stated, fails: with 16 MiB blobs, a block of the asked kind
    with one entity and a size estimate of 15938355 bytes is below 0.95 x
    16 MiB (100 x size < 95 x 16 MiB), and [can_add] returns false. *)
Lemma can_add_false_below_95_percent :
  @max_uncompressed_blob_size example_build = 16 * 1024 * 1024
  /\ PrimitiveBlock.type block_of_15938355_bytes = OSMFormat.PrimitiveGroup.repeated_Way_ways
  /\ PrimitiveBlock.count block_of_15938355_bytes < max_entities_per_block
  /\ 100 * PrimitiveBlock.size block_of_15938355_bytes
     < 95 * @max_uncompressed_blob_size example_build
  /\ @PrimitiveBlock.can_add example_build OSMFormat.PrimitiveGroup.repeated_Way_ways
       block_of_15938355_bytes = false.
Proof.
  split; [reflexivity |].
  split; [reflexivity |].
  split; [reflexivity |].
  split.
  - rewrite size_block_of_15938355_bytes. reflexivity.
  - unfold PrimitiveBlock.can_add.
    change (PrimitiveBlock.m_type block_of_15938355_bytes)
      with OSMFormat.PrimitiveGroup.repeated_Way_ways.
    change (PrimitiveBlock.count block_of_15938355_bytes) with 1.
    rewrite size_block_of_15938355_bytes. reflexivity.
Qed.

(** When [can_add] says yes. *)
Lemma can_add_true_iff {B : Build} (type : OSMFormat.PrimitiveGroup.t) (b : PrimitiveBlock.t) :
  PrimitiveBlock.can_add type b = true
  <-> type = PrimitiveBlock.type b
      /\ PrimitiveBlock.count b < max_entities_per_block
      /\ PrimitiveBlock.size b < PrimitiveBlock.max_used_blob_size.
Proof.
  unfold PrimitiveBlock.can_add, PrimitiveBlock.type.
  destruct (OSMFormat.PrimitiveGroup.eqb type (PrimitiveBlock.m_type b)) eqn:E; cbn [negb].
  - apply PrimitiveGroup_eqb_eq in E.
    destruct (Z.leb_spec max_entities_per_block (PrimitiveBlock.count b)).
    + split; [discriminate | lia].
    + rewrite Z.ltb_lt. tauto.
  - split; [discriminate |]. intros [Htype _].
    apply PrimitiveGroup_eqb_eq in Htype. congruence.
Qed.

Lemma can_add_false_iff {B : Build} (type : OSMFormat.PrimitiveGroup.t) (b : PrimitiveBlock.t) :
  PrimitiveBlock.can_add type b = false
  <-> type <> PrimitiveBlock.type b
      \/ max_entities_per_block <= PrimitiveBlock.count b
      \/ PrimitiveBlock.max_used_blob_size <= PrimitiveBlock.size b.
Proof.
  pose proof (can_add_true_iff type b) as H.
  destruct (PrimitiveBlock.can_add type b).
  - split; [discriminate |]. intros Hor.
    destruct (proj1 H eq_refl) as (Htype & Hcount & Hsize).
    destruct Hor as [Hne | [Hc | Hs]]; [contradiction | lia | lia].
  - split; [| reflexivity]. intros _.
    destruct (OSMFormat.PrimitiveGroup.eqb type (PrimitiveBlock.type b)) eqn:E.
    + apply PrimitiveGroup_eqb_eq in E.
      destruct (Z.le_gt_cases max_entities_per_block (PrimitiveBlock.count b)); [tauto |].
      destruct (Z.le_gt_cases PrimitiveBlock.max_used_blob_size (PrimitiveBlock.size b));
        [tauto |].
      assert (false = true) by (apply H; repeat split; [exact E | lia | lia]).
      discriminate.
    + left. intros Heq. apply PrimitiveGroup_eqb_eq in Heq. congruence.
Qed.

(** C1, amended.  [can_add(K)] returns false if the type of the block
    differs from [K], false if the block holds at least
    [max_entities_per_block] (8000) entities, false if its [size()] is at
    least [max_used_blob_size], and true otherwise, where
    [max_used_blob_size] is [max_uncompressed_blob_size * 95 / 100] in
    integer arithmetic: 15938355 for 16 MiB. *)
Theorem can_add_cases {B : Build} (type : OSMFormat.PrimitiveGroup.t) (b : PrimitiveBlock.t) :
  (type <> PrimitiveBlock.type b -> PrimitiveBlock.can_add type b = false)
  /\ (max_entities_per_block <= PrimitiveBlock.count b -> PrimitiveBlock.can_add type b = false)
  /\ (PrimitiveBlock.max_used_blob_size <= PrimitiveBlock.size b ->
      PrimitiveBlock.can_add type b = false)
  /\ (type = PrimitiveBlock.type b ->
      PrimitiveBlock.count b < max_entities_per_block ->
      PrimitiveBlock.size b < PrimitiveBlock.max_used_blob_size ->
      PrimitiveBlock.can_add type b = true)
  /\ max_entities_per_block = 8000
  /\ (max_uncompressed_blob_size = 16 * 1024 * 1024 ->
      PrimitiveBlock.max_used_blob_size = 15938355).
Proof.
  repeat split.
  - intros H. apply can_add_false_iff. tauto.
  - intros H. apply can_add_false_iff. tauto.
  - intros H. apply can_add_false_iff. tauto.
  - intros Htype Hcount Hsize. apply can_add_true_iff. tauto.
  - intros HM. unfold PrimitiveBlock.max_used_blob_size. rewrite HM. reflexivity.
Qed.

(** The cases of [can_add_cases] at the block of 15938355 bytes. *)
Lemma can_add_cases_witness :
  @PrimitiveBlock.can_add example_build OSMFormat.PrimitiveGroup.repeated_Node_nodes
    block_of_15938355_bytes = false
  /\ @PrimitiveBlock.max_used_blob_size example_build = 15938355.
Proof.
  pose proof (@can_add_cases example_build OSMFormat.PrimitiveGroup.repeated_Node_nodes
                block_of_15938355_bytes) as [Htype [_ [_ [_ [_ Hmax]]]]].
  split.
  - apply Htype. discriminate.
  - apply Hmax. reflexivity.
Defined.

(** ** DenseNodes::add_node *)

Ltac destruct_flags options :=
  destruct options as [[[] [] [] [] []] ? ? ? ? [] ?].

(** What one call of [add_node] does to each vector and delta encoder. *)
Lemma add_node_fields {B : Build} (options : pbf_output_options) (n : Node)
    (st : StringTable.t) (dn : DenseNodes.t) :
  let r := snd (DenseNodes.add_node options n st dn) in
  DenseNodes.m_ids r
    = push_back (DenseNodes.m_ids dn) (id n - DeltaEncode.m_value (DenseNodes.m_delta_id dn))
  /\ DenseNodes.m_delta_id r = {| DeltaEncode.m_value := id n |}
  /\ DenseNodes.m_versions r
     = (if md_version (add_metadata options)
        then push_back (DenseNodes.m_versions dn) (to_int32 (version n))
        else DenseNodes.m_versions dn)
  /\ DenseNodes.m_timestamps r
     = (if md_timestamp (add_metadata options)
        then push_back (DenseNodes.m_timestamps dn)
               (Timestamp_to_uint32 (timestamp n)
                - DeltaEncode.m_value (DenseNodes.m_delta_timestamp dn))
        else DenseNodes.m_timestamps dn)
  /\ DenseNodes.m_delta_timestamp r
     = (if md_timestamp (add_metadata options)
        then {| DeltaEncode.m_value := Timestamp_to_uint32 (timestamp n) |}
        else DenseNodes.m_delta_timestamp dn)
  /\ DenseNodes.m_changesets r
     = (if md_changeset (add_metadata options)
        then push_back (DenseNodes.m_changesets dn)
               (changeset n - DeltaEncode.m_value (DenseNodes.m_delta_changeset dn))
        else DenseNodes.m_changesets dn)
  /\ DenseNodes.m_uids r
     = (if md_uid (add_metadata options)
        then push_back (DenseNodes.m_uids dn)
               (uid n - DeltaEncode.m_value (DenseNodes.m_delta_uid dn))
        else DenseNodes.m_uids dn)
  /\ DenseNodes.m_user_sids r
     = (if md_user (add_metadata options)
        then push_back (DenseNodes.m_user_sids dn)
               (fst (StringTable.add (user n) st)
                - DeltaEncode.m_value (DenseNodes.m_delta_user_sid dn))
        else DenseNodes.m_user_sids dn)
  /\ DenseNodes.m_visibles r
     = (if add_visible_flag options
        then push_back (DenseNodes.m_visibles dn) (visible n)
        else DenseNodes.m_visibles dn)
  /\ DenseNodes.m_lats r
     = push_back (DenseNodes.m_lats dn)
         (lonlat2int (lat_without_check (location n))
          - DeltaEncode.m_value (DenseNodes.m_delta_lat dn))
  /\ DenseNodes.m_delta_lat r
     = {| DeltaEncode.m_value := lonlat2int (lat_without_check (location n)) |}
  /\ DenseNodes.m_lons r
     = push_back (DenseNodes.m_lons dn)
         (lonlat2int (lon_without_check (location n))
          - DeltaEncode.m_value (DenseNodes.m_delta_lon dn))
  /\ DenseNodes.m_delta_lon r
     = {| DeltaEncode.m_value := lonlat2int (lon_without_check (location n)) |}
  /\ DenseNodes.m_tags r
     = push_back (snd (DenseNodes.add_tags (tags n) (after_user options n st)
                         (DenseNodes.m_tags dn))) 0
  /\ fst (DenseNodes.add_node options n st dn)
     = fst (DenseNodes.add_tags (tags n) (after_user options n st) (DenseNodes.m_tags dn)).
Proof.
  unfold DenseNodes.add_node, after_user, DeltaEncode.update.
  destruct_flags options; cbn [add_metadata add_visible_flag md_version md_timestamp
    md_changeset md_uid md_user];
    try destruct (StringTable.add (user n) st) as [sid st'];
    cbn [fst snd];
    match goal with
    | |- context [DenseNodes.add_tags ?a ?b ?c] => destruct (DenseNodes.add_tags a b c)
    end;
    cbn; repeat split; reflexivity.
Qed.

Lemma StringTable_find_ge (s : string) (l : list string) :
  forall i j : Z, StringTable.find s l i = Some j -> i <= j.
Proof.
  induction l as [| x l IH]; intros i j H; simpl in H.
  - discriminate.
  - destruct (String.eqb x s).
    + injection H as <-. lia.
    + apply IH in H. lia.
Qed.

(** [add] never hands out the reserved index 0. *)
Lemma StringTable_add_ge_1 (s : string) (st : StringTable.t) :
  1 <= fst (StringTable.add s st).
Proof.
  unfold StringTable.add.
  destruct (StringTable.find s (StringTable.m_strings st) 1) as [i |] eqn:E; cbn [fst].
  - apply StringTable_find_ge in E. exact E.
  - pose proof (size_nonneg (StringTable.m_strings st)). lia.
Qed.

(** The tag loop appends, for each tag, two indices that are not 0. *)
Lemma add_tags_run (tags : list Tag) :
  forall (st : StringTable.t) (m : list Z),
  exists run : list Z,
    snd (DenseNodes.add_tags tags st m) = m ++ run
    /\ size run = 2 * size tags
    /\ Forall (fun i => 1 <= i) run.
Proof.
  induction tags as [| tag tags IH]; intros st m.
  - exists []. cbn. rewrite List.app_nil_r. repeat split. constructor.
  - cbn [DenseNodes.add_tags].
    pose proof (StringTable_add_ge_1 (key tag) st) as Hk.
    destruct (StringTable.add (key tag) st) as [k st1]. cbn [fst] in Hk.
    pose proof (StringTable_add_ge_1 (value tag) st1) as Hv.
    destruct (StringTable.add (value tag) st1) as [v st2]. cbn [fst] in Hv.
    destruct (IH st2 (push_back (push_back m k) v)) as [run [Hrun [Hsize Hall]]].
    exists (k :: v :: run). split; [| split].
    + rewrite Hrun. unfold push_back. rewrite <- !List.app_assoc. reflexivity.
    + unfold size in *. cbn [List.length]. lia.
    + constructor; [exact Hk |]. constructor; [exact Hv | exact Hall].
Qed.

Lemma count_occ_run (run : list Z) :
  Forall (fun i => 1 <= i) run -> count_occ Z.eq_dec run 0 = 0%nat.
Proof.
  intros H. apply List.count_occ_not_In. intros Hin.
  rewrite List.Forall_forall in H. apply H in Hin. lia.
Qed.

Lemma count_occ_with_sentinels (runs : list (list Z)) (ns : list Node) :
  Forall2 run_of_node runs ns ->
  count_occ Z.eq_dec (with_sentinels runs) 0 = List.length ns.
Proof.
  induction 1 as [| run n runs ns [_ Hrun] _ IH].
  - reflexivity.
  - unfold with_sentinels in *. cbn [List.map List.concat List.length].
    rewrite !List.count_occ_app, IH, count_occ_run by exact Hrun.
    reflexivity.
Qed.

(** The effect of a sequence of [add_node] calls on a buffer [dn]. *)
Lemma add_nodes_grow {B : Build} (options : pbf_output_options) (ns : list Node) :
  forall (st : StringTable.t) (dn : DenseNodes.t),
    let r := snd (add_nodes options ns st dn) in
    size (DenseNodes.m_ids r) = size (DenseNodes.m_ids dn) + size ns
    /\ size (DenseNodes.m_lats r) = size (DenseNodes.m_lats dn) + size ns
    /\ size (DenseNodes.m_lons r) = size (DenseNodes.m_lons dn) + size ns
    /\ size (DenseNodes.m_versions r)
       = size (DenseNodes.m_versions dn)
         + (if md_version (add_metadata options) then size ns else 0)
    /\ size (DenseNodes.m_timestamps r)
       = size (DenseNodes.m_timestamps dn)
         + (if md_timestamp (add_metadata options) then size ns else 0)
    /\ size (DenseNodes.m_changesets r)
       = size (DenseNodes.m_changesets dn)
         + (if md_changeset (add_metadata options) then size ns else 0)
    /\ size (DenseNodes.m_uids r)
       = size (DenseNodes.m_uids dn)
         + (if md_uid (add_metadata options) then size ns else 0)
    /\ size (DenseNodes.m_user_sids r)
       = size (DenseNodes.m_user_sids dn)
         + (if md_user (add_metadata options) then size ns else 0)
    /\ size (DenseNodes.m_visibles r)
       = size (DenseNodes.m_visibles dn)
         + (if add_visible_flag options then size ns else 0)
    /\ exists runs : list (list Z),
         DenseNodes.m_tags r = DenseNodes.m_tags dn ++ with_sentinels runs
         /\ Forall2 run_of_node runs ns.
Proof.
  induction ns as [| n ns IH]; intros st dn r.
  - subst r. cbn [add_nodes snd]. change (size (@nil Node)) with 0.
    repeat split; try (destruct_flags options; cbn; lia).
    exists []. split; [symmetry; apply List.app_nil_r | constructor].
  - subst r. cbn [add_nodes].
    pose proof (add_node_fields options n st dn) as F. cbv zeta in F.
    destruct (DenseNodes.add_node options n st dn) as [st1 dn1]. cbn [snd fst] in F.
    destruct F as (Fids & _ & Fver & Fts & _ & Fcs & Fuid & Fsid & Fvis & Flat & _
                   & Flon & _ & Ftags & _).
    specialize (IH st1 dn1). cbv zeta in IH.
    destruct IH as (Iids & Ilat & Ilon & Iver & Its & Ics & Iuid & Isid & Ivis
                    & runs & Itags & Iruns).
    rewrite Iids, Ilat, Ilon, Iver, Its, Ics, Iuid, Isid, Ivis, Itags.
    rewrite Fids, Flat, Flon, Fver, Fts, Fcs, Fuid, Fsid, Fvis, Ftags.
    replace (size (n :: ns)) with (size ns + 1) by (unfold size; cbn [List.length]; lia).
    repeat split;
      try (rewrite ?size_push_back; lia);
      try (match goal with |- context [if ?b then _ else _] => destruct b end;
           rewrite ?size_push_back; lia).
    destruct (add_tags_run (tags n) (after_user options n st) (DenseNodes.m_tags dn))
      as [run [Hrun [Hsize Hall]]].
    exists (run :: runs). split.
    + rewrite Hrun. unfold push_back, with_sentinels. cbn [List.map List.concat].
      rewrite <- !List.app_assoc. reflexivity.
    + constructor; [split; assumption | exact Iruns].
Qed.

(** A sequence of [add_node] calls on a fresh buffer. *)
Lemma add_nodes_from_init {B : Build} (options : pbf_output_options) (ns : list Node)
    (st : StringTable.t) :
  let dn := snd (add_nodes options ns st DenseNodes.init) in
  size (DenseNodes.m_ids dn) = size ns
  /\ size (DenseNodes.m_lats dn) = size ns
  /\ size (DenseNodes.m_lons dn) = size ns
  /\ size (DenseNodes.m_versions dn)
     = (if md_version (add_metadata options) then size ns else 0)
  /\ size (DenseNodes.m_timestamps dn)
     = (if md_timestamp (add_metadata options) then size ns else 0)
  /\ size (DenseNodes.m_changesets dn)
     = (if md_changeset (add_metadata options) then size ns else 0)
  /\ size (DenseNodes.m_uids dn)
     = (if md_uid (add_metadata options) then size ns else 0)
  /\ size (DenseNodes.m_user_sids dn)
     = (if md_user (add_metadata options) then size ns else 0)
  /\ size (DenseNodes.m_visibles dn)
     = (if add_visible_flag options then size ns else 0)
  /\ (exists runs : list (list Z),
        DenseNodes.m_tags dn = with_sentinels runs /\ Forall2 run_of_node runs ns).
Proof.
  intros dn.
  pose proof (add_nodes_grow options ns st DenseNodes.init) as H. cbv zeta in H.
  fold dn in H.
  destruct H as (Hids & Hlat & Hlon & Hver & Hts & Hcs & Huid & Hsid & Hvis
                 & runs & Htags & Hruns).
  cbn [DenseNodes.init DenseNodes.m_ids DenseNodes.m_lats DenseNodes.m_lons
       DenseNodes.m_versions DenseNodes.m_timestamps DenseNodes.m_changesets
       DenseNodes.m_uids DenseNodes.m_user_sids DenseNodes.m_visibles
       DenseNodes.m_tags List.app] in *.
  change (size (@nil Z)) with 0 in *. change (size (@nil bool)) with 0 in *.
  repeat split; try lia.
  exists runs. split; assumption.
Qed.

(** C7.  After every sequence of [add_node] calls on a DenseNodes buffer,
    [ids], [lats] and [lons] have one element per added node; every
    metadata column enabled by the options (versions, timestamps,
    changesets, uids, user_sids, visibles) has that same length, and a
    column that is not enabled stays empty; the tags array is, node after
    node, the key and value indices of the node (none of them 0) followed
    by a single 0, so it holds exactly one 0 per added node. *)
Theorem add_node_columns {B : Build} (options : pbf_output_options) (ns : list Node)
    (st : StringTable.t) :
  let dn := snd (add_nodes options ns st DenseNodes.init) in
  size (DenseNodes.m_ids dn) = size ns
  /\ size (DenseNodes.m_lats dn) = size ns
  /\ size (DenseNodes.m_lons dn) = size ns
  /\ size (DenseNodes.m_versions dn)
     = (if md_version (add_metadata options) then size ns else 0)
  /\ size (DenseNodes.m_timestamps dn)
     = (if md_timestamp (add_metadata options) then size ns else 0)
  /\ size (DenseNodes.m_changesets dn)
     = (if md_changeset (add_metadata options) then size ns else 0)
  /\ size (DenseNodes.m_uids dn)
     = (if md_uid (add_metadata options) then size ns else 0)
  /\ size (DenseNodes.m_user_sids dn)
     = (if md_user (add_metadata options) then size ns else 0)
  /\ size (DenseNodes.m_visibles dn)
     = (if add_visible_flag options then size ns else 0)
  /\ (exists runs : list (list Z),
        DenseNodes.m_tags dn = with_sentinels runs /\ Forall2 run_of_node runs ns)
  /\ count_occ Z.eq_dec (DenseNodes.m_tags dn) 0 = List.length ns.
Proof.
  intros dn.
  pose proof (add_nodes_from_init options ns st) as H. cbv zeta in H. fold dn in H.
  destruct H as (Hids & Hlat & Hlon & Hver & Hts & Hcs & Huid & Hsid & Hvis
                 & runs & Htags & Hruns).
  repeat split; try assumption.
  - exists runs. split; assumption.
  - rewrite Htags. apply count_occ_with_sentinels. exact Hruns.
Qed.

(** ** DenseNodes::serialize *)

Lemma add_packed_svarint_submessage (tag : Z) (vs : list Z) :
  protozero.add_packed_svarint tag vs
  = protozero.submessage tag (protozero.packed_svarint vs).
Proof. destruct vs; reflexivity. Qed.

Lemma add_packed_varint_submessage (tag : Z) (vs : list Z) :
  protozero.add_packed_varint tag vs
  = protozero.submessage tag (protozero.packed_varint vs).
Proof. destruct vs; reflexivity. Qed.

Lemma submessage_size (tag : Z) (body : bytes) :
  size body <= size (protozero.submessage tag body).
Proof.
  destruct body as [| b body]; [unfold size; simpl; lia |].
  unfold protozero.submessage. rewrite !size_app.
  pose proof (size_nonneg (protozero.add_field tag protozero.length_delimited)).
  pose proof (size_nonneg (protozero.add_varint (to_uint32 (size (b :: body))))).
  lia.
Qed.

Lemma decode_message_submessage (tag : Z) (body rest : bytes)
    (fs : list (Z * protozero.field_value)) :
  0 <= tag < 2 ^ 29 -> size body < 2 ^ 32 ->
  protozero.decode_message rest = Some fs ->
  protozero.decode_message (protozero.submessage tag body ++ rest)
  = Some (column tag body ++ fs).
Proof.
  intros Htag Hsize Hrest.
  destruct body as [| b body]; [exact Hrest |].
  rewrite protozero_facts.submessage_add_bytes by discriminate.
  apply protozero_facts.decode_message_cons.
  - apply protozero_facts.add_bytes_nonempty.
  - apply protozero_facts.decode_field_bytes; assumption.
  - exact Hrest.
Qed.

Ltac submessage_sizes :=
  repeat match goal with
         | H : context [size (protozero.submessage ?t ?b)] |- _ =>
             lazymatch goal with
             | _ : size b <= size (protozero.submessage t b) |- _ => fail
             | _ => pose proof (submessage_size t b)
             end
         end.

Ltac sizes_nonneg :=
  repeat match goal with
         | H : context [@size ?A ?l] |- _ =>
             lazymatch goal with
             | _ : 0 <= @size A l |- _ => fail
             | _ => pose proof (@size_nonneg A l)
             end
         end.

Lemma serialize_dense_info_fields (options : pbf_output_options) (dn : DenseNodes.t) :
  size (DenseNodes.serialize_dense_info options dn) < 2 ^ 32 ->
  protozero.decode_message (DenseNodes.serialize_dense_info options dn)
  = Some (DenseInfo_fields options dn).
Proof.
  unfold DenseNodes.serialize_dense_info, DenseInfo_fields,
    protozero.add_packed_int32, protozero.add_packed_sint32,
    protozero.add_packed_sint64, protozero.add_packed_bool.
  rewrite !add_packed_svarint_submessage, !add_packed_varint_submessage.
  unfold OSMFormat.DenseInfo.packed_int32_version, OSMFormat.DenseInfo.packed_sint64_timestamp,
    OSMFormat.DenseInfo.packed_sint64_changeset, OSMFormat.DenseInfo.packed_sint32_uid,
    OSMFormat.DenseInfo.packed_sint32_user_sid, OSMFormat.DenseInfo.packed_bool_visible.
  intros H.
  destruct (md_version (add_metadata options)), (md_timestamp (add_metadata options)),
    (md_changeset (add_metadata options)), (md_uid (add_metadata options)),
    (md_user (add_metadata options)), (add_visible_flag options);
    cbn [List.app] in *; rewrite ?size_app in H; submessage_sizes; sizes_nonneg;
    repeat first
      [ exact protozero_facts.decode_message_nil
      | apply decode_message_submessage; [lia | lia |]
      | match goal with
        | |- protozero.decode_message (protozero.submessage ?t ?b) = _ =>
            rewrite <- (List.app_nil_r (protozero.submessage t b));
            rewrite <- (List.app_nil_r (column t b))
        end ].
Qed.

Lemma packed_svarint_nonempty (vs : list Z) : vs <> [] -> protozero.packed_svarint vs <> [].
Proof.
  destruct vs as [| v vs]; [contradiction |]. intros _ H.
  unfold protozero.packed_svarint in H. cbn [List.map List.concat] in H.
  apply List.app_eq_nil in H. destruct H as [H _].
  exact (protozero_facts.add_varint_nonempty _ H).
Qed.

Lemma packed_varint_nonempty (vs : list Z) : vs <> [] -> protozero.packed_varint vs <> [].
Proof.
  destruct vs as [| v vs]; [contradiction |]. intros _ H.
  unfold protozero.packed_varint in H. cbn [List.map List.concat] in H.
  apply List.app_eq_nil in H. destruct H as [H _].
  exact (protozero_facts.add_varint_nonempty _ H).
Qed.

Lemma column_present (tag : Z) (body : bytes) :
  body <> [] -> column tag body = [(tag, protozero.Bytes body)].
Proof. destruct body; [contradiction | reflexivity]. Qed.

Lemma size_positive_nonempty {A : Type} (l : list A) : 0 < size l -> l <> [].
Proof. intros H ->. unfold size in H. simpl in H. lia. Qed.

(** C3.  For every sequence of added nodes and every options setting,
    the bytes [DenseNodes::serialize] returns (less than 4 GiB of them, the
    lengths being 32-bit) are a message whose fields are, in this order:
    the packed ids (field 1); the DenseInfo sub-message (field 5) only when
    a metadata flag or [add_visible_flag] is enabled, itself holding in
    this order versions, timestamps, changesets, uids, user_sids and
    visibles, each only if its flag is enabled; the packed lats (field 8);
    the packed lons (field 9); the packed keys_vals (field 10).  Once a
    node has been added, the ids, lats, lons and keys_vals fields are all
    in the message. *)
Theorem serialize_field_order {B : Build} (options : pbf_output_options) (ns : list Node)
    (st : StringTable.t) :
  let dn := snd (add_nodes options ns st DenseNodes.init) in
  size (DenseNodes.serialize options dn) < 2 ^ 32 ->
  protozero.decode_message (DenseNodes.serialize options dn)
  = Some (DenseNodes_fields options dn)
  /\ protozero.decode_message (DenseNodes.serialize_dense_info options dn)
     = Some (DenseInfo_fields options dn)
  /\ (ns <> [] ->
      DenseNodes_fields options dn
      = [(1, protozero.Bytes (protozero.packed_svarint (DenseNodes.m_ids dn)))]
        ++ (if md_any (add_metadata options) || add_visible_flag options
            then [(5, protozero.Bytes (DenseNodes.serialize_dense_info options dn))]
            else [])
        ++ [(8, protozero.Bytes (protozero.packed_svarint (DenseNodes.m_lats dn)));
            (9, protozero.Bytes (protozero.packed_svarint (DenseNodes.m_lons dn)));
            (10, protozero.Bytes (protozero.packed_varint (DenseNodes.m_tags dn)))]).
Proof.
  intros dn H.
  assert (Hinfo : md_any (add_metadata options) || add_visible_flag options = true ->
                  size (DenseNodes.serialize_dense_info options dn) < 2 ^ 32).
  { intros Hflag. unfold DenseNodes.serialize in H. rewrite Hflag in H.
    rewrite !size_app in H. submessage_sizes. sizes_nonneg. lia. }
  split; [| split].
  - unfold DenseNodes.serialize, DenseNodes_fields, protozero.add_packed_int32,
      protozero.add_packed_sint64 in *.
    rewrite !add_packed_svarint_submessage, !add_packed_varint_submessage in *.
    unfold OSMFormat.DenseNodes.packed_sint64_id, OSMFormat.DenseNodes.optional_DenseInfo_denseinfo,
      OSMFormat.DenseNodes.packed_sint64_lat, OSMFormat.DenseNodes.packed_sint64_lon,
      OSMFormat.DenseNodes.packed_int32_keys_vals in *.
    destruct (md_any (add_metadata options) || add_visible_flag options);
      cbn [List.app] in *; rewrite ?size_app in H; submessage_sizes; sizes_nonneg;
      repeat first
        [ exact protozero_facts.decode_message_nil
        | apply decode_message_submessage; [lia | lia |]
        | match goal with
          | |- protozero.decode_message (protozero.submessage ?t ?b) = _ =>
              rewrite <- (List.app_nil_r (protozero.submessage t b));
              rewrite <- (List.app_nil_r (column t b))
          end ].
  - destruct (md_any (add_metadata options) || add_visible_flag options) eqn:Hflag.
    + apply serialize_dense_info_fields. apply Hinfo. reflexivity.
    + apply orb_false_elim in Hflag. destruct Hflag as [Hany Hvis].
      unfold md_any in Hany.
      destruct_flags options; cbn in Hany, Hvis; try discriminate. reflexivity.
  - intros Hns.
    pose proof (add_nodes_from_init options ns st) as C. cbv zeta in C. fold dn in C.
    destruct C as (Cids & Clat & Clon & Cver & Cts & Ccs & Cuid & Csid & Cvis
                   & runs & Ctags & Cruns).
    assert (Hpos : 0 < size ns).
    { destruct ns; [contradiction | unfold size; cbn [List.length]; lia]. }
    assert (Htags : DenseNodes.m_tags dn <> []).
    { rewrite Ctags. destruct Cruns as [| run n runs ns' _ _]; [contradiction |].
      unfold with_sentinels. cbn [List.map List.concat]. intros E.
      apply List.app_eq_nil in E. destruct E as [E _].
      apply List.app_eq_nil in E. destruct E as [_ E]. discriminate E. }
    unfold DenseNodes_fields.
    rewrite (column_present 1), (column_present 8), (column_present 9), (column_present 10).
    + destruct (md_any (add_metadata options) || add_visible_flag options) eqn:Hflag;
        [| reflexivity].
      rewrite column_present; [reflexivity |].
      unfold DenseNodes.serialize_dense_info, protozero.add_packed_int32,
        protozero.add_packed_sint32, protozero.add_packed_sint64, protozero.add_packed_bool.
      rewrite !add_packed_svarint_submessage, !add_packed_varint_submessage.
      unfold md_any in Hflag. intros E.
      repeat (apply List.app_eq_nil in E; let E1 := fresh "E" in destruct E as [E1 E]).
      destruct (md_version (add_metadata options)).
      { rewrite protozero_facts.submessage_add_bytes in E0.
        - exact (protozero_facts.add_bytes_nonempty _ _ E0).
        - apply packed_varint_nonempty, size_positive_nonempty. lia. }
      destruct (md_timestamp (add_metadata options)).
      { rewrite protozero_facts.submessage_add_bytes in E1.
        - exact (protozero_facts.add_bytes_nonempty _ _ E1).
        - apply packed_svarint_nonempty, size_positive_nonempty. lia. }
      destruct (md_changeset (add_metadata options)).
      { rewrite protozero_facts.submessage_add_bytes in E2.
        - exact (protozero_facts.add_bytes_nonempty _ _ E2).
        - apply packed_svarint_nonempty, size_positive_nonempty. lia. }
      destruct (md_uid (add_metadata options)).
      { rewrite protozero_facts.submessage_add_bytes in E3.
        - exact (protozero_facts.add_bytes_nonempty _ _ E3).
        - apply packed_svarint_nonempty, size_positive_nonempty. lia. }
      destruct (md_user (add_metadata options)).
      { rewrite protozero_facts.submessage_add_bytes in E4.
        - exact (protozero_facts.add_bytes_nonempty _ _ E4).
        - apply packed_svarint_nonempty, size_positive_nonempty. lia. }
      destruct (add_visible_flag options); [| discriminate Hflag].
      rewrite protozero_facts.submessage_add_bytes in E.
      * exact (protozero_facts.add_bytes_nonempty _ _ E).
      * apply packed_varint_nonempty, size_positive_nonempty.
        unfold size in *. rewrite List.length_map. lia.
    + exact (packed_varint_nonempty _ Htags).
    + apply packed_svarint_nonempty, size_positive_nonempty. lia.
    + apply packed_svarint_nonempty, size_positive_nonempty. lia.
    + apply packed_svarint_nonempty, size_positive_nonempty. lia.
Qed.

(** [serialize_field_order] on the two nodes, all metadata switched on. *)
Lemma serialize_field_order_witness :
  let dn := snd (@add_nodes example_build options_with_metadata [node_1; node_5]
                   StringTable.init DenseNodes.init) in
  protozero.decode_message (DenseNodes.serialize options_with_metadata dn)
  = Some (DenseNodes_fields options_with_metadata dn)
  /\ List.map fst (DenseNodes_fields options_with_metadata dn) = [1; 5; 8; 9; 10]
  /\ List.map fst (DenseInfo_fields options_with_metadata dn) = [1; 2; 3; 4; 5; 6].
Proof.
  pose proof (@serialize_field_order example_build options_with_metadata [node_1; node_5]
                StringTable.init) as H.
  cbv zeta in *.
  destruct H as [H _]; [vm_compute; reflexivity |].
  split; [exact H |].
  split; vm_compute; reflexivity.
Defined.

(** ** lonlat2int *)

(** C4, as stated, fails whatever the resolution of the build is: the
    formula gives 100000 for 1.0 degrees, scenario 2 of the spec asks for
    10000000. *)
Lemma lonlat2int_invariant_5_contradicts_scenario_2 :
  ~ (exists B : Build,
        (forall c : float, @lonlat2int B c = lonlat2int_of_invariant_5 c)
        /\ DenseNodes.m_lats
             (snd (@DenseNodes.add_node B options_without_metadata node_1
                     StringTable.init DenseNodes.init))
           = [10000000]).
Proof.
  intros [B [Hformula Hscenario]].
  pose proof (@add_node_fields B options_without_metadata node_1 StringTable.init
                DenseNodes.init) as F.
  cbv zeta in F.
  destruct F as (_ & _ & _ & _ & _ & _ & _ & _ & _ & Flat & _).
  rewrite Flat in Hscenario. rewrite Hformula in Hscenario.
  vm_compute in Hscenario. discriminate Hscenario.
Qed.

(** C4, amended.  The integer stored for a coordinate [c] is
    [round(c x lonlat_resolution / granularity)] with [granularity = 100],
    computed in doubles and rounded half away from zero; with a
    [lonlat_resolution] of 10^9 (a coordinate is scaled by 10^7) a single
    node with lat 1.0000000 and lon 2.0000000 yields lats [10000000] and
    lons [20000000], and a following node with lat 1.0000003 and the same
    lon yields the deltas 3 and 0. *)
Theorem lonlat2int_resolution {B : Build} :
  (forall c : float,
      lonlat2int c
      = int64_of_integral
          (std_round (PrimFloat.div (PrimFloat.mul c (double_of_Z lonlat_resolution))
                                    (double_of_Z 100))))
  /\ (lonlat_resolution = 10 ^ 9 ->
      forall (options : pbf_output_options) (st : StringTable.t),
        let dn1 := snd (add_nodes options [node_1] st DenseNodes.init) in
        let dn2 := snd (add_nodes options [node_1; node_5] st DenseNodes.init) in
        DenseNodes.m_lats dn1 = [10000000]
        /\ DenseNodes.m_lons dn1 = [20000000]
        /\ DenseNodes.m_lats dn2 = [10000000; 3]
        /\ DenseNodes.m_lons dn2 = [20000000; 0]).
Proof.
  split; [reflexivity |].
  intros HR options st dn1 dn2.
  assert (H1 : forall c, lonlat2int c
                         = int64_of_integral
                             (std_round (PrimFloat.div (PrimFloat.mul c (double_of_Z (10 ^ 9)))
                                                       (double_of_Z 100)))).
  { intros c. unfold lonlat2int. rewrite HR. reflexivity. }
  subst dn1 dn2. cbn [add_nodes].
  pose proof (add_node_fields options node_1 st DenseNodes.init) as F1. cbv zeta in F1.
  destruct (DenseNodes.add_node options node_1 st DenseNodes.init) as [st1 dn1].
  cbn [snd] in F1.
  destruct F1 as (_ & _ & _ & _ & _ & _ & _ & _ & _ & Flat1 & Fdlat1 & Flon1 & Fdlon1 & _).
  pose proof (add_node_fields options node_5 st1 dn1) as F2. cbv zeta in F2.
  destruct (DenseNodes.add_node options node_5 st1 dn1) as [st2 dn2].
  cbn [snd] in *.
  destruct F2 as (_ & _ & _ & _ & _ & _ & _ & _ & _ & Flat2 & _ & Flon2 & _).
  rewrite Flat2, Flon2, Fdlat1, Fdlon1, Flat1, Flon1, !H1.
  repeat split; vm_compute; reflexivity.
Qed.

(** [lonlat2int_resolution] at the example build, whose resolution is
    10^9. *)
Lemma lonlat2int_resolution_witness :
  DenseNodes.m_lats
    (snd (@add_nodes example_build options_without_metadata [node_1; node_5]
            StringTable.init DenseNodes.init))
  = [10000000; 3].
Proof.
  pose proof (@lonlat2int_resolution example_build) as [_ H].
  specialize (H eq_refl options_without_metadata StringTable.init).
  cbv zeta in H. destruct H as (_ & _ & H & _). exact H.
Defined.

(** ** SerializeBlob *)

Lemma low_byte (v : Z) : Z.land v 255 = v mod 256.
Proof. change 255 with (Z.ones 8). rewrite Z.land_ones by lia. reflexivity. Qed.

Lemma big_endian_network_order (n : Z) :
  0 <= n < 2 ^ 32 ->
  big_endian_uint32 (SerializeBlob.network_order n) = Some n.
Proof.
  intros Hn. unfold SerializeBlob.network_order, big_endian_uint32.
  rewrite !low_byte, !Z.shiftr_div_pow2 by lia.
  change (2 ^ 24) with (256 * (256 * 256)). change (2 ^ 16) with (256 * 256).
  change (2 ^ 8) with 256. change (2 ^ 32) with (256 * (256 * (256 * 256))) in Hn.
  rewrite <- !Z.div_div by lia.
  f_equal.
  pose proof (Z.div_mod n 256).
  pose proof (Z.div_mod (n / 256) 256).
  pose proof (Z.div_mod (n / 256 / 256) 256).
  assert (0 <= n / 256 / 256 / 256 < 256).
  { split.
    - repeat apply Z.div_pos; lia.
    - repeat (apply Z.div_lt_upper_bound; [lia |]). lia. }
  rewrite (Z.mod_small (n / 256 / 256 / 256) 256) by lia.
  lia.
Qed.

Lemma size_write_varint_loop (fuel : nat) :
  forall v : Z, 1 <= size (protozero.write_varint_loop fuel v) <= Z.of_nat fuel + 1.
Proof.
  induction fuel as [| fuel IH]; intros v.
  - unfold size. simpl. lia.
  - cbn [protozero.write_varint_loop]. destruct (128 <=? v).
    + specialize (IH (Z.shiftr v 7)). unfold size in *. cbn [List.length]. lia.
    + unfold size. simpl. lia.
Qed.

Lemma size_add_varint (v : Z) : 1 <= size (protozero.add_varint v) <= 10.
Proof. unfold protozero.add_varint. pose proof (size_write_varint_loop 9 v). lia. Qed.

(** C2.  Whenever the Blob message can be built (the codec is compiled
    in and succeeds) and is shorter than 2^31 bytes, which the assertion
    on the payload is there to ensure, [SerializeBlob] returns exactly:
    four bytes, the size of the BlobHeader message as a big-endian
    unsigned integer; then the BlobHeader message; then the Blob message.
    The BlobHeader message has two fields: the type (field 1), the string
    OSMHeader for a header blob and OSMData for a data blob, and the
    datasize (field 3), the number of bytes of the Blob message. *)
Theorem SerializeBlob_framing {B : Build} (job : SerializeBlob.t) (blob : bytes) :
  SerializeBlob.blob_data job = Ok blob ->
  size blob < 2 ^ 31 ->
  exists (prefix header : bytes) (type : string),
    SerializeBlob.call job = Ok (prefix ++ header ++ blob)
    /\ size prefix = 4
    /\ big_endian_uint32 prefix = Some (size header)
    /\ protozero.decode_message header
       = Some [(1, protozero.Bytes (bytes_of_string type)); (3, protozero.Varint (size blob))]
    /\ type = match SerializeBlob.m_blob_type job with
              | pbf_blob_type.header => "OSMHeader"%string
              | pbf_blob_type.data => "OSMData"%string
              end.
Proof.
  intros Hblob Hsize.
  pose proof (size_nonneg blob) as Hpos.
  set (header := SerializeBlob.blob_header_data (SerializeBlob.m_blob_type job) blob).
  assert (Hheader : size header <= 22).
  { subst header. unfold SerializeBlob.blob_header_data, protozero.add_int32,
      protozero.add_tagged_varint. rewrite !size_app.
    pose proof (size_add_varint (to_uint64 (to_int32 (size blob)))).
    assert (size (protozero.add_string FileFormat.BlobHeader.required_string_type
                    (SerializeBlob.blob_type_string (SerializeBlob.m_blob_type job))) <= 11)
      by (destruct (SerializeBlob.m_blob_type job); vm_compute; discriminate).
    assert (size (protozero.add_field FileFormat.BlobHeader.required_int32_datasize
                    protozero.varint) = 1) by reflexivity.
    lia. }
  exists (SerializeBlob.network_order (to_uint32 (size header))), header,
    (SerializeBlob.blob_type_string (SerializeBlob.m_blob_type job)).
  pose proof (size_nonneg header) as Hhpos.
  split; [| split; [| split; [| split]]].
  - unfold SerializeBlob.call. rewrite Hblob. reflexivity.
  - reflexivity.
  - rewrite to_uint32_small by lia. apply big_endian_network_order. lia.
  - subst header. unfold SerializeBlob.blob_header_data, protozero.add_string,
      protozero.add_int32.
    rewrite to_int32_small, to_uint64_small by lia.
    apply protozero_facts.decode_message_cons.
    + apply protozero_facts.add_bytes_nonempty.
    + apply protozero_facts.decode_field_bytes; [cbn; lia |].
      destruct (SerializeBlob.m_blob_type job); cbn; lia.
    + rewrite <- (List.app_nil_r (protozero.add_tagged_varint _ _)).
      apply protozero_facts.decode_message_cons.
      * apply protozero_facts.add_tagged_varint_nonempty.
      * apply protozero_facts.decode_field_varint; [cbn; lia | lia].
      * reflexivity.
  - destruct (SerializeBlob.m_blob_type job); reflexivity.
Qed.

(** Without compression the Blob message is always built, and the
    assertion [m_msg.size() <= max_uncompressed_blob_size] keeps it below
    2^31 bytes for blobs of up to 1 GiB. *)
Lemma blob_data_without_compression {B : Build} (job : SerializeBlob.t) :
  SerializeBlob.m_use_compression job = pbf_compression.none ->
  size (SerializeBlob.m_msg job) <= max_uncompressed_blob_size ->
  max_uncompressed_blob_size <= 2 ^ 30 ->
  exists blob : bytes, SerializeBlob.blob_data job = Ok blob /\ size blob < 2 ^ 31.
Proof.
  intros Hnone Hassert Hmax. unfold SerializeBlob.blob_data. rewrite Hnone.
  eexists. split; [reflexivity |].
  unfold protozero.add_bytes, protozero.add_field. rewrite !size_app.
  pose proof (size_add_varint (to_uint32 (size (SerializeBlob.m_msg job)))).
  match goal with |- context [protozero.add_varint (to_uint32 (Z.lor ?a ?b))] =>
    pose proof (size_add_varint (to_uint32 (Z.lor a b))) end.
  lia.
Qed.

(** [SerializeBlob_framing] on the blob of five bytes: a header of 11
    bytes announcing a Blob message of 7 bytes. *)
Lemma SerializeBlob_framing_witness :
  exists (prefix header : bytes) (type : string),
    @SerializeBlob.call example_build job_of_five_bytes
    = Ok (prefix ++ header ++ [10; 5; 1; 2; 3; 4; 5])
    /\ size prefix = 4
    /\ big_endian_uint32 prefix = Some (size header)
    /\ protozero.decode_message header
       = Some [(1, protozero.Bytes (bytes_of_string type)); (3, protozero.Varint 7)]
    /\ type = "OSMData"%string.
Proof.
  exact (@SerializeBlob_framing example_build job_of_five_bytes [10; 5; 1; 2; 3; 4; 5]
           eq_refl eq_refl).
Defined.

(** ** The block state machine on a stream of nodes *)

Lemma StringTable_size_nonneg (st : StringTable.t) : 0 <= StringTable.size st.
Proof.
  unfold StringTable.size. induction (StringTable.entries st) as [| s l IH]; simpl; lia.
Qed.

Lemma fold_lengths_app (l1 l2 : list string) :
  List.fold_right (fun s acc => Z.of_nat (String.length s) + acc) 0 (l1 ++ l2)
  = List.fold_right (fun s acc => Z.of_nat (String.length s) + acc) 0 l1
    + List.fold_right (fun s acc => Z.of_nat (String.length s) + acc) 0 l2.
Proof. induction l1 as [| s l1 IH]; simpl; lia. Qed.

(** [add] grows the table by at most the length of the string. *)
Lemma StringTable_size_add (s : string) (st : StringTable.t) :
  StringTable.size (snd (StringTable.add s st))
  <= StringTable.size st + Z.of_nat (String.length s).
Proof.
  unfold StringTable.add.
  destruct (StringTable.find s (StringTable.m_strings st) 1); cbn [snd].
  - lia.
  - unfold StringTable.size, StringTable.entries. cbn [StringTable.m_strings List.fold_right].
    rewrite fold_lengths_app. simpl. lia.
Qed.

Lemma StringTable_size_add_tags (tags : list Tag) :
  forall (st : StringTable.t) (m : list Z),
    StringTable.size (fst (DenseNodes.add_tags tags st m))
    <= StringTable.size st + List.fold_right (fun tag acc => tag_bytes tag + acc) 0 tags.
Proof.
  induction tags as [| tag tags IH]; intros st m.
  - simpl. lia.
  - cbn [DenseNodes.add_tags List.fold_right].
    pose proof (StringTable_size_add (key tag) st) as Hk.
    destruct (StringTable.add (key tag) st) as [k st1]. cbn [snd] in Hk.
    pose proof (StringTable_size_add (value tag) st1) as Hv.
    destruct (StringTable.add (value tag) st1) as [v st2]. cbn [snd] in Hv.
    specialize (IH st2 (push_back (push_back m k) v)).
    unfold tag_bytes in *. lia.
Qed.

Lemma StringTable_size_add_node {B : Build} (options : pbf_output_options) (n : Node)
    (st : StringTable.t) (dn : DenseNodes.t) :
  StringTable.size (fst (DenseNodes.add_node options n st dn))
  <= StringTable.size st + node_string_bytes options n.
Proof.
  pose proof (add_node_fields options n st dn) as F. cbv zeta in F.
  destruct F as (_ & _ & _ & _ & _ & _ & _ & _ & _ & _ & _ & _ & _ & _ & Fst).
  rewrite Fst.
  pose proof (StringTable_size_add_tags (tags n) (after_user options n st) (DenseNodes.m_tags dn)).
  assert (StringTable.size (after_user options n st)
          <= StringTable.size st
             + (if md_user (add_metadata options) then Z.of_nat (String.length (user n)) else 0)).
  { unfold after_user. destruct (md_user (add_metadata options)).
    - apply StringTable_size_add.
    - lia. }
  unfold node_string_bytes. lia.
Qed.

Lemma node_string_bytes_nonneg (options : pbf_output_options) (n : Node) :
  0 <= node_string_bytes options n.
Proof.
  unfold node_string_bytes.
  assert (0 <= List.fold_right (fun tag acc => tag_bytes tag + acc) 0 (tags n)).
  { induction (tags n) as [| tag l IH]; simpl; [lia | unfold tag_bytes at 1; lia]. }
  destruct (md_user (add_metadata options)); lia.
Qed.

Lemma string_bytes_nonneg (options : pbf_output_options) (ns : list Node) :
  0 <= string_bytes options ns.
Proof.
  induction ns as [| n ns IH]; simpl; [lia |].
  pose proof (node_string_bytes_nonneg options n). lia.
Qed.

(** The first node of a stream opens a block of dense nodes. *)
Lemma node_on_fresh_state {B : Build} (options : pbf_output_options)
    (queue : list SerializeBlob.t) (n : Node) :
  use_dense_nodes options = true ->
  PBFOutputFormat.node n (fresh_state options queue)
  = dense_state options queue
      (fst (DenseNodes.add_node options n StringTable.init DenseNodes.init))
      (snd (DenseNodes.add_node options n StringTable.init DenseNodes.init))
      1.
Proof.
  intros Hdense. unfold PBFOutputFormat.node, fresh_state.
  cbn [PBFOutputFormat.m_options]. rewrite Hdense.
  unfold PBFOutputFormat.switch_primitive_block_type.
  cbn [PBFOutputFormat.m_primitive_block].
  replace (PrimitiveBlock.can_add OSMFormat.PrimitiveGroup.optional_DenseNodes_dense
             PrimitiveBlock.init) with false by reflexivity.
  cbn [negb]. unfold PBFOutputFormat.store_primitive_block.
  cbn [PBFOutputFormat.m_primitive_block PrimitiveBlock.count PrimitiveBlock.init
       PrimitiveBlock.m_count Z.eqb].
  unfold PBFOutputFormat.with_block, PrimitiveBlock.reset, PrimitiveBlock.add_dense_node,
    dense_state.
  cbn [PBFOutputFormat.m_options PBFOutputFormat.m_primitive_block
       PBFOutputFormat.m_output_queue PrimitiveBlock.m_dense_nodes
       PrimitiveBlock.m_stringtable PrimitiveBlock.m_pbf_primitive_group_data
       PrimitiveBlock.m_type PrimitiveBlock.m_count StringTable.clear PrimitiveBlock.init].
  change (0 + 1) with 1. unfold StringTable.clear.
  destruct (DenseNodes.add_node options n StringTable.init DenseNodes.init) as [st dn].
  reflexivity.
Qed.

(** A node that fits goes into the current block of dense nodes. *)
Lemma node_on_dense_state {B : Build} (options : pbf_output_options)
    (queue : list SerializeBlob.t) (st : StringTable.t) (dn : DenseNodes.t) (count : Z)
    (n : Node) :
  use_dense_nodes options = true ->
  count < max_entities_per_block ->
  StringTable.size st + DenseNodes.size dn < PrimitiveBlock.max_used_blob_size ->
  PBFOutputFormat.node n (dense_state options queue st dn count)
  = dense_state options queue
      (fst (DenseNodes.add_node options n st dn))
      (snd (DenseNodes.add_node options n st dn))
      (count + 1).
Proof.
  intros Hdense Hcount Hsize. unfold PBFOutputFormat.node, dense_state.
  cbn [PBFOutputFormat.m_options]. rewrite Hdense.
  unfold PBFOutputFormat.switch_primitive_block_type.
  cbn [PBFOutputFormat.m_primitive_block].
  rewrite (proj2 (can_add_true_iff _ _)).
  - cbn [negb]. unfold PBFOutputFormat.with_block, PrimitiveBlock.add_dense_node.
    cbn [PBFOutputFormat.m_options PBFOutputFormat.m_primitive_block
         PBFOutputFormat.m_output_queue PrimitiveBlock.m_dense_nodes
         PrimitiveBlock.m_stringtable PrimitiveBlock.m_pbf_primitive_group_data
         PrimitiveBlock.m_type PrimitiveBlock.m_count].
    destruct (DenseNodes.add_node options n st dn) as [st1 dn1]. reflexivity.
  - split; [reflexivity |]. split; [exact Hcount |].
    unfold PrimitiveBlock.size.
    cbn [PrimitiveBlock.m_pbf_primitive_group_data PrimitiveBlock.m_stringtable
         PrimitiveBlock.m_dense_nodes].
    change (size (@nil byte)) with 0. lia.
Qed.

(** A node that finds the block full has it stored and opens the next. *)
Lemma node_on_full_dense_state {B : Build} (options : pbf_output_options)
    (queue : list SerializeBlob.t) (st : StringTable.t) (dn : DenseNodes.t) (count : Z)
    (n : Node) :
  use_dense_nodes options = true ->
  max_entities_per_block <= count ->
  PBFOutputFormat.node n (dense_state options queue st dn count)
  = dense_state options
      (queue ++ [data_job options (dense_block_message options st dn)])
      (fst (DenseNodes.add_node options n StringTable.init DenseNodes.init))
      (snd (DenseNodes.add_node options n StringTable.init DenseNodes.init))
      1.
Proof.
  intros Hdense Hcount. unfold PBFOutputFormat.node, dense_state.
  cbn [PBFOutputFormat.m_options]. rewrite Hdense.
  unfold PBFOutputFormat.switch_primitive_block_type.
  cbn [PBFOutputFormat.m_primitive_block].
  rewrite (proj2 (can_add_false_iff _ _)) by (right; left; exact Hcount).
  cbn [negb]. unfold PBFOutputFormat.store_primitive_block.
  cbn [PBFOutputFormat.m_primitive_block PrimitiveBlock.count PrimitiveBlock.m_count].
  destruct (Z.eqb_spec count 0) as [E | _]; [unfold max_entities_per_block in Hcount; lia |].
  unfold PrimitiveBlock.group_data.
  cbn [PrimitiveBlock.type PrimitiveBlock.m_type PrimitiveBlock.m_dense_nodes
       PBFOutputFormat.m_options].
  rewrite PrimitiveGroup_eqb_refl.
  unfold PBFOutputFormat.with_block, PrimitiveBlock.reset, PrimitiveBlock.add_dense_node.
  cbn [PBFOutputFormat.m_options PBFOutputFormat.m_primitive_block
       PBFOutputFormat.m_output_queue PrimitiveBlock.m_dense_nodes
       PrimitiveBlock.m_stringtable PrimitiveBlock.m_pbf_primitive_group_data
       PrimitiveBlock.m_type PrimitiveBlock.m_count StringTable.clear List.app].
  change (0 + 1) with 1. unfold StringTable.clear.
  destruct (DenseNodes.add_node options n StringTable.init DenseNodes.init) as [st1 dn1].
  reflexivity.
Qed.

(** [write_end] on a block of dense nodes queues its job. *)
Lemma write_end_on_dense_state (options : pbf_output_options)
    (queue : list SerializeBlob.t) (st : StringTable.t) (dn : DenseNodes.t) (count : Z) :
  0 < count ->
  PBFOutputFormat.m_output_queue
    (PBFOutputFormat.write_end (dense_state options queue st dn count))
  = queue ++ [data_job options (dense_block_message options st dn)].
Proof.
  intros Hcount.
  unfold PBFOutputFormat.write_end, PBFOutputFormat.store_primitive_block, dense_state.
  cbn [PBFOutputFormat.m_primitive_block PrimitiveBlock.count PrimitiveBlock.m_count].
  destruct (Z.eqb_spec count 0) as [E | _]; [lia |].
  unfold PrimitiveBlock.group_data.
  cbn [PrimitiveBlock.type PrimitiveBlock.m_type PrimitiveBlock.m_dense_nodes
       PBFOutputFormat.m_options].
  rewrite PrimitiveGroup_eqb_refl. reflexivity.
Qed.

Lemma DenseNodes_size_add_node {B : Build} (options : pbf_output_options) (n : Node)
    (st : StringTable.t) (dn : DenseNodes.t) :
  DenseNodes.size (snd (DenseNodes.add_node options n st dn)) = DenseNodes.size dn + 24.
Proof.
  pose proof (add_node_fields options n st dn) as F. cbv zeta in F.
  destruct F as (Fids & _). unfold DenseNodes.size. rewrite Fids, size_push_back. lia.
Qed.

Lemma size_cons {A : Type} (x : A) (l : list A) : size (x :: l) = size l + 1.
Proof. unfold size. cbn [List.length]. lia. Qed.

(** Nodes that fit are all added to the current block. *)
Lemma nodes_on_dense_state {B : Build} (options : pbf_output_options)
    (queue : list SerializeBlob.t) (ns : list Node) :
  use_dense_nodes options = true ->
  forall (st : StringTable.t) (dn : DenseNodes.t) (count : Z),
    count + size ns <= max_entities_per_block ->
    StringTable.size st + string_bytes options ns + DenseNodes.size dn + 24 * size ns
    <= PrimitiveBlock.max_used_blob_size ->
    PBFOutputFormat.write_buffer (List.map a_node ns) (dense_state options queue st dn count)
    = dense_state options queue
        (fst (add_nodes options ns st dn)) (snd (add_nodes options ns st dn))
        (count + size ns).
Proof.
  intros Hdense. induction ns as [| n ns IH]; intros st dn count Hcount Hsize.
  - cbn. rewrite Z.add_0_r. reflexivity.
  - rewrite size_cons in *. cbn [string_bytes List.fold_right] in Hsize.
    fold (string_bytes options ns) in Hsize.
    pose proof (size_nonneg ns) as Hns.
    pose proof (string_bytes_nonneg options ns) as Hbytes.
    pose proof (node_string_bytes_nonneg options n) as Hnode.
    unfold PBFOutputFormat.write_buffer in *.
    cbn [List.map List.fold_left PBFOutputFormat.handle add_nodes].
    rewrite node_on_dense_state by (try assumption; lia).
    pose proof (StringTable_size_add_node options n st dn) as Hst.
    pose proof (DenseNodes_size_add_node options n st dn) as Hdn.
    destruct (DenseNodes.add_node options n st dn) as [st1 dn1]. cbn [fst snd] in *.
    rewrite IH by lia.
    f_equal. lia.
Qed.

(** The ids array of a buffer is the delta encoding of the ids added. *)
Lemma add_nodes_ids {B : Build} (options : pbf_output_options) (ns : list Node) :
  forall (st : StringTable.t) (dn : DenseNodes.t),
    DenseNodes.m_ids (snd (add_nodes options ns st dn))
    = DenseNodes.m_ids dn
      ++ PBFOutputFormat.delta_elements (List.map (fun n : Node => id n) ns)
           (DenseNodes.m_delta_id dn).
Proof.
  induction ns as [| n ns IH]; intros st dn.
  - cbn. symmetry. apply List.app_nil_r.
  - cbn [add_nodes List.map PBFOutputFormat.delta_elements].
    pose proof (add_node_fields options n st dn) as F. cbv zeta in F.
    destruct F as (Fids & Fdelta & _).
    destruct (DenseNodes.add_node options n st dn) as [st1 dn1]. cbn [snd] in *.
    rewrite IH, Fids, Fdelta. unfold push_back, DeltaEncode.update.
    rewrite <- List.app_assoc. reflexivity.
Qed.

(** *** A stream of 8000 nodes that does not fit in one block *)

Lemma bits_nonempty (p : positive) : bits p <> ""%string.
Proof. destruct p; discriminate. Qed.

Lemma bits_not_k (p : positive) : "k"%string <> bits p.
Proof. destruct p; discriminate. Qed.

Lemma bits_inj (p : positive) : forall q : positive, bits p = bits q -> p = q.
Proof.
  induction p as [p IH | p IH |]; intros q H; destruct q as [q | q |]; cbn in H;
    try discriminate H.
  - injection H as H. f_equal. apply IH. exact H.
  - injection H as H. destruct (bits_nonempty p H).
  - injection H as H. f_equal. apply IH. exact H.
  - injection H as H. symmetry in H. destruct (bits_nonempty q H).
  - reflexivity.
Qed.

Lemma StringTable_find_none (s : string) (l : list string) :
  (forall x : string, In x l -> x <> s) ->
  forall i : Z, StringTable.find s l i = None.
Proof.
  induction l as [| x l IH]; intros Hl i; [reflexivity |].
  cbn [StringTable.find].
  destruct (String.eqb_spec x s) as [E | _].
  - exfalso. apply (Hl x); [left; reflexivity | exact E].
  - apply IH. intros y Hy. apply Hl. right. exact Hy.
Qed.

Lemma StringTable_size_append (l : list string) (s : string) :
  StringTable.size {| StringTable.m_strings := l ++ [s] |}
  = StringTable.size {| StringTable.m_strings := l |} + Z.of_nat (String.length s).
Proof.
  unfold StringTable.size, StringTable.entries.
  cbn [StringTable.m_strings List.fold_right].
  rewrite fold_lengths_app. simpl. lia.
Qed.

Lemma String_length_positive (s : string) : s <> ""%string -> 1 <= Z.of_nat (String.length s).
Proof. destruct s; [contradiction | cbn [String.length]; lia]. Qed.

(** Each numbered tag adds its value to the string table. *)
Lemma add_numbered_tags (n : nat) :
  forall (a : nat) (st : StringTable.t) (m : list Z),
    numbered_below a st ->
    StringTable.size st + Z.of_nat n
    <= StringTable.size
         (fst (DenseNodes.add_tags (List.map numbered_tag (List.seq a n)) st m)).
Proof.
  induction n as [| n IH]; intros a st m Hst.
  - cbn. lia.
  - cbn [List.seq List.map DenseNodes.add_tags numbered_tag key value].
    assert (Hkey : exists st1 : StringTable.t,
               snd (StringTable.add "k" st) = st1
               /\ numbered_below a st1
               /\ StringTable.size st <= StringTable.size st1).
    { unfold StringTable.add.
      destruct (StringTable.find "k" (StringTable.m_strings st) 1).
      - exists st. repeat split; [exact Hst | lia].
      - eexists. split; [reflexivity |]. cbn [snd]. split.
        + intros s Hs. cbn [StringTable.m_strings] in Hs.
          apply List.in_app_or in Hs. destruct Hs as [Hs | [<- | []]].
          * apply Hst. exact Hs.
          * left. reflexivity.
        + destruct st as [l]. cbn [StringTable.m_strings].
          rewrite StringTable_size_append. lia. }
    destruct Hkey as (st1 & Hadd1 & Hst1 & Hsize1).
    destruct (StringTable.add "k" st) as [k st1']. cbn [snd] in Hadd1. subst st1'.
    assert (Hfind : StringTable.find (bits (Pos.of_succ_nat a)) (StringTable.m_strings st1) 1
                    = None).
    { apply StringTable_find_none. intros x Hx E.
      destruct (Hst1 x Hx) as [-> | (j & Hj & ->)].
      - exact (bits_not_k _ E).
      - apply bits_inj in E. apply SuccNat2Pos.inj in E. lia. }
    unfold StringTable.add at 1. rewrite Hfind.
    match goal with
    | |- _ <= StringTable.size (fst (DenseNodes.add_tags _ ?st2 ?m2)) =>
        specialize (IH (S a) st2 m2)
    end.
    cbn [Nat.add] in IH.
    pose proof (String_length_positive _ (bits_nonempty (Pos.of_succ_nat a))) as Hlen.
    assert (Hsize2 : StringTable.size st1 + 1
                     <= StringTable.size
                          {| StringTable.m_strings :=
                               StringTable.m_strings st1 ++ [bits (Pos.of_succ_nat a)] |}).
    { rewrite StringTable_size_append. destruct st1 as [l]. cbn [StringTable.m_strings]. lia. }
    assert (Hst2 : numbered_below (S a)
                     {| StringTable.m_strings :=
                          StringTable.m_strings st1 ++ [bits (Pos.of_succ_nat a)] |}).
    { intros s Hs. cbn [StringTable.m_strings] in Hs.
      apply List.in_app_or in Hs. destruct Hs as [Hs | [<- | []]].
      - destruct (Hst1 s Hs) as [-> | (j & Hj & ->)].
        + left. reflexivity.
        + right. exists j. split; [lia | reflexivity].
      - right. exists a. split; [lia | reflexivity]. }
    specialize (IH Hst2). lia.
Qed.

(** A node that finds the size estimate at the limit has the block stored
    and opens the next. *)
Lemma node_on_large_dense_state {B : Build} (options : pbf_output_options)
    (queue : list SerializeBlob.t) (st : StringTable.t) (dn : DenseNodes.t) (count : Z)
    (n : Node) :
  use_dense_nodes options = true ->
  count <> 0 ->
  PrimitiveBlock.max_used_blob_size <= StringTable.size st + DenseNodes.size dn ->
  PBFOutputFormat.node n (dense_state options queue st dn count)
  = dense_state options
      (queue ++ [data_job options (dense_block_message options st dn)])
      (fst (DenseNodes.add_node options n StringTable.init DenseNodes.init))
      (snd (DenseNodes.add_node options n StringTable.init DenseNodes.init))
      1.
Proof.
  intros Hdense Hcount Hsize. unfold PBFOutputFormat.node, dense_state.
  cbn [PBFOutputFormat.m_options]. rewrite Hdense.
  unfold PBFOutputFormat.switch_primitive_block_type.
  cbn [PBFOutputFormat.m_primitive_block].
  rewrite (proj2 (can_add_false_iff _ _)).
  2:{ right. right. unfold PrimitiveBlock.size.
      cbn [PrimitiveBlock.m_pbf_primitive_group_data PrimitiveBlock.m_stringtable
           PrimitiveBlock.m_dense_nodes].
      change (size (@nil byte)) with 0. lia. }
  cbn [negb]. unfold PBFOutputFormat.store_primitive_block.
  cbn [PBFOutputFormat.m_primitive_block PrimitiveBlock.count PrimitiveBlock.m_count].
  destruct (Z.eqb_spec count 0) as [E | _]; [contradiction |].
  unfold PrimitiveBlock.group_data.
  cbn [PrimitiveBlock.type PrimitiveBlock.m_type PrimitiveBlock.m_dense_nodes
       PBFOutputFormat.m_options].
  rewrite PrimitiveGroup_eqb_refl.
  unfold PBFOutputFormat.with_block, PrimitiveBlock.reset, PrimitiveBlock.add_dense_node.
  cbn [PBFOutputFormat.m_options PBFOutputFormat.m_primitive_block
       PBFOutputFormat.m_output_queue PrimitiveBlock.m_dense_nodes
       PrimitiveBlock.m_stringtable PrimitiveBlock.m_pbf_primitive_group_data
       PrimitiveBlock.m_type PrimitiveBlock.m_count StringTable.clear List.app].
  change (0 + 1) with 1. unfold StringTable.clear.
  destruct (DenseNodes.add_node options n StringTable.init DenseNodes.init) as [st1 dn1].
  reflexivity.
Qed.

Lemma string_bytes_nodes_at (l : list nat) :
  string_bytes options_without_metadata (List.map (fun i : nat => node_at (Z.of_nat i)) l) = 0.
Proof. induction l as [| i l IH]; [reflexivity |]. cbn [List.map string_bytes List.fold_right].
  fold (string_bytes options_without_metadata
          (List.map (fun i : nat => node_at (Z.of_nat i)) l)).
  rewrite IH. reflexivity.
Qed.

Lemma write_buffer_cons {B : Build} (n : Node) (buffer : list Entity) (f : PBFOutputFormat.t) :
  PBFOutputFormat.write_buffer (a_node n :: buffer) f
  = PBFOutputFormat.write_buffer buffer (PBFOutputFormat.node n f).
Proof. reflexivity. Qed.

(** The string table after the node with [count] tags holds at least
    [count] bytes. *)
Lemma StringTable_size_node_with_tags {B : Build} (count : nat) :
  Z.of_nat count
  <= StringTable.size
       (fst (DenseNodes.add_node options_without_metadata (node_with_tags count)
               StringTable.init DenseNodes.init)).
Proof.
  pose proof (add_node_fields options_without_metadata (node_with_tags count)
                StringTable.init DenseNodes.init) as F.
  cbv zeta in F.
  destruct F as (_ & _ & _ & _ & _ & _ & _ & _ & _ & _ & _ & _ & _ & _ & Fst).
  rewrite Fst.
  change (after_user options_without_metadata (node_with_tags count) StringTable.init)
    with StringTable.init.
  change (tags (node_with_tags count)) with (List.map numbered_tag (List.seq 0 count)).
  pose proof (add_numbered_tags count 0 StringTable.init
                (DenseNodes.m_tags DenseNodes.init)) as H.
  change (StringTable.size StringTable.init) with 0 in H.
  apply H. intros s [].
Qed.

(** C5, as stated, fails: in the example build (blobs of 16 MiB) the
    stream [stream_with_many_tags] has exactly 8000 nodes and, with dense
    nodes switched on, leaves two data jobs on the queue, not one.  Its
    first node brings 32 million different strings into the string table;
    the size estimate is then over [max_used_blob_size], [can_add] says no
    to the second node, and the block is stored with a single node in
    it. *)
Lemma stream_of_8000_nodes_in_two_blocks :
  size stream_with_many_tags = 8000
  /\ use_dense_nodes options_without_metadata = true
  /\ size (PBFOutputFormat.m_output_queue
             (PBFOutputFormat.write_end
                (@PBFOutputFormat.write_buffer example_build
                   (List.map a_node stream_with_many_tags)
                   (fresh_state options_without_metadata [])))) = 2.
Proof.
  split; [| split; [reflexivity |]].
  - unfold stream_with_many_tags. rewrite size_cons. unfold size.
    rewrite List.length_map, List.length_seq. reflexivity.
  - unfold stream_with_many_tags.
    change (Z.to_nat 7999) with (S (Z.to_nat 7998)).
    cbn [List.seq List.map]. rewrite !write_buffer_cons.
    rewrite node_on_fresh_state by reflexivity.
    pose proof (@StringTable_size_node_with_tags example_build (Z.to_nat 32000000)) as Hbig.
    rewrite Z2Nat.id in Hbig by discriminate.
    pose proof (@DenseNodes_size_add_node example_build options_without_metadata
                  (node_with_tags (Z.to_nat 32000000)) StringTable.init DenseNodes.init)
      as Hdn.
    change (DenseNodes.size DenseNodes.init) with 0 in Hdn.
    rewrite node_on_large_dense_state.
    2: reflexivity.
    2: discriminate.
    2:{ change (@PrimitiveBlock.max_used_blob_size example_build) with 15938355. lia. }
    pose proof (@StringTable_size_add_node example_build options_without_metadata
                  (node_at (Z.of_nat 2)) StringTable.init DenseNodes.init) as Hst2.
    change (StringTable.size StringTable.init
            + node_string_bytes options_without_metadata (node_at (Z.of_nat 2)))
      with 0 in Hst2.
    pose proof (StringTable_size_nonneg
                  (fst (@DenseNodes.add_node example_build options_without_metadata
                          (node_at (Z.of_nat 2)) StringTable.init DenseNodes.init)))
      as Hst2'.
    pose proof (@DenseNodes_size_add_node example_build options_without_metadata
                  (node_at (Z.of_nat 2)) StringTable.init DenseNodes.init) as Hdn2.
    change (DenseNodes.size DenseNodes.init) with 0 in Hdn2.
    assert (Hlen : size (List.map (fun i : nat => node_at (Z.of_nat i))
                           (List.seq 3 (Z.to_nat 7998))) = 7998).
    { unfold size. rewrite List.length_map, List.length_seq. reflexivity. }
    rewrite nodes_on_dense_state.
    + rewrite write_end_on_dense_state by (rewrite Hlen; lia). reflexivity.
    + reflexivity.
    + rewrite Hlen. unfold max_entities_per_block. lia.
    + rewrite Hlen, string_bytes_nodes_at.
      change (@PrimitiveBlock.max_used_blob_size example_build) with 15938355. lia.
Qed.

(** *** Streams the size estimate lets into one block *)

Lemma dense_block_size_eq {B : Build} (options : pbf_output_options) (ns : list Node) :
  dense_block_size options ns
  = StringTable.size (fst (add_nodes options ns StringTable.init DenseNodes.init))
    + DenseNodes.size (snd (add_nodes options ns StringTable.init DenseNodes.init)).
Proof.
  unfold dense_block_size, dense_state, PrimitiveBlock.size.
  cbn [PBFOutputFormat.m_primitive_block PrimitiveBlock.m_pbf_primitive_group_data
       PrimitiveBlock.m_stringtable PrimitiveBlock.m_dense_nodes].
  change (size (@nil byte)) with 0. lia.
Qed.

Lemma size_allows_iff {B : Build} (options : pbf_output_options) (ns : list Node) (k : nat) :
  size_allows options ns k = true
  <-> forall j : nat,
        (0 < j < k)%nat ->
        dense_block_size options (List.firstn j ns) < PrimitiveBlock.max_used_blob_size.
Proof.
  unfold size_allows. rewrite List.forallb_forall. split.
  - intros H j Hj. apply Z.ltb_lt. apply H. apply List.in_seq. lia.
  - intros H j Hj. apply List.in_seq in Hj. apply Z.ltb_lt. apply H. lia.
Qed.

(** Nodes are all added to the current block as long as the size estimate
    is below the limit when they come. *)
Lemma nodes_below_the_limit {B : Build} (options : pbf_output_options)
    (queue : list SerializeBlob.t) (ns : list Node) :
  use_dense_nodes options = true ->
  forall (st : StringTable.t) (dn : DenseNodes.t) (count : Z),
    count + size ns <= max_entities_per_block ->
    (forall j : nat,
        (j < List.length ns)%nat ->
        StringTable.size (fst (add_nodes options (List.firstn j ns) st dn))
        + DenseNodes.size (snd (add_nodes options (List.firstn j ns) st dn))
        < PrimitiveBlock.max_used_blob_size) ->
    PBFOutputFormat.write_buffer (List.map a_node ns) (dense_state options queue st dn count)
    = dense_state options queue
        (fst (add_nodes options ns st dn)) (snd (add_nodes options ns st dn))
        (count + size ns).
Proof.
  intros Hdense. induction ns as [| n ns IH]; intros st dn count Hcount Hsize.
  - cbn. rewrite Z.add_0_r. reflexivity.
  - rewrite size_cons in *.
    pose proof (size_nonneg ns) as Hns.
    unfold PBFOutputFormat.write_buffer in *.
    cbn [List.map List.fold_left PBFOutputFormat.handle add_nodes].
    pose proof (Hsize 0%nat ltac:(cbn [List.length]; lia)) as H0.
    cbn [List.firstn add_nodes fst snd] in H0.
    rewrite node_on_dense_state by (try assumption; lia).
    assert (Hrest : forall j : nat,
               (j < List.length ns)%nat ->
               StringTable.size
                 (fst (add_nodes options (List.firstn j ns)
                         (fst (DenseNodes.add_node options n st dn))
                         (snd (DenseNodes.add_node options n st dn))))
               + DenseNodes.size
                   (snd (add_nodes options (List.firstn j ns)
                           (fst (DenseNodes.add_node options n st dn))
                           (snd (DenseNodes.add_node options n st dn))))
               < PrimitiveBlock.max_used_blob_size).
    { intros j Hj.
      pose proof (Hsize (S j) ltac:(cbn [List.length]; lia)) as HS.
      cbn [List.firstn add_nodes] in HS.
      destruct (DenseNodes.add_node options n st dn) as [st1 dn1]. exact HS. }
    destruct (DenseNodes.add_node options n st dn) as [st1 dn1]. cbn [fst snd] in *.
    rewrite IH by (try assumption; lia).
    f_equal. lia.
Qed.

(** A stream of at most [max_entities_per_block] nodes that the size
    estimate lets into one block ends up in one block. *)
Lemma nodes_the_size_allows {B : Build} (options : pbf_output_options)
    (queue : list SerializeBlob.t) (ns : list Node) :
  use_dense_nodes options = true ->
  ns <> [] ->
  size ns <= max_entities_per_block ->
  size_allows options ns (List.length ns) = true ->
  PBFOutputFormat.write_buffer (List.map a_node ns) (fresh_state options queue)
  = dense_state options queue
      (fst (add_nodes options ns StringTable.init DenseNodes.init))
      (snd (add_nodes options ns StringTable.init DenseNodes.init))
      (size ns).
Proof.
  intros Hdense Hne Hcount Hallows.
  destruct ns as [| n ns]; [contradiction |].
  rewrite size_cons in *.
  pose proof (size_nonneg ns) as Hns.
  pose proof (proj1 (size_allows_iff options (n :: ns) _) Hallows) as Hsize.
  unfold PBFOutputFormat.write_buffer.
  cbn [List.map List.fold_left PBFOutputFormat.handle add_nodes].
  rewrite node_on_fresh_state by assumption.
  assert (Hrest : forall j : nat,
             (j < List.length ns)%nat ->
             StringTable.size
               (fst (add_nodes options (List.firstn j ns)
                       (fst (DenseNodes.add_node options n StringTable.init DenseNodes.init))
                       (snd (DenseNodes.add_node options n StringTable.init DenseNodes.init))))
             + DenseNodes.size
                 (snd (add_nodes options (List.firstn j ns)
                         (fst (DenseNodes.add_node options n StringTable.init DenseNodes.init))
                         (snd (DenseNodes.add_node options n StringTable.init
                                 DenseNodes.init))))
             < PrimitiveBlock.max_used_blob_size).
  { intros j Hj.
    pose proof (Hsize (S j) ltac:(cbn [List.length]; lia)) as HS.
    rewrite dense_block_size_eq in HS. cbn [List.firstn add_nodes] in HS.
    destruct (DenseNodes.add_node options n StringTable.init DenseNodes.init) as [st1 dn1].
    exact HS. }
  destruct (DenseNodes.add_node options n StringTable.init DenseNodes.init) as [st1 dn1].
  cbn [fst snd] in *.
  pose proof (nodes_below_the_limit options queue ns Hdense st1 dn1 1) as H.
  unfold PBFOutputFormat.write_buffer in H. rewrite H by (try assumption; lia).
  f_equal. lia.
Qed.

(** A node handed to an encoder whose block holds dense nodes leaves such
    an encoder, with the jobs queued before still at the front of the
    queue. *)
Lemma node_on_any_dense_state {B : Build} (options : pbf_output_options)
    (queue : list SerializeBlob.t) (st : StringTable.t) (dn : DenseNodes.t) (count : Z)
    (n : Node) :
  use_dense_nodes options = true ->
  0 < count ->
  exists (jobs : list SerializeBlob.t) (st' : StringTable.t) (dn' : DenseNodes.t)
         (count' : Z),
    PBFOutputFormat.node n (dense_state options queue st dn count)
    = dense_state options (queue ++ jobs) st' dn' count'
    /\ 0 < count'.
Proof.
  intros Hdense Hcount.
  destruct (Z.lt_ge_cases count max_entities_per_block) as [Hfew | Hfull].
  - destruct (Z.lt_ge_cases (StringTable.size st + DenseNodes.size dn)
                            PrimitiveBlock.max_used_blob_size) as [Hsmall | Hlarge].
    + exists [], (fst (DenseNodes.add_node options n st dn)),
        (snd (DenseNodes.add_node options n st dn)), (count + 1).
      rewrite List.app_nil_r. split; [| lia].
      apply node_on_dense_state; assumption.
    + eexists [_], _, _, 1. split; [| lia].
      apply node_on_large_dense_state; [assumption | lia | assumption].
  - eexists [_], _, _, 1. split; [| lia].
    apply node_on_full_dense_state; assumption.
Qed.

(** Whatever nodes follow, [write_end] finds a block to store: the queue
    keeps its jobs and gets one more at least. *)
Lemma write_end_after_nodes {B : Build} (options : pbf_output_options) (ns : list Node) :
  use_dense_nodes options = true ->
  forall (queue : list SerializeBlob.t) (st : StringTable.t) (dn : DenseNodes.t) (count : Z),
    0 < count ->
    exists jobs : list SerializeBlob.t,
      jobs <> []
      /\ PBFOutputFormat.m_output_queue
           (PBFOutputFormat.write_end
              (PBFOutputFormat.write_buffer (List.map a_node ns)
                 (dense_state options queue st dn count)))
         = queue ++ jobs.
Proof.
  intros Hdense. induction ns as [| n ns IH]; intros queue st dn count Hcount.
  - exists [data_job options (dense_block_message options st dn)].
    split; [discriminate |].
    cbn [List.map PBFOutputFormat.write_buffer List.fold_left].
    apply write_end_on_dense_state. exact Hcount.
  - destruct (node_on_any_dense_state options queue st dn count n Hdense Hcount)
      as (jobs & st' & dn' & count' & Hnode & Hcount').
    destruct (IH (queue ++ jobs) st' dn' count' Hcount') as (more & Hmore & Hqueue).
    exists (jobs ++ more). split.
    + intros E. apply List.app_eq_nil in E. destruct E as [_ E]. contradiction.
    + unfold PBFOutputFormat.write_buffer in *.
      cbn [List.map List.fold_left PBFOutputFormat.handle].
      rewrite Hnode, Hqueue. symmetry. apply List.app_assoc.
Qed.

Lemma size_firstn {A : Type} (k : nat) (l : list A) :
  (k <= List.length l)%nat -> size (List.firstn k l) = Z.of_nat k.
Proof. intros H. unfold size. rewrite List.length_firstn. lia. Qed.

Lemma size_allows_firstn {B : Build} (options : pbf_output_options) (ns : list Node)
    (k : nat) :
  (k <= List.length ns)%nat ->
  size_allows options ns k = true ->
  size_allows options (List.firstn k ns) (List.length (List.firstn k ns)) = true.
Proof.
  intros Hk H. rewrite size_allows_iff in *. intros j Hj.
  rewrite List.length_firstn in Hj.
  rewrite List.firstn_firstn. replace (Nat.min j k) with j by lia.
  apply H. lia.
Qed.

(** When the size estimate reaches the limit after [k] nodes, the block is
    stored with these [k] nodes, and the nodes behind them end up in later
    blocks. *)
Lemma first_block_at_the_size_limit {B : Build} (options : pbf_output_options)
    (queue : list SerializeBlob.t) (ns : list Node) (k : nat) :
  use_dense_nodes options = true ->
  (0 < k < List.length ns)%nat ->
  Z.of_nat k <= max_entities_per_block ->
  size_allows options ns k = true ->
  PrimitiveBlock.max_used_blob_size <= dense_block_size options (List.firstn k ns) ->
  exists jobs : list SerializeBlob.t,
    jobs <> []
    /\ PBFOutputFormat.m_output_queue
         (PBFOutputFormat.write_end
            (PBFOutputFormat.write_buffer (List.map a_node ns) (fresh_state options queue)))
       = queue
         ++ data_job options
              (dense_block_message options
                 (fst (add_nodes options (List.firstn k ns) StringTable.init DenseNodes.init))
                 (snd (add_nodes options (List.firstn k ns) StringTable.init DenseNodes.init)))
            :: jobs.
Proof.
  intros Hdense Hk Hcount Hallows Hlimit.
  assert (Hsplit : List.map a_node ns
                   = List.map a_node (List.firstn k ns) ++ List.map a_node (List.skipn k ns)).
  { rewrite <- List.map_app, List.firstn_skipn. reflexivity. }
  rewrite Hsplit. clear Hsplit.
  destruct (List.skipn k ns) as [| n rest] eqn:Eskip.
  { pose proof (f_equal (@List.length Node) Eskip) as E.
    rewrite List.length_skipn in E. cbn [List.length] in E. lia. }
  unfold PBFOutputFormat.write_buffer.
  rewrite List.fold_left_app.
  fold (PBFOutputFormat.write_buffer (List.map a_node (List.firstn k ns))
          (fresh_state options queue)).
  rewrite nodes_the_size_allows.
  - rewrite size_firstn by lia.
    cbn [List.map List.fold_left PBFOutputFormat.handle].
    rewrite dense_block_size_eq in Hlimit.
    rewrite node_on_large_dense_state by (try assumption; lia).
    match goal with
    | |- context [dense_state options ?q ?st ?dn 1] =>
        destruct (write_end_after_nodes options rest Hdense q st dn 1 ltac:(lia))
          as (jobs & Hjobs & Hqueue)
    end.
    exists jobs. split; [exact Hjobs |].
    unfold PBFOutputFormat.write_buffer in Hqueue. rewrite Hqueue.
    rewrite <- List.app_assoc. reflexivity.
  - exact Hdense.
  - apply size_positive_nonempty. rewrite size_firstn by lia. lia.
  - rewrite size_firstn by lia. exact Hcount.
  - apply size_allows_firstn; [lia | exact Hallows].
Qed.

(** *** Two cases in which the size estimate stays below the limit *)

Lemma DenseNodes_size_add_nodes {B : Build} (options : pbf_output_options) (ns : list Node) :
  forall (st : StringTable.t) (dn : DenseNodes.t),
    DenseNodes.size (snd (add_nodes options ns st dn)) = DenseNodes.size dn + 24 * size ns.
Proof.
  induction ns as [| n ns IH]; intros st dn.
  - cbn. lia.
  - cbn [add_nodes]. rewrite size_cons.
    pose proof (DenseNodes_size_add_node options n st dn) as Hdn.
    destruct (DenseNodes.add_node options n st dn) as [st1 dn1]. cbn [snd] in Hdn.
    rewrite IH. lia.
Qed.

Lemma StringTable_size_add_nodes {B : Build} (options : pbf_output_options) (ns : list Node) :
  forall (st : StringTable.t) (dn : DenseNodes.t),
    StringTable.size (fst (add_nodes options ns st dn))
    <= StringTable.size st + string_bytes options ns.
Proof.
  induction ns as [| n ns IH]; intros st dn.
  - cbn. lia.
  - cbn [add_nodes string_bytes List.fold_right]. fold (string_bytes options ns).
    pose proof (StringTable_size_add_node options n st dn) as Hst.
    destruct (DenseNodes.add_node options n st dn) as [st1 dn1]. cbn [fst] in Hst.
    specialize (IH st1 dn1). lia.
Qed.

Lemma string_bytes_firstn (options : pbf_output_options) (ns : list Node) :
  forall j : nat, string_bytes options (List.firstn j ns) <= string_bytes options ns.
Proof.
  induction ns as [| n ns IH]; intros j.
  - rewrite List.firstn_nil. lia.
  - destruct j as [| j].
    + cbn [List.firstn]. pose proof (string_bytes_nonneg options (n :: ns)).
      change (string_bytes options []) with 0. lia.
    + cbn [List.firstn string_bytes List.fold_right].
      fold (string_bytes options (List.firstn j ns)). fold (string_bytes options ns).
      specialize (IH j). lia.
Qed.

(** The strings of the nodes, each counted as often as it occurs, and 24
    bytes per node fit below the limit. *)
Lemma size_allows_the_string_bytes {B : Build} (options : pbf_output_options)
    (ns : list Node) :
  string_bytes options ns + 24 * size ns <= PrimitiveBlock.max_used_blob_size ->
  size_allows options ns (List.length ns) = true.
Proof.
  intros H. apply size_allows_iff. intros j Hj.
  rewrite dense_block_size_eq, DenseNodes_size_add_nodes.
  pose proof (StringTable_size_add_nodes options (List.firstn j ns) StringTable.init
                DenseNodes.init) as Hst.
  pose proof (string_bytes_firstn options ns j) as Hbytes.
  change (StringTable.size StringTable.init) with 0 in Hst.
  change (DenseNodes.size DenseNodes.init) with 0.
  rewrite size_firstn by lia. unfold size in H. lia.
Qed.

Lemma StringTable_find_some (s : string) (l : list string) :
  In s l -> forall i : Z, exists j : Z, StringTable.find s l i = Some j.
Proof.
  induction l as [| x l IH]; intros Hin i; [destruct Hin |].
  cbn [StringTable.find].
  destruct (String.eqb_spec x s) as [_ | Hne].
  - exists i. reflexivity.
  - destruct Hin as [E | Hin]; [contradiction |]. apply IH. exact Hin.
Qed.

(** [add] leaves the table alone when it holds the string. *)
Lemma StringTable_add_known (s : string) (st : StringTable.t) :
  In s (StringTable.m_strings st) -> snd (StringTable.add s st) = st.
Proof.
  intros Hin. unfold StringTable.add.
  destruct (StringTable_find_some s _ Hin 1) as [j ->]. reflexivity.
Qed.

Lemma StringTable_add_keeps (s x : string) (st : StringTable.t) :
  In x (StringTable.m_strings st) -> In x (StringTable.m_strings (snd (StringTable.add s st))).
Proof.
  intros Hin. unfold StringTable.add.
  destruct (StringTable.find s (StringTable.m_strings st) 1); cbn [snd StringTable.m_strings].
  - exact Hin.
  - apply List.in_or_app. left. exact Hin.
Qed.

Lemma StringTable_add_holds (s : string) (st : StringTable.t) :
  In s (StringTable.m_strings (snd (StringTable.add s st))).
Proof.
  unfold StringTable.add.
  destruct (StringTable.find s (StringTable.m_strings st) 1) as [j |] eqn:E;
    cbn [snd StringTable.m_strings].
  - revert E. generalize 1. induction (StringTable.m_strings st) as [| x l IH]; intros i E.
    + discriminate E.
    + cbn [StringTable.find] in E. destruct (String.eqb_spec x s) as [-> | _].
      * left. reflexivity.
      * right. exact (IH _ E).
  - apply List.in_or_app. right. left. reflexivity.
Qed.

(** The strings of tags: the keys and the values. *)
Lemma add_tags_keeps (tags : list Tag) (x : string) :
  forall (st : StringTable.t) (m : list Z),
    In x (StringTable.m_strings st) ->
    In x (StringTable.m_strings (fst (DenseNodes.add_tags tags st m))).
Proof.
  induction tags as [| tag tags IH]; intros st m Hin; [exact Hin |].
  cbn [DenseNodes.add_tags].
  pose proof (StringTable_add_keeps (key tag) x st Hin) as Hk.
  destruct (StringTable.add (key tag) st) as [k st1]. cbn [snd] in Hk.
  pose proof (StringTable_add_keeps (value tag) x st1 Hk) as Hv.
  destruct (StringTable.add (value tag) st1) as [v st2]. cbn [snd] in Hv.
  apply IH. exact Hv.
Qed.

Lemma add_tags_holds (tags : list Tag) :
  forall (st : StringTable.t) (m : list Z) (tag : Tag),
    In tag tags ->
    In (key tag) (StringTable.m_strings (fst (DenseNodes.add_tags tags st m)))
    /\ In (value tag) (StringTable.m_strings (fst (DenseNodes.add_tags tags st m))).
Proof.
  induction tags as [| t tags IH]; intros st m tag Hin; [destruct Hin |].
  cbn [DenseNodes.add_tags].
  pose proof (StringTable_add_holds (key t) st) as Hk.
  destruct (StringTable.add (key t) st) as [k st1]. cbn [snd] in Hk.
  pose proof (StringTable_add_holds (value t) st1) as Hv.
  pose proof (StringTable_add_keeps (value t) (key t) st1 Hk) as Hk'.
  destruct (StringTable.add (value t) st1) as [v st2]. cbn [snd] in Hv, Hk'.
  destruct Hin as [<- | Hin].
  - split; apply add_tags_keeps; assumption.
  - apply IH. exact Hin.
Qed.

Lemma add_tags_known (tags : list Tag) :
  forall (st : StringTable.t) (m : list Z),
    (forall tag : Tag,
        In tag tags ->
        In (key tag) (StringTable.m_strings st) /\ In (value tag) (StringTable.m_strings st)) ->
    fst (DenseNodes.add_tags tags st m) = st.
Proof.
  induction tags as [| t tags IH]; intros st m Hknown; [reflexivity |].
  cbn [DenseNodes.add_tags].
  destruct (Hknown t (or_introl eq_refl)) as [Hk Hv].
  pose proof (StringTable_add_known (key t) st Hk) as Ek.
  destruct (StringTable.add (key t) st) as [k st1]. cbn [snd] in Ek. subst st1.
  pose proof (StringTable_add_known (value t) st Hv) as Ev.
  destruct (StringTable.add (value t) st) as [v st2]. cbn [snd] in Ev. subst st2.
  apply IH. intros tag Hin. apply Hknown. right. exact Hin.
Qed.

(** Nodes whose tags the string table holds leave it as it is, when user
    names are not written. *)
Lemma add_nodes_known {B : Build} (options : pbf_output_options) (ns : list Node) :
  md_user (add_metadata options) = false ->
  forall (st : StringTable.t) (dn : DenseNodes.t),
    (forall (n : Node) (tag : Tag),
        In n ns -> In tag (tags n) ->
        In (key tag) (StringTable.m_strings st) /\ In (value tag) (StringTable.m_strings st)) ->
    fst (add_nodes options ns st dn) = st.
Proof.
  intros Huser. induction ns as [| n ns IH]; intros st dn Hknown; [reflexivity |].
  cbn [add_nodes].
  pose proof (add_node_fields options n st dn) as F. cbv zeta in F.
  destruct F as (_ & _ & _ & _ & _ & _ & _ & _ & _ & _ & _ & _ & _ & _ & Fst).
  unfold after_user in Fst. rewrite Huser in Fst.
  rewrite add_tags_known in Fst
    by (intros tag Hin; apply (Hknown n tag); [left; reflexivity | exact Hin]).
  destruct (DenseNodes.add_node options n st dn) as [st1 dn1]. cbn [fst] in Fst. subst st1.
  apply IH. intros n' tag Hn' Htag. apply (Hknown n' tag); [right; exact Hn' | exact Htag].
Qed.

Lemma in_firstn {A : Type} (x : A) (l : list A) :
  forall j : nat, In x (List.firstn j l) -> In x l.
Proof.
  induction l as [| y l IH]; intros j H.
  - rewrite List.firstn_nil in H. exact H.
  - destruct j as [| j]; [destruct H |].
    cbn [List.firstn] in H. destruct H as [E | H]; [left; exact E | right; exact (IH j H)].
Qed.

(** Nodes that all have the tags of the first: the string table holds the
    strings of the first node, once, whatever the number of nodes. *)
Lemma size_allows_shared_tags {B : Build} (options : pbf_output_options) (n : Node)
    (ns : list Node) :
  md_user (add_metadata options) = false ->
  (forall n' : Node, In n' ns -> tags n' = tags n) ->
  node_string_bytes options n + 24 * size (n :: ns) <= PrimitiveBlock.max_used_blob_size ->
  size_allows options (n :: ns) (List.length (n :: ns)) = true.
Proof.
  intros Huser Hshared H. apply size_allows_iff. intros j Hj.
  destruct j as [| j]; [lia |].
  rewrite dense_block_size_eq, DenseNodes_size_add_nodes.
  change (DenseNodes.size DenseNodes.init) with 0.
  rewrite size_firstn by lia.
  cbn [List.firstn add_nodes].
  pose proof (StringTable_size_add_node options n StringTable.init DenseNodes.init) as Hst.
  change (StringTable.size StringTable.init) with 0 in Hst.
  pose proof (add_node_fields options n StringTable.init DenseNodes.init) as F.
  cbv zeta in F.
  destruct F as (_ & _ & _ & _ & _ & _ & _ & _ & _ & _ & _ & _ & _ & _ & Fst).
  destruct (DenseNodes.add_node options n StringTable.init DenseNodes.init) as [st1 dn1].
  cbn [fst] in Hst, Fst.
  rewrite add_nodes_known.
  - rewrite size_cons in H. cbn [List.length] in Hj. unfold size in H. lia.
  - exact Huser.
  - intros n' tag Hn' Htag. apply in_firstn in Hn'.
    rewrite (Hshared n' Hn') in Htag. rewrite Fst.
    apply add_tags_holds. exact Htag.
Qed.

(** C5, amended.  With dense nodes switched on, a stream of exactly 8000
    nodes that the size estimate lets into one block (the estimate
    [size()] of the block is below [max_used_blob_size] each time a node
    after the first comes) leaves, after [write_end], exactly one job on
    the queue, a data blob holding one block of dense nodes whose ids
    array has 8000 elements; such a stream followed by one more node, 8001
    nodes with the ids 1 to 8001, leaves exactly two such jobs, the first
    with an ids array of 8000 elements starting with 1, the second with
    the ids array [8001]: the delta encoder of the new block starts from
    zero.  The condition cannot be left out: when the estimate reaches the
    limit with the first [k] of the 8000 nodes in the block, the first
    blob holds these [k] nodes only, and other blobs follow it. *)
Theorem blocks_of_8000_and_8001_nodes {B : Build} (options : pbf_output_options)
    (queue : list SerializeBlob.t) :
  use_dense_nodes options = true ->
  (forall ns : list Node,
      size ns = 8000 ->
      size_allows options ns (List.length ns) = true ->
      let st := fst (add_nodes options ns StringTable.init DenseNodes.init) in
      let dn := snd (add_nodes options ns StringTable.init DenseNodes.init) in
      PBFOutputFormat.m_output_queue
        (PBFOutputFormat.write_end
           (PBFOutputFormat.write_buffer (List.map a_node ns) (fresh_state options queue)))
      = queue ++ [data_job options (dense_block_message options st dn)]
      /\ size (DenseNodes.m_ids dn) = 8000)
  /\ (forall (ns : list Node) (last : Node),
         size ns = 8000 ->
         sequential_ids (ns ++ [last]) ->
         size_allows options ns (List.length ns) = true ->
         let st1 := fst (add_nodes options ns StringTable.init DenseNodes.init) in
         let dn1 := snd (add_nodes options ns StringTable.init DenseNodes.init) in
         let st2 := fst (add_nodes options [last] StringTable.init DenseNodes.init) in
         let dn2 := snd (add_nodes options [last] StringTable.init DenseNodes.init) in
         PBFOutputFormat.m_output_queue
           (PBFOutputFormat.write_end
              (PBFOutputFormat.write_buffer (List.map a_node (ns ++ [last]))
                 (fresh_state options queue)))
         = queue ++ [data_job options (dense_block_message options st1 dn1);
                     data_job options (dense_block_message options st2 dn2)]
         /\ size (DenseNodes.m_ids dn1) = 8000
         /\ List.hd_error (DenseNodes.m_ids dn1) = Some 1
         /\ DenseNodes.m_ids dn2 = [8001])
  /\ (forall (ns more : list Node) (k : nat),
         size ns = 8000 ->
         (0 < k < List.length ns)%nat ->
         size_allows options ns k = true ->
         PrimitiveBlock.max_used_blob_size <= dense_block_size options (List.firstn k ns) ->
         let st := fst (add_nodes options (List.firstn k ns) StringTable.init DenseNodes.init) in
         let dn := snd (add_nodes options (List.firstn k ns) StringTable.init DenseNodes.init) in
         exists jobs : list SerializeBlob.t,
           jobs <> []
           /\ PBFOutputFormat.m_output_queue
                (PBFOutputFormat.write_end
                   (PBFOutputFormat.write_buffer (List.map a_node (ns ++ more))
                      (fresh_state options queue)))
              = queue ++ data_job options (dense_block_message options st dn) :: jobs
           /\ size (DenseNodes.m_ids dn) = Z.of_nat k).
Proof.
  intros Hdense.
  assert (Hrun : forall ns : list Node,
             size ns = 8000 ->
             size_allows options ns (List.length ns) = true ->
             PBFOutputFormat.write_buffer (List.map a_node ns) (fresh_state options queue)
             = dense_state options queue
                 (fst (add_nodes options ns StringTable.init DenseNodes.init))
                 (snd (add_nodes options ns StringTable.init DenseNodes.init))
                 8000).
  { intros ns Hlen Hsize.
    rewrite nodes_the_size_allows.
    - rewrite Hlen. reflexivity.
    - exact Hdense.
    - apply size_positive_nonempty. lia.
    - unfold max_entities_per_block. lia.
    - exact Hsize. }
  split; [| split].
  - intros ns Hlen Hsize st dn. split.
    + rewrite Hrun by assumption. apply write_end_on_dense_state. lia.
    + pose proof (add_nodes_from_init options ns StringTable.init) as C. cbv zeta in C.
      destruct C as (Cids & _). subst dn. rewrite Cids. exact Hlen.
  - intros ns last Hlen Hseq Hsize st1 dn1 st2 dn2.
    split; [| split; [| split]].
    + rewrite List.map_app. unfold PBFOutputFormat.write_buffer.
      rewrite List.fold_left_app. fold (PBFOutputFormat.write_buffer (List.map a_node ns)
                                          (fresh_state options queue)).
      rewrite Hrun by assumption.
      cbn [List.map List.fold_left PBFOutputFormat.handle].
      rewrite node_on_full_dense_state
        by (try assumption; unfold max_entities_per_block; lia).
      rewrite write_end_on_dense_state by lia.
      rewrite <- List.app_assoc. subst st1 dn1 st2 dn2. cbn [add_nodes List.app].
      destruct (DenseNodes.add_node options last StringTable.init DenseNodes.init).
      reflexivity.
    + pose proof (add_nodes_from_init options ns StringTable.init) as C. cbv zeta in C.
      destruct C as (Cids & _). subst dn1. rewrite Cids. exact Hlen.
    + subst dn1. rewrite add_nodes_ids.
      destruct ns as [| n0 ns']; [discriminate Hlen |].
      specialize (Hseq 0%nat n0 eq_refl).
      cbn. rewrite Hseq. reflexivity.
    + subst dn2. rewrite add_nodes_ids.
      assert (Hlast : id last = 8001).
      { rewrite (Hseq (List.length ns) last).
        - unfold size in Hlen. lia.
        - rewrite List.nth_error_app2 by lia. rewrite Nat.sub_diag. reflexivity. }
      cbn. rewrite Hlast. reflexivity.
  - intros ns more k Hlen Hk Hallows Hlimit st dn.
    assert (Hlength : Z.of_nat (List.length ns) = 8000) by exact Hlen.
    assert (Hfirst : List.firstn k (ns ++ more) = List.firstn k ns).
    { rewrite List.firstn_app. replace (k - List.length ns)%nat with 0%nat by lia.
      cbn [List.firstn]. apply List.app_nil_r. }
    destruct (first_block_at_the_size_limit options queue (ns ++ more) k) as (jobs & Hjobs & Hq).
    + exact Hdense.
    + rewrite List.length_app. lia.
    + unfold max_entities_per_block. lia.
    + apply size_allows_iff. intros j Hj.
      replace (List.firstn j (ns ++ more)) with (List.firstn j ns).
      * apply (proj1 (size_allows_iff options ns k) Hallows). exact Hj.
      * rewrite List.firstn_app. replace (j - List.length ns)%nat with 0%nat by lia.
        cbn [List.firstn]. symmetry. apply List.app_nil_r.
    + rewrite Hfirst. exact Hlimit.
    + exists jobs. rewrite Hfirst in Hq. split; [exact Hjobs |]. split; [exact Hq |].
      pose proof (add_nodes_from_init options (List.firstn k ns) StringTable.init) as C.
      cbv zeta in C. destruct C as (Cids & _). subst dn. rewrite Cids.
      apply size_firstn. lia.
Qed.

Lemma sequential_ids_nodes_from_1 (count : nat) : sequential_ids (nodes_from_1 count).
Proof.
  intros i n H. unfold nodes_from_1 in H.
  rewrite List.nth_error_map, List.nth_error_seq in H.
  destruct (Nat.ltb i count); [| discriminate H].
  cbn in H. injection H as <-. cbn. lia.
Qed.

Lemma nodes_from_1_S (count : nat) :
  nodes_from_1 (S count) = nodes_from_1 count ++ [node_at (Z.of_nat (1 + count))].
Proof. unfold nodes_from_1. rewrite List.seq_S, List.map_app. reflexivity. Qed.

Lemma string_bytes_nodes_sharing_a_tag (l : list nat) :
  string_bytes options_without_metadata
    (List.map (fun i : nat => node_with_long_tag (Z.of_nat i)) l)
  = 2000 * size l.
Proof.
  induction l as [| i l IH]; [reflexivity |].
  cbn [List.map string_bytes List.fold_right].
  fold (string_bytes options_without_metadata
          (List.map (fun i : nat => node_with_long_tag (Z.of_nat i)) l)).
  rewrite IH, size_cons.
  replace (node_string_bytes options_without_metadata (node_with_long_tag (Z.of_nat i)))
    with 2000 by (vm_compute; reflexivity).
  lia.
Qed.

(** [blocks_of_8000_and_8001_nodes] on three streams.  The 8000 nodes that
    all have the tag of 2000 bytes: counted once per node their tags make
    16000000 bytes, more than [max_used_blob_size]; the string table holds
    the tag once, and the nodes end up in one block.  The 8001 nodes of
    scenario 6 of the spec, with the ids 1, 2, ... and no tags: two jobs.
    The 8000 nodes of [stream_with_many_tags]: the estimate is at the
    limit with the first node in the block, and there are two jobs or
    more. *)
Lemma blocks_of_8000_and_8001_nodes_witness :
  PrimitiveBlock.max_used_blob_size (B := example_build)
  < string_bytes options_without_metadata (nodes_sharing_a_tag (Z.to_nat 8000))
  /\ size (PBFOutputFormat.m_output_queue
             (PBFOutputFormat.write_end
                (@PBFOutputFormat.write_buffer example_build
                   (List.map a_node (nodes_sharing_a_tag (Z.to_nat 8000)))
                   (fresh_state options_without_metadata [])))) = 1
  /\ size (PBFOutputFormat.m_output_queue
             (PBFOutputFormat.write_end
                (@PBFOutputFormat.write_buffer example_build
                   (List.map a_node (nodes_from_1 (Z.to_nat 8000)
                                     ++ [node_at (Z.of_nat (1 + Z.to_nat 8000))]))
                   (fresh_state options_without_metadata [])))) = 2
  /\ 2 <= size (PBFOutputFormat.m_output_queue
                  (PBFOutputFormat.write_end
                     (@PBFOutputFormat.write_buffer example_build
                        (List.map a_node (stream_with_many_tags ++ []))
                        (fresh_state options_without_metadata [])))).
Proof.
  pose proof (@blocks_of_8000_and_8001_nodes example_build options_without_metadata []
                eq_refl) as (H8000 & H8001 & Hlimit).
  split; [| split; [| split]].
  - unfold nodes_sharing_a_tag. rewrite string_bytes_nodes_sharing_a_tag.
    unfold size. rewrite List.length_seq. vm_compute. reflexivity.
  - assert (Hlen : size (nodes_sharing_a_tag (Z.to_nat 8000)) = 8000).
    { unfold size, nodes_sharing_a_tag. rewrite List.length_map, List.length_seq.
      reflexivity. }
    assert (Hsize : @size_allows example_build options_without_metadata
                      (nodes_sharing_a_tag (Z.to_nat 8000))
                      (List.length (nodes_sharing_a_tag (Z.to_nat 8000))) = true).
    { unfold nodes_sharing_a_tag.
      change (Z.to_nat 8000) with (S (Z.to_nat 7999)).
      cbn [List.seq List.map].
      apply size_allows_shared_tags.
      - reflexivity.
      - intros n' Hn'. apply List.in_map_iff in Hn'. destruct Hn' as (i & <- & _).
        reflexivity.
      - rewrite size_cons. unfold size. rewrite List.length_map, List.length_seq.
        vm_compute. discriminate. }
    specialize (H8000 (nodes_sharing_a_tag (Z.to_nat 8000)) Hlen Hsize). cbv zeta in H8000.
    destruct H8000 as [Hqueue _]. rewrite Hqueue. reflexivity.
  - assert (Hlen : size (nodes_from_1 (Z.to_nat 8000)) = 8000).
    { unfold size, nodes_from_1. rewrite List.length_map, List.length_seq. reflexivity. }
    assert (Hsize : @size_allows example_build options_without_metadata
                      (nodes_from_1 (Z.to_nat 8000))
                      (List.length (nodes_from_1 (Z.to_nat 8000))) = true).
    { apply size_allows_the_string_bytes. rewrite Hlen.
      unfold nodes_from_1. rewrite string_bytes_nodes_at. vm_compute. discriminate. }
    specialize (H8001 (nodes_from_1 (Z.to_nat 8000)) (node_at (Z.of_nat (1 + Z.to_nat 8000)))
                  Hlen).
    cbv zeta in H8001.
    destruct H8001 as [Hqueue _].
    + rewrite <- nodes_from_1_S. apply sequential_ids_nodes_from_1.
    + exact Hsize.
    + rewrite Hqueue. reflexivity.
  - assert (Hlen : size stream_with_many_tags = 8000).
    { unfold stream_with_many_tags. rewrite size_cons. unfold size.
      rewrite List.length_map, List.length_seq. reflexivity. }
    destruct (Hlimit stream_with_many_tags [] 1%nat Hlen) as (jobs & Hjobs & Hqueue & _).
    + unfold size in Hlen. lia.
    + reflexivity.
    + unfold stream_with_many_tags. cbn [List.firstn].
      rewrite dense_block_size_eq. cbn [add_nodes].
      pose proof (@StringTable_size_node_with_tags example_build (Z.to_nat 32000000)) as Hbig.
      rewrite Z2Nat.id in Hbig by discriminate.
      pose proof (@DenseNodes_size_add_node example_build options_without_metadata
                    (node_with_tags (Z.to_nat 32000000)) StringTable.init DenseNodes.init)
        as Hdn.
      change (DenseNodes.size DenseNodes.init) with 0 in Hdn.
      destruct (@DenseNodes.add_node example_build options_without_metadata
                  (node_with_tags (Z.to_nat 32000000)) StringTable.init DenseNodes.init)
        as [st1 dn1].
      cbn [fst snd] in *.
      change (@PrimitiveBlock.max_used_blob_size example_build) with 15938355. lia.
    + rewrite Hqueue. cbn [List.app]. rewrite size_cons.
      destruct jobs as [| job jobs]; [contradiction |].
      rewrite size_cons. pose proof (size_nonneg jobs). lia.
Defined.

(** The same reading on a short stream: the two nodes of scenario 3 of the
    spec end up in one block whose ids, read back from the bytes of the job
    (PrimitiveBlock, field 2: PrimitiveGroup, field 2: DenseNodes, field 1:
    ids), are the deltas 1 and 4, its lats 10000000 and 3, its lons
    20000000 and 0. *)
Example two_nodes_read_back :
  List.map (fun job => (packed_sint64_at [2; 2] 1 (SerializeBlob.m_msg job),
                        packed_sint64_at [2; 2] 8 (SerializeBlob.m_msg job),
                        packed_sint64_at [2; 2] 9 (SerializeBlob.m_msg job)))
    (PBFOutputFormat.m_output_queue
       (PBFOutputFormat.write_end
          (@PBFOutputFormat.write_buffer example_build [a_node node_1; a_node node_5]
             (fresh_state options_without_metadata []))))
  = [(Some [1; 4], Some [10000000; 3], Some [20000000; 0])].
Proof. vm_compute. reflexivity. Qed.

(** ** Packed fields, zigzag and delta encoding *)

Lemma decode_packed_loop_more (n : nat) :
  forall (m : nat) (bs : bytes) (vs : list Z),
    protozero.decode_packed_loop n bs = Some vs -> (n <= m)%nat ->
    protozero.decode_packed_loop m bs = Some vs.
Proof.
  induction n as [| n IH]; intros m bs vs H Hle.
  - destruct bs; simpl in H; [| discriminate].
    destruct m; exact H.
  - destruct m as [| m]; [lia |].
    destruct bs as [| b bs]; [exact H |].
    cbn [protozero.decode_packed_loop] in *.
    destruct (protozero.decode_varint (b :: bs)) as [[v rest] |]; [| discriminate].
    destruct (protozero.decode_packed_loop n rest) as [vs' |] eqn:Hrest; [| discriminate].
    rewrite (IH m rest vs' Hrest) by lia. exact H.
Qed.

(** The elements of a packed field are read back one by one. *)
Lemma decode_packed_elements (f : Z -> Z) (vs : list Z) :
  (forall v : Z, 0 <= f v < 2 ^ 64) ->
  protozero.decode_packed (List.concat (List.map (fun v => protozero.add_varint (f v)) vs))
  = Some (List.map f vs).
Proof.
  intros Hf. induction vs as [| v vs IH]; [reflexivity |].
  cbn [List.map List.concat]. unfold protozero.decode_packed in *.
  pose proof (protozero_facts.add_varint_nonempty (f v)) as Hne.
  pose proof (protozero_facts.decode_add_varint (f v)
                (List.concat (List.map (fun v => protozero.add_varint (f v)) vs)) (Hf v))
    as Hdec.
  destruct (protozero.add_varint (f v)) as [| b bs]; [contradiction |].
  cbn [List.app List.length protozero.decode_packed_loop] in *.
  rewrite Hdec.
  rewrite (decode_packed_loop_more _ (List.length (bs ++ _)) _ _ IH).
  - reflexivity.
  - rewrite List.length_app. lia.
Qed.

Lemma to_uint64_bound (z : Z) : 0 <= to_uint64 z < 2 ^ 64.
Proof. unfold to_uint64. apply Z.mod_pos_bound. lia. Qed.


Lemma decode_packed_varint (vs : list Z) :
  protozero.decode_packed (protozero.packed_varint vs) = Some (List.map to_uint64 vs).
Proof. apply (decode_packed_elements to_uint64). apply to_uint64_bound. Qed.

(** Zigzag: a non-negative [v] becomes [2v], a negative one [-2v - 1]. *)
Lemma encode_zigzag64_value (v : Z) :
  - 2 ^ 63 <= v < 2 ^ 63 ->
  protozero.encode_zigzag64 v = if 0 <=? v then 2 * v else - 2 * v - 1.
Proof.
  intros Hv. unfold protozero.encode_zigzag64.
  rewrite Z.shiftl_mul_pow2, Z.shiftr_div_pow2 by lia. change (2 ^ 1) with 2.
  destruct (Z.leb_spec 0 v) as [Hpos | Hneg].
  - rewrite Z.div_small by lia. rewrite Z.lxor_0_r, to_uint64_small by lia. lia.
  - replace (v / 2 ^ 63) with (-1).
    + rewrite Z.lxor_m1_r. unfold Z.lnot. rewrite to_uint64_small by lia. lia.
    + apply Z.div_unique with (r := v + 2 ^ 63); lia.
Qed.

Lemma decode_encode_zigzag64 (v : Z) :
  - 2 ^ 63 <= v < 2 ^ 63 ->
  protozero.decode_zigzag64 (protozero.encode_zigzag64 v) = v.
Proof.
  intros Hv. rewrite encode_zigzag64_value by exact Hv. unfold protozero.decode_zigzag64.
  destruct (Z.leb_spec 0 v) as [Hpos | Hneg].
  - rewrite Z.even_mul. cbn [Z.even orb].
    rewrite Z.mul_comm. apply Z.div_mul. lia.
  - replace (- 2 * v - 1) with (1 + 2 * (- v - 1)) by lia.
    rewrite Z.even_add_mul_2. cbn [Z.even].
    replace (1 + 2 * (- v - 1) + 1) with (- v * 2) by lia.
    rewrite Z.div_mul by lia. lia.
Qed.

Lemma delta_elements_differences (values : list Z) :
  forall d : DeltaEncode.t,
    PBFOutputFormat.delta_elements values d = differences (DeltaEncode.m_value d) values.
Proof.
  induction values as [| v values IH]; intros d; [reflexivity |].
  cbn [PBFOutputFormat.delta_elements DeltaEncode.update differences].
  rewrite IH. reflexivity.
Qed.

Lemma prefix_sums_differences (values : list Z) :
  forall prev : Z, prefix_sums prev (differences prev values) = values.
Proof.
  induction values as [| v values IH]; intros prev; [reflexivity |].
  cbn [differences prefix_sums].
  replace (prev + (v - prev)) with v by lia. rewrite IH. reflexivity.
Qed.

(** ** PBFOutputFormat::way *)

Lemma way_message_fields {B : Build} (options : pbf_output_options) (w : Way)
    (b : PrimitiveBlock.t) :
  size (fst (PBFOutputFormat.way_message options w b)) < 2 ^ 32 ->
  protozero.decode_message (fst (PBFOutputFormat.way_message options w b))
  = Some (Way_fields options w b).
Proof.
  unfold PBFOutputFormat.way_message, PBFOutputFormat.add_meta, Way_fields,
    protozero.packed_field_uint32, protozero.packed_field_sint64, protozero.add_int64.
  destruct (PBFOutputFormat.store_all (List.map key (tags w)) b) as [keys b1].
  destruct (PBFOutputFormat.store_all (List.map value (tags w)) b1) as [vals b2].
  unfold OSMFormat.Way.required_int64_id, OSMFormat.Way.packed_uint32_keys,
    OSMFormat.Way.packed_uint32_vals, OSMFormat.Way.optional_Info_info,
    OSMFormat.Way.packed_sint64_refs, OSMFormat.Way.packed_sint64_lon,
    OSMFormat.Way.packed_sint64_lat.
  destruct (md_any (add_metadata options) || add_visible_flag options);
    [destruct (PBFOutputFormat.add_info options w b2) as [info b3] |];
    destruct (locations_on_ways options);
    cbn [fst List.app]; rewrite <- ?List.app_assoc; cbn [List.app];
    intros H; rewrite ?size_app in H; submessage_sizes; sizes_nonneg;
    (apply protozero_facts.decode_message_cons;
     [ apply protozero_facts.add_tagged_varint_nonempty
     | apply protozero_facts.decode_field_varint; [lia | apply to_uint64_bound]
     | ]);
    repeat first
      [ exact protozero_facts.decode_message_nil
      | apply decode_message_submessage; [lia | lia |]
      | match goal with
        | |- protozero.decode_message (protozero.submessage ?t ?b) = _ =>
            rewrite <- (List.app_nil_r (protozero.submessage t b));
            rewrite <- (List.app_nil_r (column t b))
        end ].
Qed.



(** ** Timestamps *)

Lemma add_bool_varint (tag : Z) (v : bool) :
  protozero.add_bool tag v = protozero.add_tagged_varint tag (if v then 1 else 0).
Proof. destruct v; reflexivity. Qed.

Lemma to_uint64_to_uint32 (z : Z) : to_uint64 (to_uint32 z) = z mod 2 ^ 32.
Proof.
  unfold to_uint64, to_uint32. apply Z.mod_small.
  pose proof (Z.mod_pos_bound z (2 ^ 32)). lia.
Qed.

Lemma store_in_stringtable_unsigned_bound (s : string) (b : PrimitiveBlock.t) :
  0 <= fst (PrimitiveBlock.store_in_stringtable_unsigned s b) < 2 ^ 64.
Proof.
  unfold PrimitiveBlock.store_in_stringtable_unsigned, PrimitiveBlock.store_in_stringtable.
  destruct (StringTable.add s (PrimitiveBlock.m_stringtable b)) as [i st]. cbn [fst].
  unfold to_uint32. pose proof (Z.mod_pos_bound i (2 ^ 32)). lia.
Qed.

Lemma add_info_fields (options : pbf_output_options) (object : OSMObject)
    (b : PrimitiveBlock.t) :
  protozero.decode_message (fst (PBFOutputFormat.add_info options object b))
  = Some (Info_fields options object b).
Proof.
  unfold PBFOutputFormat.add_info, Info_fields, protozero.add_int32, protozero.add_int64,
    protozero.add_uint32, Timestamp_to_uint32.
  rewrite add_bool_varint. rewrite <- to_uint64_to_uint32.
  pose proof (store_in_stringtable_unsigned_bound (user object) b) as Hsid.
  destruct (PrimitiveBlock.store_in_stringtable_unsigned (user object) b) as [sid b'].
  cbn [fst] in Hsid.
  unfold OSMFormat.Info.optional_int32_version, OSMFormat.Info.optional_int64_timestamp,
    OSMFormat.Info.optional_int64_changeset, OSMFormat.Info.optional_int32_uid,
    OSMFormat.Info.optional_uint32_user_sid, OSMFormat.Info.optional_bool_visible.
  destruct (md_version (add_metadata options)), (md_timestamp (add_metadata options)),
    (md_changeset (add_metadata options)), (md_uid (add_metadata options)),
    (md_user (add_metadata options)), (add_visible_flag options);
    cbn [fst List.app];
    repeat first
      [ exact protozero_facts.decode_message_nil
      | apply protozero_facts.decode_message_cons;
        [ apply protozero_facts.add_tagged_varint_nonempty
        | apply protozero_facts.decode_field_varint;
          [lia | first [ apply to_uint64_bound | exact Hsid | destruct (visible object); lia ]]
        | ]
      | match goal with
        | |- protozero.decode_message (protozero.add_tagged_varint ?t ?v) = _ =>
            rewrite <- (List.app_nil_r (protozero.add_tagged_varint t v))
        end ].
Qed.

(** The timestamps column of a buffer is the delta encoding of the
    timestamps converted to [uint32_t]. *)
Lemma add_nodes_timestamps {B : Build} (options : pbf_output_options) (ns : list Node) :
  md_timestamp (add_metadata options) = true ->
  forall (st : StringTable.t) (dn : DenseNodes.t),
    DenseNodes.m_timestamps (snd (add_nodes options ns st dn))
    = DenseNodes.m_timestamps dn
      ++ differences (DeltaEncode.m_value (DenseNodes.m_delta_timestamp dn))
           (List.map (fun n : Node => timestamp n mod 2 ^ 32) ns).
Proof.
  intros Hflag. induction ns as [| n ns IH]; intros st dn.
  - cbn. symmetry. apply List.app_nil_r.
  - cbn [add_nodes List.map differences].
    pose proof (add_node_fields options n st dn) as F. cbv zeta in F.
    destruct F as (_ & _ & _ & Fts & Fdelta & _). rewrite Hflag in Fts, Fdelta.
    destruct (DenseNodes.add_node options n st dn) as [st1 dn1]. cbn [snd] in *.
    rewrite IH, Fts, Fdelta. unfold push_back, Timestamp_to_uint32, to_uint32.
    cbn [DeltaEncode.m_value]. rewrite <- List.app_assoc. reflexivity.
Qed.

(** C9.  Timestamps go through [uint32_t] before they are written: the
    timestamp field of an Info message (field 2) holds the timestamp of
    the object modulo 2^32; the timestamps column of DenseInfo is the
    delta encoding, from zero, of the timestamps modulo 2^32; the
    replication timestamp of the header (field 32 of the HeaderBlock)
    holds the parsed timestamp modulo 2^32.  So a timestamp of 2^32 + 5 is
    stored as 5. *)
Theorem timestamps_modulo_2_32 {B : Build} :
  (forall (options : pbf_output_options) (object : OSMObject) (b : PrimitiveBlock.t),
      protozero.decode_message (fst (PBFOutputFormat.add_info options object b))
      = Some (Info_fields options object b)
      /\ (md_timestamp (add_metadata options) = true ->
          In (2, protozero.Varint (timestamp object mod 2 ^ 32))
             (Info_fields options object b)))
  /\ (forall (options : pbf_output_options) (ns : list Node) (st : StringTable.t),
         md_timestamp (add_metadata options) = true ->
         DenseNodes.m_timestamps (snd (add_nodes options ns st DenseNodes.init))
         = differences 0 (List.map (fun n : Node => timestamp n mod 2 ^ 32) ns))
  /\ (forall (header : Header) (ts : Z),
         header_get header "osmosis_replication_timestamp" <> ""%string ->
         Timestamp_of_string (header_get header "osmosis_replication_timestamp") = Ok ts ->
         exists field : bytes,
           PBFOutputFormat.write_header_replication_timestamp header = Ok field
           /\ protozero.decode_message field = Some [(32, protozero.Varint (ts mod 2 ^ 32))]
           /\ forall (options : pbf_output_options) (bbox : bytes),
                PBFOutputFormat.write_header_bbox header = Ok bbox ->
                exists before after : bytes,
                  PBFOutputFormat.header_block options header
                  = Ok (before ++ field ++ after))
  /\ Info_fields only_timestamps late_object PrimitiveBlock.init = [(2, protozero.Varint 5)]
  /\ DenseNodes.m_timestamps
       (snd (add_nodes only_timestamps [late_node] StringTable.init DenseNodes.init))
     = [5].
Proof.
  split; [| split; [| split; [| split]]].
  - intros options object b. split; [apply add_info_fields |].
    intros Hflag. unfold Info_fields. rewrite Hflag.
    apply List.in_or_app. right. apply List.in_or_app. left. left. reflexivity.
  - intros options ns st Hflag.
    rewrite add_nodes_timestamps by exact Hflag. reflexivity.
  - intros header ts Hne Hparse.
    exists (protozero.add_int64 OSMFormat.HeaderBlock.optional_int64_osmosis_replication_timestamp
              (Timestamp_to_uint32 ts)).
    assert (Hfield : PBFOutputFormat.write_header_replication_timestamp header
                     = Ok (protozero.add_int64
                             OSMFormat.HeaderBlock.optional_int64_osmosis_replication_timestamp
                             (Timestamp_to_uint32 ts))).
    { unfold PBFOutputFormat.write_header_replication_timestamp.
      destruct (String.eqb_spec (header_get header "osmosis_replication_timestamp") "")
        as [E | _]; [contradiction |].
      rewrite Hparse. reflexivity. }
    split; [exact Hfield | split].
    + unfold protozero.add_int64, Timestamp_to_uint32. rewrite to_uint64_to_uint32.
      rewrite <- (List.app_nil_r (protozero.add_tagged_varint _ _)).
      apply protozero_facts.decode_message_cons.
      * apply protozero_facts.add_tagged_varint_nonempty.
      * apply protozero_facts.decode_field_varint.
        -- unfold OSMFormat.HeaderBlock.optional_int64_osmosis_replication_timestamp. lia.
        -- pose proof (Z.mod_pos_bound ts (2 ^ 32)). lia.
      * reflexivity.
    + intros options bbox Hbbox. unfold PBFOutputFormat.header_block.
      rewrite Hbbox, Hfield. cbn [bind].
      match goal with
      | |- exists before after : bytes,
             Ok (?a ++ ?b ++ ?c ++ ?d ++ ?e ++ ?f ++ ?g ++ ?t ++ ?s ++ ?u) = _ =>
          exists (a ++ b ++ c ++ d ++ e ++ f ++ g), (s ++ u)
      end.
      rewrite <- !List.app_assoc. reflexivity.
  - reflexivity.
  - pose proof (add_nodes_timestamps only_timestamps [late_node] eq_refl
                  StringTable.init DenseNodes.init) as H.
    rewrite H. reflexivity.
Qed.

(** [timestamps_modulo_2_32] on the object stamped 2^32 + 5. *)
Lemma timestamps_modulo_2_32_witness :
  In (2, protozero.Varint 5) (Info_fields only_timestamps late_object PrimitiveBlock.init)
  /\ DenseNodes.m_timestamps
       (snd (@add_nodes example_build only_timestamps [late_node; late_node]
               StringTable.init DenseNodes.init))
     = [5; 0].
Proof.
  pose proof (@timestamps_modulo_2_32 example_build) as [Hinfo [Hdense _]].
  split.
  - exact (proj2 (Hinfo only_timestamps late_object PrimitiveBlock.init) eq_refl).
  - exact (Hdense only_timestamps [late_node; late_node] StringTable.init eq_refl).
Defined.

(** ** The constructor *)

Lemma skip_spaces_spec (s : string) :
  exists spaces : string,
    s = (spaces ++ skip_spaces s)%string /\ all_chars isspace spaces = true.
Proof.
  induction s as [| c s IH].
  - exists ""%string. split; reflexivity.
  - cbn [skip_spaces]. destruct (isspace c) eqn:E.
    + destruct IH as [spaces [Hs Hall]].
      exists (String c spaces). split.
      * cbn [append]. f_equal. exact Hs.
      * cbn [all_chars]. rewrite E, Hall. reflexivity.
    + exists ""%string. split; reflexivity.
Qed.

Lemma scan_digits_spec (s : string) :
  forall acc : Z,
  exists digits : string,
    s = (digits ++ snd (scan_digits s acc))%string /\ all_chars isdigit digits = true.
Proof.
  induction s as [| c s IH]; intros acc.
  - exists ""%string. split; reflexivity.
  - cbn [scan_digits]. destruct (isdigit c) eqn:E.
    + destruct (IH (10 * acc + digit_value c)) as [digits [Hs Hall]].
      exists (String c digits). split.
      * cbn [append]. f_equal. exact Hs.
      * cbn [all_chars]. rewrite E, Hall. reflexivity.
    + exists ""%string. split; reflexivity.
Qed.

Lemma string_app_empty_r (s : string) : (s ++ "")%string = s.
Proof. induction s as [| c s IH]; [reflexivity | cbn; rewrite IH; reflexivity]. Qed.

(** When [strtol] leaves nothing unread, the text is an integer. *)
Lemma strtol_reads_integers {B : Build} (s : string) :
  c_str s <> ""%string -> snd (strtol s) = ""%string -> integer_syntax (c_str s).
Proof.
  intros Hne Hend. unfold strtol in Hend.
  destruct (skip_spaces_spec (c_str s)) as [spaces [Hs Hspaces]].
  assert (Hdigits : forall (sign s1 : string),
             skip_spaces (c_str s) = (sign ++ s1)%string ->
             (sign = ""%string \/ sign = "+"%string \/ sign = "-"%string) ->
             forall negative : bool,
               snd (match s1 with
                    | String c _ =>
                        if isdigit c
                        then let (v, rest) := scan_digits s1 0 in
                             let v := if negative then - v else v in
                             (Z.max LONG_MIN (Z.min LONG_MAX v), rest)
                        else (0, c_str s)
                    | EmptyString => (0, c_str s)
                    end) = ""%string ->
               integer_syntax (c_str s)).
  { intros sign s1 Hsplit Hsign negative H.
    destruct s1 as [| c s1']; [cbn in H; contradiction |].
    destruct (isdigit c) eqn:Hc; [| cbn in H; contradiction].
    destruct (scan_digits_spec (String c s1') 0) as [digits [Hd Hall]].
    destruct (scan_digits (String c s1') 0) as [v rest]. cbn [snd] in *.
    subst rest. rewrite string_app_empty_r in Hd.
    subst digits. exists spaces, sign, (String c s1').
    split; [rewrite <- Hsplit; exact Hs |].
    repeat split; try assumption. discriminate. }
  destruct (skip_spaces (c_str s)) as [| c rest] eqn:Hskip.
  - cbn in Hend. contradiction.
  - destruct (Ascii.eqb_spec c "-"%char) as [-> | Hminus].
    + apply (Hdigits "-"%string rest eq_refl (or_intror (or_intror eq_refl)) true).
      exact Hend.
    + destruct (Ascii.eqb_spec c "+"%char) as [-> | Hplus].
      * apply (Hdigits "+"%string rest eq_refl (or_intror (or_introl eq_refl)) false).
        exact Hend.
      * apply (Hdigits ""%string (String c rest) eq_refl (or_introl eq_refl) false).
        destruct c as [[] [] [] [] [] [] [] []];
          try (exfalso; apply Hminus; reflexivity);
          try (exfalso; apply Hplus; reflexivity);
          exact Hend.
Qed.

(** The constructor throws as soon as one of its steps does. *)
Lemma make_throws_with_compression_type {B : Build} (file : File) (e : exception) :
  get_compression_type (get file "pbf_compression") = Throw e ->
  exists e' : exception, PBFOutputFormat.make file = Throw e'.
Proof.
  intros H. unfold PBFOutputFormat.make.
  destruct (negb (String.eqb (get file "pbf_add_metadata") "")); [eexists; reflexivity |].
  rewrite H. eexists. reflexivity.
Qed.

Lemma make_throws_with_level {B : Build} (file : File) :
  (forall c : pbf_compression.t,
      get_compression_type (get file "pbf_compression") = Ok c ->
      exists e : exception,
        PBFOutputFormat.constructor_compression_level c (get file "pbf_compression_level")
        = Throw e) ->
  exists e : exception, PBFOutputFormat.make file = Throw e.
Proof.
  intros H. unfold PBFOutputFormat.make.
  destruct (negb (String.eqb (get file "pbf_add_metadata") "")); [eexists; reflexivity |].
  destruct (get_compression_type (get file "pbf_compression")) as [c | e];
    [| eexists; reflexivity].
  cbn [bind].
  destruct (metadata_options_of_string (get file "add_metadata")) as [m | e];
    [| eexists; reflexivity].
  cbn [bind]. destruct (H c eq_refl) as [e He]. rewrite He. eexists. reflexivity.
Qed.

(** What a constructor that returns has checked. *)
Lemma make_returns {B : Build} (file : File) (f : PBFOutputFormat.t) :
  PBFOutputFormat.make file = Ok f ->
  get file "pbf_add_metadata" = ""%string
  /\ get_compression_type (get file "pbf_compression")
     = Ok (use_compression (PBFOutputFormat.m_options f))
  /\ PBFOutputFormat.constructor_compression_level
       (use_compression (PBFOutputFormat.m_options f)) (get file "pbf_compression_level")
     = Ok (compression_level (PBFOutputFormat.m_options f))
  /\ PBFOutputFormat.m_primitive_block f = PrimitiveBlock.init
  /\ PBFOutputFormat.m_output_queue f = [].
Proof.
  unfold PBFOutputFormat.make.
  destruct (String.eqb_spec (get file "pbf_add_metadata") "") as [Hdep | _];
    [| discriminate].
  cbn [negb].
  destruct (get_compression_type (get file "pbf_compression")) as [c | e]; [| discriminate].
  cbn [bind].
  destruct (metadata_options_of_string (get file "add_metadata")) as [m | e];
    [| discriminate].
  cbn [bind].
  destruct (PBFOutputFormat.constructor_compression_level c
              (get file "pbf_compression_level")) as [level | e] eqn:Hlevel;
    [| discriminate].
  cbn [bind]. intros H. injection H as <-.
  cbn. repeat split; try assumption.
Qed.

Lemma get_compression_type_lz4 {B : Build} (val : string) :
  get_compression_type val = Ok pbf_compression.lz4 -> OSMIUM_WITH_LZ4 = true.
Proof.
  unfold get_compression_type.
  destruct (String.eqb val "" || String.eqb val "zlib"); [discriminate |].
  destruct (String.eqb val "none"); [discriminate |].
  destruct (String.eqb val "lz4"); [| discriminate].
  destruct OSMIUM_WITH_LZ4; [reflexivity | discriminate].
Qed.

(** C6.  Each configuration error makes the constructor throw, so that no
    encoder exists to write an entity to: a deprecated [pbf_add_metadata]
    option that is present; a [pbf_compression_level] that is not an
    integer; a [pbf_compression_level] given together with
    [pbf_compression=none]; a level the check of the selected codec
    refuses; and [pbf_compression=lz4] in a build without LZ4.  Conversely
    an encoder the constructor returns has none of them: in particular it
    selects lz4 only in a build with LZ4, so the jobs it queues never throw
    for lack of LZ4; and it has written nothing yet. *)
Theorem configuration_errors_from_constructor {B : Build} (file : File) :
  (get file "pbf_add_metadata" <> ""%string ->
   PBFOutputFormat.make file
   = Throw (invalid_argument PBFOutputFormat.deprecated_option_message))
  /\ (c_str (get file "pbf_compression_level") <> ""%string ->
      ~ integer_syntax (c_str (get file "pbf_compression_level")) ->
      exists e : exception, PBFOutputFormat.make file = Throw e)
  /\ (get file "pbf_compression_level" <> ""%string ->
      get file "pbf_compression" = "none"%string ->
      exists e : exception, PBFOutputFormat.make file = Throw e)
  /\ (forall (val : Z) (e : exception),
         get file "pbf_compression_level" <> ""%string ->
         strtol (get file "pbf_compression_level") = (val, ""%string) ->
         (get_compression_type (get file "pbf_compression") = Ok pbf_compression.zlib
          /\ zlib_check_compression_level val = Throw e)
         \/ (get_compression_type (get file "pbf_compression") = Ok pbf_compression.lz4
             /\ lz4_check_compression_level val = Throw e) ->
         exists e' : exception, PBFOutputFormat.make file = Throw e')
  /\ (get file "pbf_compression" = "lz4"%string ->
      OSMIUM_WITH_LZ4 = false ->
      exists e : exception, PBFOutputFormat.make file = Throw e)
  /\ (forall f : PBFOutputFormat.t,
         PBFOutputFormat.make file = Ok f ->
         get file "pbf_add_metadata" = ""%string
         /\ (use_compression (PBFOutputFormat.m_options f) = pbf_compression.lz4 ->
             OSMIUM_WITH_LZ4 = true)
         /\ (get file "pbf_compression_level" <> ""%string ->
             use_compression (PBFOutputFormat.m_options f) <> pbf_compression.none
             /\ snd (strtol (get file "pbf_compression_level")) = ""%string)
         /\ PBFOutputFormat.m_primitive_block f = PrimitiveBlock.init
         /\ PBFOutputFormat.m_output_queue f = []).
Proof.
  split; [| split; [| split; [| split; [| split]]]].
  - intros Hdep. unfold PBFOutputFormat.make.
    destruct (String.eqb_spec (get file "pbf_add_metadata") ""); [contradiction | reflexivity].
  - intros Hne Hsyntax. apply make_throws_with_level. intros c _.
    unfold PBFOutputFormat.constructor_compression_level.
    destruct (String.eqb_spec (get file "pbf_compression_level") "") as [E | _].
    { rewrite E in Hne. contradiction. }
    destruct (strtol (get file "pbf_compression_level")) as [val rest] eqn:Hstrtol.
    destruct rest as [| a rest]; [| eexists; reflexivity].
    exfalso. apply Hsyntax. apply strtol_reads_integers; [exact Hne |].
    rewrite Hstrtol. reflexivity.
  - intros Hlevel Hnone. apply make_throws_with_level. intros c Hc.
    rewrite Hnone in Hc. cbn in Hc. injection Hc as <-.
    unfold PBFOutputFormat.constructor_compression_level.
    destruct (String.eqb_spec (get file "pbf_compression_level") "") as [E | _];
      [contradiction |].
    destruct (strtol (get file "pbf_compression_level")) as [val rest].
    destruct rest; eexists; reflexivity.
  - intros val e Hlevel Hstrtol Hcheck. apply make_throws_with_level. intros c Hc.
    unfold PBFOutputFormat.constructor_compression_level.
    destruct (String.eqb_spec (get file "pbf_compression_level") "") as [E | _];
      [contradiction |].
    rewrite Hstrtol.
    destruct Hcheck as [[Hzlib He] | [Hlz4 He]].
    + rewrite Hzlib in Hc. injection Hc as <-. rewrite He. eexists. reflexivity.
    + rewrite Hlz4 in Hc. injection Hc as <-.
      rewrite (get_compression_type_lz4 _ Hlz4), He. eexists. reflexivity.
  - intros Hlz4 Hbuild.
    apply (make_throws_with_compression_type file
             (invalid_argument "Support for LZ4 compression not compiled in")).
    unfold get_compression_type. rewrite Hlz4, Hbuild. reflexivity.
  - intros f Hmake.
    destruct (make_returns file f Hmake) as (Hdep & Hc & Hlevel & Hblock & Hqueue).
    split; [exact Hdep |]. split; [| split; [| split; assumption]].
    + intros Hlz4. rewrite Hlz4 in Hc. exact (get_compression_type_lz4 _ Hc).
    + intros Hne. unfold PBFOutputFormat.constructor_compression_level in Hlevel.
      destruct (String.eqb_spec (get file "pbf_compression_level") "") as [E | _];
        [contradiction |].
      destruct (strtol (get file "pbf_compression_level")) as [val rest].
      destruct rest; [| discriminate Hlevel].
      split; [| reflexivity].
      intros Hnone. rewrite Hnone in Hlevel. discriminate Hlevel.
Qed.

Lemma all_chars_app (p : ascii -> bool) (s1 s2 : string) :
  all_chars p (s1 ++ s2) = all_chars p s1 && all_chars p s2.
Proof.
  induction s1 as [| c s1 IH]; [reflexivity |].
  cbn. rewrite IH. apply andb_assoc.
Qed.

Lemma all_chars_weaken (p q : ascii -> bool) (s : string) :
  (forall c : ascii, p c = true -> q c = true) ->
  all_chars p s = true -> all_chars q s = true.
Proof.
  intros Hpq. induction s as [| c s IH]; [reflexivity |].
  cbn. intros H. apply andb_prop in H. destruct H as [Hc Hs].
  rewrite (Hpq c Hc), (IH Hs). reflexivity.
Qed.

Lemma integer_syntax_chars (s : string) :
  integer_syntax s -> all_chars integer_char s = true.
Proof.
  intros (spaces & sign & digits & -> & Hspaces & Hsign & _ & Hdigits).
  rewrite !all_chars_app.
  rewrite (all_chars_weaken isspace integer_char spaces), (all_chars_weaken isdigit integer_char digits);
    try assumption.
  - destruct Hsign as [-> | [-> | ->]]; reflexivity.
  - intros c Hc. unfold integer_char. rewrite Hc. apply orb_true_r.
  - intros c Hc. unfold integer_char. rewrite Hc. reflexivity.
Qed.

(** [configuration_errors_from_constructor] on five files, one for each
    error, in the example build (zlib levels 0 to 9, no LZ4). *)
Lemma configuration_errors_from_constructor_witness :
  @PBFOutputFormat.make example_build (file_with [("pbf_add_metadata", "true")]%string)
  = Throw (invalid_argument PBFOutputFormat.deprecated_option_message)
  /\ (exists e : exception,
         @PBFOutputFormat.make example_build (file_with [("pbf_compression_level", "fast")]%string)
         = Throw e)
  /\ (exists e : exception,
         @PBFOutputFormat.make example_build
           (file_with [("pbf_compression", "none"); ("pbf_compression_level", "6")]%string)
         = Throw e)
  /\ (exists e : exception,
         @PBFOutputFormat.make example_build
           (file_with [("pbf_compression", "zlib"); ("pbf_compression_level", "12")]%string)
         = Throw e)
  /\ (exists e : exception,
         @PBFOutputFormat.make example_build (file_with [("pbf_compression", "lz4")]%string)
         = Throw e).
Proof.
  split; [| split; [| split; [| split]]].
  - pose proof (@configuration_errors_from_constructor example_build
                  (file_with [("pbf_add_metadata", "true")]%string)) as (H & _).
    apply H. intros E. vm_compute in E. discriminate E.
  - pose proof (@configuration_errors_from_constructor example_build
                  (file_with [("pbf_compression_level", "fast")]%string)) as (_ & H & _).
    apply H.
    + intros E. vm_compute in E. discriminate E.
    + intros E. apply integer_syntax_chars in E. vm_compute in E. discriminate E.
  - pose proof (@configuration_errors_from_constructor example_build
                  (file_with [("pbf_compression", "none");
                              ("pbf_compression_level", "6")]%string)) as (_ & _ & H & _).
    apply H.
    + intros E. vm_compute in E. discriminate E.
    + reflexivity.
  - pose proof (@configuration_errors_from_constructor example_build
                  (file_with [("pbf_compression", "zlib");
                              ("pbf_compression_level", "12")]%string))
      as (_ & _ & _ & H & _).
    apply (H 12 (invalid_argument "compression level must be between 0 and 9")).
    + intros E. vm_compute in E. discriminate E.
    + reflexivity.
    + left. split; reflexivity.
  - pose proof (@configuration_errors_from_constructor example_build
                  (file_with [("pbf_compression", "lz4")]%string)) as (_ & _ & _ & _ & H & _).
    apply H; reflexivity.
Defined.

(** * Further properties of the code *)

(** ** item_type.hpp: names and codes *)

(** X1.  The names [item_type_to_name] gives tell the item types apart. *)
Theorem item_type_to_name_injective (a b : item_type.t) :
  item_type_to_name a = item_type_to_name b -> a = b.
Proof. destruct a, b; intros H; try reflexivity; discriminate H. Qed.

Lemma item_type_to_name_injective_witness :
  item_type.outer_ring = item_type.outer_ring.
Proof.
  apply (item_type_to_name_injective item_type.outer_ring item_type.outer_ring).
  reflexivity.
Defined.

Lemma item_type_code_of_char (c : ascii) :
  item_type_to_char (char_to_item_type c)
  = if List.existsb (Ascii.eqb c) item_type_chars then c else "X"%char.
Proof. destruct c as [[] [] [] [] [] [] [] []]; reflexivity. Qed.

(** X2.  Going from a character to the item type and back gives the character
    again when it is one of the twelve codes, and [X], the code of
    [undefined], for every other character; and no two item types share a
    code. *)
Theorem item_type_to_char_of_char :
  (forall c : ascii, In c item_type_chars -> item_type_to_char (char_to_item_type c) = c)
  /\ (forall c : ascii,
         ~ In c item_type_chars -> item_type_to_char (char_to_item_type c) = "X"%char)
  /\ (forall a b : item_type.t, item_type_to_char a = item_type_to_char b -> a = b).
Proof.
  split; [| split].
  - intros c Hin. rewrite item_type_code_of_char.
    replace (List.existsb (Ascii.eqb c) item_type_chars) with true; [reflexivity |].
    symmetry. apply List.existsb_exists. exists c. split; [exact Hin |].
    apply Ascii.eqb_refl.
  - intros c Hout. rewrite item_type_code_of_char.
    destruct (List.existsb (Ascii.eqb c) item_type_chars) eqn:E; [| reflexivity].
    apply List.existsb_exists in E. destruct E as (c' & Hin & Heq).
    apply Ascii.eqb_eq in Heq. subst c'. contradiction.
  - intros a b H. destruct a, b; try reflexivity; discriminate H.
Qed.

(** ** verbose_output.hpp *)

Lemma operator_shl_quiet (now : Z) (str : string) (v : VerboseOutput.t) (cerr : ostream.t) :
  VerboseOutput.m_verbose v = false ->
  VerboseOutput.operator_shl now str v cerr = (v, cerr).
Proof. intros H. unfold VerboseOutput.operator_shl. rewrite H. reflexivity. Qed.

(** X3.  Nothing is written if the object is not set to verbose mode: whatever
    is inserted, and whenever, [std::cerr] and the object stay as they
    were. *)
Theorem quiet_output_writes_nothing (writes : list (Z * string)) (v : VerboseOutput.t)
    (cerr : ostream.t) :
  VerboseOutput.verbose v = false ->
  write_all writes v cerr = (v, cerr).
Proof.
  unfold VerboseOutput.verbose, write_all. intros H.
  induction writes as [| [now str] writes IH]; [reflexivity |].
  cbn [List.fold_left fst snd]. rewrite operator_shl_quiet by exact H. exact IH.
Qed.

Lemma quiet_output_writes_nothing_witness :
  write_all [(5, "reading..."%string); (70, "done"%string)]
            (VerboseOutput.make 0 false) {| ostream.fill := " "; ostream.text := "" |}
  = (VerboseOutput.make 0 false, {| ostream.fill := " "; ostream.text := "" |}).
Proof.
  apply (quiet_output_writes_nothing
           [(5, "reading..."%string); (70, "done"%string)]
           (VerboseOutput.make 0 false) {| ostream.fill := " "; ostream.text := "" |}).
  reflexivity.
Defined.

Lemma string_app_assoc (a b c : string) : ((a ++ b) ++ c = a ++ (b ++ c))%string.
Proof. induction a as [| ch a IH]; [reflexivity |]. cbn. rewrite IH. reflexivity. Qed.

Lemma string_app_nil_r (a : string) : (a ++ "" = a)%string.
Proof. induction a as [| ch a IH]; [reflexivity |]. cbn. rewrite IH. reflexivity. Qed.

(** What [start_line] does to the stream: the fill character is put back,
    and the text grows by a stamp, which is empty unless a line starts. *)
Lemma start_line_stream (now : Z) (v : VerboseOutput.t) (cerr : ostream.t) :
  let r := VerboseOutput.start_line now v cerr in
  ostream.fill (snd r) = ostream.fill cerr
  /\ VerboseOutput.m_start (fst r) = VerboseOutput.m_start v
  /\ VerboseOutput.m_verbose (fst r) = VerboseOutput.m_verbose v
  /\ VerboseOutput.m_newline (fst r) = false
  /\ exists stamp : string,
       ostream.text (snd r) = (ostream.text cerr ++ stamp)%string
       /\ (VerboseOutput.m_newline v = false -> stamp = ""%string).
Proof.
  unfold VerboseOutput.start_line.
  destruct (VerboseOutput.m_newline v) eqn:E; cbn [fst snd].
  - split; [reflexivity |]. split; [reflexivity |]. split; [reflexivity |].
    split; [reflexivity |].
    eexists. split; [| discriminate].
    unfold ostream.put_int, ostream.put, ostream.set_fill. cbn [ostream.text ostream.fill].
    rewrite !string_app_assoc. reflexivity.
  - split; [reflexivity |]. split; [reflexivity |]. split; [reflexivity |].
    split; [exact E |].
    exists ""%string. split; [| reflexivity]. symmetry. apply string_app_nil_r.
Qed.

(** X4.  An insertion leaves the fill character of [std::cerr] as it found it
    and keeps the text written before: it appends a stamp, which is empty
    unless the object is verbose and at the start of a line, and the text
    of the value when the object is verbose.  The start time and the
    verbose setting stay.  After an insertion in verbose mode, the next
    line start is due exactly when the text inserted ended in a newline:
    a newline inside the text starts no line, and an empty text uses up
    the line start that was due. *)
Theorem insertion_appends (now : Z) (str : string) (v : VerboseOutput.t) (cerr : ostream.t) :
  let r := VerboseOutput.operator_shl now str v cerr in
  ostream.fill (snd r) = ostream.fill cerr
  /\ VerboseOutput.m_start (fst r) = VerboseOutput.m_start v
  /\ VerboseOutput.m_verbose (fst r) = VerboseOutput.m_verbose v
  /\ (exists stamp : string,
        ostream.text (snd r)
        = (ostream.text cerr ++ stamp
           ++ (if VerboseOutput.m_verbose v then str else ""))%string
        /\ (VerboseOutput.m_verbose v && VerboseOutput.m_newline v = false ->
            stamp = ""%string))
  /\ (VerboseOutput.m_verbose v = true ->
      VerboseOutput.m_newline (fst r) = VerboseOutput.ends_in_newline str).
Proof.
  unfold VerboseOutput.operator_shl.
  destruct (VerboseOutput.m_verbose v) eqn:Ev; cbn [fst snd andb].
  - pose proof (start_line_stream now v cerr) as S. cbv zeta in S.
    destruct (VerboseOutput.start_line now v cerr) as [v1 cerr1]. cbn [fst snd] in S.
    destruct S as (Sfill & Sstart & Sverbose & Snewline & stamp & Stext & Sstamp).
    assert (ostream.text (ostream.put str cerr1)
            = (ostream.text cerr ++ stamp ++ str)%string) as Htext.
    { unfold ostream.put. cbn [ostream.text]. rewrite Stext. apply string_app_assoc. }
    destruct (VerboseOutput.ends_in_newline str); cbn [fst snd VerboseOutput.m_start
      VerboseOutput.m_verbose VerboseOutput.m_newline ostream.put ostream.fill].
    + split; [exact Sfill |]. split; [exact Sstart |]. split; [congruence |].
      split; [| reflexivity].
      exists stamp. split; [exact Htext | exact Sstamp].
    + split; [exact Sfill |]. split; [exact Sstart |]. split; [congruence |].
      split; [| intros _; exact Snewline].
      exists stamp. split; [exact Htext | exact Sstamp].
  - split; [reflexivity |]. split; [reflexivity |]. split; [congruence |].
    split; [| discriminate].
    exists ""%string. split; [| reflexivity].
    cbn. symmetry. apply string_app_nil_r.
Qed.

Lemma back_app (s : string) :
  forall (c c' : ascii) (s' : string),
    VerboseOutput.back c (s ++ String c' s') = VerboseOutput.back c' s'.
Proof.
  induction s as [| a s IH]; intros c c' s'; [reflexivity |].
  cbn [append VerboseOutput.back]. apply IH.
Qed.

Lemma ends_in_newline_app (s1 s2 : string) :
  VerboseOutput.ends_in_newline (s1 ++ s2)
  = match s2 with
    | EmptyString => VerboseOutput.ends_in_newline s1
    | String _ _ => VerboseOutput.ends_in_newline s2
    end.
Proof.
  destruct s2 as [| c' s']; [rewrite string_app_nil_r; reflexivity |].
  destruct s1 as [| c s1]; [reflexivity |].
  cbn [append VerboseOutput.ends_in_newline]. rewrite back_app. reflexivity.
Qed.

(** X5.  A text may be inserted in parts: when the first part does not end in
    a newline, inserting it and then the second part leaves [std::cerr]
    and the object as inserting the two parts as one text does (the clock
    is read for the first part only). *)
Theorem insertion_in_two_parts (now1 now2 : Z) (s1 s2 : string) (v : VerboseOutput.t)
    (cerr : ostream.t) :
  VerboseOutput.ends_in_newline s1 = false ->
  VerboseOutput.operator_shl now2 s2
    (fst (VerboseOutput.operator_shl now1 s1 v cerr))
    (snd (VerboseOutput.operator_shl now1 s1 v cerr))
  = VerboseOutput.operator_shl now1 (s1 ++ s2) v cerr.
Proof.
  intros Hs1.
  destruct (VerboseOutput.m_verbose v) eqn:Ev.
  - unfold VerboseOutput.operator_shl at 2 3 4. rewrite Ev, Hs1.
    pose proof (start_line_stream now1 v cerr) as S. cbv zeta in S.
    destruct (VerboseOutput.start_line now1 v cerr) as [v1 cerr1]. cbn [fst snd] in *.
    destruct S as (_ & _ & Sverbose & Snewline & _).
    rewrite Ev in Sverbose. destruct v1 as [start1 verbose1 newline1].
    cbn [VerboseOutput.m_verbose VerboseOutput.m_newline] in Sverbose, Snewline.
    subst verbose1 newline1.
    unfold VerboseOutput.operator_shl, VerboseOutput.start_line.
    cbn [VerboseOutput.m_verbose VerboseOutput.m_newline VerboseOutput.m_start].
    rewrite ends_in_newline_app.
    assert (ostream.put s2 (ostream.put s1 cerr1) = ostream.put (s1 ++ s2) cerr1) as ->.
    { unfold ostream.put. cbn [ostream.fill ostream.text].
      rewrite string_app_assoc. reflexivity. }
    destruct s2 as [| c s2]; [rewrite Hs1 |]; reflexivity.
  - rewrite (operator_shl_quiet now1 s1 v cerr Ev),
      (operator_shl_quiet now1 (s1 ++ s2) v cerr Ev).
    cbn [fst snd]. apply operator_shl_quiet. exact Ev.
Qed.

Lemma insertion_in_two_parts_witness :
  VerboseOutput.operator_shl 9 " done"
    (fst (VerboseOutput.operator_shl 7 "reading"
            (VerboseOutput.make 0 true) {| ostream.fill := " "; ostream.text := "" |}))
    (snd (VerboseOutput.operator_shl 7 "reading"
            (VerboseOutput.make 0 true) {| ostream.fill := " "; ostream.text := "" |}))
  = VerboseOutput.operator_shl 7 "reading done"
      (VerboseOutput.make 0 true) {| ostream.fill := " "; ostream.text := "" |}.
Proof.
  apply (insertion_in_two_parts 7 9 "reading" " done"
           (VerboseOutput.make 0 true) {| ostream.fill := " "; ostream.text := "" |}).
  reflexivity.
Defined.

(** Numbers below a hundred on two places. *)
Lemma put_two_places_table (c : ascii) :
  List.Forall
    (fun n : Z =>
       (ostream.padding (2 - String.length (ostream.decimal n)) c ++ ostream.decimal n)%string
       = String (if n <? 10 then c else digit_char (n / 10))
           (String (digit_char (n mod 10)) ""))
    (List.map Z.of_nat (List.seq 0 100)).
Proof. vm_compute. repeat constructor. Qed.

Lemma put_two_places (c : ascii) (n : Z) :
  0 <= n < 100 ->
  (ostream.padding (2 - String.length (ostream.decimal n)) c ++ ostream.decimal n)%string
  = String (if n <? 10 then c else digit_char (n / 10)) (String (digit_char (n mod 10)) "").
Proof.
  intros Hn. pose proof (put_two_places_table c) as T.
  rewrite List.Forall_forall in T. apply T.
  apply List.in_map_iff. exists (Z.to_nat n). split; [lia |].
  apply List.in_seq. lia.
Qed.

(** X6.  In verbose mode, a text inserted at the start of a line, less than a
    hundred minutes after the object was made, comes behind a stamp of
    eight characters: the minutes of the run time on two places (below ten
    the first place holds the fill character [std::cerr] has, so a space
    unless the program changed it), a colon and the seconds on two digits
    (always filled with 0), within brackets, and a space. *)
Theorem line_starts_with_time_stamp (now : Z) (str : string) (v : VerboseOutput.t)
    (cerr : ostream.t) :
  VerboseOutput.m_verbose v = true ->
  VerboseOutput.m_newline v = true ->
  0 <= now - VerboseOutput.m_start v < 6000 ->
  ostream.text (snd (VerboseOutput.operator_shl now str v cerr))
  = (ostream.text cerr
     ++ time_stamp (ostream.fill cerr) (now - VerboseOutput.m_start v) ++ str)%string
  /\ String.length (time_stamp (ostream.fill cerr) (now - VerboseOutput.m_start v)) = 8%nat.
Proof.
  intros Hverbose Hnewline Hrun. split; [| reflexivity].
  unfold VerboseOutput.operator_shl, VerboseOutput.start_line, VerboseOutput.runtime.
  rewrite Hverbose, Hnewline.
  rewrite to_int32_small by lia.
  set (elapsed := now - VerboseOutput.m_start v) in *.
  rewrite Z.quot_div_nonneg, Z.rem_mod_nonneg by lia.
  assert (0 <= elapsed / 60 < 100) as Hminutes.
  { split; [apply Z.div_pos; lia | apply Z.div_lt_upper_bound; lia]. }
  assert (0 <= elapsed mod 60 < 100) as Hseconds.
  { pose proof (Z.mod_pos_bound elapsed 60). lia. }
  unfold ostream.put_int, ostream.put, ostream.set_fill.
  cbn [ostream.fill ostream.text].
  rewrite (put_two_places (ostream.fill cerr) _ Hminutes).
  rewrite (put_two_places "0" _ Hseconds).
  assert ((if elapsed mod 60 <? 10 then "0"%char else digit_char (elapsed mod 60 / 10))
          = digit_char (elapsed mod 60 / 10)) as ->.
  { destruct (Z.ltb_spec (elapsed mod 60) 10) as [Hlt | Hge]; [| reflexivity].
    rewrite Z.div_small by lia. reflexivity. }
  destruct (VerboseOutput.ends_in_newline str); cbn [snd ostream.text];
    unfold time_stamp; rewrite !string_app_assoc; reflexivity.
Qed.

Lemma line_starts_with_time_stamp_witness :
  ostream.text
    (snd (VerboseOutput.operator_shl 1075 "reading"
            (VerboseOutput.make 1000 true)
            {| ostream.fill := " "; ostream.text := "" |}))
  = "[ 1:15] reading"%string.
Proof.
  pose proof (line_starts_with_time_stamp 1075 "reading"
                (VerboseOutput.make 1000 true)
                {| ostream.fill := " "; ostream.text := "" |}
                eq_refl eq_refl) as H.
  cbn [VerboseOutput.make VerboseOutput.m_start] in H.
  apply H. lia.
Defined.

(** ** factory.hpp: the factory and its implementation *)

Lemma replay_snoc {impl : Type} {I : geom.TGeomImpl impl} (calls : list call) (c : call)
    (m : impl) :
  replay (calls ++ [c]) m = perform (replay calls m) c.
Proof. unfold replay. rewrite List.fold_left_app. reflexivity. Qed.

Lemma fill_linestring_replay {impl : Type} {I : geom.TGeomImpl impl}
    (m_projection : Location -> result geom.Coordinates) (m0 : impl) (range : list NodeRef) :
  forall calls : list call,
    fst (geom.fill_linestring m_projection range (replay calls m0))
    = fst (geom.fill_linestring (I := Recorder) m_projection range calls)
    /\ snd (geom.fill_linestring m_projection range (replay calls m0))
       = replay (snd (geom.fill_linestring (I := Recorder) m_projection range calls)) m0.
Proof.
  induction range as [| node_ref range IH]; intros calls; [split; reflexivity |].
  cbn [geom.fill_linestring].
  destruct (m_projection (node_ref_location node_ref)) as [c | e]; [| split; reflexivity].
  specialize (IH (calls ++ [call_linestring_add_location c])).
  rewrite replay_snoc in IH. exact IH.
Qed.

Lemma fill_linestring_unique_replay {L : geom.LocationOps} {impl : Type}
    {I : geom.TGeomImpl impl}
    (m_projection : Location -> result geom.Coordinates) (m0 : impl) (range : list NodeRef) :
  forall (last_location : Location) (calls : list call),
    fst (geom.fill_linestring_unique_from m_projection last_location range (replay calls m0))
    = fst (geom.fill_linestring_unique_from (I := Recorder) m_projection last_location
             range calls)
    /\ snd (geom.fill_linestring_unique_from m_projection last_location range
              (replay calls m0))
       = replay (snd (geom.fill_linestring_unique_from (I := Recorder) m_projection
                        last_location range calls)) m0.
Proof.
  induction range as [| node_ref range IH]; intros last_location calls;
    [split; reflexivity |].
  cbn [geom.fill_linestring_unique_from].
  destruct (negb (geom.Location_eq last_location (node_ref_location node_ref)));
    [| apply IH].
  destruct (m_projection (node_ref_location node_ref)) as [c | e]; [| split; reflexivity].
  specialize (IH (node_ref_location node_ref) (calls ++ [call_linestring_add_location c])).
  rewrite replay_snoc in IH. exact IH.
Qed.

Lemma add_points_replay {L : geom.LocationOps} {impl : Type} {I : geom.TGeomImpl impl}
    (m_projection : Location -> result geom.Coordinates) (m0 : impl) (nodes : list NodeRef) :
  forall (last_location : Location) (calls : list call),
    fst (geom.add_points_from m_projection last_location nodes (replay calls m0))
    = fst (geom.add_points_from (I := Recorder) m_projection last_location nodes calls)
    /\ snd (geom.add_points_from m_projection last_location nodes (replay calls m0))
       = replay (snd (geom.add_points_from (I := Recorder) m_projection last_location
                        nodes calls)) m0.
Proof.
  induction nodes as [| node_ref nodes IH]; intros last_location calls;
    [split; reflexivity |].
  cbn [geom.add_points_from].
  destruct (negb (geom.Location_eq last_location (node_ref_location node_ref)));
    [| apply IH].
  destruct (m_projection (node_ref_location node_ref)) as [c | e]; [| split; reflexivity].
  specialize (IH (node_ref_location node_ref) (calls ++ [call_multipolygon_add_location c])).
  rewrite replay_snoc in IH. exact IH.
Qed.

Lemma create_multipolygon_loop_replay {L : geom.LocationOps} {impl : Type}
    {I : geom.TGeomImpl impl}
    (m_projection : Location -> result geom.Coordinates) (m0 : impl)
    (items : list geom.AreaItem) :
  forall (num_polygons num_rings : Z) (calls : list call),
    fst (geom.create_multipolygon_loop m_projection items num_polygons num_rings
           (replay calls m0))
    = fst (geom.create_multipolygon_loop (I := Recorder) m_projection items
             num_polygons num_rings calls)
    /\ snd (geom.create_multipolygon_loop m_projection items num_polygons num_rings
              (replay calls m0))
       = replay (snd (geom.create_multipolygon_loop (I := Recorder) m_projection items
                        num_polygons num_rings calls)) m0.
Proof.
  induction items as [| it items IH]; intros num_polygons num_rings calls;
    [split; reflexivity |].
  cbn [geom.create_multipolygon_loop].
  destruct (geom.type it); try apply IH.
  - (* outer ring *)
    set (calls3 := geom.multipolygon_outer_ring_start
                     (geom.multipolygon_polygon_start
                        (if 0 <? num_polygons
                         then geom.multipolygon_polygon_finish calls else calls))).
    assert (geom.multipolygon_outer_ring_start
              (geom.multipolygon_polygon_start
                 (if 0 <? num_polygons
                  then geom.multipolygon_polygon_finish (replay calls m0)
                  else replay calls m0))
            = replay calls3 m0) as ->.
    { subst calls3. cbn [geom.multipolygon_outer_ring_start geom.multipolygon_polygon_start
                         geom.multipolygon_polygon_finish Recorder].
      destruct (0 <? num_polygons); rewrite !replay_snoc; reflexivity. }
    unfold geom.add_points.
    pose proof (add_points_replay m_projection m0 (geom.ring it) geom.Location_default calls3)
      as [Hfst Hsnd].
    destruct (geom.add_points_from m_projection geom.Location_default (geom.ring it)
                (replay calls3 m0)) as [o m4].
    destruct (geom.add_points_from (I := Recorder) m_projection geom.Location_default
                (geom.ring it) calls3) as [o' calls4].
    cbn [fst snd] in Hfst, Hsnd. subst o' m4.
    destruct o as [[] | e]; [| split; reflexivity].
    specialize (IH (to_int32 (num_polygons + 1)) (to_int32 (num_rings + 1))
                   (geom.multipolygon_outer_ring_finish calls4)).
    cbn [geom.multipolygon_outer_ring_finish Recorder] in IH |- *.
    rewrite replay_snoc in IH. exact IH.
  - (* inner ring *)
    set (calls1 := geom.multipolygon_inner_ring_start calls).
    assert (geom.multipolygon_inner_ring_start (replay calls m0) = replay calls1 m0) as ->.
    { subst calls1. cbn [geom.multipolygon_inner_ring_start Recorder].
      rewrite replay_snoc. reflexivity. }
    unfold geom.add_points.
    pose proof (add_points_replay m_projection m0 (geom.ring it) geom.Location_default calls1)
      as [Hfst Hsnd].
    destruct (geom.add_points_from m_projection geom.Location_default (geom.ring it)
                (replay calls1 m0)) as [o m2].
    destruct (geom.add_points_from (I := Recorder) m_projection geom.Location_default
                (geom.ring it) calls1) as [o' calls2].
    cbn [fst snd] in Hfst, Hsnd. subst o' m2.
    destruct o as [[] | e]; [| split; reflexivity].
    specialize (IH num_polygons (to_int32 (num_rings + 1))
                   (geom.multipolygon_inner_ring_finish calls2)).
    cbn [geom.multipolygon_inner_ring_finish Recorder] in IH |- *.
    rewrite replay_snoc in IH. exact IH.
Qed.

(** The calls the recording implementation records are the calls the
    factory makes on any implementation whose methods return: it leaves
    the implementation as making these calls on it, in order, does. *)
Lemma recorded_calls_replayed {L : geom.LocationOps} {impl : Type}
    {I : geom.TGeomImpl impl}
    (m_projection : Location -> result geom.Coordinates) (m : impl) :
  (forall (wnl : list NodeRef) (un : geom.use_nodes) (dir : geom.direction),
      snd (geom.create_linestring m_projection wnl un dir m)
      = replay (linestring_calls m_projection wnl un dir) m
      /\ error_of (fst (geom.create_linestring m_projection wnl un dir m))
         = error_of (fst (geom.create_linestring (I := Recorder) m_projection wnl un dir [])))
  /\ (forall area : list geom.AreaItem,
         snd (geom.create_multipolygon m_projection area m)
         = replay (multipolygon_calls m_projection area) m
         /\ error_of (fst (geom.create_multipolygon m_projection area m))
            = error_of (fst (geom.create_multipolygon (I := Recorder) m_projection area []))).
Proof.
  split.
  - intros wnl un dir. unfold linestring_calls, geom.create_linestring.
    change (geom.linestring_start m) with (replay [call_linestring_start] m).
    change (geom.linestring_start (impl := list call) []) with [call_linestring_start].
    assert (forall (r : geom.outcome unit * impl) (r' : geom.outcome unit * list call),
               fst r = fst r' /\ snd r = replay (snd r') m ->
               snd (let (filled, m2) := r in
                    match filled with
                    | geom.Returned _ =>
                        let (linestring, m3) := geom.linestring_finish m2 in
                        (geom.Returned linestring, m3)
                    | geom.Thrown e => (geom.Thrown e, m2)
                    end)
               = replay (snd (let (filled, m2) := r' in
                              match filled with
                              | geom.Returned _ =>
                                  let (linestring, m3) :=
                                    geom.linestring_finish (impl := list call) m2 in
                                  (geom.Returned linestring, m3)
                              | geom.Thrown e => (geom.Thrown e, m2)
                              end)) m
               /\ error_of (fst (let (filled, m2) := r in
                                 match filled with
                                 | geom.Returned _ =>
                                     let (linestring, m3) := geom.linestring_finish m2 in
                                     (geom.Returned linestring, m3)
                                 | geom.Thrown e => (geom.Thrown e, m2)
                                 end))
                  = error_of (fst (let (filled, m2) := r' in
                                   match filled with
                                   | geom.Returned _ =>
                                       let (linestring, m3) :=
                                         geom.linestring_finish (impl := list call) m2 in
                                       (geom.Returned linestring, m3)
                                   | geom.Thrown e => (geom.Thrown e, m2)
                                   end))) as Hfinish.
    { intros [o m2] [o' calls2] [Hfst Hsnd]. cbn [fst snd] in Hfst, Hsnd. subst o' m2.
      destruct o as [[] | e]; [| split; reflexivity].
      cbn [geom.linestring_finish Recorder snd fst error_of].
      rewrite replay_snoc. cbn [perform].
      destruct (geom.linestring_finish (replay calls2 m)) as [linestring m3].
      split; reflexivity. }
    destruct un, dir; apply Hfinish.
    + apply fill_linestring_unique_replay.
    + apply fill_linestring_unique_replay.
    + apply fill_linestring_replay.
    + apply fill_linestring_replay.
  - intros area. unfold multipolygon_calls, geom.create_multipolygon.
    change (geom.multipolygon_start m) with (replay [call_multipolygon_start] m).
    change (geom.multipolygon_start (impl := list call) []) with [call_multipolygon_start].
    pose proof (create_multipolygon_loop_replay m_projection m area 0 0
                  [call_multipolygon_start]) as [Hfst Hsnd].
    destruct (geom.create_multipolygon_loop m_projection area 0 0
                (replay [call_multipolygon_start] m)) as [o m2].
    destruct (geom.create_multipolygon_loop (I := Recorder) m_projection area 0 0
                [call_multipolygon_start]) as [o' calls2].
    cbn [fst snd] in Hfst, Hsnd. subst o' m2.
    destruct o as [[num_polygons num_rings] | e]; [| split; reflexivity].
    destruct (num_rings =? 0); [split; reflexivity |].
    cbn [geom.multipolygon_polygon_finish geom.multipolygon_finish Recorder snd fst error_of].
    rewrite !replay_snoc. cbn [perform].
    destruct (geom.multipolygon_finish
                (geom.multipolygon_polygon_finish (replay calls2 m))) as [multipolygon m4].
    split; reflexivity.
Qed.

(** ** factory.hpp: the calls of create_linestring *)

Lemma add_locations_cons {impl : Type} {I : geom.TGeomImpl impl} (c : geom.Coordinates)
    (coordinates : list geom.Coordinates) (m : impl) :
  add_locations (c :: coordinates) m
  = add_locations coordinates (geom.linestring_add_location c m).
Proof. reflexivity. Qed.

(** [fill_linestring] when the projection gives coordinates for every
    node, and when it throws at one. *)
Lemma fill_linestring_returns {impl : Type} {I : geom.TGeomImpl impl}
    (m_projection : Location -> result geom.Coordinates) (range : list NodeRef) :
  forall (coordinates : list geom.Coordinates) (m : impl),
    Forall2 (fun l c => m_projection l = Ok c) (List.map node_ref_location range)
            coordinates ->
    geom.fill_linestring m_projection range m
    = (geom.Returned tt, add_locations coordinates m).
Proof.
  induction range as [| node_ref range IH]; intros coordinates m H.
  - inversion H. reflexivity.
  - cbn [List.map] in H. inversion H as [| l c ls cs Hc Hrest]; subst.
    cbn [geom.fill_linestring]. rewrite Hc. rewrite add_locations_cons.
    apply IH. exact Hrest.
Qed.

Lemma fill_linestring_throws {impl : Type} {I : geom.TGeomImpl impl}
    (m_projection : Location -> result geom.Coordinates) (range : list NodeRef) :
  forall (before : list Location) (l : Location) (after : list Location)
         (coordinates : list geom.Coordinates) (e : exception) (m : impl),
    List.map node_ref_location range = before ++ l :: after ->
    Forall2 (fun l c => m_projection l = Ok c) before coordinates ->
    m_projection l = Throw e ->
    geom.fill_linestring m_projection range m
    = (geom.Thrown (geom.thrown_by_projection e), add_locations coordinates m).
Proof.
  induction range as [| node_ref range IH]; intros before l after coordinates e m E H He.
  - destruct before; discriminate E.
  - cbn [List.map] in E. cbn [geom.fill_linestring].
    destruct before as [| b before].
    + cbn [List.app] in E. injection E as El _. rewrite El, He.
      inversion H. reflexivity.
    + cbn [List.app] in E. injection E as Eb E.
      inversion H as [| b' c bs cs Hc Hrest]; subst.
      rewrite Hc. rewrite add_locations_cons.
      apply (IH before l after); assumption.
Qed.

(** The same for [fill_linestring_unique], over the locations that do
    not repeat the one before them. *)
Lemma fill_linestring_unique_returns {L : geom.LocationOps} {impl : Type}
    {I : geom.TGeomImpl impl}
    (m_projection : Location -> result geom.Coordinates) (range : list NodeRef) :
  forall (last_location : Location) (coordinates : list geom.Coordinates) (m : impl),
    Forall2 (fun l c => m_projection l = Ok c)
            (without_repeats last_location (List.map node_ref_location range))
            coordinates ->
    geom.fill_linestring_unique_from m_projection last_location range m
    = (geom.Returned tt, add_locations coordinates m).
Proof.
  induction range as [| node_ref range IH]; intros last_location coordinates m H.
  - inversion H. reflexivity.
  - cbn [List.map without_repeats] in H. cbn [geom.fill_linestring_unique_from].
    destruct (geom.Location_eq last_location (node_ref_location node_ref)); cbn [negb].
    + apply IH. exact H.
    + inversion H as [| l c ls cs Hc Hrest]; subst.
      rewrite Hc. rewrite add_locations_cons. apply IH. exact Hrest.
Qed.

Lemma fill_linestring_unique_throws {L : geom.LocationOps} {impl : Type}
    {I : geom.TGeomImpl impl}
    (m_projection : Location -> result geom.Coordinates) (range : list NodeRef) :
  forall (last_location : Location) (before : list Location) (l : Location)
         (after : list Location) (coordinates : list geom.Coordinates) (e : exception)
         (m : impl),
    without_repeats last_location (List.map node_ref_location range) = before ++ l :: after ->
    Forall2 (fun l c => m_projection l = Ok c) before coordinates ->
    m_projection l = Throw e ->
    geom.fill_linestring_unique_from m_projection last_location range m
    = (geom.Thrown (geom.thrown_by_projection e), add_locations coordinates m).
Proof.
  induction range as [| node_ref range IH];
    intros last_location before l after coordinates e m E H He.
  - destruct before; discriminate E.
  - cbn [List.map without_repeats] in E. cbn [geom.fill_linestring_unique_from].
    destruct (geom.Location_eq last_location (node_ref_location node_ref)); cbn [negb].
    + apply (IH last_location before l after); assumption.
    + destruct before as [| b before].
      * cbn [List.app] in E. injection E as El _. rewrite El, He.
        inversion H. reflexivity.
      * cbn [List.app] in E. injection E as Eb E.
        inversion H as [| b' c bs cs Hc Hrest]; subst.
        rewrite Hc. rewrite add_locations_cons.
        apply (IH (node_ref_location node_ref) before l after); assumption.
Qed.

(** X7.  The calls [create_linestring] makes on its implementation,
    whatever the implementation is, as long as its methods return.  It
    calls [linestring_start], then
    [linestring_add_location] with the projection of each location of the
    linestring, in order: the locations of the nodes in the direction
    asked for, with [use_nodes::unique] without those that repeat the
    location before them, which are not projected at all.  When the
    projection gives coordinates for all of them, it calls
    [linestring_finish] and returns what that returns.  When the
    projection throws for one of them, the exception leaves
    [create_linestring]: the locations before it were added, those behind
    it are not, and [linestring_finish] is not called. *)
Theorem create_linestring_calls_in_order {L : geom.LocationOps} {impl : Type}
    {I : geom.TGeomImpl impl}
    (m_projection : Location -> result geom.Coordinates) (wnl : list NodeRef)
    (un : geom.use_nodes) (dir : geom.direction) (m : impl) :
  (forall coordinates : list geom.Coordinates,
      Forall2 (fun l c => m_projection l = Ok c) (linestring_locations wnl un dir)
              coordinates ->
      geom.create_linestring m_projection wnl un dir m
      = (geom.Returned
           (fst (geom.linestring_finish
                   (add_locations coordinates (geom.linestring_start m)))),
         snd (geom.linestring_finish
                (add_locations coordinates (geom.linestring_start m)))))
  /\ (forall (before : list Location) (l : Location) (after : list Location)
             (coordinates : list geom.Coordinates) (e : exception),
         linestring_locations wnl un dir = before ++ l :: after ->
         Forall2 (fun l c => m_projection l = Ok c) before coordinates ->
         m_projection l = Throw e ->
         geom.create_linestring m_projection wnl un dir m
         = (geom.Thrown (geom.thrown_by_projection e),
            add_locations coordinates (geom.linestring_start m))).
Proof.
  split.
  - intros coordinates H. unfold geom.create_linestring. cbv zeta.
    assert (Hfill :
              match un with
              | geom.unique =>
                  match dir with
                  | geom.forward =>
                      geom.fill_linestring_unique m_projection wnl (geom.linestring_start m)
                  | geom.backward =>
                      geom.fill_linestring_unique m_projection (List.rev wnl)
                        (geom.linestring_start m)
                  end
              | geom.all =>
                  match dir with
                  | geom.forward =>
                      geom.fill_linestring m_projection wnl (geom.linestring_start m)
                  | geom.backward =>
                      geom.fill_linestring m_projection (List.rev wnl)
                        (geom.linestring_start m)
                  end
              end
              = (geom.Returned tt, add_locations coordinates (geom.linestring_start m))).
    { destruct un, dir; cbn [linestring_locations traversal] in H.
      - apply fill_linestring_unique_returns. exact H.
      - apply fill_linestring_unique_returns. exact H.
      - apply fill_linestring_returns. exact H.
      - apply fill_linestring_returns. exact H. }
    rewrite Hfill.
    destruct (geom.linestring_finish (add_locations coordinates (geom.linestring_start m)))
      as [linestring m3].
    reflexivity.
  - intros before l after coordinates e E H He.
    unfold geom.create_linestring. cbv zeta.
    assert (Hfill :
              match un with
              | geom.unique =>
                  match dir with
                  | geom.forward =>
                      geom.fill_linestring_unique m_projection wnl (geom.linestring_start m)
                  | geom.backward =>
                      geom.fill_linestring_unique m_projection (List.rev wnl)
                        (geom.linestring_start m)
                  end
              | geom.all =>
                  match dir with
                  | geom.forward =>
                      geom.fill_linestring m_projection wnl (geom.linestring_start m)
                  | geom.backward =>
                      geom.fill_linestring m_projection (List.rev wnl)
                        (geom.linestring_start m)
                  end
              end
              = (geom.Thrown (geom.thrown_by_projection e),
                 add_locations coordinates (geom.linestring_start m))).
    { destruct un, dir; cbn [linestring_locations traversal] in E.
      - apply (fill_linestring_unique_throws m_projection _ _ before l after); assumption.
      - apply (fill_linestring_unique_throws m_projection _ _ before l after); assumption.
      - apply (fill_linestring_throws m_projection _ before l after); assumption.
      - apply (fill_linestring_throws m_projection _ before l after); assumption. }
    rewrite Hfill. reflexivity.
Qed.

(** [create_linestring_calls_in_order] on the recording implementation.
    The way that stays at its first corner for two nodes, with
    [use_nodes::unique]: two locations are added between
    [linestring_start] and [linestring_finish].  The way whose second
    node has no location, with a projection that throws for it: the first
    location is added, and the linestring is never finished. *)
Lemma create_linestring_calls_in_order_witness :
  geom.create_linestring (L := fixed_point_locations) (I := Recorder) fixed_point_projection
    way_with_repeat geom.unique geom.forward []
  = (geom.Returned tt,
     [call_linestring_start;
      call_linestring_add_location
        (projected fixed_point_projection (location_of_fixed 10000000 20000000));
      call_linestring_add_location
        (projected fixed_point_projection (location_of_fixed 10000003 20000000));
      call_linestring_finish])
  /\ geom.create_linestring (L := fixed_point_locations) (I := Recorder)
       projection_of_defined_locations way_through_undefined geom.all geom.forward []
     = (geom.Thrown (geom.thrown_by_projection (invalid_location "invalid location")),
        [call_linestring_start;
         call_linestring_add_location
           (projected fixed_point_projection (location_of_fixed 10000000 20000000))]).
Proof.
  split.
  - pose proof (proj1 (create_linestring_calls_in_order (L := fixed_point_locations)
                         (I := Recorder) fixed_point_projection way_with_repeat
                         geom.unique geom.forward [])
                  [projected fixed_point_projection (location_of_fixed 10000000 20000000);
                   projected fixed_point_projection (location_of_fixed 10000003 20000000)])
      as H.
    assert (E : linestring_locations (L := fixed_point_locations) way_with_repeat
                  geom.unique geom.forward
                = [location_of_fixed 10000000 20000000; location_of_fixed 10000003 20000000])
      by (vm_compute; reflexivity).
    rewrite E in H. rewrite H.
    + reflexivity.
    + repeat constructor.
  - pose proof (proj2 (create_linestring_calls_in_order (L := fixed_point_locations)
                         (I := Recorder) projection_of_defined_locations
                         way_through_undefined geom.all geom.forward [])
                  [location_of_fixed 10000000 20000000]
                  (location_of_fixed 2147483647 2147483647)
                  [location_of_fixed 10000003 20000000]
                  [projected fixed_point_projection (location_of_fixed 10000000 20000000)]
                  (invalid_location "invalid location")) as H.
    rewrite H.
    + reflexivity.
    + reflexivity.
    + constructor; [vm_compute; reflexivity | constructor].
    + vm_compute. reflexivity.
Defined.

(** ** factory.hpp: consecutive nodes with the same location *)

Lemma added_locations_app (calls1 calls2 : list call) :
  added_locations (calls1 ++ calls2) = added_locations calls1 ++ added_locations calls2.
Proof. unfold added_locations. apply List.flat_map_app. Qed.

Lemma skips_repeats_nil {L : geom.LocationOps}
    (m_projection : Location -> result geom.Coordinates) (last_location : Location)
    (calls : list call) (o : geom.outcome unit) :
  skips_repeats m_projection last_location [] calls (o, calls).
Proof.
  exists [], []. cbn [snd fst]. rewrite List.app_nil_r.
  split; [reflexivity |]. split; [constructor |]. split; [exact I |].
  split; [intros l [] |]. intros _ node_ref [].
Qed.

Lemma skips_repeats_skip {L : geom.LocationOps}
    (m_projection : Location -> result geom.Coordinates) (last_location : Location)
    (node_ref : NodeRef) (range : list NodeRef) (calls : list call)
    (r : geom.outcome unit * list call) :
  geom.Location_eq last_location (node_ref_location node_ref) = true ->
  skips_repeats m_projection last_location range calls r ->
  skips_repeats m_projection last_location (node_ref :: range) calls r.
Proof.
  intros Heq (locations & coordinates & Hadded & Hproj & Hchain & Hincl & Hcover).
  exists locations, coordinates.
  split; [exact Hadded |]. split; [exact Hproj |]. split; [exact Hchain |].
  split; [intros l Hl; right; apply Hincl; exact Hl |].
  intros Hok n [<- | Hn]; [left; exact Heq | apply Hcover; assumption].
Qed.

Lemma skips_repeats_throw {L : geom.LocationOps}
    (m_projection : Location -> result geom.Coordinates) (last_location : Location)
    (range : list NodeRef) (calls : list call) (e : geom.thrown) :
  skips_repeats m_projection last_location range calls (geom.Thrown e, calls).
Proof.
  exists [], []. cbn [snd fst error_of]. rewrite List.app_nil_r.
  split; [reflexivity |]. split; [constructor |]. split; [exact I |].
  split; [intros l [] |]. discriminate.
Qed.

Lemma skips_repeats_keep {L : geom.LocationOps}
    (m_projection : Location -> result geom.Coordinates) (last_location : Location)
    (node_ref : NodeRef) (range : list NodeRef) (calls : list call) (added : call)
    (c : geom.Coordinates) (r : geom.outcome unit * list call) :
  geom.Location_eq last_location (node_ref_location node_ref) = false ->
  m_projection (node_ref_location node_ref) = Ok c ->
  added_locations [added] = [c] ->
  skips_repeats m_projection (node_ref_location node_ref) range (calls ++ [added]) r ->
  skips_repeats m_projection last_location (node_ref :: range) calls r.
Proof.
  intros Hne Hc Hcall (locations & coordinates & Hadded & Hproj & Hchain & Hincl & Hcover).
  exists (node_ref_location node_ref :: locations), (c :: coordinates).
  split; [| split; [| split; [| split]]].
  - rewrite Hadded, added_locations_app, Hcall, <- List.app_assoc. reflexivity.
  - constructor; assumption.
  - split; assumption.
  - intros l [<- | Hl]; [left; reflexivity | right; apply Hincl; exact Hl].
  - intros Hok n [<- | Hn].
    + right. exists (node_ref_location node_ref). split; [left; reflexivity |].
      left. reflexivity.
    + destruct (Hcover Hok n Hn) as [Heq | (l & Hl & Hrel)].
      * right. exists (node_ref_location node_ref). split; [left; reflexivity |].
        right. exact Heq.
      * right. exists l. split; [right; exact Hl | exact Hrel].
Qed.

Lemma fill_linestring_unique_skips_repeats {L : geom.LocationOps}
    (m_projection : Location -> result geom.Coordinates) (range : list NodeRef) :
  forall (last_location : Location) (calls : list call),
    skips_repeats m_projection last_location range calls
      (geom.fill_linestring_unique_from (I := Recorder) m_projection last_location
         range calls).
Proof.
  induction range as [| node_ref range IH]; intros last_location calls.
  - apply skips_repeats_nil.
  - cbn [geom.fill_linestring_unique_from].
    destruct (geom.Location_eq last_location (node_ref_location node_ref)) eqn:Heq;
      cbn [negb].
    + apply skips_repeats_skip; [exact Heq | apply IH].
    + destruct (m_projection (node_ref_location node_ref)) as [c | e] eqn:Hc.
      * eapply skips_repeats_keep; [exact Heq | exact Hc | | apply IH]. reflexivity.
      * apply skips_repeats_throw.
Qed.

Lemma add_points_skips_repeats {L : geom.LocationOps}
    (m_projection : Location -> result geom.Coordinates) (nodes : list NodeRef) :
  forall (last_location : Location) (calls : list call),
    skips_repeats m_projection last_location nodes calls
      (geom.add_points_from (I := Recorder) m_projection last_location nodes calls).
Proof.
  induction nodes as [| node_ref nodes IH]; intros last_location calls.
  - apply skips_repeats_nil.
  - cbn [geom.add_points_from].
    destruct (geom.Location_eq last_location (node_ref_location node_ref)) eqn:Heq;
      cbn [negb].
    + apply skips_repeats_skip; [exact Heq | apply IH].
    + destruct (m_projection (node_ref_location node_ref)) as [c | e] eqn:Hc.
      * eapply skips_repeats_keep; [exact Heq | exact Hc | | apply IH]. reflexivity.
      * apply skips_repeats_throw.
Qed.

Lemma in_map_rev {A C : Type} (f : A -> C) (l : list A) (c : C) :
  In c (List.map f (List.rev l)) -> In c (List.map f l).
Proof. rewrite List.map_rev. intros H. apply List.in_rev. exact H. Qed.

(** X8.  With [use_nodes::unique], [create_linestring] adds no location twice
    in a row, whatever the direction, and [add_points] never does: the
    coordinates added are the projections of locations of the nodes, each
    different from the one before it and the first different from the
    undefined location a default constructor makes.  When the call
    returns, only repeats were left out: every node is at a location that
    was added, or that compares equal to one that was added or to the
    undefined location. *)
Theorem unique_adds_no_location_twice_in_a_row {L : geom.LocationOps}
    (m_projection : Location -> result geom.Coordinates) :
  (forall (wnl : list NodeRef) (dir : geom.direction),
      exists locations : list Location,
        Forall2 (fun l c => m_projection l = Ok c) locations
                (added_locations (linestring_calls m_projection wnl geom.unique dir))
        /\ chain_distinct geom.Location_default locations
        /\ incl locations (List.map node_ref_location wnl)
        /\ (error_of (fst (geom.create_linestring (I := Recorder) m_projection wnl
                             geom.unique dir []))
            = None ->
            forall node_ref : NodeRef,
              In node_ref wnl ->
              geom.Location_eq geom.Location_default (node_ref_location node_ref) = true
              \/ exists l : Location,
                   In l locations
                   /\ (l = node_ref_location node_ref
                       \/ geom.Location_eq l (node_ref_location node_ref) = true)))
  /\ (forall nodes : list NodeRef,
         exists locations : list Location,
           Forall2 (fun l c => m_projection l = Ok c) locations
                   (added_locations
                      (snd (geom.add_points (I := Recorder) m_projection nodes [])))
           /\ chain_distinct geom.Location_default locations
           /\ incl locations (List.map node_ref_location nodes)
           /\ (error_of (fst (geom.add_points (I := Recorder) m_projection nodes [])) = None ->
               forall node_ref : NodeRef,
                 In node_ref nodes ->
                 geom.Location_eq geom.Location_default (node_ref_location node_ref) = true
                 \/ exists l : Location,
                      In l locations
                      /\ (l = node_ref_location node_ref
                          \/ geom.Location_eq l (node_ref_location node_ref) = true))).
Proof.
  split.
  - intros wnl dir.
    assert (forall range : list NodeRef,
               (forall c, In c (List.map node_ref_location range) ->
                          In c (List.map node_ref_location wnl)) ->
               (forall n, In n wnl -> In n range) ->
               geom.create_linestring (I := Recorder) m_projection wnl geom.unique dir []
               = (let (filled, m2) :=
                    geom.fill_linestring_unique (I := Recorder) m_projection range
                      [call_linestring_start] in
                  match filled with
                  | geom.Returned _ => (geom.Returned tt, m2 ++ [call_linestring_finish])
                  | geom.Thrown e => (geom.Thrown e, m2)
                  end) ->
               exists locations : list Location,
                 Forall2 (fun l c => m_projection l = Ok c) locations
                   (added_locations (linestring_calls m_projection wnl geom.unique dir))
                 /\ chain_distinct geom.Location_default locations
                 /\ incl locations (List.map node_ref_location wnl)
                 /\ (error_of (fst (geom.create_linestring (I := Recorder) m_projection wnl
                                      geom.unique dir []))
                     = None ->
                     forall node_ref : NodeRef,
                       In node_ref wnl ->
                       geom.Location_eq geom.Location_default (node_ref_location node_ref)
                       = true
                       \/ exists l : Location,
                            In l locations
                            /\ (l = node_ref_location node_ref
                                \/ geom.Location_eq l (node_ref_location node_ref) = true)))
      as Hrange.
    { intros range Hsub Hsup Hcreate. unfold linestring_calls. rewrite Hcreate.
      unfold geom.fill_linestring_unique.
      destruct (fill_linestring_unique_skips_repeats m_projection range
                  geom.Location_default [call_linestring_start])
        as (locations & coordinates & Hadded & Hproj & Hchain & Hincl & Hcover).
      destruct (geom.fill_linestring_unique_from (I := Recorder) m_projection
                  geom.Location_default range [call_linestring_start]) as [o calls2].
      cbn [fst snd] in Hadded, Hcover. cbn [added_locations List.flat_map List.app] in Hadded.
      cbv beta iota.
      exists locations.
      destruct o as [[] | e]; cbn [fst snd error_of].
      - rewrite added_locations_app, Hadded.
        cbn [added_locations List.flat_map]. rewrite List.app_nil_r.
        split; [exact Hproj |]. split; [exact Hchain |].
        split; [intros l Hl; apply Hsub, Hincl, Hl |].
        intros _ node_ref Hin. apply Hcover; [reflexivity | apply Hsup; exact Hin].
      - rewrite Hadded.
        split; [exact Hproj |]. split; [exact Hchain |].
        split; [intros l Hl; apply Hsub, Hincl, Hl |].
        discriminate. }
    destruct dir.
    + apply (Hrange (List.rev wnl)).
      * intros c. apply in_map_rev.
      * intros n Hn. apply List.in_rev in Hn. exact Hn.
      * reflexivity.
    + apply (Hrange wnl); [intros c Hc; exact Hc | intros n Hn; exact Hn | reflexivity].
  - intros nodes. unfold geom.add_points.
    destruct (add_points_skips_repeats m_projection nodes geom.Location_default [])
      as (locations & coordinates & Hadded & Hproj & Hchain & Hincl & Hcover).
    exists locations. cbn [added_locations List.flat_map List.app] in Hadded.
    rewrite Hadded. repeat (split; [assumption |]). exact Hcover.
Qed.

Lemma fill_linestring_unique_without_repeats {L : geom.LocationOps} {impl : Type}
    {I : geom.TGeomImpl impl}
    (m_projection : Location -> result geom.Coordinates) (range : list NodeRef) :
  forall (last_location : Location) (m : impl),
    chain_distinct last_location (List.map node_ref_location range) ->
    geom.fill_linestring_unique_from m_projection last_location range m
    = geom.fill_linestring m_projection range m.
Proof.
  induction range as [| node_ref range IH]; intros last_location m Hchain; [reflexivity |].
  cbn [List.map chain_distinct] in Hchain. destruct Hchain as [Hne Hchain].
  cbn [geom.fill_linestring_unique_from geom.fill_linestring].
  rewrite Hne. cbn [negb].
  destruct (m_projection (node_ref_location node_ref)) as [c | e]; [| reflexivity].
  apply IH. exact Hchain.
Qed.

(** X9.  For a way in which, in the direction asked for, every node is at
    another location than the node before it, and the first node is not
    at the undefined location, [use_nodes::unique] changes nothing:
    [create_linestring] does with it what it does with [use_nodes::all]. *)
Theorem unique_changes_nothing_without_repeats {L : geom.LocationOps} {impl : Type}
    {I : geom.TGeomImpl impl}
    (m_projection : Location -> result geom.Coordinates) (wnl : list NodeRef)
    (dir : geom.direction) (m : impl) :
  chain_distinct geom.Location_default (List.map node_ref_location (traversal dir wnl)) ->
  geom.create_linestring m_projection wnl geom.unique dir m
  = geom.create_linestring m_projection wnl geom.all dir m.
Proof.
  intros Hchain. unfold geom.create_linestring, geom.fill_linestring_unique.
  destruct dir; cbn [traversal] in Hchain;
    rewrite (fill_linestring_unique_without_repeats m_projection _ _ _ Hchain);
    reflexivity.
Qed.

Lemma unique_changes_nothing_without_repeats_witness :
  geom.create_linestring (L := fixed_point_locations) (I := Recorder)
    (geom.IdentityProjection (B := example_build)) way_there_and_back
    geom.unique geom.backward []
  = geom.create_linestring (L := fixed_point_locations) (I := Recorder)
      (geom.IdentityProjection (B := example_build)) way_there_and_back
      geom.all geom.backward [].
Proof.
  apply (unique_changes_nothing_without_repeats (L := fixed_point_locations) (I := Recorder)
           (geom.IdentityProjection (B := example_build)) way_there_and_back
           geom.backward []).
  vm_compute. repeat split.
Defined.

(** ** factory.hpp: create_multipolygon *)

Lemma outer_rings_cons (it : geom.AreaItem) (items : list geom.AreaItem) :
  outer_rings (it :: items) = (if is_outer_ring it then 1 else 0) + outer_rings items.
Proof.
  unfold outer_rings. cbn [List.filter].
  destruct (is_outer_ring it); [rewrite size_cons |]; lia.
Qed.

Lemma inner_rings_cons (it : geom.AreaItem) (items : list geom.AreaItem) :
  inner_rings (it :: items) = (if is_inner_ring it then 1 else 0) + inner_rings items.
Proof.
  unfold inner_rings. cbn [List.filter].
  destruct (is_inner_ring it); [rewrite size_cons |]; lia.
Qed.

Lemma outer_rings_nonneg (items : list geom.AreaItem) : 0 <= outer_rings items.
Proof. apply size_nonneg. Qed.

Lemma inner_rings_nonneg (items : list geom.AreaItem) : 0 <= inner_rings items.
Proof. apply size_nonneg. Qed.

(** [add_points] throws what the projection threw, and nothing else. *)
Lemma add_points_from_throws {L : geom.LocationOps} {impl : Type} {I : geom.TGeomImpl impl}
    (m_projection : Location -> result geom.Coordinates) (nodes : list NodeRef) :
  forall (last_location : Location) (m : impl) (e : geom.thrown),
    fst (geom.add_points_from m_projection last_location nodes m) = geom.Thrown e ->
    exists e' : exception, e = geom.thrown_by_projection e'.
Proof.
  induction nodes as [| node_ref nodes IH]; intros last_location m e H.
  - discriminate H.
  - cbn [geom.add_points_from] in H.
    destruct (negb (geom.Location_eq last_location (node_ref_location node_ref)));
      [| exact (IH _ _ _ H)].
    destruct (m_projection (node_ref_location node_ref)) as [c | e'].
    + exact (IH _ _ _ H).
    + cbn [fst] in H. exists e'. congruence.
Qed.

(** The counters of the loop of [create_multipolygon] when it has run
    over the items, and what it throws. *)
Lemma create_multipolygon_loop_counters {L : geom.LocationOps} {impl : Type}
    {I : geom.TGeomImpl impl}
    (m_projection : Location -> result geom.Coordinates) (items : list geom.AreaItem) :
  forall (num_polygons num_rings : Z) (m : impl),
    0 <= num_polygons -> 0 <= num_rings ->
    num_polygons + size items < 2 ^ 31 -> num_rings + size items < 2 ^ 31 ->
    match geom.create_multipolygon_loop m_projection items num_polygons num_rings m with
    | (geom.Returned (num_polygons', num_rings'), m') =>
        num_polygons' = num_polygons + outer_rings items
        /\ num_rings' = num_rings + outer_rings items + inner_rings items
        /\ (outer_rings items + inner_rings items = 0 -> m' = m)
    | (geom.Thrown e, _) =>
        0 < outer_rings items + inner_rings items
        /\ exists e' : exception, e = geom.thrown_by_projection e'
    end.
Proof.
  induction items as [| it items IH]; intros num_polygons num_rings m Hp Hr Hpsize Hrsize.
  - cbn. repeat split; lia.
  - rewrite size_cons in Hpsize, Hrsize.
    pose proof (size_nonneg items) as Hsize.
    pose proof (outer_rings_nonneg items) as Houter.
    pose proof (inner_rings_nonneg items) as Hinner.
    rewrite outer_rings_cons, inner_rings_cons. unfold is_outer_ring, is_inner_ring.
    cbn [geom.create_multipolygon_loop].
    destruct (geom.type it);
      try (specialize (IH num_polygons num_rings m Hp Hr ltac:(lia) ltac:(lia));
           destruct (geom.create_multipolygon_loop m_projection items num_polygons
                       num_rings m) as [[[np' nr'] | e] m'];
           [destruct IH as (H1 & H2 & H3); repeat split; [lia | lia | intros; apply H3; lia]
           | destruct IH as (H1 & H2); split; [lia | exact H2]]).
    + (* outer ring *)
      unfold geom.add_points.
      pose proof (add_points_from_throws m_projection (geom.ring it) geom.Location_default
                    (geom.multipolygon_outer_ring_start
                       (geom.multipolygon_polygon_start
                          (if 0 <? num_polygons
                           then geom.multipolygon_polygon_finish m else m)))) as Hthrows.
      destruct (geom.add_points_from m_projection geom.Location_default (geom.ring it) _)
        as [[[] | e] m4].
      * rewrite !to_int32_small by lia.
        specialize (IH (num_polygons + 1) (num_rings + 1)
                       (geom.multipolygon_outer_ring_finish m4)
                       ltac:(lia) ltac:(lia) ltac:(lia) ltac:(lia)).
        destruct (geom.create_multipolygon_loop m_projection items (num_polygons + 1)
                    (num_rings + 1) (geom.multipolygon_outer_ring_finish m4))
          as [[[np' nr'] | e] m'].
        -- destruct IH as (H1 & H2 & H3). repeat split; [lia | lia | intros; lia].
        -- destruct IH as (H1 & H2). split; [lia | exact H2].
      * split; [lia |]. apply (Hthrows e). reflexivity.
    + (* inner ring *)
      unfold geom.add_points.
      pose proof (add_points_from_throws m_projection (geom.ring it) geom.Location_default
                    (geom.multipolygon_inner_ring_start m)) as Hthrows.
      destruct (geom.add_points_from m_projection geom.Location_default (geom.ring it) _)
        as [[[] | e] m2].
      * rewrite !to_int32_small by lia.
        specialize (IH num_polygons (num_rings + 1)
                       (geom.multipolygon_inner_ring_finish m2)
                       ltac:(lia) ltac:(lia) ltac:(lia) ltac:(lia)).
        destruct (geom.create_multipolygon_loop m_projection items num_polygons
                    (num_rings + 1) (geom.multipolygon_inner_ring_finish m2))
          as [[[np' nr'] | e] m'].
        -- destruct IH as (H1 & H2 & H3). repeat split; [lia | lia | intros; lia].
        -- destruct IH as (H1 & H2). split; [lia | exact H2].
      * split; [lia |]. apply (Hthrows e). reflexivity.
Qed.

(** X10.  [create_multipolygon] throws [geometry_error] (invalid area) exactly
    for an area that has neither an outer nor an inner ring, whatever else
    it holds; it has then called [multipolygon_start] on the
    implementation, and nothing else. *)
Theorem area_without_rings_is_invalid {L : geom.LocationOps} {impl : Type}
    {I : geom.TGeomImpl impl}
    (m_projection : Location -> result geom.Coordinates) (area : list geom.AreaItem)
    (m : impl) :
  size area < 2 ^ 31 ->
  (error_of (fst (geom.create_multipolygon m_projection area m))
   = Some (geom.geometry_error "invalid area")
   <-> outer_rings area = 0 /\ inner_rings area = 0)
  /\ (outer_rings area = 0 /\ inner_rings area = 0 ->
      snd (geom.create_multipolygon m_projection area m) = geom.multipolygon_start m).
Proof.
  intros Hsize. unfold geom.create_multipolygon.
  pose proof (outer_rings_nonneg area) as Houter.
  pose proof (inner_rings_nonneg area) as Hinner.
  pose proof (create_multipolygon_loop_counters m_projection area 0 0
                (geom.multipolygon_start m) ltac:(lia) ltac:(lia) ltac:(lia) ltac:(lia))
    as H.
  destruct (geom.create_multipolygon_loop m_projection area 0 0 (geom.multipolygon_start m))
    as [[[num_polygons num_rings] | e] m2].
  - destruct H as (H1 & H2 & H3).
    destruct (Z.eqb_spec num_rings 0) as [Hzero | Hrings]; cbn [fst snd error_of].
    + split; [split; [intros _; lia | reflexivity] |]. intros _. apply H3. lia.
    + destruct (geom.multipolygon_finish (geom.multipolygon_polygon_finish m2))
        as [multipolygon m4].
      cbn [fst snd error_of].
      split; [split; [discriminate | lia] | lia].
  - destruct H as (Hsome & e' & ->). cbn [fst snd error_of].
    split; [split; [discriminate | lia] | lia].
Qed.

Lemma area_without_rings_is_invalid_witness :
  error_of (fst (geom.create_multipolygon (L := fixed_point_locations) (I := Recorder)
                   (geom.IdentityProjection (B := example_build)) area_without_rings []))
  = Some (geom.geometry_error "invalid area")
  /\ multipolygon_calls (L := fixed_point_locations)
       (geom.IdentityProjection (B := example_build)) area_without_rings
     = [call_multipolygon_start].
Proof.
  pose proof (area_without_rings_is_invalid (L := fixed_point_locations) (I := Recorder)
                (geom.IdentityProjection (B := example_build)) area_without_rings []) as H.
  destruct H as [Hthrows Hcalls]; [vm_compute; reflexivity |].
  split.
  - apply Hthrows. split; reflexivity.
  - apply Hcalls. split; reflexivity.
Defined.

Lemma calls_of_snoc (p : call -> bool) (calls : list call) (c : call) :
  calls_of p (calls ++ [c]) = calls_of p calls + (if p c then 1 else 0).
Proof.
  unfold calls_of. rewrite List.filter_app, size_app. cbn [List.filter].
  destruct (p c); reflexivity.
Qed.

(** [add_points] calls no method but [multipolygon_add_location]. *)
Lemma add_points_from_calls {L : geom.LocationOps}
    (m_projection : Location -> result geom.Coordinates) (p : call -> bool)
    (nodes : list NodeRef) :
  (forall c : geom.Coordinates, p (call_multipolygon_add_location c) = false) ->
  forall (last_location : Location) (calls : list call),
    calls_of p (snd (geom.add_points_from (I := Recorder) m_projection last_location
                       nodes calls))
    = calls_of p calls.
Proof.
  intros Hp. induction nodes as [| node_ref nodes IH]; intros last_location calls;
    [reflexivity |].
  cbn [geom.add_points_from].
  destruct (negb (geom.Location_eq last_location (node_ref_location node_ref)));
    [| apply IH].
  destruct (m_projection (node_ref_location node_ref)) as [c | e]; [| reflexivity].
  rewrite IH. cbn [geom.multipolygon_add_location Recorder].
  rewrite calls_of_snoc, Hp. lia.
Qed.

(** The calls of the loop of [create_multipolygon], method by method. *)
Lemma create_multipolygon_loop_calls {L : geom.LocationOps}
    (m_projection : Location -> result geom.Coordinates) (items : list geom.AreaItem) :
  forall (num_polygons num_rings : Z) (calls : list call),
    0 <= num_polygons -> num_polygons + size items < 2 ^ 31 ->
    let r := geom.create_multipolygon_loop (I := Recorder) m_projection items
               num_polygons num_rings calls in
    error_of (fst r) = None ->
    calls_of (same_method call_multipolygon_polygon_start) (snd r)
    = calls_of (same_method call_multipolygon_polygon_start) calls + outer_rings items
    /\ calls_of (same_method call_multipolygon_polygon_finish) (snd r)
       = calls_of (same_method call_multipolygon_polygon_finish) calls
         + (if 0 <? num_polygons then outer_rings items
            else Z.max 0 (outer_rings items - 1))
    /\ calls_of (same_method call_multipolygon_outer_ring_start) (snd r)
       = calls_of (same_method call_multipolygon_outer_ring_start) calls + outer_rings items
    /\ calls_of (same_method call_multipolygon_outer_ring_finish) (snd r)
       = calls_of (same_method call_multipolygon_outer_ring_finish) calls + outer_rings items
    /\ calls_of (same_method call_multipolygon_inner_ring_start) (snd r)
       = calls_of (same_method call_multipolygon_inner_ring_start) calls + inner_rings items
    /\ calls_of (same_method call_multipolygon_inner_ring_finish) (snd r)
       = calls_of (same_method call_multipolygon_inner_ring_finish) calls + inner_rings items
    /\ calls_of (same_method call_multipolygon_start) (snd r)
       = calls_of (same_method call_multipolygon_start) calls
    /\ calls_of (same_method call_multipolygon_finish) (snd r)
       = calls_of (same_method call_multipolygon_finish) calls.
Proof.
  induction items as [| it items IH]; intros num_polygons num_rings calls Hp Hpsize.
  - cbn. intros _. repeat split; try lia.
    destruct (0 <? num_polygons); lia.
  - rewrite size_cons in Hpsize.
    pose proof (size_nonneg items) as Hsize.
    pose proof (outer_rings_nonneg items) as Houter.
    rewrite outer_rings_cons, inner_rings_cons. unfold is_outer_ring, is_inner_ring.
    cbn [geom.create_multipolygon_loop]. cbv zeta.
    destruct (geom.type it);
      try (intros Hok;
           specialize (IH num_polygons num_rings calls Hp ltac:(lia) Hok);
           cbv zeta in IH; rewrite !Z.add_0_l; exact IH).
    + (* outer ring *)
      unfold geom.add_points.
      set (calls3 := geom.multipolygon_outer_ring_start
                       (geom.multipolygon_polygon_start
                          (if 0 <? num_polygons
                           then geom.multipolygon_polygon_finish calls else calls))).
      pose proof (fun p Hp =>
                    add_points_from_calls m_projection p (geom.ring it) Hp
                      geom.Location_default calls3) as Hpoints.
      destruct (geom.add_points_from (I := Recorder) m_projection geom.Location_default
                  (geom.ring it) calls3) as [[[] | e] calls4]; [| discriminate].
      cbn [snd] in Hpoints.
      rewrite (to_int32_small (num_polygons + 1)) by lia. intros Hok.
      specialize (IH (num_polygons + 1) (to_int32 (num_rings + 1))
                     (geom.multipolygon_outer_ring_finish calls4)
                     ltac:(lia) ltac:(lia) Hok).
      cbv zeta in IH.
      destruct IH as (H1 & H2 & H3 & H4 & H5 & H6 & H7 & H8).
      rewrite H1, H2, H3, H4, H5, H6, H7, H8.
      cbn [geom.multipolygon_outer_ring_finish Recorder].
      rewrite !calls_of_snoc, !Hpoints by reflexivity.
      subst calls3.
      cbn [geom.multipolygon_outer_ring_start geom.multipolygon_polygon_start
           geom.multipolygon_polygon_finish Recorder].
      replace (0 <? num_polygons + 1) with true by (symmetry; apply Z.ltb_lt; lia).
      destruct (Z.ltb_spec 0 num_polygons);
        rewrite !calls_of_snoc; cbn [same_method]; repeat split; lia.
    + (* inner ring *)
      unfold geom.add_points.
      set (calls1 := geom.multipolygon_inner_ring_start calls).
      pose proof (fun p Hp =>
                    add_points_from_calls m_projection p (geom.ring it) Hp
                      geom.Location_default calls1) as Hpoints.
      destruct (geom.add_points_from (I := Recorder) m_projection geom.Location_default
                  (geom.ring it) calls1) as [[[] | e] calls2]; [| discriminate].
      cbn [snd] in Hpoints. intros Hok.
      specialize (IH num_polygons (to_int32 (num_rings + 1))
                     (geom.multipolygon_inner_ring_finish calls2) Hp ltac:(lia) Hok).
      cbv zeta in IH.
      destruct IH as (H1 & H2 & H3 & H4 & H5 & H6 & H7 & H8).
      rewrite H1, H2, H3, H4, H5, H6, H7, H8.
      cbn [geom.multipolygon_inner_ring_finish Recorder].
      rewrite !calls_of_snoc, !Hpoints by reflexivity.
      subst calls1. cbn [geom.multipolygon_inner_ring_start Recorder].
      rewrite !calls_of_snoc; cbn [same_method]; repeat split; try lia.
      destruct (0 <? num_polygons); lia.
Qed.

(** X11.  When [create_multipolygon] returns, it has called [multipolygon_start]
    and [multipolygon_finish] once each, started and finished one outer
    ring per outer ring of the area and one inner ring per inner ring,
    and started one polygon per outer ring.  It has finished as many
    polygons as it started, except for an area that has inner rings only:
    there it finishes one polygon, which it never started. *)
Theorem polygons_of_a_multipolygon {L : geom.LocationOps}
    (m_projection : Location -> result geom.Coordinates) (area : list geom.AreaItem) :
  size area < 2 ^ 31 ->
  error_of (fst (geom.create_multipolygon (I := Recorder) m_projection area [])) = None ->
  let calls := multipolygon_calls m_projection area in
  calls_of (same_method call_multipolygon_start) calls = 1
  /\ calls_of (same_method call_multipolygon_finish) calls = 1
  /\ calls_of (same_method call_multipolygon_polygon_start) calls = outer_rings area
  /\ calls_of (same_method call_multipolygon_polygon_finish) calls
     = Z.max 1 (outer_rings area)
  /\ calls_of (same_method call_multipolygon_outer_ring_start) calls = outer_rings area
  /\ calls_of (same_method call_multipolygon_outer_ring_finish) calls = outer_rings area
  /\ calls_of (same_method call_multipolygon_inner_ring_start) calls = inner_rings area
  /\ calls_of (same_method call_multipolygon_inner_ring_finish) calls = inner_rings area.
Proof.
  intros Hsize. unfold multipolygon_calls, geom.create_multipolygon.
  change (geom.multipolygon_start (impl := list call) []) with [call_multipolygon_start].
  pose proof (create_multipolygon_loop_calls m_projection area 0 0 [call_multipolygon_start]
                ltac:(lia) ltac:(lia)) as H.
  cbv zeta in H.
  pose proof (outer_rings_nonneg area) as Houter.
  destruct (geom.create_multipolygon_loop (I := Recorder) m_projection area 0 0
              [call_multipolygon_start]) as [[[num_polygons num_rings] | e] calls2];
    [| discriminate].
  specialize (H eq_refl). cbn [snd] in H.
  destruct H as (H1 & H2 & H3 & H4 & H5 & H6 & H7 & H8).
  destruct (num_rings =? 0); [discriminate |]. intros _.
  cbn [geom.multipolygon_polygon_finish geom.multipolygon_finish Recorder snd].
  rewrite !calls_of_snoc, H1, H2, H3, H4, H5, H6, H7, H8.
  cbn [same_method]. change (0 <? 0) with false. cbv iota.
  change (calls_of (same_method call_multipolygon_start) [call_multipolygon_start]) with 1.
  change (calls_of (same_method call_multipolygon_finish) [call_multipolygon_start]) with 0.
  change (calls_of (same_method call_multipolygon_polygon_start) [call_multipolygon_start])
    with 0.
  change (calls_of (same_method call_multipolygon_polygon_finish) [call_multipolygon_start])
    with 0.
  change (calls_of (same_method call_multipolygon_outer_ring_start) [call_multipolygon_start])
    with 0.
  change (calls_of (same_method call_multipolygon_outer_ring_finish) [call_multipolygon_start])
    with 0.
  change (calls_of (same_method call_multipolygon_inner_ring_start) [call_multipolygon_start])
    with 0.
  change (calls_of (same_method call_multipolygon_inner_ring_finish) [call_multipolygon_start])
    with 0.
  repeat split; lia.
Qed.

Lemma polygons_of_a_multipolygon_witness :
  calls_of (same_method call_multipolygon_polygon_start)
    (multipolygon_calls (L := fixed_point_locations)
       (geom.IdentityProjection (B := example_build)) area_with_hole)
  = 1
  /\ calls_of (same_method call_multipolygon_polygon_finish)
       (multipolygon_calls (L := fixed_point_locations)
          (geom.IdentityProjection (B := example_build)) area_with_hole)
     = 1.
Proof.
  pose proof (polygons_of_a_multipolygon (L := fixed_point_locations)
                (geom.IdentityProjection (B := example_build)) area_with_hole) as H.
  destruct H as (_ & _ & Hstart & Hfinish & _).
  - vm_compute. reflexivity.
  - vm_compute. reflexivity.
  - split; [exact Hstart | exact Hfinish].
Defined.

(** ** factory.hpp: the direction of a linestring *)

(** What the two loops of [create_linestring] add when the projection
    gives coordinates for every node. *)
Lemma fill_linestring_projected
    (m_projection : Location -> result geom.Coordinates) (range : list NodeRef) :
  (forall node_ref : NodeRef,
      In node_ref range -> exists c, m_projection (node_ref_location node_ref) = Ok c) ->
  forall calls : list call,
    geom.fill_linestring (I := Recorder) m_projection range calls
    = (geom.Returned tt,
       calls ++ List.map (fun l => call_linestring_add_location (projected m_projection l))
                         (List.map node_ref_location range)).
Proof.
  induction range as [| node_ref range IH]; intros Hok calls.
  - cbn. rewrite List.app_nil_r. reflexivity.
  - cbn [geom.fill_linestring List.map].
    destruct (Hok node_ref (or_introl eq_refl)) as [c Hc].
    unfold projected at 1. rewrite Hc.
    rewrite IH by (intros n Hn; apply Hok; right; exact Hn).
    cbn [geom.linestring_add_location Recorder]. rewrite <- List.app_assoc. reflexivity.
Qed.

Lemma fill_linestring_unique_projected {L : geom.LocationOps}
    (m_projection : Location -> result geom.Coordinates) (range : list NodeRef) :
  (forall node_ref : NodeRef,
      In node_ref range -> exists c, m_projection (node_ref_location node_ref) = Ok c) ->
  forall (last_location : Location) (calls : list call),
    geom.fill_linestring_unique_from (I := Recorder) m_projection last_location range calls
    = (geom.Returned tt,
       calls ++ List.map (fun l => call_linestring_add_location (projected m_projection l))
                         (without_repeats last_location (List.map node_ref_location range))).
Proof.
  induction range as [| node_ref range IH]; intros Hok last_location calls.
  - cbn. rewrite List.app_nil_r. reflexivity.
  - cbn [geom.fill_linestring_unique_from List.map without_repeats].
    destruct (geom.Location_eq last_location (node_ref_location node_ref)); cbn [negb].
    + apply IH. intros n Hn. apply Hok. right. exact Hn.
    + destruct (Hok node_ref (or_introl eq_refl)) as [c Hc].
      cbn [List.map]. unfold projected at 1. rewrite Hc.
      rewrite IH by (intros n Hn; apply Hok; right; exact Hn).
      cbn [geom.linestring_add_location Recorder]. rewrite <- List.app_assoc. reflexivity.
Qed.

Lemma added_locations_map (f : Location -> geom.Coordinates) (locations : list Location) :
  added_locations (List.map (fun l => call_linestring_add_location (f l)) locations)
  = List.map f locations.
Proof.
  induction locations as [| l locations IH]; [reflexivity |].
  cbn [List.map]. change (added_locations (?c :: ?rest)) with
    (added_locations [c] ++ added_locations rest).
  rewrite IH. reflexivity.
Qed.

Lemma last_cons {A : Type} (ls : list A) :
  forall l a : A, List.last (l :: ls) a = List.last ls l.
Proof.
  induction ls as [| y ls IH]; intros l a; [reflexivity |].
  change (List.last (l :: y :: ls) a) with (List.last (y :: ls) a).
  rewrite (IH y a), (IH y l). reflexivity.
Qed.

Section without_repeats_facts.

Context {L : geom.LocationOps}.
Hypothesis symmetric : forall a b : Location, geom.Location_eq a b = geom.Location_eq b a.
Hypothesis transitive :
  forall a b c : Location,
    geom.Location_eq a b = true -> geom.Location_eq b c = true -> geom.Location_eq a c = true.

Lemma Location_eq_same (a b c : Location) :
  geom.Location_eq a b = true -> geom.Location_eq a c = geom.Location_eq b c.
Proof.
  intros Hab.
  destruct (geom.Location_eq a c) eqn:Hac, (geom.Location_eq b c) eqn:Hbc;
    try reflexivity.
  - rewrite symmetric in Hab. rewrite (transitive b a c Hab Hac) in Hbc. discriminate.
  - rewrite (transitive a b c Hab Hbc) in Hac. discriminate.
Qed.

Lemma without_repeats_same (locations : list Location) :
  forall a b : Location,
    geom.Location_eq a b = true ->
    without_repeats a locations = without_repeats b locations.
Proof.
  induction locations as [| l locations IH]; intros a b Hab; [reflexivity |].
  cbn [without_repeats]. rewrite (Location_eq_same a b l Hab).
  destruct (geom.Location_eq b l); [apply IH; exact Hab | reflexivity].
Qed.

Lemma last_same (locations : list Location) (a b c : Location) :
  geom.Location_eq a b = true ->
  geom.Location_eq (List.last locations a) c = geom.Location_eq (List.last locations b) c.
Proof.
  intros Hab. destruct locations as [| l locations]; [apply Location_eq_same; exact Hab |].
  revert l. induction locations as [| l' locations IH]; intros l; [reflexivity |].
  cbn [List.last] in *. apply IH.
Qed.

Lemma without_repeats_snoc (locations : list Location) :
  forall a x : Location,
    without_repeats a (locations ++ [x])
    = without_repeats a locations
      ++ (if geom.Location_eq (List.last locations a) x then [] else [x]).
Proof.
  induction locations as [| l locations IH]; intros a x.
  - cbn. destruct (geom.Location_eq a x); reflexivity.
  - cbn [List.app without_repeats].
    destruct (geom.Location_eq a l) eqn:Hal.
    + rewrite IH, last_cons, (last_same locations a l x Hal). reflexivity.
    + rewrite IH, last_cons. reflexivity.
Qed.

Lemma last_rev_cons (l : Location) (locations : list Location) (d : Location) :
  List.last (List.rev (l :: locations)) d = l.
Proof. cbn [List.rev]. apply List.last_last. Qed.

(** Passing over repeats commutes with reversing the list, as far as a
    function that does not tell equal locations apart can see. *)
Lemma without_repeats_rev {C : Type} (f : Location -> C) (locations : list Location)
    (d : Location) :
  (forall a b : Location, geom.Location_eq a b = true -> f a = f b) ->
  (forall l : Location, In l locations -> geom.Location_eq d l = false) ->
  List.map f (without_repeats d (List.rev locations))
  = List.rev (List.map f (without_repeats d locations)).
Proof.
  intros Hf. induction locations as [| x locations IH]; intros Hd; [reflexivity |].
  assert (geom.Location_eq d x = false) as Hdx by (apply Hd; left; reflexivity).
  assert (forall l, In l locations -> geom.Location_eq d l = false) as Hd'
      by (intros l Hl; apply Hd; right; exact Hl).
  specialize (IH Hd').
  cbn [List.rev]. rewrite without_repeats_snoc, List.map_app, IH.
  cbn [without_repeats]. rewrite Hdx. cbn [List.map List.rev].
  destruct locations as [| y locations].
  - cbn. rewrite Hdx. reflexivity.
  - rewrite last_rev_cons.
    assert (geom.Location_eq d y = false) as Hdy by (apply Hd'; left; reflexivity).
    cbn [without_repeats]. rewrite Hdy. rewrite (symmetric y x).
    destruct (geom.Location_eq x y) eqn:Hxy.
    + cbn [List.map List.rev]. rewrite List.app_nil_r.
      rewrite (without_repeats_same locations x y Hxy), (Hf x y Hxy). reflexivity.
    + cbn [List.map List.rev]. rewrite <- List.app_assoc. reflexivity.
Qed.

End without_repeats_facts.

Lemma linestring_calls_all
    {L : geom.LocationOps} (m_projection : Location -> result geom.Coordinates)
    (wnl : list NodeRef) (dir : geom.direction) :
  (forall node_ref : NodeRef,
      In node_ref wnl -> exists c, m_projection (node_ref_location node_ref) = Ok c) ->
  added_locations (linestring_calls m_projection wnl geom.all dir)
  = List.map (projected m_projection) (List.map node_ref_location (traversal dir wnl)).
Proof.
  intros Hok. unfold linestring_calls, geom.create_linestring.
  assert (forall range : list NodeRef,
             (forall n, In n range -> In n wnl) ->
             added_locations
               (snd (let (filled, m2) :=
                       geom.fill_linestring (I := Recorder) m_projection range
                         (geom.linestring_start (impl := list call) []) in
                     match filled with
                     | geom.Returned _ =>
                         let (linestring, m3) :=
                           geom.linestring_finish (impl := list call) m2 in
                         (geom.Returned linestring, m3)
                     | geom.Thrown e => (geom.Thrown e, m2)
                     end))
             = List.map (projected m_projection) (List.map node_ref_location range)) as H.
  { intros range Hin.
    rewrite fill_linestring_projected by (intros n Hn; apply Hok, Hin, Hn).
    cbn [snd geom.linestring_finish geom.linestring_start Recorder].
    rewrite !added_locations_app, added_locations_map.
    cbn. apply List.app_nil_r. }
  destruct dir; cbn [traversal]; apply H.
  - intros n Hn. apply List.in_rev. exact Hn.
  - intros n Hn. exact Hn.
Qed.

Lemma linestring_calls_unique
    {L : geom.LocationOps} (m_projection : Location -> result geom.Coordinates)
    (wnl : list NodeRef) (dir : geom.direction) :
  (forall node_ref : NodeRef,
      In node_ref wnl -> exists c, m_projection (node_ref_location node_ref) = Ok c) ->
  added_locations (linestring_calls m_projection wnl geom.unique dir)
  = List.map (projected m_projection)
      (without_repeats geom.Location_default
         (List.map node_ref_location (traversal dir wnl))).
Proof.
  intros Hok. unfold linestring_calls, geom.create_linestring, geom.fill_linestring_unique.
  assert (forall range : list NodeRef,
             (forall n, In n range -> In n wnl) ->
             added_locations
               (snd (let (filled, m2) :=
                       geom.fill_linestring_unique_from (I := Recorder) m_projection
                         geom.Location_default range
                         (geom.linestring_start (impl := list call) []) in
                     match filled with
                     | geom.Returned _ =>
                         let (linestring, m3) :=
                           geom.linestring_finish (impl := list call) m2 in
                         (geom.Returned linestring, m3)
                     | geom.Thrown e => (geom.Thrown e, m2)
                     end))
             = List.map (projected m_projection)
                 (without_repeats geom.Location_default (List.map node_ref_location range)))
    as H.
  { intros range Hin.
    rewrite fill_linestring_unique_projected by (intros n Hn; apply Hok, Hin, Hn).
    cbn [snd geom.linestring_finish geom.linestring_start Recorder].
    rewrite !added_locations_app, added_locations_map.
    cbn. apply List.app_nil_r. }
  destruct dir; cbn [traversal]; apply H.
  - intros n Hn. apply List.in_rev. exact Hn.
  - intros n Hn. exact Hn.
Qed.

(** X12.  When the projection gives coordinates for every node of a way,
    [direction::backward] gives the linestring of [direction::forward]
    with its points in reverse order.  With [use_nodes::all] this holds
    as it stands.  With [use_nodes::unique] it holds when no node is at
    the undefined location and the comparison of locations is symmetric
    and transitive and equal locations are projected alike: going
    backward, it is the last node of a run of nodes at one location that
    is used, not the first. *)
Theorem backward_reverses_the_linestring {L : geom.LocationOps}
    (m_projection : Location -> result geom.Coordinates) (wnl : list NodeRef) :
  (forall node_ref : NodeRef,
      In node_ref wnl -> exists c, m_projection (node_ref_location node_ref) = Ok c) ->
  added_locations (linestring_calls m_projection wnl geom.all geom.backward)
  = List.rev (added_locations (linestring_calls m_projection wnl geom.all geom.forward))
  /\ ((forall a b : Location, geom.Location_eq a b = geom.Location_eq b a) ->
      (forall a b c : Location,
          geom.Location_eq a b = true -> geom.Location_eq b c = true ->
          geom.Location_eq a c = true) ->
      (forall a b : Location, geom.Location_eq a b = true -> m_projection a = m_projection b) ->
      (forall node_ref : NodeRef,
          In node_ref wnl ->
          geom.Location_eq geom.Location_default (node_ref_location node_ref) = false) ->
      added_locations (linestring_calls m_projection wnl geom.unique geom.backward)
      = List.rev
          (added_locations (linestring_calls m_projection wnl geom.unique geom.forward))).
Proof.
  intros Hok. split.
  - rewrite !linestring_calls_all by exact Hok. cbn [traversal].
    rewrite !List.map_rev. reflexivity.
  - intros Hsym Htrans Hproj Hdefined.
    rewrite !linestring_calls_unique by exact Hok. cbn [traversal].
    rewrite List.map_rev. apply (without_repeats_rev Hsym Htrans).
    + intros a b Hab. unfold projected. rewrite (Hproj a b Hab). reflexivity.
    + intros l Hl. apply List.in_map_iff in Hl. destruct Hl as (n & <- & Hn).
      apply Hdefined. exact Hn.
Qed.

Lemma backward_reverses_the_linestring_witness :
  added_locations
    (linestring_calls (L := fixed_point_locations) fixed_point_projection way_with_repeat
       geom.unique geom.backward)
  = List.rev
      (added_locations
         (linestring_calls (L := fixed_point_locations) fixed_point_projection
            way_with_repeat geom.unique geom.forward)).
Proof.
  pose proof (backward_reverses_the_linestring (L := fixed_point_locations)
                fixed_point_projection way_with_repeat) as H.
  destruct H as [_ H].
  - intros node_ref _. eexists. reflexivity.
  - apply H.
    + intros a b. cbn [geom.Location_eq fixed_point_locations].
      rewrite (Z.eqb_sym (double_to_fix (lat_without_check a))),
        (Z.eqb_sym (double_to_fix (lon_without_check a))). reflexivity.
    + intros a b c. cbn [geom.Location_eq fixed_point_locations].
      rewrite !Bool.andb_true_iff, !Z.eqb_eq. intros [H1 H2] [H3 H4].
      split; congruence.
    + intros a b. cbn [geom.Location_eq fixed_point_locations].
      rewrite Bool.andb_true_iff, !Z.eqb_eq. intros [H1 H2].
      unfold fixed_point_projection. rewrite H1, H2. reflexivity.
    + intros node_ref Hin.
      repeat (destruct Hin as [<- | Hin]; [vm_compute; reflexivity |]).
      destruct Hin.
Defined.

(** ** pbf_output_format.hpp: when blocks are queued *)

Lemma store_primitive_block_facts (f : PBFOutputFormat.t) :
  let f' := PBFOutputFormat.store_primitive_block f in
  PBFOutputFormat.m_options f' = PBFOutputFormat.m_options f
  /\ PrimitiveBlock.count (PBFOutputFormat.m_primitive_block f')
     = PrimitiveBlock.count (PBFOutputFormat.m_primitive_block f)
  /\ PrimitiveBlock.type (PBFOutputFormat.m_primitive_block f')
     = PrimitiveBlock.type (PBFOutputFormat.m_primitive_block f)
  /\ (PrimitiveBlock.count (PBFOutputFormat.m_primitive_block f) = 0 -> f' = f)
  /\ (PrimitiveBlock.count (PBFOutputFormat.m_primitive_block f) <> 0 ->
      exists msg : bytes,
        PBFOutputFormat.m_output_queue f'
        = PBFOutputFormat.m_output_queue f ++ [data_job (PBFOutputFormat.m_options f) msg]).
Proof.
  unfold PBFOutputFormat.store_primitive_block.
  destruct (Z.eqb_spec (PrimitiveBlock.count (PBFOutputFormat.m_primitive_block f)) 0)
    as [Hzero | Hcount]; cbv zeta.
  - repeat split; try reflexivity. intros H. contradiction.
  - assert (PrimitiveBlock.count
              (snd (PrimitiveBlock.group_data (PBFOutputFormat.m_options f)
                      (PBFOutputFormat.m_primitive_block f)))
            = PrimitiveBlock.count (PBFOutputFormat.m_primitive_block f)
            /\ PrimitiveBlock.type
                 (snd (PrimitiveBlock.group_data (PBFOutputFormat.m_options f)
                         (PBFOutputFormat.m_primitive_block f)))
               = PrimitiveBlock.type (PBFOutputFormat.m_primitive_block f)) as [Hc Ht].
    { unfold PrimitiveBlock.group_data.
      destruct (OSMFormat.PrimitiveGroup.eqb _ _); [| split; reflexivity].
      destruct (PrimitiveBlock.m_dense_nodes _); split; reflexivity. }
    destruct (PrimitiveBlock.group_data (PBFOutputFormat.m_options f)
                (PBFOutputFormat.m_primitive_block f)) as [group_data block].
    cbn [snd] in Hc, Ht.
    cbn [PBFOutputFormat.m_options PBFOutputFormat.m_primitive_block
         PBFOutputFormat.m_output_queue].
    split; [reflexivity |]. split; [exact Hc |]. split; [exact Ht |].
    split; [intros H; contradiction |]. intros _.
    eexists. unfold push_back, data_job. reflexivity.
Qed.

(** What [switch_primitive_block_type] leaves: a block of the type asked
    for that can take an entity, and one more job when it had to queue
    the block it found. *)
Lemma switch_primitive_block_type_facts {B : Build} (type : OSMFormat.PrimitiveGroup.t)
    (f : PBFOutputFormat.t) :
  let f' := PBFOutputFormat.switch_primitive_block_type type f in
  PBFOutputFormat.m_options f' = PBFOutputFormat.m_options f
  /\ PrimitiveBlock.type (PBFOutputFormat.m_primitive_block f') = type
  /\ (PrimitiveBlock.can_add type (PBFOutputFormat.m_primitive_block f) = true -> f' = f)
  /\ (PrimitiveBlock.can_add type (PBFOutputFormat.m_primitive_block f) = false ->
      PBFOutputFormat.m_primitive_block f'
      = PrimitiveBlock.reset type
          (PBFOutputFormat.m_primitive_block (PBFOutputFormat.store_primitive_block f))
      /\ (PrimitiveBlock.count (PBFOutputFormat.m_primitive_block f) = 0 ->
          PBFOutputFormat.m_output_queue f' = PBFOutputFormat.m_output_queue f)
      /\ (PrimitiveBlock.count (PBFOutputFormat.m_primitive_block f) <> 0 ->
          exists msg : bytes,
            PBFOutputFormat.m_output_queue f'
            = PBFOutputFormat.m_output_queue f
              ++ [data_job (PBFOutputFormat.m_options f) msg])).
Proof.
  unfold PBFOutputFormat.switch_primitive_block_type. cbv zeta.
  pose proof (store_primitive_block_facts f) as S. cbv zeta in S.
  destruct S as (Soptions & Scount & Stype & Szero & Squeue).
  destruct (PrimitiveBlock.can_add type (PBFOutputFormat.m_primitive_block f)) eqn:Hcan;
    cbn [negb].
  - apply can_add_true_iff in Hcan. destruct Hcan as (Htype & _).
    split; [reflexivity |]. split; [symmetry; exact Htype |].
    split; [reflexivity |]. discriminate.
  - unfold PBFOutputFormat.with_block.
    cbn [PBFOutputFormat.m_options PBFOutputFormat.m_primitive_block
         PBFOutputFormat.m_output_queue].
    split; [exact Soptions |]. split; [reflexivity |]. split; [discriminate |].
    intros _. split; [reflexivity |]. split.
    + intros Hzero. rewrite (Szero Hzero). reflexivity.
    + exact Squeue.
Qed.

Lemma same_entities_refl (b : PrimitiveBlock.t) : same_entities b b.
Proof. repeat split. Qed.

Lemma same_entities_trans (b1 b2 b3 : PrimitiveBlock.t) :
  same_entities b1 b2 -> same_entities b2 b3 -> same_entities b1 b3.
Proof. unfold same_entities. intros (? & ? & ?) (? & ? & ?). repeat split; congruence. Qed.

Lemma store_in_stringtable_same_entities (s : string) (b : PrimitiveBlock.t) :
  same_entities b (snd (PrimitiveBlock.store_in_stringtable s b)).
Proof.
  unfold PrimitiveBlock.store_in_stringtable.
  destruct (StringTable.add s (PrimitiveBlock.m_stringtable b)). repeat split.
Qed.

Lemma store_all_same_entities (strings : list string) :
  forall b : PrimitiveBlock.t, same_entities b (snd (PBFOutputFormat.store_all strings b)).
Proof.
  induction strings as [| s strings IH]; intros b; [apply same_entities_refl |].
  cbn [PBFOutputFormat.store_all]. unfold PrimitiveBlock.store_in_stringtable_unsigned.
  pose proof (store_in_stringtable_same_entities s b) as H.
  destruct (PrimitiveBlock.store_in_stringtable s b) as [i b1]. cbn [snd] in H.
  specialize (IH b1). destruct (PBFOutputFormat.store_all strings b1) as [indices b2].
  cbn [snd] in *. exact (same_entities_trans _ _ _ H IH).
Qed.

Lemma store_roles_same_entities (members : list RelationMember) :
  forall b : PrimitiveBlock.t, same_entities b (snd (PBFOutputFormat.store_roles members b)).
Proof.
  induction members as [| member members IH]; intros b; [apply same_entities_refl |].
  cbn [PBFOutputFormat.store_roles].
  pose proof (store_in_stringtable_same_entities (role member) b) as H.
  destruct (PrimitiveBlock.store_in_stringtable (role member) b) as [i b1]. cbn [snd] in H.
  specialize (IH b1). destruct (PBFOutputFormat.store_roles members b1) as [indices b2].
  cbn [snd] in *. exact (same_entities_trans _ _ _ H IH).
Qed.

Lemma add_info_same_entities (options : pbf_output_options) (object : OSMObject)
    (b : PrimitiveBlock.t) :
  same_entities b (snd (PBFOutputFormat.add_info options object b)).
Proof.
  unfold PBFOutputFormat.add_info. destruct (md_user (add_metadata options)).
  - unfold PrimitiveBlock.store_in_stringtable_unsigned.
    pose proof (store_in_stringtable_same_entities (user object) b) as H.
    destruct (PrimitiveBlock.store_in_stringtable (user object) b) as [i b1]. exact H.
  - apply same_entities_refl.
Qed.

Lemma add_meta_same_entities (options : pbf_output_options) (keys vals info : Z)
    (object : OSMObject) (b : PrimitiveBlock.t) :
  same_entities b (snd (PBFOutputFormat.add_meta options keys vals info object b)).
Proof.
  unfold PBFOutputFormat.add_meta.
  pose proof (store_all_same_entities (List.map key (tags object)) b) as H1.
  destruct (PBFOutputFormat.store_all (List.map key (tags object)) b) as [ks b1].
  pose proof (store_all_same_entities (List.map value (tags object)) b1) as H2.
  destruct (PBFOutputFormat.store_all (List.map value (tags object)) b1) as [vs b2].
  cbn [snd] in *.
  destruct (md_any (add_metadata options) || add_visible_flag options).
  - pose proof (add_info_same_entities options object b2) as H3.
    destruct (PBFOutputFormat.add_info options object b2) as [bytes3 b3]. cbn [snd] in *.
    exact (same_entities_trans _ _ _ H1 (same_entities_trans _ _ _ H2 H3)).
  - exact (same_entities_trans _ _ _ H1 H2).
Qed.

(** A handler first switches to a block of its kind, then adds one
    entity to that block; it queues nothing itself. *)
Lemma handle_item_after_switch {B : Build} {N : NwrIndex} (f : PBFOutputFormat.t)
    (i : PBFOutputFormat.Item) :
  let f1 :=
    PBFOutputFormat.switch_primitive_block_type
      (group_of_item (PBFOutputFormat.m_options f) i) f in
  let f' := PBFOutputFormat.handle_item f i in
  PBFOutputFormat.m_options f' = PBFOutputFormat.m_options f1
  /\ PBFOutputFormat.m_output_queue f' = PBFOutputFormat.m_output_queue f1
  /\ PrimitiveBlock.count (PBFOutputFormat.m_primitive_block f')
     = PrimitiveBlock.count (PBFOutputFormat.m_primitive_block f1) + 1
  /\ PrimitiveBlock.type (PBFOutputFormat.m_primitive_block f')
     = PrimitiveBlock.type (PBFOutputFormat.m_primitive_block f1).
Proof.
  assert (forall (f1 : PBFOutputFormat.t) (r : bytes * PrimitiveBlock.t) (tag : Z),
             same_entities (PrimitiveBlock.group (PBFOutputFormat.m_primitive_block f1))
                           (snd r) ->
             let f' :=
               let (body, b1) := r in
               PBFOutputFormat.with_block f1
                 (PrimitiveBlock.append_group (protozero.submessage tag body) b1) in
             PBFOutputFormat.m_options f' = PBFOutputFormat.m_options f1
             /\ PBFOutputFormat.m_output_queue f' = PBFOutputFormat.m_output_queue f1
             /\ PrimitiveBlock.count (PBFOutputFormat.m_primitive_block f')
                = PrimitiveBlock.count (PBFOutputFormat.m_primitive_block f1) + 1
             /\ PrimitiveBlock.type (PBFOutputFormat.m_primitive_block f')
                = PrimitiveBlock.type (PBFOutputFormat.m_primitive_block f1)) as Hgroup.
  { intros f1 [body b1] tag (Hcount & Htype & _). cbn [snd] in *.
    unfold PBFOutputFormat.with_block, PrimitiveBlock.append_group,
      PrimitiveBlock.count, PrimitiveBlock.type.
    cbn [PBFOutputFormat.m_options PBFOutputFormat.m_output_queue
         PBFOutputFormat.m_primitive_block PrimitiveBlock.m_count PrimitiveBlock.m_type].
    rewrite Hcount, Htype. repeat split. }
  destruct i as [[n | w] | r]; cbn [group_of_item PBFOutputFormat.handle_item
                                      PBFOutputFormat.handle].
  - unfold PBFOutputFormat.node.
    destruct (use_dense_nodes (PBFOutputFormat.m_options f)).
    + cbv zeta.
      set (f1 := PBFOutputFormat.switch_primitive_block_type _ f).
      unfold PBFOutputFormat.with_block, PrimitiveBlock.add_dense_node.
      destruct (DenseNodes.add_node _ n _ _) as [st dn'].
      repeat split.
    + cbv zeta. apply Hgroup. unfold PBFOutputFormat.node_message.
      pose proof (add_meta_same_entities
                    (PBFOutputFormat.m_options
                       (PBFOutputFormat.switch_primitive_block_type
                          OSMFormat.PrimitiveGroup.repeated_Node_nodes f))
                    OSMFormat.Node.packed_uint32_keys OSMFormat.Node.packed_uint32_vals
                    OSMFormat.Node.optional_Info_info n
                    (PrimitiveBlock.group
                       (PBFOutputFormat.m_primitive_block
                          (PBFOutputFormat.switch_primitive_block_type
                             OSMFormat.PrimitiveGroup.repeated_Node_nodes f)))) as H.
      destruct (PBFOutputFormat.add_meta _ _ _ _ n _) as [meta b1]. exact H.
  - unfold PBFOutputFormat.way. cbv zeta. apply Hgroup.
    unfold PBFOutputFormat.way_message.
    pose proof (add_meta_same_entities
                  (PBFOutputFormat.m_options
                     (PBFOutputFormat.switch_primitive_block_type
                        OSMFormat.PrimitiveGroup.repeated_Way_ways f))
                  OSMFormat.Way.packed_uint32_keys OSMFormat.Way.packed_uint32_vals
                  OSMFormat.Way.optional_Info_info w
                  (PrimitiveBlock.group
                     (PBFOutputFormat.m_primitive_block
                        (PBFOutputFormat.switch_primitive_block_type
                           OSMFormat.PrimitiveGroup.repeated_Way_ways f)))) as H.
    destruct (PBFOutputFormat.add_meta _ _ _ _ w _) as [meta b1]. exact H.
  - unfold PBFOutputFormat.relation. cbv zeta. apply Hgroup.
    unfold PBFOutputFormat.relation_message.
    pose proof (add_meta_same_entities
                  (PBFOutputFormat.m_options
                     (PBFOutputFormat.switch_primitive_block_type
                        OSMFormat.PrimitiveGroup.repeated_Relation_relations f))
                  OSMFormat.Relation.packed_uint32_keys OSMFormat.Relation.packed_uint32_vals
                  OSMFormat.Relation.optional_Info_info r
                  (PrimitiveBlock.group
                     (PBFOutputFormat.m_primitive_block
                        (PBFOutputFormat.switch_primitive_block_type
                           OSMFormat.PrimitiveGroup.repeated_Relation_relations f)))) as H.
    destruct (PBFOutputFormat.add_meta _ _ _ _ r _) as [meta b1].
    pose proof (store_roles_same_entities (members r) b1) as H'.
    destruct (PBFOutputFormat.store_roles (members r) b1) as [roles b2].
    cbn [snd] in *. exact (same_entities_trans _ _ _ H H').
Qed.

(** One step of a buffer: what a handler does to the options, the block
    and the queue. *)
Lemma handle_item_step {B : Build} {N : NwrIndex} (f : PBFOutputFormat.t)
    (i : PBFOutputFormat.Item) :
  let type := group_of_item (PBFOutputFormat.m_options f) i in
  let f' := PBFOutputFormat.handle_item f i in
  PBFOutputFormat.m_options f' = PBFOutputFormat.m_options f
  /\ PrimitiveBlock.type (PBFOutputFormat.m_primitive_block f') = type
  /\ (PrimitiveBlock.can_add type (PBFOutputFormat.m_primitive_block f) = true ->
      PBFOutputFormat.m_output_queue f' = PBFOutputFormat.m_output_queue f
      /\ PrimitiveBlock.count (PBFOutputFormat.m_primitive_block f')
         = PrimitiveBlock.count (PBFOutputFormat.m_primitive_block f) + 1)
  /\ (PrimitiveBlock.can_add type (PBFOutputFormat.m_primitive_block f) = false ->
      PrimitiveBlock.count (PBFOutputFormat.m_primitive_block f') = 1
      /\ (PrimitiveBlock.count (PBFOutputFormat.m_primitive_block f) = 0 ->
          PBFOutputFormat.m_output_queue f' = PBFOutputFormat.m_output_queue f)
      /\ (PrimitiveBlock.count (PBFOutputFormat.m_primitive_block f) <> 0 ->
          exists msg : bytes,
            PBFOutputFormat.m_output_queue f'
            = PBFOutputFormat.m_output_queue f
              ++ [data_job (PBFOutputFormat.m_options f) msg])).
Proof.
  cbv zeta.
  pose proof (handle_item_after_switch f i) as H. cbv zeta in H.
  destruct H as (Hoptions & Hqueue & Hcount & Htype).
  pose proof (switch_primitive_block_type_facts
                (group_of_item (PBFOutputFormat.m_options f) i) f) as S.
  cbv zeta in S. destruct S as (Soptions & Stype & Scan & Scannot).
  split; [congruence |]. split; [congruence |]. split.
  - intros Hcan. rewrite (Scan Hcan) in Hqueue, Hcount. split; assumption.
  - intros Hcannot. destruct (Scannot Hcannot) as (Sblock & Szero & Snonzero).
    rewrite Hqueue, Hcount, Sblock. split; [reflexivity |]. split; assumption.
Qed.

(** The functions that write a message change the string table of the
    block, and nothing else. *)
Lemma store_in_stringtable_group_data (s : string) (b : PrimitiveBlock.t) :
  PrimitiveBlock.m_pbf_primitive_group_data (snd (PrimitiveBlock.store_in_stringtable s b))
  = PrimitiveBlock.m_pbf_primitive_group_data b.
Proof.
  unfold PrimitiveBlock.store_in_stringtable.
  destruct (StringTable.add s (PrimitiveBlock.m_stringtable b)). reflexivity.
Qed.

Lemma store_all_group_data (strings : list string) :
  forall b : PrimitiveBlock.t,
    PrimitiveBlock.m_pbf_primitive_group_data (snd (PBFOutputFormat.store_all strings b))
    = PrimitiveBlock.m_pbf_primitive_group_data b.
Proof.
  induction strings as [| s strings IH]; intros b; [reflexivity |].
  cbn [PBFOutputFormat.store_all]. unfold PrimitiveBlock.store_in_stringtable_unsigned.
  pose proof (store_in_stringtable_group_data s b) as H.
  destruct (PrimitiveBlock.store_in_stringtable s b) as [i b1]. cbn [snd] in H.
  specialize (IH b1). destruct (PBFOutputFormat.store_all strings b1) as [indices b2].
  cbn [snd] in *. congruence.
Qed.

Lemma store_roles_group_data (members : list RelationMember) :
  forall b : PrimitiveBlock.t,
    PrimitiveBlock.m_pbf_primitive_group_data (snd (PBFOutputFormat.store_roles members b))
    = PrimitiveBlock.m_pbf_primitive_group_data b.
Proof.
  induction members as [| member members IH]; intros b; [reflexivity |].
  cbn [PBFOutputFormat.store_roles].
  pose proof (store_in_stringtable_group_data (role member) b) as H.
  destruct (PrimitiveBlock.store_in_stringtable (role member) b) as [i b1]. cbn [snd] in H.
  specialize (IH b1). destruct (PBFOutputFormat.store_roles members b1) as [indices b2].
  cbn [snd] in *. congruence.
Qed.

Lemma add_info_group_data (options : pbf_output_options) (object : OSMObject)
    (b : PrimitiveBlock.t) :
  PrimitiveBlock.m_pbf_primitive_group_data (snd (PBFOutputFormat.add_info options object b))
  = PrimitiveBlock.m_pbf_primitive_group_data b.
Proof.
  unfold PBFOutputFormat.add_info. destruct (md_user (add_metadata options)).
  - unfold PrimitiveBlock.store_in_stringtable_unsigned.
    pose proof (store_in_stringtable_group_data (user object) b) as H.
    destruct (PrimitiveBlock.store_in_stringtable (user object) b) as [i b1]. exact H.
  - reflexivity.
Qed.

Lemma add_meta_group_data (options : pbf_output_options) (keys vals info : Z)
    (object : OSMObject) (b : PrimitiveBlock.t) :
  PrimitiveBlock.m_pbf_primitive_group_data
    (snd (PBFOutputFormat.add_meta options keys vals info object b))
  = PrimitiveBlock.m_pbf_primitive_group_data b.
Proof.
  unfold PBFOutputFormat.add_meta.
  pose proof (store_all_group_data (List.map key (tags object)) b) as H1.
  destruct (PBFOutputFormat.store_all (List.map key (tags object)) b) as [ks b1].
  pose proof (store_all_group_data (List.map value (tags object)) b1) as H2.
  destruct (PBFOutputFormat.store_all (List.map value (tags object)) b1) as [vs b2].
  cbn [snd] in *.
  destruct (md_any (add_metadata options) || add_visible_flag options).
  - pose proof (add_info_group_data options object b2) as H3.
    destruct (PBFOutputFormat.add_info options object b2) as [bytes3 b3]. cbn [snd] in *.
    congruence.
  - cbn [snd]. congruence.
Qed.

Lemma item_message_same_entities {B : Build} {N : NwrIndex} (options : pbf_output_options)
    (i : PBFOutputFormat.Item) (b : PrimitiveBlock.t) :
  same_entities b (snd (item_message options i b))
  /\ PrimitiveBlock.m_pbf_primitive_group_data (snd (item_message options i b))
     = PrimitiveBlock.m_pbf_primitive_group_data b.
Proof.
  destruct i as [[n | w] | r]; cbn [item_message].
  - unfold PBFOutputFormat.node_message.
    pose proof (add_meta_same_entities options OSMFormat.Node.packed_uint32_keys
                  OSMFormat.Node.packed_uint32_vals OSMFormat.Node.optional_Info_info n b)
      as H.
    pose proof (add_meta_group_data options OSMFormat.Node.packed_uint32_keys
                  OSMFormat.Node.packed_uint32_vals OSMFormat.Node.optional_Info_info n b)
      as H'.
    destruct (PBFOutputFormat.add_meta _ _ _ _ n b) as [meta b1]. split; assumption.
  - unfold PBFOutputFormat.way_message.
    pose proof (add_meta_same_entities options OSMFormat.Way.packed_uint32_keys
                  OSMFormat.Way.packed_uint32_vals OSMFormat.Way.optional_Info_info w b)
      as H.
    pose proof (add_meta_group_data options OSMFormat.Way.packed_uint32_keys
                  OSMFormat.Way.packed_uint32_vals OSMFormat.Way.optional_Info_info w b)
      as H'.
    destruct (PBFOutputFormat.add_meta _ _ _ _ w b) as [meta b1]. split; assumption.
  - unfold PBFOutputFormat.relation_message.
    pose proof (add_meta_same_entities options OSMFormat.Relation.packed_uint32_keys
                  OSMFormat.Relation.packed_uint32_vals OSMFormat.Relation.optional_Info_info
                  r b) as H.
    pose proof (add_meta_group_data options OSMFormat.Relation.packed_uint32_keys
                  OSMFormat.Relation.packed_uint32_vals OSMFormat.Relation.optional_Info_info
                  r b) as H'.
    destruct (PBFOutputFormat.add_meta _ _ _ _ r b) as [meta b1].
    pose proof (store_roles_same_entities (members r) b1) as K.
    pose proof (store_roles_group_data (members r) b1) as K'.
    destruct (PBFOutputFormat.store_roles (members r) b1) as [roles b2].
    cbn [snd] in *. split; [exact (same_entities_trans _ _ _ H K) | congruence].
Qed.

(** The block a handler leaves once [switch_primitive_block_type] has
    made room. *)
Lemma append_group_with_message (b : PrimitiveBlock.t) (r : bytes * PrimitiveBlock.t)
    (tag : Z) :
  same_entities (PrimitiveBlock.group b) (snd r) ->
  PrimitiveBlock.m_pbf_primitive_group_data (snd r)
  = PrimitiveBlock.m_pbf_primitive_group_data (PrimitiveBlock.group b) ->
  (let (body, b1) := r in PrimitiveBlock.append_group (protozero.submessage tag body) b1)
  = {| PrimitiveBlock.m_pbf_primitive_group_data :=
         PrimitiveBlock.m_pbf_primitive_group_data b ++ protozero.submessage tag (fst r);
       PrimitiveBlock.m_stringtable := PrimitiveBlock.m_stringtable (snd r);
       PrimitiveBlock.m_dense_nodes := PrimitiveBlock.m_dense_nodes b;
       PrimitiveBlock.m_type := PrimitiveBlock.m_type b;
       PrimitiveBlock.m_count := PrimitiveBlock.m_count b + 1 |}.
Proof.
  destruct r as [body b1]. intros (Hcount & Htype & Hdense) Hdata. cbn [fst snd] in *.
  unfold PrimitiveBlock.append_group.
  cbn [PrimitiveBlock.group PrimitiveBlock.m_count PrimitiveBlock.m_type
       PrimitiveBlock.m_dense_nodes PrimitiveBlock.m_pbf_primitive_group_data] in *.
  rewrite Hcount, Htype, Hdense, Hdata. reflexivity.
Qed.

Lemma handle_item_with_item {B : Build} {N : NwrIndex} (f : PBFOutputFormat.t)
    (i : PBFOutputFormat.Item) :
  let f1 :=
    PBFOutputFormat.switch_primitive_block_type
      (group_of_item (PBFOutputFormat.m_options f) i) f in
  PBFOutputFormat.handle_item f i
  = PBFOutputFormat.with_block f1
      (with_item (PBFOutputFormat.m_options f) i (PBFOutputFormat.m_primitive_block f1)).
Proof.
  cbv zeta.
  pose proof (switch_primitive_block_type_facts
                (group_of_item (PBFOutputFormat.m_options f) i) f) as S.
  cbv zeta in S. destruct S as (Soptions & _).
  assert (Hmessage : forall type : OSMFormat.PrimitiveGroup.t,
             let f1 := PBFOutputFormat.switch_primitive_block_type type f in
             PBFOutputFormat.m_options f1 = PBFOutputFormat.m_options f ->
             (let (body, b1) :=
                item_message (PBFOutputFormat.m_options f1) i
                  (PrimitiveBlock.group (PBFOutputFormat.m_primitive_block f1)) in
              PBFOutputFormat.with_block f1
                (PrimitiveBlock.append_group
                   (protozero.submessage (OSMFormat.PrimitiveGroup.tag type) body) b1))
             = PBFOutputFormat.with_block f1
                 (let r := item_message (PBFOutputFormat.m_options f) i
                             (PrimitiveBlock.group (PBFOutputFormat.m_primitive_block f1)) in
                  {| PrimitiveBlock.m_pbf_primitive_group_data :=
                       PrimitiveBlock.m_pbf_primitive_group_data
                         (PBFOutputFormat.m_primitive_block f1)
                       ++ protozero.submessage (OSMFormat.PrimitiveGroup.tag type) (fst r);
                     PrimitiveBlock.m_stringtable := PrimitiveBlock.m_stringtable (snd r);
                     PrimitiveBlock.m_dense_nodes :=
                       PrimitiveBlock.m_dense_nodes (PBFOutputFormat.m_primitive_block f1);
                     PrimitiveBlock.m_type :=
                       PrimitiveBlock.m_type (PBFOutputFormat.m_primitive_block f1);
                     PrimitiveBlock.m_count :=
                       PrimitiveBlock.m_count (PBFOutputFormat.m_primitive_block f1) + 1 |})).
  { intros type f1 Hoptions. rewrite Hoptions. cbv zeta.
    pose proof (item_message_same_entities (PBFOutputFormat.m_options f) i
                  (PrimitiveBlock.group (PBFOutputFormat.m_primitive_block f1))) as [H H'].
    rewrite <- (append_group_with_message (PBFOutputFormat.m_primitive_block f1)
                  (item_message (PBFOutputFormat.m_options f) i
                     (PrimitiveBlock.group (PBFOutputFormat.m_primitive_block f1)))
                  (OSMFormat.PrimitiveGroup.tag type) H H').
    destruct (item_message (PBFOutputFormat.m_options f) i
                (PrimitiveBlock.group (PBFOutputFormat.m_primitive_block f1))) as [body b1].
    reflexivity. }
  destruct i as [[n | w] | r].
  - cbn [PBFOutputFormat.handle_item PBFOutputFormat.handle]. unfold PBFOutputFormat.node.
    unfold with_item. cbn [group_of_item] in *.
    destruct (use_dense_nodes (PBFOutputFormat.m_options f)) eqn:Hdense.
    + cbv zeta. rewrite Soptions. f_equal.
      unfold PrimitiveBlock.add_dense_node. cbn [add_nodes].
      destruct (DenseNodes.add_node (PBFOutputFormat.m_options f) n _ _) as [st dn'].
      reflexivity.
    + cbv zeta.
      exact (Hmessage OSMFormat.PrimitiveGroup.repeated_Node_nodes Soptions).
  - cbn [PBFOutputFormat.handle_item PBFOutputFormat.handle]. unfold PBFOutputFormat.way.
    unfold with_item. cbn [group_of_item] in *. cbv zeta.
    exact (Hmessage OSMFormat.PrimitiveGroup.repeated_Way_ways Soptions).
  - cbn [PBFOutputFormat.handle_item]. unfold PBFOutputFormat.relation.
    unfold with_item. cbn [group_of_item] in *. cbv zeta.
    exact (Hmessage OSMFormat.PrimitiveGroup.repeated_Relation_relations Soptions).
Qed.

(** The job [store_primitive_block] queues. *)
Lemma store_primitive_block_queue (f : PBFOutputFormat.t) :
  PrimitiveBlock.count (PBFOutputFormat.m_primitive_block f) <> 0 ->
  PBFOutputFormat.m_output_queue (PBFOutputFormat.store_primitive_block f)
  = PBFOutputFormat.m_output_queue f
    ++ [data_job (PBFOutputFormat.m_options f)
          (primitive_block_data (PBFOutputFormat.m_options f)
             (PBFOutputFormat.m_primitive_block f))].
Proof.
  intros Hcount. unfold PBFOutputFormat.store_primitive_block, primitive_block_data.
  destruct (Z.eqb_spec (PrimitiveBlock.count (PBFOutputFormat.m_primitive_block f)) 0)
    as [Hzero | _]; [contradiction |].
  cbv zeta.
  destruct (PrimitiveBlock.group_data (PBFOutputFormat.m_options f)
              (PBFOutputFormat.m_primitive_block f)) as [group_data block].
  reflexivity.
Qed.

(** What [switch_primitive_block_type] does when the block cannot take
    the entity. *)
Lemma switch_to_an_empty_block {B : Build} (type : OSMFormat.PrimitiveGroup.t)
    (f : PBFOutputFormat.t) :
  PrimitiveBlock.can_add type (PBFOutputFormat.m_primitive_block f) = false ->
  let f' := PBFOutputFormat.switch_primitive_block_type type f in
  PBFOutputFormat.m_primitive_block f' = empty_block type
  /\ (PrimitiveBlock.count (PBFOutputFormat.m_primitive_block f) = 0 ->
      PBFOutputFormat.m_output_queue f' = PBFOutputFormat.m_output_queue f)
  /\ (PrimitiveBlock.count (PBFOutputFormat.m_primitive_block f) <> 0 ->
      PBFOutputFormat.m_output_queue f'
      = PBFOutputFormat.m_output_queue f
        ++ [data_job (PBFOutputFormat.m_options f)
              (primitive_block_data (PBFOutputFormat.m_options f)
                 (PBFOutputFormat.m_primitive_block f))]).
Proof.
  intros Hcannot. cbv zeta. unfold PBFOutputFormat.switch_primitive_block_type.
  rewrite Hcannot. cbn [negb]. unfold PBFOutputFormat.with_block.
  cbn [PBFOutputFormat.m_primitive_block PBFOutputFormat.m_output_queue].
  split; [reflexivity |]. split.
  - intros Hzero. unfold PBFOutputFormat.store_primitive_block.
    rewrite Hzero. reflexivity.
  - apply store_primitive_block_queue.
Qed.

Lemma can_add_init {B : Build} (options : pbf_output_options) (i : PBFOutputFormat.Item) :
  PrimitiveBlock.can_add (group_of_item options i) PrimitiveBlock.init = false.
Proof.
  destruct i as [[n | w] | r]; cbn [group_of_item]; try reflexivity.
  destruct (use_dense_nodes options); reflexivity.
Qed.

(** X13.  What handing one node, way or relation to the encoder does.  The
    options stay, and the block is afterwards of the kind of the item.
    When the block could take the item ([can_add]), nothing is queued and
    the block holds one entity more: it is the block found with the item
    added.  When it could not (another kind, 8000 entities, or the size
    limit), the item is alone in a new block: the block is the empty
    block of the kind of the item with the item added, whatever the block
    found held, which is also the block an encoder just made has after
    this item.  The block found is queued as one data job, whose message
    is its string table and one group with its group data; unless it was
    empty, in which case nothing is queued. *)
Theorem handler_queues_a_full_block {B : Build} {N : NwrIndex} (f : PBFOutputFormat.t)
    (i : PBFOutputFormat.Item) :
  let options := PBFOutputFormat.m_options f in
  let type := group_of_item options i in
  let b := PBFOutputFormat.m_primitive_block f in
  let f' := PBFOutputFormat.handle_item f i in
  PBFOutputFormat.m_options f' = options
  /\ PrimitiveBlock.type (PBFOutputFormat.m_primitive_block f') = type
  /\ (PrimitiveBlock.can_add type b = true ->
      PBFOutputFormat.m_output_queue f' = PBFOutputFormat.m_output_queue f
      /\ PBFOutputFormat.m_primitive_block f' = with_item options i b
      /\ PrimitiveBlock.count (PBFOutputFormat.m_primitive_block f')
         = PrimitiveBlock.count b + 1)
  /\ (PrimitiveBlock.can_add type b = false ->
      PBFOutputFormat.m_primitive_block f' = with_item options i (empty_block type)
      /\ PBFOutputFormat.m_primitive_block f'
         = PBFOutputFormat.m_primitive_block
             (PBFOutputFormat.handle_item (fresh_state options []) i)
      /\ PrimitiveBlock.count (PBFOutputFormat.m_primitive_block f') = 1
      /\ (PrimitiveBlock.count b = 0 ->
          PBFOutputFormat.m_output_queue f' = PBFOutputFormat.m_output_queue f)
      /\ (PrimitiveBlock.count b <> 0 ->
          PBFOutputFormat.m_output_queue f'
          = PBFOutputFormat.m_output_queue f
            ++ [data_job options (primitive_block_data options b)])).
Proof.
  cbv zeta.
  pose proof (handle_item_step f i) as H. cbv zeta in H.
  destruct H as (Hoptions & Htype & Hcan & Hcannot).
  pose proof (handle_item_with_item f i) as Hitem. cbv zeta in Hitem.
  split; [exact Hoptions |]. split; [exact Htype |]. split.
  - intros Hyes. destruct (Hcan Hyes) as [Hqueue Hcount].
    split; [exact Hqueue |]. split; [| exact Hcount].
    rewrite Hitem.
    pose proof (switch_primitive_block_type_facts
                  (group_of_item (PBFOutputFormat.m_options f) i) f) as S.
    cbv zeta in S. destruct S as (_ & _ & Sf & _). rewrite (Sf Hyes). reflexivity.
  - intros Hno. destruct (Hcannot Hno) as (Hcount & _).
    destruct (switch_to_an_empty_block _ f Hno) as (Hblock & Hzero & Hnonzero).
    assert (Hqueue : PBFOutputFormat.m_output_queue (PBFOutputFormat.handle_item f i)
                     = PBFOutputFormat.m_output_queue
                         (PBFOutputFormat.switch_primitive_block_type
                            (group_of_item (PBFOutputFormat.m_options f) i) f)).
    { rewrite Hitem. reflexivity. }
    assert (Hnew : PBFOutputFormat.m_primitive_block (PBFOutputFormat.handle_item f i)
                   = with_item (PBFOutputFormat.m_options f) i
                       (empty_block (group_of_item (PBFOutputFormat.m_options f) i))).
    { rewrite Hitem. cbn [PBFOutputFormat.with_block PBFOutputFormat.m_primitive_block].
      rewrite Hblock. reflexivity. }
    split; [exact Hnew |]. split; [| split; [exact Hcount |]].
    + rewrite Hnew.
      pose proof (handle_item_with_item (fresh_state (PBFOutputFormat.m_options f) []) i)
        as Hfresh.
      cbv zeta in Hfresh. rewrite Hfresh.
      cbn [PBFOutputFormat.with_block PBFOutputFormat.m_primitive_block].
      destruct (switch_to_an_empty_block
                  (group_of_item
                     (PBFOutputFormat.m_options (fresh_state (PBFOutputFormat.m_options f) []))
                     i)
                  (fresh_state (PBFOutputFormat.m_options f) [])
                  (can_add_init _ i)) as (Hempty & _).
      rewrite Hempty. reflexivity.
    + split.
      * intros Hz. rewrite Hqueue. apply Hzero. exact Hz.
      * intros Hnz. rewrite Hqueue. apply Hnonzero. exact Hnz.
Qed.

(** X14.  However many items a buffer hands over, the block of the encoder
    never holds more than [max_entities_per_block] entities, and after
    the first item it holds at least one, so that [write_end] queues a
    data job for it.  Without any item, the encoder the constructor made
    queues nothing at [write_end]. *)
Theorem block_holds_at_most_8000_entities {B : Build} {N : NwrIndex}
    (buffer : list PBFOutputFormat.Item) (f : PBFOutputFormat.t) :
  0 <= PrimitiveBlock.count (PBFOutputFormat.m_primitive_block f) <= max_entities_per_block ->
  let f' := PBFOutputFormat.write_items buffer f in
  0 <= PrimitiveBlock.count (PBFOutputFormat.m_primitive_block f') <= max_entities_per_block
  /\ (buffer <> [] ->
      1 <= PrimitiveBlock.count (PBFOutputFormat.m_primitive_block f')
      /\ exists msg : bytes,
           PBFOutputFormat.m_output_queue (PBFOutputFormat.write_end f')
           = PBFOutputFormat.m_output_queue f'
             ++ [data_job (PBFOutputFormat.m_options f) msg])
  /\ (buffer = [] ->
      PrimitiveBlock.count (PBFOutputFormat.m_primitive_block f) = 0 ->
      PBFOutputFormat.write_end f' = f).
Proof.
  cbv zeta. unfold PBFOutputFormat.write_items. revert f.
  assert (forall (f : PBFOutputFormat.t) (i : PBFOutputFormat.Item),
             0 <= PrimitiveBlock.count (PBFOutputFormat.m_primitive_block f)
             <= max_entities_per_block ->
             1 <= PrimitiveBlock.count
                    (PBFOutputFormat.m_primitive_block (PBFOutputFormat.handle_item f i))
             <= max_entities_per_block) as Hstep.
  { intros f i Hcount.
    pose proof (handle_item_step f i) as H. cbv zeta in H.
    destruct H as (_ & _ & Hcan & Hcannot).
    destruct (PrimitiveBlock.can_add (group_of_item (PBFOutputFormat.m_options f) i)
                (PBFOutputFormat.m_primitive_block f)) eqn:E.
    - destruct (Hcan eq_refl) as [_ ->].
      apply can_add_true_iff in E. destruct E as (_ & E & _). lia.
    - destruct (Hcannot eq_refl) as [-> _]. unfold max_entities_per_block. lia. }
  assert (forall (items : list PBFOutputFormat.Item) (f : PBFOutputFormat.t),
             0 <= PrimitiveBlock.count (PBFOutputFormat.m_primitive_block f)
             <= max_entities_per_block ->
             (items = [] \/ 1 <= PrimitiveBlock.count (PBFOutputFormat.m_primitive_block f)) ->
             (items = [] \/
              1 <= PrimitiveBlock.count
                     (PBFOutputFormat.m_primitive_block
                        (List.fold_left PBFOutputFormat.handle_item items f)))
             /\ 0 <= PrimitiveBlock.count
                       (PBFOutputFormat.m_primitive_block
                          (List.fold_left PBFOutputFormat.handle_item items f))
                <= max_entities_per_block
             /\ PBFOutputFormat.m_options
                  (List.fold_left PBFOutputFormat.handle_item items f)
                = PBFOutputFormat.m_options f) as Hall.
  { induction items as [| i items IH]; intros f Hcount Hone.
    - cbn. split; [left; reflexivity |]. split; [exact Hcount | reflexivity].
    - cbn [List.fold_left].
      pose proof (Hstep f i Hcount) as Hnext.
      pose proof (handle_item_step f i) as H. cbv zeta in H.
      destruct H as (Hoptions & _).
      assert (0 <= PrimitiveBlock.count
                     (PBFOutputFormat.m_primitive_block (PBFOutputFormat.handle_item f i))
              <= max_entities_per_block) as Hc by lia.
      destruct (IH (PBFOutputFormat.handle_item f i) Hc (or_intror (proj1 Hnext)))
        as (Hone' & Hcount' & Hoptions').
      split; [right |].
      + destruct Hone' as [-> | Hone']; [cbn; lia | exact Hone'].
      + split; [exact Hcount' | congruence]. }
  intros f Hcount.
  destruct buffer as [| i buffer].
  - cbn [List.fold_left]. split; [exact Hcount |]. split; [intros H; contradiction |].
    intros _ Hzero. unfold PBFOutputFormat.write_end.
    apply (store_primitive_block_facts f). exact Hzero.
  - cbn [List.fold_left].
    pose proof (Hstep f i Hcount) as Hnext.
    pose proof (handle_item_step f i) as H. cbv zeta in H.
    destruct H as (Hoptions & _).
    assert (0 <= PrimitiveBlock.count
                   (PBFOutputFormat.m_primitive_block (PBFOutputFormat.handle_item f i))
            <= max_entities_per_block) as Hc by lia.
    destruct (Hall buffer (PBFOutputFormat.handle_item f i) Hc (or_intror (proj1 Hnext)))
      as (Hone' & Hcount' & Hoptions').
    assert (1 <= PrimitiveBlock.count
                   (PBFOutputFormat.m_primitive_block
                      (List.fold_left PBFOutputFormat.handle_item buffer
                         (PBFOutputFormat.handle_item f i)))) as Hone.
    { destruct Hone' as [-> | H1]; [cbn; lia | exact H1]. }
    split; [exact Hcount' |]. split; [| discriminate].
    intros _. split; [exact Hone |].
    unfold PBFOutputFormat.write_end.
    pose proof (store_primitive_block_facts
                  (List.fold_left PBFOutputFormat.handle_item buffer
                     (PBFOutputFormat.handle_item f i))) as S.
    cbv zeta in S. destruct S as (_ & _ & _ & _ & Squeue).
    destruct Squeue as [msg Hmsg]; [lia |].
    exists msg. rewrite Hmsg, Hoptions', Hoptions. reflexivity.
Qed.

Lemma block_holds_at_most_8000_entities_witness :
  let f' :=
    PBFOutputFormat.write_items (B := example_build)
      (N := nwr_index)
      [PBFOutputFormat.an_entity (a_node node_1);
       PBFOutputFormat.an_entity (a_way way_10)]
      (fresh_state options_without_metadata []) in
  0 <= PrimitiveBlock.count (PBFOutputFormat.m_primitive_block f') <= max_entities_per_block.
Proof.
  apply (block_holds_at_most_8000_entities (B := example_build)
           (N := nwr_index)
           [PBFOutputFormat.an_entity (a_node node_1);
            PBFOutputFormat.an_entity (a_way way_10)]
           (fresh_state options_without_metadata [])).
  vm_compute. split; discriminate.
Defined.

(** X15.  Handing a buffer to the encoder never changes the options and never
    touches a job that is queued already: the queue grows at its end, by
    data jobs that carry the compression and the level of the options,
    and by no more jobs than the buffer has items. *)
Theorem handlers_only_append_data_jobs {B : Build} {N : NwrIndex}
    (buffer : list PBFOutputFormat.Item) (f : PBFOutputFormat.t) :
  PBFOutputFormat.m_options (PBFOutputFormat.write_items buffer f)
  = PBFOutputFormat.m_options f
  /\ exists msgs : list bytes,
       PBFOutputFormat.m_output_queue (PBFOutputFormat.write_items buffer f)
       = PBFOutputFormat.m_output_queue f
         ++ List.map (data_job (PBFOutputFormat.m_options f)) msgs
       /\ size msgs <= size buffer.
Proof.
  unfold PBFOutputFormat.write_items. revert f.
  induction buffer as [| i buffer IH]; intros f.
  - cbn [List.fold_left]. split; [reflexivity |].
    exists []. cbn [List.map]. rewrite List.app_nil_r. split; [reflexivity |].
    unfold size. cbn. lia.
  - cbn [List.fold_left].
    pose proof (handle_item_step f i) as H. cbv zeta in H.
    destruct H as (Hoptions & _ & Hcan & Hcannot).
    destruct (IH (PBFOutputFormat.handle_item f i)) as (Hoptions' & msgs & Hqueue & Hsize).
    split; [congruence |].
    rewrite Hqueue, Hoptions. rewrite size_cons.
    destruct (PrimitiveBlock.can_add (group_of_item (PBFOutputFormat.m_options f) i)
                (PBFOutputFormat.m_primitive_block f)).
    + destruct (Hcan eq_refl) as [-> _]. exists msgs. split; [reflexivity | lia].
    + destruct (Hcannot eq_refl) as (_ & Hzero & Hnonzero).
      destruct (Z.eq_dec (PrimitiveBlock.count (PBFOutputFormat.m_primitive_block f)) 0)
        as [Hc | Hc].
      * rewrite (Hzero Hc). exists msgs. split; [reflexivity | lia].
      * destruct (Hnonzero Hc) as [msg ->]. exists (msg :: msgs).
        cbn [List.map]. rewrite <- List.app_assoc. split; [reflexivity |].
        rewrite size_cons. lia.
Qed.

(** ** pbf_output_format.hpp: what a blob holds *)

Lemma decode_message_add_varint (tag v : Z) (rest : bytes)
    (fs : list (Z * protozero.field_value)) :
  0 <= tag < 2 ^ 29 -> 0 <= v < 2 ^ 64 ->
  protozero.decode_message rest = Some fs ->
  protozero.decode_message (protozero.add_tagged_varint tag v ++ rest)
  = Some ((tag, protozero.Varint v) :: fs).
Proof.
  intros Htag Hv Hrest. apply protozero_facts.decode_message_cons.
  - apply protozero_facts.add_tagged_varint_nonempty.
  - apply protozero_facts.decode_field_varint; assumption.
  - exact Hrest.
Qed.

Lemma decode_message_add_bytes (tag : Z) (data rest : bytes)
    (fs : list (Z * protozero.field_value)) :
  0 <= tag < 2 ^ 29 -> size data < 2 ^ 32 ->
  protozero.decode_message rest = Some fs ->
  protozero.decode_message (protozero.add_bytes tag data ++ rest)
  = Some ((tag, protozero.Bytes data) :: fs).
Proof.
  intros Htag Hsize Hrest. apply protozero_facts.decode_message_cons.
  - apply protozero_facts.add_bytes_nonempty.
  - apply protozero_facts.decode_field_bytes; assumption.
  - exact Hrest.
Qed.

Lemma add_int32_of_size {A : Type} (tag : Z) (l : list A) :
  size l < 2 ^ 31 ->
  protozero.add_int32 tag (to_int32 (size l)) = protozero.add_tagged_varint tag (size l).
Proof.
  intros Hsize. pose proof (size_nonneg l). unfold protozero.add_int32.
  rewrite to_int32_small, to_uint64_small by lia. reflexivity.
Qed.

(** X16.  The Blob message of a job whose payload is shorter than 2^31 bytes
    reads back as follows.  Without compression it has one field,
    [raw] (1), which holds the payload as it is.  With zlib it has the
    fields [raw_size] (2), the number of bytes of the payload, and
    [zlib_data] (3), what the compressor returned; with lz4, in a build
    with LZ4, [raw_size] and [lz4_data] (6). *)
Theorem Blob_holds_the_payload {B : Build} (job : SerializeBlob.t) :
  size (SerializeBlob.m_msg job) < 2 ^ 31 ->
  match SerializeBlob.m_use_compression job with
  | pbf_compression.none =>
      exists blob : bytes,
        SerializeBlob.blob_data job = Ok blob
        /\ protozero.decode_message blob
           = Some [(1, protozero.Bytes (SerializeBlob.m_msg job))]
  | pbf_compression.zlib =>
      forall z : bytes,
        zlib_compress (SerializeBlob.m_msg job) (SerializeBlob.m_compression_level job) = Ok z ->
        size z < 2 ^ 32 ->
        exists blob : bytes,
          SerializeBlob.blob_data job = Ok blob
          /\ protozero.decode_message blob
             = Some [(2, protozero.Varint (size (SerializeBlob.m_msg job)));
                     (3, protozero.Bytes z)]
  | pbf_compression.lz4 =>
      OSMIUM_WITH_LZ4 = true ->
      forall z : bytes,
        lz4_compress (SerializeBlob.m_msg job) (SerializeBlob.m_compression_level job) = Ok z ->
        size z < 2 ^ 32 ->
        exists blob : bytes,
          SerializeBlob.blob_data job = Ok blob
          /\ protozero.decode_message blob
             = Some [(2, protozero.Varint (size (SerializeBlob.m_msg job)));
                     (6, protozero.Bytes z)]
  end.
Proof.
  intros Hsize. pose proof (size_nonneg (SerializeBlob.m_msg job)) as Hnonneg.
  unfold SerializeBlob.blob_data.
  destruct (SerializeBlob.m_use_compression job).
  - eexists. split; [reflexivity |].
    rewrite <- (List.app_nil_r (protozero.add_bytes _ _)).
    apply decode_message_add_bytes;
      [unfold FileFormat.Blob.optional_bytes_raw; lia | lia
      | apply protozero_facts.decode_message_nil].
  - intros z Hz Hzsize. rewrite Hz. cbn [bind]. eexists. split; [reflexivity |].
    rewrite add_int32_of_size by exact Hsize.
    apply decode_message_add_varint;
      [unfold FileFormat.Blob.optional_int32_raw_size; lia | lia |].
    rewrite <- (List.app_nil_r (protozero.add_bytes _ _)).
    apply decode_message_add_bytes;
      [unfold FileFormat.Blob.optional_bytes_zlib_data; lia | exact Hzsize
      | apply protozero_facts.decode_message_nil].
  - intros Hlz4 z Hz Hzsize. rewrite Hlz4, Hz. cbn [bind].
    eexists. split; [reflexivity |].
    rewrite add_int32_of_size by exact Hsize.
    apply decode_message_add_varint;
      [unfold FileFormat.Blob.optional_int32_raw_size; lia | lia |].
    rewrite <- (List.app_nil_r (protozero.add_bytes _ _)).
    apply decode_message_add_bytes;
      [unfold FileFormat.Blob.optional_bytes_lz4_data; lia | exact Hzsize
      | apply protozero_facts.decode_message_nil].
Qed.

Lemma Blob_holds_the_payload_witness :
  exists blob : bytes,
    SerializeBlob.blob_data (B := example_build) job_of_five_bytes = Ok blob
    /\ protozero.decode_message blob = Some [(1, protozero.Bytes [1; 2; 3; 4; 5])].
Proof.
  apply (Blob_holds_the_payload (B := example_build) job_of_five_bytes).
  vm_compute. reflexivity.
Defined.

(** X17.  What [SerializeBlob] throws.  Without compression it does not throw.
    With zlib, and with lz4 in a build with LZ4, it throws what the
    compressor throws, and only then.  With lz4 in a build without LZ4 it
    always throws the [pbf_error] lz4 blobs not supported. *)
Theorem SerializeBlob_throws {B : Build} (job : SerializeBlob.t) (e : exception) :
  SerializeBlob.call job = Throw e
  <-> match SerializeBlob.m_use_compression job with
      | pbf_compression.none => False
      | pbf_compression.zlib =>
          zlib_compress (SerializeBlob.m_msg job) (SerializeBlob.m_compression_level job)
          = Throw e
      | pbf_compression.lz4 =>
          if OSMIUM_WITH_LZ4
          then lz4_compress (SerializeBlob.m_msg job) (SerializeBlob.m_compression_level job)
               = Throw e
          else e = pbf_error "lz4 blobs not supported"
      end.
Proof.
  unfold SerializeBlob.call, SerializeBlob.blob_data.
  destruct (SerializeBlob.m_use_compression job).
  - cbn [bind]. split; [discriminate | contradiction].
  - destruct (zlib_compress _ _) as [z | e']; cbn [bind];
      split; intros H; first [discriminate H | exact H].
  - destruct OSMIUM_WITH_LZ4.
    + destruct (lz4_compress _ _) as [z | e']; cbn [bind];
        split; intros H; first [discriminate H | exact H].
    + cbn [bind]. split; intros H.
      * injection H as H. symmetry. exact H.
      * rewrite H. reflexivity.
Qed.

Lemma decode_string_table (strings : list string) :
  size (List.concat
          (List.map (fun s => protozero.add_bytes OSMFormat.StringTable.repeated_bytes_s
                                (bytes_of_string s)) strings)) < 2 ^ 32 ->
  protozero.decode_message
    (List.concat
       (List.map (fun s => protozero.add_bytes OSMFormat.StringTable.repeated_bytes_s
                             (bytes_of_string s)) strings))
  = Some (List.map (fun s => (1, protozero.Bytes (bytes_of_string s))) strings).
Proof.
  induction strings as [| s strings IH]; intros Hsize.
  - apply protozero_facts.decode_message_nil.
  - cbn [List.map List.concat] in *. rewrite size_app in Hsize.
    pose proof (size_nonneg (protozero.add_bytes OSMFormat.StringTable.repeated_bytes_s
                               (bytes_of_string s))) as H1.
    pose proof (size_nonneg
                  (List.concat
                     (List.map (fun s => protozero.add_bytes
                                           OSMFormat.StringTable.repeated_bytes_s
                                           (bytes_of_string s)) strings))) as H2.
    assert (size (bytes_of_string s)
            <= size (protozero.add_bytes OSMFormat.StringTable.repeated_bytes_s
                       (bytes_of_string s))) as H3.
    { unfold protozero.add_bytes. rewrite !size_app.
      pose proof (size_nonneg (protozero.add_field OSMFormat.StringTable.repeated_bytes_s
                                 protozero.length_delimited)).
      pose proof (size_nonneg (protozero.add_varint (to_uint32 (size (bytes_of_string s))))).
      lia. }
    apply decode_message_add_bytes;
      [unfold OSMFormat.StringTable.repeated_bytes_s; lia | lia | apply IH; lia].
Qed.

(** X18.  A block that holds an entity is queued by [write_end] as one data
    job.  When its message is shorter than 2^32 bytes it reads back as
    exactly two fields: the string table (field 1), with one entry per
    string of the table, in the order of their indices, and one primitive
    group (field 2), which holds the group data of the block. *)
Theorem data_block_has_one_group (f : PBFOutputFormat.t) :
  PrimitiveBlock.count (PBFOutputFormat.m_primitive_block f) <> 0 ->
  exists msg : bytes,
    PBFOutputFormat.m_output_queue (PBFOutputFormat.write_end f)
    = PBFOutputFormat.m_output_queue f ++ [data_job (PBFOutputFormat.m_options f) msg]
    /\ (size msg < 2 ^ 32 ->
        protozero.decode_message msg
        = Some [(1, protozero.Bytes
                      (PrimitiveBlock.write_stringtable (PBFOutputFormat.m_primitive_block f)));
                (2, protozero.Bytes
                      (fst (PrimitiveBlock.group_data (PBFOutputFormat.m_options f)
                              (PBFOutputFormat.m_primitive_block f))))]
        /\ protozero.decode_message
             (PrimitiveBlock.write_stringtable (PBFOutputFormat.m_primitive_block f))
           = Some (List.map (fun s => (1, protozero.Bytes (bytes_of_string s)))
                     (StringTable.entries
                        (PrimitiveBlock.m_stringtable (PBFOutputFormat.m_primitive_block f))))).
Proof.
  intros Hcount. unfold PBFOutputFormat.write_end, PBFOutputFormat.store_primitive_block.
  destruct (Z.eqb_spec (PrimitiveBlock.count (PBFOutputFormat.m_primitive_block f)) 0)
    as [Hzero | _]; [contradiction |].
  destruct (PrimitiveBlock.group_data (PBFOutputFormat.m_options f)
              (PBFOutputFormat.m_primitive_block f)) as [group_data block].
  cbn [PBFOutputFormat.m_output_queue fst]. unfold push_back, data_job.
  eexists. split; [reflexivity |].
  intros Hsize. rewrite size_app in Hsize.
  set (table := PrimitiveBlock.write_stringtable (PBFOutputFormat.m_primitive_block f)) in *.
  pose proof (submessage_size OSMFormat.PrimitiveBlock.required_StringTable_stringtable table)
    as Htable.
  pose proof (size_nonneg table) as Htable0.
  pose proof (size_nonneg
                (protozero.add_message
                   OSMFormat.PrimitiveBlock.repeated_PrimitiveGroup_primitivegroup group_data))
    as Hgroup0.
  assert (size group_data
          <= size (protozero.add_message
                     OSMFormat.PrimitiveBlock.repeated_PrimitiveGroup_primitivegroup
                     group_data)) as Hgroup.
  { unfold protozero.add_message, protozero.add_bytes. rewrite !size_app.
    pose proof (size_nonneg
                  (protozero.add_field
                     OSMFormat.PrimitiveBlock.repeated_PrimitiveGroup_primitivegroup
                     protozero.length_delimited)).
    pose proof (size_nonneg (protozero.add_varint (to_uint32 (size group_data)))).
    lia. }
  assert (table <> []) as Hnonempty.
  { subst table. unfold PrimitiveBlock.write_stringtable, StringTable.entries.
    cbn [List.map List.concat].
    pose proof (protozero_facts.add_bytes_nonempty OSMFormat.StringTable.repeated_bytes_s
                  (bytes_of_string "")) as H.
    destruct (protozero.add_bytes OSMFormat.StringTable.repeated_bytes_s (bytes_of_string ""));
      [contradiction | discriminate]. }
  split.
  - rewrite (decode_message_submessage
               OSMFormat.PrimitiveBlock.required_StringTable_stringtable table _
               [(2, protozero.Bytes group_data)]).
    + unfold column. destruct table; [contradiction | reflexivity].
    + unfold OSMFormat.PrimitiveBlock.required_StringTable_stringtable. lia.
    + lia.
    + unfold protozero.add_message.
      rewrite <- (List.app_nil_r (protozero.add_bytes _ _)).
      apply decode_message_add_bytes;
        [unfold OSMFormat.PrimitiveBlock.repeated_PrimitiveGroup_primitivegroup; lia | lia
        | apply protozero_facts.decode_message_nil].
  - subst table. unfold PrimitiveBlock.write_stringtable in *.
    apply decode_string_table. lia.
Qed.

Lemma data_block_has_one_group_witness :
  exists msg : bytes,
    PBFOutputFormat.m_output_queue
      (PBFOutputFormat.write_end
         (PBFOutputFormat.way (B := example_build) way_10
            (fresh_state options_without_metadata [])))
    = PBFOutputFormat.m_output_queue
        (PBFOutputFormat.way (B := example_build) way_10
           (fresh_state options_without_metadata []))
      ++ [data_job options_without_metadata msg].
Proof.
  destruct (data_block_has_one_group
              (PBFOutputFormat.way (B := example_build) way_10
                 (fresh_state options_without_metadata []))) as (msg & Hqueue & _).
  - vm_compute. discriminate.
  - exists msg. exact Hqueue.
Defined.

(** ** pbf_output_format.hpp: nodes outside DenseNodes, and relations *)

Lemma size_store_all (strings : list string) :
  forall b : PrimitiveBlock.t,
    size (fst (PBFOutputFormat.store_all strings b)) = size strings.
Proof.
  induction strings as [| s strings IH]; intros b; [reflexivity |].
  cbn [PBFOutputFormat.store_all].
  destruct (PrimitiveBlock.store_in_stringtable_unsigned s b) as [i b1].
  specialize (IH b1). destruct (PBFOutputFormat.store_all strings b1) as [indices b2].
  cbn [fst] in *. rewrite !size_cons, IH. reflexivity.
Qed.

Lemma size_map {A C : Type} (f : A -> C) (l : list A) : size (List.map f l) = size l.
Proof. unfold size. rewrite List.length_map. reflexivity. Qed.

Lemma encode_zigzag64_bound (v : Z) : 0 <= protozero.encode_zigzag64 v < 2 ^ 64.
Proof. unfold protozero.encode_zigzag64. apply to_uint64_bound. Qed.

Lemma lonlat2int_in_int64 {B : Build} (c : float) : in_int64 (lonlat2int c).
Proof.
  unfold lonlat2int, int64_of_integral, in_int64.
  destruct (std_round _) as [z |]; [| lia].
  destruct (Z.leb_spec (- 2 ^ 63) z); destruct (Z.ltb_spec z (2 ^ 63)); cbn [andb]; lia.
Qed.

Lemma node_message_fields {B : Build} (options : pbf_output_options) (n : Node)
    (b : PrimitiveBlock.t) :
  size (fst (PBFOutputFormat.node_message options n b)) < 2 ^ 32 ->
  protozero.decode_message (fst (PBFOutputFormat.node_message options n b))
  = Some (Node_fields options n b).
Proof.
  unfold PBFOutputFormat.node_message, PBFOutputFormat.add_meta, Node_fields,
    protozero.packed_field_uint32, protozero.add_sint64.
  destruct (PBFOutputFormat.store_all (List.map key (tags n)) b) as [keys b1].
  destruct (PBFOutputFormat.store_all (List.map value (tags n)) b1) as [vals b2].
  unfold OSMFormat.Node.required_sint64_id, OSMFormat.Node.packed_uint32_keys,
    OSMFormat.Node.packed_uint32_vals, OSMFormat.Node.optional_Info_info,
    OSMFormat.Node.required_sint64_lat, OSMFormat.Node.required_sint64_lon.
  destruct (md_any (add_metadata options) || add_visible_flag options);
    [destruct (PBFOutputFormat.add_info options n b2) as [info b3] |];
    cbn [fst List.app]; rewrite <- ?List.app_assoc; cbn [List.app];
    intros H; rewrite ?size_app in H; submessage_sizes; sizes_nonneg;
    (apply decode_message_add_varint; [lia | apply encode_zigzag64_bound |]);
    repeat (apply decode_message_submessage; [lia | lia |]);
    (apply decode_message_add_varint; [lia | apply encode_zigzag64_bound |]);
    rewrite <- (List.app_nil_r (protozero.add_tagged_varint _ _));
    (apply decode_message_add_varint; [lia | apply encode_zigzag64_bound |]);
    exact protozero_facts.decode_message_nil.
Qed.

(** X19.  A node written outside DenseNodes.  Its Node message (lengths being
    32-bit, less than 4 GiB of it) reads back as: the id (field 1); the
    keys and the vals (fields 2 and 3), each with one string table index
    per tag, and absent for a node without tags; the Info message (field
    4) when metadata or the visible flag is written; the latitude (field
    8) and the longitude (field 9), each converted by [lonlat2int].  The
    id and the coordinates are stored in zigzag encoding, from which a
    decoder gets them back (the id when it fits 64 bits). *)
Theorem plain_node_message {B : Build} (options : pbf_output_options) (n : Node)
    (b : PrimitiveBlock.t) :
  (size (fst (PBFOutputFormat.node_message options n b)) < 2 ^ 32 ->
   protozero.decode_message (fst (PBFOutputFormat.node_message options n b))
   = Some (Node_fields options n b))
  /\ size (fst (PBFOutputFormat.store_all (List.map key (tags n)) b)) = size (tags n)
  /\ (forall b1 : PrimitiveBlock.t,
         size (fst (PBFOutputFormat.store_all (List.map value (tags n)) b1)) = size (tags n))
  /\ (in_int64 (id n) ->
      protozero.decode_zigzag64 (protozero.encode_zigzag64 (id n)) = id n)
  /\ protozero.decode_zigzag64
       (protozero.encode_zigzag64 (lonlat2int (lat_without_check (location n))))
     = lonlat2int (lat_without_check (location n))
  /\ protozero.decode_zigzag64
       (protozero.encode_zigzag64 (lonlat2int (lon_without_check (location n))))
     = lonlat2int (lon_without_check (location n)).
Proof.
  split; [apply node_message_fields |].
  split; [rewrite size_store_all; apply size_map |].
  split; [intros b1; rewrite size_store_all; apply size_map |].
  split; [apply decode_encode_zigzag64 |].
  split; apply decode_encode_zigzag64, lonlat2int_in_int64.
Qed.

Lemma plain_node_message_witness :
  protozero.decode_message
    (fst (PBFOutputFormat.node_message (B := example_build) options_without_metadata node_5
            PrimitiveBlock.init))
  = Some [(1, protozero.Varint 10); (2, protozero.Bytes [1]); (3, protozero.Bytes [2]);
          (8, protozero.Varint 20000006); (9, protozero.Varint 40000000)].
Proof.
  destruct (plain_node_message (B := example_build) options_without_metadata node_5
              PrimitiveBlock.init) as [H _].
  rewrite H; [| vm_compute; reflexivity].
  vm_compute. reflexivity.
Defined.

Lemma size_store_roles (members : list RelationMember) :
  forall b : PrimitiveBlock.t,
    size (fst (PBFOutputFormat.store_roles members b)) = size members.
Proof.
  induction members as [| member members IH]; intros b; [reflexivity |].
  cbn [PBFOutputFormat.store_roles].
  destruct (PrimitiveBlock.store_in_stringtable (role member) b) as [i b1].
  specialize (IH b1). destruct (PBFOutputFormat.store_roles members b1) as [indices b2].
  cbn [fst] in *. rewrite !size_cons, IH. reflexivity.
Qed.

Lemma size_delta_elements (values : list Z) :
  forall d : DeltaEncode.t, size (PBFOutputFormat.delta_elements values d) = size values.
Proof.
  induction values as [| v values IH]; intros d; [reflexivity |].
  cbn [PBFOutputFormat.delta_elements DeltaEncode.update].
  rewrite !size_cons, IH. reflexivity.
Qed.

Lemma relation_message_fields {N : NwrIndex} (options : pbf_output_options) (r : Relation)
    (b : PrimitiveBlock.t) :
  size (fst (PBFOutputFormat.relation_message options r b)) < 2 ^ 32 ->
  protozero.decode_message (fst (PBFOutputFormat.relation_message options r b))
  = Some (Relation_fields options r b).
Proof.
  unfold PBFOutputFormat.relation_message, Relation_fields, relation_roles,
    PBFOutputFormat.add_meta,
    protozero.packed_field_uint32, protozero.packed_field_int32,
    protozero.packed_field_sint64, protozero.add_int64.
  destruct (PBFOutputFormat.store_all (List.map key (tags r)) b) as [keys b1].
  destruct (PBFOutputFormat.store_all (List.map value (tags r)) b1) as [vals b2].
  unfold OSMFormat.Relation.required_int64_id, OSMFormat.Relation.packed_uint32_keys,
    OSMFormat.Relation.packed_uint32_vals, OSMFormat.Relation.optional_Info_info,
    OSMFormat.Relation.packed_int32_roles_sid, OSMFormat.Relation.packed_sint64_memids,
    OSMFormat.Relation.packed_MemberType_types.
  destruct (md_any (add_metadata options) || add_visible_flag options);
    [destruct (PBFOutputFormat.add_info options r b2) as [info b3] |];
    cbn [fst snd];
    match goal with
    | |- context [PBFOutputFormat.store_roles ?m ?blk] =>
        destruct (PBFOutputFormat.store_roles m blk) as [roles b4]
    end;
    cbn [fst List.app]; rewrite <- ?List.app_assoc; cbn [List.app];
    intros H; rewrite ?size_app in H; submessage_sizes; sizes_nonneg;
    (apply decode_message_add_varint; [lia | apply to_uint64_bound |]);
    repeat first
      [ exact protozero_facts.decode_message_nil
      | apply decode_message_submessage; [lia | lia |]
      | match goal with
        | |- protozero.decode_message (protozero.submessage ?t ?b) = _ =>
            rewrite <- (List.app_nil_r (protozero.submessage t b));
            rewrite <- (List.app_nil_r (column t b))
        end ].
Qed.

(** X20.  A relation.  Its Relation message (lengths being 32-bit, less than
    4 GiB of it) reads back as: the id (field 1), the keys, vals and Info
    as for the other objects, then three packed fields with one element
    per member, in the order of the members: the string table indices of
    the roles (field 8), the ids of the members (field 9) and the types of
    the members (field 10).  The ids are delta-encoded from a delta
    encoder of the relation's own: each is the id minus the one before it,
    and running sums from zero give the ids back. *)
Theorem relation_members_in_three_columns {N : NwrIndex} (options : pbf_output_options)
    (r : Relation) (b : PrimitiveBlock.t) :
  (size (fst (PBFOutputFormat.relation_message options r b)) < 2 ^ 32 ->
   protozero.decode_message (fst (PBFOutputFormat.relation_message options r b))
   = Some (Relation_fields options r b))
  /\ size (relation_roles options r b) = size (members r)
  /\ size (PBFOutputFormat.relation_memids r) = size (members r)
  /\ size (PBFOutputFormat.relation_types r) = size (members r)
  /\ PBFOutputFormat.relation_memids r = differences 0 (List.map member_ref (members r))
  /\ prefix_sums 0 (PBFOutputFormat.relation_memids r) = List.map member_ref (members r).
Proof.
  split; [apply relation_message_fields |].
  split; [unfold relation_roles; apply size_store_roles |].
  split; [unfold PBFOutputFormat.relation_memids;
          rewrite size_delta_elements; apply size_map |].
  split; [unfold PBFOutputFormat.relation_types; apply size_map |].
  unfold PBFOutputFormat.relation_memids. rewrite delta_elements_differences.
  split; [reflexivity | apply prefix_sums_differences].
Qed.

Lemma relation_members_in_three_columns_witness :
  protozero.decode_message
    (fst (PBFOutputFormat.relation_message (N := nwr_index) options_without_metadata
            relation_7 PrimitiveBlock.init))
  = Some [(1, protozero.Varint 7); (8, protozero.Bytes [1; 2]);
          (9, protozero.Bytes [40; 4]); (10, protozero.Bytes [1; 1])].
Proof.
  destruct (relation_members_in_three_columns (N := nwr_index) options_without_metadata
              relation_7 PrimitiveBlock.init) as [H _].
  rewrite H; [| vm_compute; reflexivity].
  vm_compute. reflexivity.
Defined.

(** ** pbf_output_format.hpp: the delta-encoded columns of DenseNodes *)

(** The ids, latitudes, longitudes and changesets of a buffer are the
    delta encoding of the values added. *)
Lemma add_nodes_delta_columns {B : Build} (options : pbf_output_options) (ns : list Node) :
  forall (st : StringTable.t) (dn : DenseNodes.t),
    let r := snd (add_nodes options ns st dn) in
    DenseNodes.m_ids r
    = DenseNodes.m_ids dn
      ++ differences (DeltaEncode.m_value (DenseNodes.m_delta_id dn))
           (List.map (fun n : Node => id n) ns)
    /\ DenseNodes.m_lats r
       = DenseNodes.m_lats dn
         ++ differences (DeltaEncode.m_value (DenseNodes.m_delta_lat dn))
              (List.map (fun n : Node => lonlat2int (lat_without_check (location n))) ns)
    /\ DenseNodes.m_lons r
       = DenseNodes.m_lons dn
         ++ differences (DeltaEncode.m_value (DenseNodes.m_delta_lon dn))
              (List.map (fun n : Node => lonlat2int (lon_without_check (location n))) ns)
    /\ (md_changeset (add_metadata options) = true ->
        DenseNodes.m_changesets r
        = DenseNodes.m_changesets dn
          ++ differences (DeltaEncode.m_value (DenseNodes.m_delta_changeset dn))
               (List.map (fun n : Node => changeset n) ns)).
Proof.
  induction ns as [| n ns IH]; intros st dn.
  - cbn. rewrite !List.app_nil_r. repeat split.
  - cbn [add_nodes List.map differences]. cbv zeta.
    pose proof (add_node_fields options n st dn) as F. cbv zeta in F.
    destruct F as (Fids & Fdelta_id & _ & _ & _ & Fchangesets & F).
    assert (DenseNodes.m_lats (snd (DenseNodes.add_node options n st dn))
            = push_back (DenseNodes.m_lats dn)
                (lonlat2int (lat_without_check (location n))
                 - DeltaEncode.m_value (DenseNodes.m_delta_lat dn))
            /\ DenseNodes.m_delta_lat (snd (DenseNodes.add_node options n st dn))
               = {| DeltaEncode.m_value := lonlat2int (lat_without_check (location n)) |}
            /\ DenseNodes.m_lons (snd (DenseNodes.add_node options n st dn))
               = push_back (DenseNodes.m_lons dn)
                   (lonlat2int (lon_without_check (location n))
                    - DeltaEncode.m_value (DenseNodes.m_delta_lon dn))
            /\ DenseNodes.m_delta_lon (snd (DenseNodes.add_node options n st dn))
               = {| DeltaEncode.m_value := lonlat2int (lon_without_check (location n)) |})
      as (Flats & Fdelta_lat & Flons & Fdelta_lon) by tauto.
    assert (md_changeset (add_metadata options) = true ->
            DenseNodes.m_delta_changeset (snd (DenseNodes.add_node options n st dn))
            = {| DeltaEncode.m_value := changeset n |}) as Fdelta_changeset.
    { intros Hflag. unfold DenseNodes.add_node, DeltaEncode.update.
      destruct_flags options;
        cbn [add_metadata add_visible_flag md_version md_timestamp md_changeset md_uid
             md_user] in Hflag |- *;
        try discriminate Hflag;
        try destruct (StringTable.add (user n) st) as [sid st'];
        match goal with
        | |- context [DenseNodes.add_tags ?a ?b ?c] => destruct (DenseNodes.add_tags a b c)
        end;
        reflexivity. }
    specialize (IH (fst (DenseNodes.add_node options n st dn))
                   (snd (DenseNodes.add_node options n st dn))).
    cbv zeta in IH.
    destruct (DenseNodes.add_node options n st dn) as [st1 dn1]. cbn [fst snd] in *.
    destruct IH as (IHids & IHlats & IHlons & IHchangesets).
    rewrite IHids, IHlats, IHlons, Fids, Fdelta_id, Flats, Fdelta_lat, Flons, Fdelta_lon.
    unfold push_back. cbn [DeltaEncode.m_value]. rewrite <- !List.app_assoc.
    split; [reflexivity |]. split; [reflexivity |]. split; [reflexivity |].
    intros Hflag. rewrite (IHchangesets Hflag), (Fdelta_changeset Hflag).
    rewrite Hflag in Fchangesets. rewrite Fchangesets. unfold push_back.
    cbn [DeltaEncode.m_value]. rewrite <- List.app_assoc. reflexivity.
Qed.

(** X21.  The columns of DenseNodes that are delta-encoded hold, for each node
    added to a new buffer, its value minus that of the node before it,
    the first node its value itself: so running sums from zero give back
    the ids of the nodes, their latitudes and longitudes as [lonlat2int]
    converts them, and, when they are written, their changesets. *)
Theorem dense_columns_are_running_differences {B : Build} (options : pbf_output_options)
    (ns : list Node) (st : StringTable.t) :
  let dn := snd (add_nodes options ns st DenseNodes.init) in
  prefix_sums 0 (DenseNodes.m_ids dn) = List.map (fun n : Node => id n) ns
  /\ prefix_sums 0 (DenseNodes.m_lats dn)
     = List.map (fun n : Node => lonlat2int (lat_without_check (location n))) ns
  /\ prefix_sums 0 (DenseNodes.m_lons dn)
     = List.map (fun n : Node => lonlat2int (lon_without_check (location n))) ns
  /\ (md_changeset (add_metadata options) = true ->
      prefix_sums 0 (DenseNodes.m_changesets dn)
      = List.map (fun n : Node => changeset n) ns)
  /\ DenseNodes.m_ids dn = differences 0 (List.map (fun n : Node => id n) ns).
Proof.
  cbv zeta.
  pose proof (add_nodes_delta_columns options ns st DenseNodes.init) as H. cbv zeta in H.
  destruct H as (Hids & Hlats & Hlons & Hchangesets).
  cbn [DenseNodes.init DenseNodes.m_ids DenseNodes.m_lats DenseNodes.m_lons
       DenseNodes.m_changesets DenseNodes.m_delta_id DenseNodes.m_delta_lat
       DenseNodes.m_delta_lon DenseNodes.m_delta_changeset DeltaEncode.init
       DeltaEncode.m_value List.app] in Hids, Hlats, Hlons, Hchangesets.
  rewrite Hids, Hlats, Hlons, !prefix_sums_differences.
  split; [reflexivity |]. split; [reflexivity |]. split; [reflexivity |].
  split; [| reflexivity].
  intros Hflag. rewrite (Hchangesets Hflag). apply prefix_sums_differences.
Qed.

(** ** pbf_output_format.hpp: the header block *)

Lemma size_add_bytes_ge (tag : Z) (data : bytes) :
  size data <= size (protozero.add_bytes tag data).
Proof.
  unfold protozero.add_bytes. rewrite !size_app.
  pose proof (size_nonneg (protozero.add_field tag protozero.length_delimited)).
  pose proof (size_nonneg (protozero.add_varint (to_uint32 (size data)))).
  lia.
Qed.

Lemma decode_message_add_string (tag : Z) (s : string) (rest : bytes)
    (fs : list (Z * protozero.field_value)) :
  0 <= tag < 2 ^ 29 -> size (protozero.add_string tag s) < 2 ^ 32 ->
  protozero.decode_message rest = Some fs ->
  protozero.decode_message (protozero.add_string tag s ++ rest)
  = Some (string_field tag s :: fs).
Proof.
  intros Htag Hsize Hrest. unfold protozero.add_string in *.
  pose proof (size_add_bytes_ge tag (bytes_of_string s)).
  apply decode_message_add_bytes; [exact Htag | lia | exact Hrest].
Qed.

Lemma Ok_inj {A : Type} (a b : A) : Ok a = Ok b -> a = b.
Proof. intros H. injection H as H. exact H. Qed.

(** The bounding box of a header: nothing when the header has no box. *)
Lemma write_header_bbox_fields {B : Build} (header : Header) (bbox : bytes) :
  PBFOutputFormat.write_header_bbox header = Ok bbox ->
  exists body : bytes,
    bbox = protozero.submessage OSMFormat.HeaderBlock.optional_HeaderBBox_bbox body
    /\ (boxes header = [] -> body = [])
    /\ (boxes header <> [] ->
        body <> [] /\ protozero.decode_message body = Some (HeaderBBox_fields header)).
Proof.
  unfold PBFOutputFormat.write_header_bbox, PBFOutputFormat.checked.
  destruct (boxes header) as [| box boxes].
  - intros H. apply Ok_inj in H. subst bbox. exists []. split; [reflexivity |].
    split; [reflexivity |]. intros Hne. contradiction.
  - destruct (Location_valid (bottom_left (joined_boxes header))); cbn [bind];
      [| discriminate].
    destruct (Location_valid (top_right (joined_boxes header))); cbn [bind];
      [| discriminate].
    intros H. apply Ok_inj in H. subst bbox. eexists. split; [reflexivity |].
    split; [discriminate |]. intros _. split.
    + unfold protozero.add_sint64.
      pose proof (protozero_facts.add_tagged_varint_nonempty
                    OSMFormat.HeaderBBox.required_sint64_left
                    (protozero.encode_zigzag64
                       (PBFOutputFormat.bbox_coordinate
                          (lon_without_check (bottom_left (joined_boxes header)))))) as Hne.
      destruct (protozero.add_tagged_varint OSMFormat.HeaderBBox.required_sint64_left _);
        [contradiction | discriminate].
    + unfold protozero.add_sint64, HeaderBBox_fields,
        OSMFormat.HeaderBBox.required_sint64_left, OSMFormat.HeaderBBox.required_sint64_right,
        OSMFormat.HeaderBBox.required_sint64_top, OSMFormat.HeaderBBox.required_sint64_bottom.
      cbv zeta.
      repeat (apply decode_message_add_varint; [lia | apply encode_zigzag64_bound |]).
      rewrite <- (List.app_nil_r (protozero.add_tagged_varint 4 _)).
      apply decode_message_add_varint; [lia | apply encode_zigzag64_bound |].
      apply protozero_facts.decode_message_nil.
Qed.

Lemma write_header_replication_timestamp_fields {B : Build} (header : Header)
    (field : bytes) :
  PBFOutputFormat.write_header_replication_timestamp header = Ok field ->
  (header_get header "osmosis_replication_timestamp" = ""%string /\ field = [])
  \/ (exists ts : Z,
        header_get header "osmosis_replication_timestamp" <> ""%string
        /\ Timestamp_of_string (header_get header "osmosis_replication_timestamp") = Ok ts
        /\ field = protozero.add_tagged_varint 32 (ts mod 2 ^ 32)).
Proof.
  unfold PBFOutputFormat.write_header_replication_timestamp.
  destruct (String.eqb_spec (header_get header "osmosis_replication_timestamp") "")
    as [Hempty | Hgiven].
  - intros H. apply Ok_inj in H. subst field. left. split; [exact Hempty | reflexivity].
  - destruct (Timestamp_of_string _) as [ts | e]; cbn [bind]; [| discriminate].
    intros H. apply Ok_inj in H. subst field. right. exists ts.
    split; [exact Hgiven |]. split; [reflexivity |].
    unfold protozero.add_int64, Timestamp_to_uint32, to_uint32,
      OSMFormat.HeaderBlock.optional_int64_osmosis_replication_timestamp.
    rewrite to_uint64_small; [reflexivity |].
    pose proof (Z.mod_pos_bound ts (2 ^ 32) ltac:(lia)). lia.
Qed.

(** X22.  [write_header] queues one header job, which holds the header block,
    and leaves the block of the encoder alone.  The header block (lengths
    being 32-bit, less than 4 GiB of it) reads back as follows.  The
    bounding box (field 1) is there only when the header has a box; it
    holds left, right, top and bottom, in this order, each a coordinate
    of the joined boxes multiplied by [lonlat_resolution] and cut to an
    integer.  Then come the required features (field 4): always
    OsmSchema-V0.6 first, then DenseNodes when dense nodes are used and
    HistoricalInformation when that flag is set; the optional features
    (field 5): LocationsOnWays with [locations_on_ways], and
    Sort.Type_then_ID when the header gives that sorting; the writing
    program (field 16), which is written even when the header names no
    generator; and the replication timestamp, sequence number and base
    url (fields 32 to 34), each only when the header has a value for
    it. *)
Theorem header_block_read_back {B : Build} (options : pbf_output_options) (header : Header)
    (data : bytes) :
  PBFOutputFormat.header_block options header = Ok data ->
  size data < 2 ^ 32 ->
  (exists (bbox : bytes) (replication_timestamp : list (Z * protozero.field_value)),
      protozero.decode_message data
      = Some (column 1 bbox ++ HeaderBlock_fields options header replication_timestamp)
      /\ (boxes header = [] -> bbox = [])
      /\ (boxes header <> [] ->
          bbox <> [] /\ protozero.decode_message bbox = Some (HeaderBBox_fields header))
      /\ (header_get header "osmosis_replication_timestamp" = ""%string ->
          replication_timestamp = [])
      /\ (header_get header "osmosis_replication_timestamp" <> ""%string ->
          exists ts : Z,
            Timestamp_of_string (header_get header "osmosis_replication_timestamp") = Ok ts
            /\ replication_timestamp = [(32, protozero.Varint (ts mod 2 ^ 32))]))
  /\ (forall f : PBFOutputFormat.t,
         PBFOutputFormat.m_options f = options ->
         exists f' : PBFOutputFormat.t,
           PBFOutputFormat.write_header header f = Ok f'
           /\ PBFOutputFormat.m_primitive_block f' = PBFOutputFormat.m_primitive_block f
           /\ PBFOutputFormat.m_output_queue f'
              = PBFOutputFormat.m_output_queue f
                ++ [{| SerializeBlob.m_msg := data;
                       SerializeBlob.m_compression_level := compression_level options;
                       SerializeBlob.m_blob_type := pbf_blob_type.header;
                       SerializeBlob.m_use_compression := use_compression options |}]).
Proof.
  intros Hblock Hsize. split.
  2: { intros f Hoptions. unfold PBFOutputFormat.write_header.
       rewrite Hoptions, Hblock. cbn [bind]. eexists.
       split; [reflexivity |]. split; reflexivity. }
  revert Hblock Hsize.
  unfold PBFOutputFormat.header_block.
  destruct (PBFOutputFormat.write_header_bbox header) as [bbox_field | e] eqn:Hbbox;
    cbn [bind]; [| discriminate].
  destruct (PBFOutputFormat.write_header_replication_timestamp header)
    as [timestamp_field | e] eqn:Htimestamp; cbn [bind]; [| discriminate].
  cbv zeta. intros Hdata Hsize. apply Ok_inj in Hdata. subst data.
  destruct (write_header_bbox_fields header bbox_field Hbbox)
    as (bbox & -> & Hnone & Hsome).
  exists bbox.
  exists (match timestamp_field with
          | [] => []
          | _ => match Timestamp_of_string
                         (header_get header "osmosis_replication_timestamp") with
                 | Ok ts => [(32, protozero.Varint (ts mod 2 ^ 32))]
                 | Throw _ => []
                 end
          end).
  split; [| split; [exact Hnone | split; [exact Hsome |]]].
  - rewrite !size_app in Hsize.
    pose proof (submessage_size OSMFormat.HeaderBlock.optional_HeaderBBox_bbox bbox).
    pose proof (size_nonneg bbox).
    pose proof (size_nonneg timestamp_field).
    unfold HeaderBlock_fields, required_features, optional_features.
    unfold OSMFormat.HeaderBlock.repeated_string_required_features,
      OSMFormat.HeaderBlock.repeated_string_optional_features,
      OSMFormat.HeaderBlock.optional_string_writingprogram,
      OSMFormat.HeaderBlock.optional_int64_osmosis_replication_sequence_number,
      OSMFormat.HeaderBlock.optional_string_osmosis_replication_base_url,
      OSMFormat.HeaderBlock.optional_HeaderBBox_bbox, protozero.add_int64 in *.
    assert (protozero.decode_message
              (timestamp_field
               ++ (if String.eqb (header_get header "osmosis_replication_sequence_number") ""
                   then []
                   else protozero.add_tagged_varint 33
                          (to_uint64
                             (str_to_int
                                (header_get header "osmosis_replication_sequence_number"))))
               ++ (if String.eqb (header_get header "osmosis_replication_base_url") ""
                   then []
                   else protozero.add_string 34
                          (header_get header "osmosis_replication_base_url")))
            = Some (match timestamp_field with
                    | [] => []
                    | _ => match Timestamp_of_string
                                   (header_get header "osmosis_replication_timestamp") with
                           | Ok ts => [(32, protozero.Varint (ts mod 2 ^ 32))]
                           | Throw _ => []
                           end
                    end
                    ++ (if String.eqb
                             (header_get header "osmosis_replication_sequence_number") ""
                        then []
                        else [(33, protozero.Varint
                                     (to_uint64
                                        (str_to_int
                                           (header_get header
                                              "osmosis_replication_sequence_number"))))])
                    ++ (if String.eqb (header_get header "osmosis_replication_base_url") ""
                        then []
                        else [string_field 34
                                (header_get header "osmosis_replication_base_url")])))
      as Htail.
    { assert (protozero.decode_message
                (if String.eqb (header_get header "osmosis_replication_base_url") ""
                 then []
                 else protozero.add_string 34
                        (header_get header "osmosis_replication_base_url"))
              = Some (if String.eqb (header_get header "osmosis_replication_base_url") ""
                      then []
                      else [string_field 34
                              (header_get header "osmosis_replication_base_url")]))
        as Hurl.
      { destruct (String.eqb (header_get header "osmosis_replication_base_url") "");
          [apply protozero_facts.decode_message_nil |].
        rewrite <- (List.app_nil_r (protozero.add_string 34 _)).
        pose proof (size_nonneg
                      (if String.eqb
                            (header_get header "osmosis_replication_sequence_number") ""
                       then []
                       else protozero.add_tagged_varint 33
                              (to_uint64
                                 (str_to_int
                                    (header_get header
                                       "osmosis_replication_sequence_number"))))).
        sizes_nonneg.
        apply decode_message_add_string;
          [lia | lia | apply protozero_facts.decode_message_nil]. }
      assert (protozero.decode_message
                ((if String.eqb (header_get header "osmosis_replication_sequence_number") ""
                  then []
                  else protozero.add_tagged_varint 33
                         (to_uint64
                            (str_to_int
                               (header_get header "osmosis_replication_sequence_number"))))
                 ++ (if String.eqb (header_get header "osmosis_replication_base_url") ""
                     then []
                     else protozero.add_string 34
                            (header_get header "osmosis_replication_base_url")))
              = Some ((if String.eqb
                            (header_get header "osmosis_replication_sequence_number") ""
                       then []
                       else [(33, protozero.Varint
                                    (to_uint64
                                       (str_to_int
                                          (header_get header
                                             "osmosis_replication_sequence_number"))))])
                      ++ (if String.eqb (header_get header "osmosis_replication_base_url") ""
                          then []
                          else [string_field 34
                                  (header_get header "osmosis_replication_base_url")])))
        as Hsequence.
      { destruct (String.eqb (header_get header "osmosis_replication_sequence_number") "");
          [exact Hurl |].
        apply decode_message_add_varint; [lia | apply to_uint64_bound | exact Hurl]. }
      destruct (write_header_replication_timestamp_fields header timestamp_field Htimestamp)
        as [[_ ->] | (ts & _ & Hts & ->)]; [exact Hsequence |].
      rewrite Hts.
      pose proof (protozero_facts.add_tagged_varint_nonempty 32 (ts mod 2 ^ 32)) as Hne.
      destruct (protozero.add_tagged_varint 32 (ts mod 2 ^ 32)) as [| byte0 field] eqn:Hfield;
        [contradiction |].
      rewrite <- Hfield. cbn [List.app].
      apply decode_message_add_varint; [lia | | exact Hsequence].
      pose proof (Z.mod_pos_bound ts (2 ^ 32) ltac:(lia)). lia. }
    sizes_nonneg.
    apply decode_message_submessage; [lia | lia |].
    destruct (use_dense_nodes options), (add_historical_information_flag options),
      (locations_on_ways options),
      (String.eqb (header_get header "sorting") "Type_then_ID");
      cbn [List.app List.map];
      rewrite ?size_app in Hsize; sizes_nonneg;
      repeat (apply decode_message_add_string; [lia | lia |]);
      exact Htail.
  - split.
    + intros Hempty.
      destruct (write_header_replication_timestamp_fields header timestamp_field Htimestamp)
        as [[_ ->] | (ts & Hgiven & _)]; [reflexivity | contradiction].
    + intros Hgiven.
      destruct (write_header_replication_timestamp_fields header timestamp_field Htimestamp)
        as [[Hempty _] | (ts & _ & Hts & ->)]; [contradiction |].
      exists ts. split; [exact Hts |]. rewrite Hts.
      pose proof (protozero_facts.add_tagged_varint_nonempty 32 (ts mod 2 ^ 32)) as Hne.
      destruct (protozero.add_tagged_varint 32 (ts mod 2 ^ 32)); [contradiction | reflexivity].
Qed.

Lemma header_block_read_back_witness :
  exists data : bytes,
    PBFOutputFormat.header_block (B := example_build) options_without_metadata
      header_of_generator
    = Ok data
    /\ protozero.decode_message data
       = Some [string_field 4 "OsmSchema-V0.6"; string_field 4 "DenseNodes";
               string_field 16 "osmium"].
Proof.
  eexists. split; [vm_compute; reflexivity |].
  match goal with
  | |- protozero.decode_message ?data = _ =>
      destruct (header_block_read_back (B := example_build) options_without_metadata
                  header_of_generator data)
        as ((bbox & replication_timestamp & Hdecode & Hbbox & _ & Htimestamp & _) & _)
  end.
  - vm_compute. reflexivity.
  - vm_compute. reflexivity.
  - rewrite Hdecode, (Hbbox eq_refl), (Htimestamp eq_refl). reflexivity.
Defined.

(** ** pbf_output_format.hpp: the locations of the nodes of a way *)

(** X23.  The encoder writes the locations of the nodes of a way only with
    [locations_on_ways]: without it a Way message has no field 9 and no
    field 10.  With it, a way that has nodes gets two more packed fields
    behind the refs, the longitudes (field 10) before the latitudes
    (field 9), each with one element per node, delta-encoded from zero by
    an encoder of its own: running sums give back the coordinates of the
    nodes as [lonlat2int] converts them. *)
Theorem way_locations_delta_encoded {B : Build} (options : pbf_output_options) (w : Way)
    (b : PrimitiveBlock.t) :
  (size (fst (PBFOutputFormat.way_message options w b)) < 2 ^ 32 ->
   exists fields : list (Z * protozero.field_value),
     protozero.decode_message (fst (PBFOutputFormat.way_message options w b)) = Some fields
     /\ (locations_on_ways options = false ->
         forall (tag : Z) (v : protozero.field_value),
           In (tag, v) fields -> tag <> 9 /\ tag <> 10)
     /\ (locations_on_ways options = true ->
         nodes w <> [] ->
         exists before : list (Z * protozero.field_value),
           fields
           = before
             ++ [(8, protozero.Bytes
                       (protozero.packed_svarint (PBFOutputFormat.way_refs w)));
                 (10, protozero.Bytes
                        (protozero.packed_svarint (PBFOutputFormat.way_lons w)));
                 (9, protozero.Bytes
                       (protozero.packed_svarint (PBFOutputFormat.way_lats w)))]))
  /\ size (PBFOutputFormat.way_lons w) = size (nodes w)
  /\ size (PBFOutputFormat.way_lats w) = size (nodes w)
  /\ prefix_sums 0 (PBFOutputFormat.way_lons w)
     = List.map (fun node_ref => lonlat2int (lon_without_check (node_ref_location node_ref)))
                (nodes w)
  /\ prefix_sums 0 (PBFOutputFormat.way_lats w)
     = List.map (fun node_ref => lonlat2int (lat_without_check (node_ref_location node_ref)))
                (nodes w).
Proof.
  split; [| split; [| split; [| split]]].
  - intros Hsize. exists (Way_fields options w b).
    split; [apply way_message_fields; exact Hsize |]. split.
    { intros Hoff tag v. unfold Way_fields. rewrite Hoff.
    destruct (PBFOutputFormat.store_all (List.map key (tags w)) b) as [keys b1].
    destruct (PBFOutputFormat.store_all (List.map value (tags w)) b1) as [vals b2].
    rewrite List.app_nil_r, !List.in_app_iff. unfold column.
    intros [Hin | [Hin | [Hin | [Hin | Hin]]]].
    + destruct Hin as [Heq | []]. injection Heq as <- _. lia.
    + destruct (protozero.packed_varint keys); [destruct Hin |].
      destruct Hin as [Heq | []]. injection Heq as <- _. lia.
    + destruct (protozero.packed_varint vals); [destruct Hin |].
      destruct Hin as [Heq | []]. injection Heq as <- _. lia.
    + destruct (md_any (add_metadata options) || add_visible_flag options);
        [| destruct Hin].
      destruct (fst (PBFOutputFormat.add_info options w b2)); [destruct Hin |].
      destruct Hin as [Heq | []]. injection Heq as <- _. lia.
    + destruct (protozero.packed_svarint (PBFOutputFormat.way_refs w)); [destruct Hin |].
      destruct Hin as [Heq | []]. injection Heq as <- _. lia. }
    intros Hon Hnodes. unfold Way_fields. rewrite Hon.
    destruct (PBFOutputFormat.store_all (List.map key (tags w)) b) as [keys b1].
    destruct (PBFOutputFormat.store_all (List.map value (tags w)) b1) as [vals b2].
    assert (forall values : list Z,
               values <> [] ->
               forall tag : Z,
                 column tag (protozero.packed_svarint
                               (PBFOutputFormat.delta_elements values DeltaEncode.init))
                 = [(tag, protozero.Bytes
                            (protozero.packed_svarint
                               (PBFOutputFormat.delta_elements values DeltaEncode.init)))])
      as Hcolumn.
    { intros values Hvalues tag. apply column_present. apply packed_svarint_nonempty.
      destruct values; [contradiction | discriminate]. }
    unfold PBFOutputFormat.way_refs, PBFOutputFormat.way_lons, PBFOutputFormat.way_lats.
    rewrite !Hcolumn by (destruct (nodes w); [contradiction | discriminate]).
    exists ([(1, protozero.Varint (to_uint64 (id w)))]
            ++ column 2 (protozero.packed_varint keys)
            ++ column 3 (protozero.packed_varint vals)
            ++ (if md_any (add_metadata options) || add_visible_flag options
                then column 4 (fst (PBFOutputFormat.add_info options w b2)) else [])).
    rewrite <- !List.app_assoc. reflexivity.
  - unfold PBFOutputFormat.way_lons. rewrite size_delta_elements. apply size_map.
  - unfold PBFOutputFormat.way_lats. rewrite size_delta_elements. apply size_map.
  - unfold PBFOutputFormat.way_lons. rewrite delta_elements_differences.
    apply prefix_sums_differences.
  - unfold PBFOutputFormat.way_lats. rewrite delta_elements_differences.
    apply prefix_sums_differences.
Qed.

(** ** pbf_output_format.hpp: the assertion of group_data *)

Lemma reset_in_order (type : OSMFormat.PrimitiveGroup.t) (b : PrimitiveBlock.t) :
  block_in_order (PrimitiveBlock.reset type b).
Proof.
  unfold block_in_order, PrimitiveBlock.reset, PrimitiveBlock.count, PrimitiveBlock.type.
  cbn. repeat split; lia.
Qed.

Lemma switch_in_order {B : Build} (type : OSMFormat.PrimitiveGroup.t) (f : PBFOutputFormat.t) :
  block_in_order (PBFOutputFormat.m_primitive_block f) ->
  block_in_order
    (PBFOutputFormat.m_primitive_block (PBFOutputFormat.switch_primitive_block_type type f)).
Proof.
  intros Horder.
  pose proof (switch_primitive_block_type_facts type f) as S. cbv zeta in S.
  destruct S as (_ & _ & Scan & Scannot).
  destruct (PrimitiveBlock.can_add type (PBFOutputFormat.m_primitive_block f)).
  - rewrite (Scan eq_refl). exact Horder.
  - destruct (Scannot eq_refl) as [-> _]. apply reset_in_order.
Qed.

Lemma same_entities_in_order (b b' : PrimitiveBlock.t) (data : bytes) :
  PrimitiveBlock.type b <> OSMFormat.PrimitiveGroup.optional_DenseNodes_dense ->
  block_in_order b ->
  same_entities (PrimitiveBlock.group b) b' ->
  block_in_order (PrimitiveBlock.append_group data b').
Proof.
  unfold block_in_order, same_entities, PrimitiveBlock.group, PrimitiveBlock.append_group,
    PrimitiveBlock.count, PrimitiveBlock.type.
  cbn [PrimitiveBlock.m_count PrimitiveBlock.m_type PrimitiveBlock.m_dense_nodes
       PrimitiveBlock.m_pbf_primitive_group_data].
  intros Htype (Hcount & _ & Hplain) (Ecount & Etype & Edense).
  rewrite Ecount, Etype, Edense.
  split; [lia |]. split; [intros Hdense; contradiction | exact Hplain].
Qed.

Lemma handle_item_in_order {B : Build} {N : NwrIndex} (f : PBFOutputFormat.t)
    (i : PBFOutputFormat.Item) :
  block_in_order (PBFOutputFormat.m_primitive_block f) ->
  block_in_order (PBFOutputFormat.m_primitive_block (PBFOutputFormat.handle_item f i)).
Proof.
  intros Horder.
  assert (forall (type : OSMFormat.PrimitiveGroup.t) (tag : Z)
                 (message : PrimitiveBlock.t -> bytes * PrimitiveBlock.t),
             type <> OSMFormat.PrimitiveGroup.optional_DenseNodes_dense ->
             (forall b', same_entities b' (snd (message b'))) ->
             block_in_order
               (PBFOutputFormat.m_primitive_block
                  (let f1 := PBFOutputFormat.switch_primitive_block_type type f in
                   let b := PrimitiveBlock.group (PBFOutputFormat.m_primitive_block f1) in
                   let (body, b1) := message b in
                   PBFOutputFormat.with_block f1
                     (PrimitiveBlock.append_group (protozero.submessage tag body) b1)))) as Hplain.
  { intros type tag message Htype Hmessage. cbv zeta.
    pose proof (switch_in_order type f Horder) as H1.
    pose proof (switch_primitive_block_type_facts type f) as S. cbv zeta in S.
    destruct S as (_ & Stype & _).
    specialize (Hmessage
                  (PrimitiveBlock.group
                     (PBFOutputFormat.m_primitive_block
                        (PBFOutputFormat.switch_primitive_block_type type f)))).
    destruct (message _) as [body b1]. cbn [snd] in Hmessage.
    unfold PBFOutputFormat.with_block. cbn [PBFOutputFormat.m_primitive_block].
    apply (same_entities_in_order
             (PBFOutputFormat.m_primitive_block
                (PBFOutputFormat.switch_primitive_block_type type f)));
      [rewrite Stype; exact Htype | exact H1 | exact Hmessage]. }
  destruct i as [[n | w] | r]; cbn [PBFOutputFormat.handle_item PBFOutputFormat.handle].
  - unfold PBFOutputFormat.node.
    destruct (use_dense_nodes (PBFOutputFormat.m_options f)).
    + cbv zeta.
      pose proof (switch_in_order OSMFormat.PrimitiveGroup.optional_DenseNodes_dense f Horder)
        as H1.
      pose proof (switch_primitive_block_type_facts
                    OSMFormat.PrimitiveGroup.optional_DenseNodes_dense f) as S.
      cbv zeta in S. destruct S as (_ & Stype & _).
      set (f1 := PBFOutputFormat.switch_primitive_block_type
                   OSMFormat.PrimitiveGroup.optional_DenseNodes_dense f) in *.
      destruct H1 as (Hcount & Hdense & _). specialize (Hdense Stype).
      destruct Hdense as [Hdata Hnodes].
      unfold PBFOutputFormat.with_block, PrimitiveBlock.add_dense_node.
      cbn [PBFOutputFormat.m_primitive_block].
      pose proof (add_node_fields (PBFOutputFormat.m_options f1) n
                    (PrimitiveBlock.m_stringtable (PBFOutputFormat.m_primitive_block f1))
                    match PrimitiveBlock.m_dense_nodes (PBFOutputFormat.m_primitive_block f1)
                    with
                    | Some dn => dn
                    | None => DenseNodes.init
                    end) as F.
      cbv zeta in F. destruct F as (Fids & _).
      destruct (DenseNodes.add_node _ n _ _) as [st dn']. cbn [snd] in Fids.
      unfold block_in_order, PrimitiveBlock.count, PrimitiveBlock.type in *.
      cbn [PrimitiveBlock.m_count PrimitiveBlock.m_type PrimitiveBlock.m_dense_nodes
           PrimitiveBlock.m_pbf_primitive_group_data].
      split; [lia |]. split.
      * intros _. split; [exact Hdata |].
        rewrite Fids, size_push_back.
        destruct (PrimitiveBlock.m_dense_nodes (PBFOutputFormat.m_primitive_block f1));
          [lia | rewrite Hnodes; reflexivity].
      * intros Hne. contradiction.
    + apply (Hplain OSMFormat.PrimitiveGroup.repeated_Node_nodes
               (OSMFormat.PrimitiveGroup.tag OSMFormat.PrimitiveGroup.repeated_Node_nodes)
               (PBFOutputFormat.node_message
                  (PBFOutputFormat.m_options
                     (PBFOutputFormat.switch_primitive_block_type
                        OSMFormat.PrimitiveGroup.repeated_Node_nodes f)) n));
        [discriminate |].
      intros b'. unfold PBFOutputFormat.node_message.
      pose proof (add_meta_same_entities
                    (PBFOutputFormat.m_options
                       (PBFOutputFormat.switch_primitive_block_type
                          OSMFormat.PrimitiveGroup.repeated_Node_nodes f))
                    OSMFormat.Node.packed_uint32_keys OSMFormat.Node.packed_uint32_vals
                    OSMFormat.Node.optional_Info_info n b') as H.
      destruct (PBFOutputFormat.add_meta _ _ _ _ n b') as [meta b1]. exact H.
  - apply (Hplain OSMFormat.PrimitiveGroup.repeated_Way_ways
             (OSMFormat.PrimitiveGroup.tag OSMFormat.PrimitiveGroup.repeated_Way_ways)
             (PBFOutputFormat.way_message
                (PBFOutputFormat.m_options
                   (PBFOutputFormat.switch_primitive_block_type
                      OSMFormat.PrimitiveGroup.repeated_Way_ways f)) w));
      [discriminate |].
    intros b'. unfold PBFOutputFormat.way_message.
    pose proof (add_meta_same_entities
                  (PBFOutputFormat.m_options
                     (PBFOutputFormat.switch_primitive_block_type
                        OSMFormat.PrimitiveGroup.repeated_Way_ways f))
                  OSMFormat.Way.packed_uint32_keys OSMFormat.Way.packed_uint32_vals
                  OSMFormat.Way.optional_Info_info w b') as H.
    destruct (PBFOutputFormat.add_meta _ _ _ _ w b') as [meta b1]. exact H.
  - apply (Hplain OSMFormat.PrimitiveGroup.repeated_Relation_relations
             (OSMFormat.PrimitiveGroup.tag
                OSMFormat.PrimitiveGroup.repeated_Relation_relations)
             (PBFOutputFormat.relation_message
                (PBFOutputFormat.m_options
                   (PBFOutputFormat.switch_primitive_block_type
                      OSMFormat.PrimitiveGroup.repeated_Relation_relations f)) r));
      [discriminate |].
    intros b'. unfold PBFOutputFormat.relation_message.
    pose proof (add_meta_same_entities
                  (PBFOutputFormat.m_options
                     (PBFOutputFormat.switch_primitive_block_type
                        OSMFormat.PrimitiveGroup.repeated_Relation_relations f))
                  OSMFormat.Relation.packed_uint32_keys OSMFormat.Relation.packed_uint32_vals
                  OSMFormat.Relation.optional_Info_info r b') as H.
    destruct (PBFOutputFormat.add_meta _ _ _ _ r b') as [meta b1].
    pose proof (store_roles_same_entities (members r) b1) as H'.
    destruct (PBFOutputFormat.store_roles (members r) b1) as [roles b2].
    cbn [snd] in *. exact (same_entities_trans _ _ _ H H').
Qed.

Lemma write_items_in_order {B : Build} {N : NwrIndex} (buffer : list PBFOutputFormat.Item) :
  forall f : PBFOutputFormat.t,
    block_in_order (PBFOutputFormat.m_primitive_block f) ->
    block_in_order (PBFOutputFormat.m_primitive_block (PBFOutputFormat.write_items buffer f)).
Proof.
  unfold PBFOutputFormat.write_items.
  induction buffer as [| i buffer IH]; intros f Horder; [exact Horder |].
  cbn [List.fold_left]. apply IH, handle_item_in_order, Horder.
Qed.

(** X24.  The assertion of [group_data] holds for the encoder the constructor
    makes, whatever buffers it is handed: when its block is a block of
    dense nodes that holds an entity, the block has its DenseNodes buffer,
    and that buffer holds as many nodes as the block counts entities; the
    group [write_end] would write is then just the DenseNodes message of
    that buffer.  A block of another type has no DenseNodes buffer, and
    its group is what the handlers wrote. *)
Theorem dense_block_has_its_dense_nodes {B : Build} {N : NwrIndex}
    (buffer : list PBFOutputFormat.Item) (file : File) (f : PBFOutputFormat.t) :
  PBFOutputFormat.make file = Ok f ->
  let f' := PBFOutputFormat.write_items buffer f in
  let b := PBFOutputFormat.m_primitive_block f' in
  (PrimitiveBlock.type b = OSMFormat.PrimitiveGroup.optional_DenseNodes_dense ->
   PrimitiveBlock.count b <> 0 ->
   exists dn : DenseNodes.t,
     PrimitiveBlock.m_dense_nodes b = Some dn
     /\ size (DenseNodes.m_ids dn) = PrimitiveBlock.count b
     /\ fst (PrimitiveBlock.group_data (PBFOutputFormat.m_options f') b)
        = protozero.add_message 2 (DenseNodes.serialize (PBFOutputFormat.m_options f') dn))
  /\ (PrimitiveBlock.type b <> OSMFormat.PrimitiveGroup.optional_DenseNodes_dense ->
      PrimitiveBlock.m_dense_nodes b = None
      /\ fst (PrimitiveBlock.group_data (PBFOutputFormat.m_options f') b)
         = PrimitiveBlock.m_pbf_primitive_group_data b).
Proof.
  intros Hmake. cbv zeta.
  destruct (make_returns file f Hmake) as (_ & _ & _ & Hinit & _).
  assert (block_in_order (PBFOutputFormat.m_primitive_block f)) as Horder.
  { rewrite Hinit. unfold block_in_order, PrimitiveBlock.init, PrimitiveBlock.count,
      PrimitiveBlock.type. cbn. repeat split; try lia; try discriminate. }
  pose proof (write_items_in_order buffer f Horder) as (Hcount & Hdense & Hplain).
  set (b := PBFOutputFormat.m_primitive_block (PBFOutputFormat.write_items buffer f)) in *.
  split.
  - intros Htype Hnonzero. destruct (Hdense Htype) as [Hdata Hnodes].
    unfold PrimitiveBlock.group_data. rewrite Htype.
    destruct (PrimitiveBlock.m_dense_nodes b) as [dn |]; [| contradiction].
    exists dn. split; [reflexivity |]. split; [exact Hnodes |].
    rewrite PrimitiveGroup_eqb_refl. cbn [fst]. rewrite Hdata. reflexivity.
  - intros Htype. split; [exact (Hplain Htype) |].
    unfold PrimitiveBlock.group_data.
    destruct (OSMFormat.PrimitiveGroup.eqb (PrimitiveBlock.type b)
                OSMFormat.PrimitiveGroup.optional_DenseNodes_dense) eqn:E;
      [| reflexivity].
    apply PrimitiveGroup_eqb_eq in E. contradiction.
Qed.

Lemma dense_block_has_its_dense_nodes_witness :
  exists dn : DenseNodes.t,
    PrimitiveBlock.m_dense_nodes
      (PBFOutputFormat.m_primitive_block
         (PBFOutputFormat.write_items (B := example_build) (N := nwr_index)
            [PBFOutputFormat.an_entity (a_way way_10);
             PBFOutputFormat.an_entity (a_node node_1);
             PBFOutputFormat.an_entity (a_node node_5)]
            (fresh_state options_by_default [])))
    = Some dn
    /\ size (DenseNodes.m_ids dn) = 2.
Proof.
  destruct (dense_block_has_its_dense_nodes (B := example_build) (N := nwr_index)
              [PBFOutputFormat.an_entity (a_way way_10);
               PBFOutputFormat.an_entity (a_node node_1);
               PBFOutputFormat.an_entity (a_node node_5)] (file_with [])
              (fresh_state options_by_default []))
    as [Hdense _]; [vm_compute; reflexivity |].
  destruct Hdense as (dn & Hsome & Hsize & _).
  - vm_compute. reflexivity.
  - vm_compute. discriminate.
  - exists dn. split; [exact Hsome |]. rewrite Hsize. vm_compute. reflexivity.
Defined.

(** ** pbf_output_format.hpp: the options the constructor settles on *)

(** X25.  The options of an encoder the constructor returns.  The visible flag
    and the HistoricalInformation flag are set together, exactly for a
    file with multiple object versions.  Dense nodes are used unless
    [pbf_dense_nodes] is false.  Without a [pbf_compression_level], the
    level is the default of the codec: 0 without compression, the default
    of zlib, the default of lz4 in a build with LZ4.  With one, the whole
    option was read by [strtol] as an integer, compression is not none,
    the codec accepted the integer, and the level is that integer
    converted to [int]. *)
Theorem constructor_settles_the_options {B : Build} (file : File) (f : PBFOutputFormat.t) :
  PBFOutputFormat.make file = Ok f ->
  let options := PBFOutputFormat.m_options f in
  add_visible_flag options = has_multiple_object_versions file
  /\ add_historical_information_flag options = has_multiple_object_versions file
  /\ use_dense_nodes options = is_not_false file "pbf_dense_nodes"
  /\ locations_on_ways options = is_true file "locations_on_ways"
  /\ (get file "pbf_compression_level" = ""%string ->
      compression_level options
      = match use_compression options with
        | pbf_compression.none => 0
        | pbf_compression.zlib => zlib_default_compression_level
        | pbf_compression.lz4 =>
            if OSMIUM_WITH_LZ4 then lz4_default_compression_level else 0
        end)
  /\ (get file "pbf_compression_level" <> ""%string ->
      exists val : Z,
        strtol (get file "pbf_compression_level") = (val, ""%string)
        /\ compression_level options = to_int32 val
        /\ match use_compression options with
           | pbf_compression.none => False
           | pbf_compression.zlib => zlib_check_compression_level val = Ok tt
           | pbf_compression.lz4 =>
               OSMIUM_WITH_LZ4 = true -> lz4_check_compression_level val = Ok tt
           end).
Proof.
  unfold PBFOutputFormat.make.
  destruct (negb (String.eqb (get file "pbf_add_metadata") "")); [discriminate |].
  destruct (get_compression_type (get file "pbf_compression")) as [compression | e];
    cbn [bind]; [| discriminate].
  destruct (metadata_options_of_string (get file "add_metadata")) as [metadata | e];
    cbn [bind]; [| discriminate].
  destruct (PBFOutputFormat.constructor_compression_level compression
              (get file "pbf_compression_level")) as [level | e] eqn:Hlevel;
    cbn [bind]; [| discriminate].
  intros H. apply Ok_inj in H. subst f. cbv zeta.
  cbn [PBFOutputFormat.m_options add_visible_flag add_historical_information_flag
       use_dense_nodes locations_on_ways compression_level use_compression].
  split; [reflexivity |]. split; [reflexivity |]. split; [reflexivity |].
  split; [reflexivity |].
  unfold PBFOutputFormat.constructor_compression_level in Hlevel.
  destruct (String.eqb_spec (get file "pbf_compression_level") "") as [Hempty | Hgiven].
  - split; [| intros Hne; contradiction]. intros _.
    unfold default_compression_level in Hlevel.
    destruct compression; [| | destruct OSMIUM_WITH_LZ4];
      apply Ok_inj in Hlevel; symmetry; exact Hlevel.
  - split; [intros Hempty; contradiction |]. intros _.
    destruct (strtol (get file "pbf_compression_level")) as [val rest].
    destruct rest as [| c rest]; [| discriminate Hlevel].
    exists val. split; [reflexivity |].
    destruct compression; cbn [bind] in Hlevel.
    + discriminate Hlevel.
    + destruct (zlib_check_compression_level val) as [[] | e]; cbn [bind] in Hlevel;
        [| discriminate Hlevel].
      apply Ok_inj in Hlevel. split; [symmetry; exact Hlevel | reflexivity].
    + destruct OSMIUM_WITH_LZ4.
      * destruct (lz4_check_compression_level val) as [[] | e]; cbn [bind] in Hlevel;
          [| discriminate Hlevel].
        apply Ok_inj in Hlevel. split; [symmetry; exact Hlevel | reflexivity].
      * cbn [bind] in Hlevel. apply Ok_inj in Hlevel.
        split; [symmetry; exact Hlevel | discriminate].
Qed.

Lemma constructor_settles_the_options_witness :
  compression_level
    (PBFOutputFormat.m_options (fresh_state options_by_default []))
  = 6.
Proof.
  destruct (constructor_settles_the_options (B := example_build) (file_with [])
              (fresh_state options_by_default []))
    as (_ & _ & _ & _ & Hdefault & _); [vm_compute; reflexivity |].
  rewrite Hdefault; reflexivity.
Defined.
